(** * AnatomyDPS: the combat-log parser and its in-memory event store

    A shallow embedding of [src/AnatomyDPS.py] (the log-line patterns,
    [group_damage_by_alias], [PandasDataStore], [LogParser] and the batch
    loader) together with the properties the specification states about
    them.

    Conventions of the embedding:
    - a Python [str] is a [string] of ASCII characters; the character
      classes [\d], [\w], [\s] are the ASCII ones;
    - a Python [int] is a [Z]; [None]-able values are [option]s, and the
      truth value Python gives them in an [if] is written out
      ([truthy_id], [nonempty]);
    - the sums pandas takes over the damage columns of the events are
      sums of [int64] columns and wrap at 64 bits ([wrap64]); the sums
      the program takes itself, over Python lists, are sums in [Z];
    - a [datetime] is a [Z] counting microseconds, so that midnight of day
      [d] is [d * 86400 * 1000000];
    - dictionaries are [gmap]s, Python sets are [gset]s, Python lists are
      lists; a list of dictionaries with fixed keys is a list of records;
    - a method that mutates [self] takes the object and returns the new
      one; a method that can raise returns a [result];
    - the lazily rebuilt DataFrame caches and the lock of the store carry
      no information of their own and are left out. *)

From Stdlib Require Import ZArith Ascii String Lia Permutation Sorted.
From Stdlib Require OrderedTypeEx.
From stdpp Require Import base option list gmap strings sorting.

Local Open Scope Z_scope.

(** ** Regular expressions, as far as the patterns of the program use them *)

Module Re.

(** Character classes. *)
Inductive cls :=
| CDigit                      (* \d *)
| CWord                       (* \w *)
| CSpace                      (* \s *)
| CAny                        (* .  (no newline) *)
| CNot (c : ascii)            (* [^c] *)
| CDigitDot.                  (* [\d.] *)

Definition is_digit (a : ascii) : bool :=
  let n := nat_of_ascii a in (48 <=? n)%nat && (n <=? 57)%nat.

Definition is_alpha (a : ascii) : bool :=
  let n := nat_of_ascii a in
  ((65 <=? n)%nat && (n <=? 90)%nat) || ((97 <=? n)%nat && (n <=? 122)%nat).

Definition is_word (a : ascii) : bool :=
  is_digit a || is_alpha a || Ascii.eqb a "_"%char.

(** Python's notion of white space on ASCII: TAB..CR, FS..US and SPACE. *)
Definition is_space (a : ascii) : bool :=
  let n := nat_of_ascii a in
  ((9 <=? n)%nat && (n <=? 13)%nat) || ((28 <=? n)%nat && (n <=? 32)%nat).

Definition cls_match (c : cls) (a : ascii) : bool :=
  match c with
  | CDigit => is_digit a
  | CWord => is_word a
  | CSpace => is_space a
  | CAny => negb (Ascii.eqb a "010"%char)
  | CNot x => negb (Ascii.eqb a x)
  | CDigitDot => is_digit a || Ascii.eqb a "."%char
  end.

Inductive regex :=
| Bol                              (* ^ *)
| Lit (s : string)                 (* literal text *)
| Rep (n : nat) (c : cls)          (* c{n} *)
| Star (c : cls)                   (* c*   greedy *)
| Plus (c : cls)                   (* c+   greedy *)
| Lazy (c : cls)                   (* c*?  *)
| Seq (r1 r2 : regex)
| Opt (r : regex)                  (* (?:r)? greedy *)
| Grp (i : nat) (r : regex).       (* the i-th capture group *)

Declare Scope re_scope.
Delimit Scope re_scope with re.
Bind Scope re_scope with regex.
Infix ";;" := Seq (at level 100, right associativity) : re_scope.

(** The groups a match has captured so far. *)
Abbreviation groups := (gmap nat string).

Fixpoint strip_prefix (p s : string) : option string :=
  match p, s with
  | EmptyString, _ => Some s
  | String a p', String b s' => if Ascii.eqb a b then strip_prefix p' s' else None
  | String _ _, EmptyString => None
  end.

Section Matcher.
Context {A : Type}.

(** A backtracking matcher in continuation-passing style: [k] is the
    rest of the pattern, alternatives are tried in Python's order and
    the first complete match wins.  [pos] is the offset of [s] in the
    subject. *)

Fixpoint rep (n : nat) (c : cls) (pos : nat) (s : string)
    (k : nat → string → option A) : option A :=
  match n with
  | O => k pos s
  | S n' =>
      match s with
      | String a s' => if cls_match c a then rep n' c (S pos) s' k else None
      | EmptyString => None
      end
  end.

Fixpoint star_greedy (c : cls) (pos : nat) (s : string)
    (k : nat → string → option A) : option A :=
  match s with
  | String a s' =>
      if cls_match c a then
        match star_greedy c (S pos) s' k with
        | Some r => Some r
        | None => k pos s
        end
      else k pos s
  | EmptyString => k pos s
  end.

Fixpoint star_lazy (c : cls) (pos : nat) (s : string)
    (k : nat → string → option A) : option A :=
  match k pos s with
  | Some r => Some r
  | None =>
      match s with
      | String a s' => if cls_match c a then star_lazy c (S pos) s' k else None
      | EmptyString => None
      end
  end.

Fixpoint exec (r : regex) (pos : nat) (s : string) (g : groups)
    (k : nat → string → groups → option A) : option A :=
  match r with
  | Bol => if Nat.eqb pos 0 then k pos s g else None
  | Lit l =>
      match strip_prefix l s with
      | Some s' => k (pos + String.length l)%nat s' g
      | None => None
      end
  | Rep n c => rep n c pos s (λ p s', k p s' g)
  | Star c => star_greedy c pos s (λ p s', k p s' g)
  | Plus c =>
      match s with
      | String a s' =>
          if cls_match c a then star_greedy c (S pos) s' (λ p s'', k p s'' g)
          else None
      | EmptyString => None
      end
  | Lazy c => star_lazy c pos s (λ p s', k p s' g)
  | Seq r1 r2 => exec r1 pos s g (λ p s' g', exec r2 p s' g' k)
  | Opt r' =>
      match exec r' pos s g k with
      | Some x => Some x
      | None => k pos s g
      end
  | Grp i r' =>
      exec r' pos s g
        (λ p s' g', k p s' (<[i := String.substring 0 (p - pos) s]> g'))
  end.
End Matcher.

(** [pattern.match(line)]: a match starting at offset 0. *)
Definition rmatch (r : regex) (s : string) : option groups :=
  exec r 0%nat s ∅ (λ _ _ g, Some g).

(** [pattern.search(line)]: the leftmost match. *)
Fixpoint search_from (r : regex) (pos : nat) (s : string) : option groups :=
  match exec r pos s ∅ (λ _ _ g, Some g) with
  | Some g => Some g
  | None =>
      match s with
      | String _ s' => search_from r (S pos) s'
      | EmptyString => None
      end
  end.

Definition search (r : regex) (s : string) : option groups :=
  search_from r 0%nat s.

End Re.

Import Re.
Local Open Scope re_scope.
Local Open Scope string_scope.

(** ** Configuration: the compiled patterns

    Each pattern is given with its Python source.  Group numbers are those
    of the source. *)

(** \d{2}:\d{2}:\d{2} *)
Definition hms : regex :=
  Rep 2 CDigit ;; Lit ":" ;; Rep 2 CDigit ;; Lit ":" ;; Rep 2 CDigit.

(** ^\[(\d{2}:\d{2}:\d{2})\] *)
Definition stamp : regex := Bol ;; Lit "[" ;; Grp 1 hms ;; Lit "]".

(** Area\w+ *)
Definition area : regex := Lit "Area" ;; Plus CWord.

(** ^\[(\d{2}:\d{2}:\d{2})\] *)
Definition TIMESTAMP_PATTERN : regex := stamp.

(** ^\[(\d{2}:\d{2}:\d{2})\].*LOADING LEVEL (Area\w+) *)
Definition ZONE_LOADING_PATTERN : regex :=
  stamp ;; Star CAny ;; Lit "LOADING LEVEL " ;; Grp 2 area.

(** ^\[(\d{2}:\d{2}:\d{2})\].*Initializing area!.*:\s*(Area\w+) *)
Definition ZONE_INIT_PATTERN : regex :=
  stamp ;; Star CAny ;; Lit "Initializing area!" ;; Star CAny ;; Lit ":" ;;
  Star CSpace ;; Grp 2 area.

(** ^\[(\d{2}:\d{2}:\d{2})\].*C_INIT2 for (Area\w+) *)
Definition ZONE_C_INIT2_PATTERN : regex :=
  stamp ;; Star CAny ;; Lit "C_INIT2 for " ;; Grp 2 area.

(** Vivox - LoginAsync\((\w+)\) *)
Definition CHARACTER_PATTERN : regex :=
  Lit "Vivox - LoginAsync(" ;; Grp 1 (Plus CWord) ;; Lit ")".

(** ProcessTalkScreen\((\d+),\s*Search Corpse of ([^,]+), *)
Definition CORPSE_PATTERN : regex :=
  Lit "ProcessTalkScreen(" ;; Grp 1 (Plus CDigit) ;; Lit "," ;; Star CSpace ;;
  Lit "Search Corpse of " ;; Grp 2 (Plus (CNot ",")) ;; Lit ",".

(** ^([^:]+):\s*
    (?:(\d+)\s+health\s+dmg)?
    \s*
    (?:(\d+)\s+armor\s+dmg)?
    (?:.*?Aggro\s*\(at death\):\s*([\d.]+)%)? *)
Definition DAMAGE_PATTERN : regex :=
  Bol ;; Grp 1 (Plus (CNot ":")) ;; Lit ":" ;; Star CSpace ;;
  Opt (Grp 2 (Plus CDigit) ;; Plus CSpace ;; Lit "health" ;; Plus CSpace ;; Lit "dmg") ;;
  Star CSpace ;;
  Opt (Grp 3 (Plus CDigit) ;; Plus CSpace ;; Lit "armor" ;; Plus CSpace ;; Lit "dmg") ;;
  Opt (Lazy CAny ;; Lit "Aggro" ;; Star CSpace ;; Lit "(at death):" ;; Star CSpace ;;
       Grp 4 (Plus CDigitDot) ;; Lit "%").

(** You earned (\d+) Combat Wisdom *)
Definition WISDOM_PATTERN : regex :=
  Lit "You earned " ;; Grp 1 (Plus CDigit) ;; Lit " Combat Wisdom".

Definition SKIP_ZONES : list string :=
  ["ChooseCharacter"; "ReconnectToServer"; "LoadingScene"].

Definition BATCH_SIZE : nat := 1000.


Local Open Scope list_scope.
Local Open Scope Z_scope.

(** ** Library functions of Python the program calls *)

(** [s.strip()] *)
Fixpoint lstrip (s : string) : string :=
  match s with
  | String a s' => if is_space a then lstrip s' else s
  | EmptyString => EmptyString
  end.

Fixpoint rstrip (s : string) : string :=
  match s with
  | String a s' =>
      match rstrip s' with
      | EmptyString => if is_space a then EmptyString else String a EmptyString
      | r => String a r
      end
  | EmptyString => EmptyString
  end.

Definition strip (s : string) : string := rstrip (lstrip s).

Definition digit_val (a : ascii) : Z := Z.of_nat (nat_of_ascii a) - 48.

Fixpoint int_acc (acc : Z) (s : string) : Z :=
  match s with
  | String a s' => int_acc (acc * 10 + digit_val a) s'
  | EmptyString => acc
  end.

(** [int(s)] on a string of decimal digits (what [\d+] captures); the
    limit Python puts on the number of digits is left out. *)
Definition int (s : string) : Z := int_acc 0 s.

(** A [datetime] counts microseconds; a [timedelta] is a difference of two. *)
Abbreviation datetime := Z (only parsing).

Definition usec : Z := 1000000.
Definition day_seconds : Z := 86400.

(** [datetime.combine(d, t)] for day number [d] and a time of day of [t]
    whole seconds. *)
Definition combine (d t : Z) : datetime := (d * day_seconds + t) * usec.

(** [td.total_seconds() < n] for an integer [n]. *)
Definition total_seconds_lt (td n : Z) : bool := td <? n * usec.

(** [datetime.strptime(s, '%H:%M:%S').time()] as seconds since midnight, on
    the strings the time-stamp pattern captures (two digits, colon, two
    digits, colon, two digits); [None] stands for the [ValueError] raised
    when a field is out of range. *)
Definition strptime_hms (s : string) : option Z :=
  match s with
  | String h1 (String h2 (String c1 (String m1 (String m2
      (String c2 (String s1 (String s2 EmptyString))))))) =>
      if forallb is_digit [h1; h2; m1; m2; s1; s2]
         && Ascii.eqb c1 ":" && Ascii.eqb c2 ":" then
        let h := digit_val h1 * 10 + digit_val h2 in
        let m := digit_val m1 * 10 + digit_val m2 in
        let x := digit_val s1 * 10 + digit_val s2 in
        if (h <? 24) && (m <? 60) && (x <? 60)
        then Some (h * 3600 + m * 60 + x) else None
      else None
  | _ => None
  end.

(** Exceptions and results. *)
Inductive exn := AttributeError | ValueError.

Inductive result (A : Type) :=
| Ret (a : A)
| Raise (e : exn).
Arguments Ret {A} a.
Arguments Raise {A} e.

(** The truth value of an [Optional[int]]: [None] and [0] are false. *)
Definition truthy_id (o : option Z) : bool :=
  match o with
  | Some z => negb (z =? 0)
  | None => false
  end.

(** The truth value of a [str]. *)
Definition nonempty (s : string) : bool :=
  match s with
  | EmptyString => false
  | _ => true
  end.

(** [sum(f(x) for x in l)] *)
Definition sum_with {A} (f : A → Z) (l : list A) : Z :=
  foldr (λ x acc, f x + acc) 0 l.

(** ** AliasGrouper: [group_damage_by_alias] *)

(** One row of a store query (a dictionary with these keys). *)
Record DamageRow := {
  r_player_id : Z;
  r_original_name : string;
  r_alias : option string;
  r_display_name : string;
  r_health_dmg : Z;
  r_armor_dmg : Z;
  r_total_dmg : Z;
  r_kills : Z;
  r_first_hit : option datetime;
  r_last_hit : option datetime
}.

(** One merged row. *)
Record GroupRow := {
  g_display_name : string;
  g_player_ids : list Z;
  g_original_names : list string;
  g_health_dmg : Z;
  g_armor_dmg : Z;
  g_total_dmg : Z;
  g_kills : Z;
  g_first_hit : option datetime;
  g_last_hit : option datetime
}.

Definition new_group (key : string) : GroupRow :=
  {| g_display_name := key; g_player_ids := []; g_original_names := [];
     g_health_dmg := 0; g_armor_dmg := 0; g_total_dmg := 0; g_kills := 0;
     g_first_hit := None; g_last_hit := None |}.

(** The body of the loop, once [g = grouped[key]] is at hand. *)
Definition add_row (d : DamageRow) (g : GroupRow) : GroupRow :=
  {| g_display_name := g_display_name g;
     g_player_ids := g_player_ids g ++ [r_player_id d];
     g_original_names := g_original_names g ++ [r_original_name d];
     g_health_dmg := g_health_dmg g + r_health_dmg d;
     g_armor_dmg := g_armor_dmg g + r_armor_dmg d;
     g_total_dmg := g_total_dmg g + r_total_dmg d;
     g_kills := g_kills g + r_kills d;
     g_first_hit :=
       match r_first_hit d with
       | Some t =>
           match g_first_hit g with
           | None => Some t
           | Some t0 => if t <? t0 then Some t else Some t0
           end
       | None => g_first_hit g
       end;
     g_last_hit :=
       match r_last_hit d with
       | Some t =>
           match g_last_hit g with
           | None => Some t
           | Some t0 => if t >? t0 then Some t else Some t0
           end
       | None => g_last_hit g
       end |}.

(** [grouped] is a dictionary in insertion order: a list of rows, at most
    one per display name, a new key going to the end. *)
Fixpoint upsert (d : DamageRow) (grouped : list GroupRow) : list GroupRow :=
  match grouped with
  | [] => [add_row d (new_group (r_display_name d))]
  | g :: rest =>
      if String.eqb (g_display_name g) (r_display_name d)
      then add_row d g :: rest
      else g :: upsert d rest
  end.

(** [result.sort(key=..., reverse=True)]: Python's sort is stable, also
    when reversed; rows of equal key keep their order. *)
Section Sort.
Context {A : Type} (key : A → Z).

Fixpoint insert_desc (x : A) (l : list A) : list A :=
  match l with
  | [] => [x]
  | y :: l' => if key y >? key x then y :: insert_desc x l' else x :: l
  end.

Definition sort_desc (l : list A) : list A := foldr insert_desc [] l.
End Sort.

Definition group_damage_by_alias (data : list DamageRow) : list GroupRow :=
  sort_desc g_total_dmg (foldl (λ grouped d, upsert d grouped) [] data).

(** *** The grouping, said directly

    What the specification says a merged row is: for a display name, the
    input rows of that name, their ids and names in input order, the sums
    of their figures, the least of their first hits and the greatest of
    their last hits, rows without one not counting. *)

Definition members (key : string) (data : list DamageRow) : list DamageRow :=
  filter (λ d, r_display_name d = key) data.

Definition omin (a b : option Z) : option Z :=
  match a, b with
  | Some x, Some y => Some (Z.min x y)
  | Some x, None => Some x
  | None, _ => b
  end.

Definition omax (a b : option Z) : option Z :=
  match a, b with
  | Some x, Some y => Some (Z.max x y)
  | Some x, None => Some x
  | None, _ => b
  end.

Definition earliest (l : list (option Z)) : option Z := foldr omin None l.
Definition latest (l : list (option Z)) : option Z := foldr omax None l.

Definition merged (key : string) (data : list DamageRow) : GroupRow :=
  let ms := members key data in
  {| g_display_name := key;
     g_player_ids := map r_player_id ms;
     g_original_names := map r_original_name ms;
     g_health_dmg := sum_with r_health_dmg ms;
     g_armor_dmg := sum_with r_armor_dmg ms;
     g_total_dmg := sum_with r_total_dmg ms;
     g_kills := sum_with r_kills ms;
     g_first_hit := earliest (map r_first_hit ms);
     g_last_hit := latest (map r_last_hit ms) |}.

(** The figures of a merged row: all but the lists of member ids and names. *)
Definition figures (g : GroupRow)
  : string * (Z * Z * Z * Z) * (option Z * option Z) :=
  (g_display_name g,
   (g_health_dmg g, g_armor_dmg g, g_total_dmg g, g_kills g),
   (g_first_hit g, g_last_hit g)).

(** [grouped.get(key)] *)
Definition find_group (key : string) (grouped : list GroupRow) : option GroupRow :=
  List.find (λ g, String.eqb (g_display_name g) key) grouped.

(** ** Data classes and the rows of the store *)

Record PlayerRow := {
  p_player_id : Z;
  p_original_name : string;
  p_alias : option string
}.

Record PlayerInfo := {
  pi_name : string;
  pi_alias : option string
}.

Record ZoneRow := {
  z_zone_id : Z;
  z_name : string;
  z_character_name : option string;
  z_entered_time : datetime;
  z_left_time : option datetime;
  z_log_date : option string
}.

Record WisdomRow := {
  w_zone_id : Z;
  w_amount : Z
}.

Record ZoneInfo := {
  zi_name : string;
  zi_entered_time : datetime;
  zi_character_name : option string
}.

(** The deduplication signature
    [(zone_id, npc_id, player_id, health_dmg, armor_dmg)]. *)
Abbreviation event_key := (option Z * Z * Z * Z * Z)%type.

(** A line of a log file, with the clock reading at the time it is parsed. *)
Abbreviation timed_line := (Z * string)%type.

Section Model.

(** Python's [float]: the aggro percentage is only carried along, so the
    type stays abstract, and so does the value [float_of_lit s] that Python
    gives to a decimal literal [s].  [strptime_ymd] is
    [datetime.strptime(s, '%Y-%m-%d')] as a day number, [None] when it
    raises. *)
Context {float : Type} (float_of_lit : string → float)
        (strptime_ymd : string → option Z).

(** [float(s)] on the strings [[\d.]+] captures: it raises [ValueError]
    ([None]) unless there is a digit and at most one dot. *)
Definition float_of_str (s : string) : option float :=
  let cs := list_ascii_of_string s in
  if existsb is_digit cs
     && (length (List.filter (Ascii.eqb ".") cs) <=? 1)%nat
  then Some (float_of_lit s) else None.

(** The literal [0.0]. *)
Definition float_zero : float := float_of_lit "0.0".

Record DamageEvent := {
  player_name : string;
  health_dmg : Z;
  armor_dmg : Z;
  aggro_percent : float;
  npc_id : Z;
  npc_name : string;
  zone_name : string;
  timestamp : datetime;
  character_name : option string;
  zone_id : option Z
}.

(** A stored event (a dictionary of [_events_list]). *)
Record EventRow := {
  e_event_id : Z;
  e_zone_id : option Z;
  e_npc_id : Z;
  e_npc_name : string;
  e_player_id : Z;
  e_health_dmg : Z;
  e_armor_dmg : Z;
  e_aggro_percent : float;
  e_timestamp : datetime;
  e_character_name : option string
}.

(** The 9-tuple [insert_damage_events_batch] takes. *)
Record EventTuple := {
  t_zone_id : Z;
  t_npc_id : Z;
  t_npc_name : string;
  t_player_id : Z;
  t_health_dmg : Z;
  t_armor_dmg : Z;
  t_aggro_pct : float;
  t_timestamp : datetime;
  t_char_name : option string
}.

(** ** PandasDataStore *)

(** [aliases_file] is the content of [ALIASES_PATH], which [load_aliases]
    reads and [save_aliases] writes (a write is taken to succeed); it is
    kept next to the store.  The
    dictionary a zone has in [_zones_list] is the same object as its entry
    of [_zone_id_to_info]: both are updated together. *)
Record PandasDataStore := {
  _players_list : list PlayerRow;
  _zones_list : list ZoneRow;
  _events_list : list EventRow;
  _wisdom_list : list WisdomRow;
  _player_name_to_id : gmap string Z;
  _player_id_to_info : gmap Z PlayerInfo;
  _zone_id_to_info : gmap Z ZoneRow;
  _aliases : gmap string string;
  _next_player_id : Z;
  _next_zone_id : Z;
  _next_event_id : Z;
  aliases_file : gmap string string
}.

(** [PandasDataStore()], with the alias file as it is found. *)
Definition new_store (file : gmap string string) : PandasDataStore :=
  {| _players_list := []; _zones_list := []; _events_list := [];
     _wisdom_list := [];
     _player_name_to_id := ∅; _player_id_to_info := ∅; _zone_id_to_info := ∅;
     _aliases := file;
     _next_player_id := 1; _next_zone_id := 1; _next_event_id := 1;
     aliases_file := file |}.

Definition add_player (name : string) (s : PandasDataStore) : PandasDataStore * Z :=
  let player_id := _next_player_id s in
  let alias := _aliases s !! name in
  ({| _players_list :=
        _players_list s ++
        [{| p_player_id := player_id; p_original_name := name; p_alias := alias |}];
      _zones_list := _zones_list s;
      _events_list := _events_list s;
      _wisdom_list := _wisdom_list s;
      _player_name_to_id := <[name := player_id]> (_player_name_to_id s);
      _player_id_to_info :=
        <[player_id := {| pi_name := name; pi_alias := alias |}]> (_player_id_to_info s);
      _zone_id_to_info := _zone_id_to_info s;
      _aliases := _aliases s;
      _next_player_id := player_id + 1;
      _next_zone_id := _next_zone_id s;
      _next_event_id := _next_event_id s;
      aliases_file := aliases_file s |}, player_id).

Definition get_or_create_player (name : string) (s : PandasDataStore)
  : PandasDataStore * Z :=
  match _player_name_to_id s !! name with
  | Some id => (s, id)
  | None => add_player name s
  end.

(** [names] is the set of names in the order the [for] loop visits it. *)
Definition get_or_create_players_batch (names : list string) (s : PandasDataStore)
  : PandasDataStore * gmap string Z :=
  foldl (λ '(s, result) name,
           let '(s', id) := get_or_create_player name s in
           (s', <[name := id]> result))
        (s, ∅) names.

Definition set_row_alias (a : option string) (r : PlayerRow) : PlayerRow :=
  {| p_player_id := p_player_id r; p_original_name := p_original_name r;
     p_alias := a |}.

(** The loop over [_players_list] that stops at the first row of the id. *)
Fixpoint set_first_alias (player_id : Z) (a : option string) (l : list PlayerRow)
  : list PlayerRow :=
  match l with
  | [] => []
  | r :: l' =>
      if p_player_id r =? player_id then set_row_alias a r :: l'
      else r :: set_first_alias player_id a l'
  end.

Definition update_player_alias (player_id : Z) (alias : string) (s : PandasDataStore)
  : PandasDataStore :=
  match _player_id_to_info s !! player_id with
  | Some info =>
      let a := if nonempty alias then Some alias else None in
      let original_name := pi_name info in
      let aliases :=
        if nonempty alias then <[original_name := alias]> (_aliases s)
        else delete original_name (_aliases s) in
      {| _players_list := set_first_alias player_id a (_players_list s);
         _zones_list := _zones_list s;
         _events_list := _events_list s;
         _wisdom_list := _wisdom_list s;
         _player_name_to_id := _player_name_to_id s;
         _player_id_to_info :=
           <[player_id := {| pi_name := original_name; pi_alias := a |}]>
             (_player_id_to_info s);
         _zone_id_to_info := _zone_id_to_info s;
         _aliases := aliases;
         _next_player_id := _next_player_id s;
         _next_zone_id := _next_zone_id s;
         _next_event_id := _next_event_id s;
         aliases_file := aliases |}
  | None => s
  end.

Definition _get_display_name (player_id : Z) (s : PandasDataStore) : string :=
  match _player_id_to_info s !! player_id with
  | Some info =>
      match pi_alias info with
      | Some a => if nonempty a then a else pi_name info
      | None => pi_name info
      end
  | None => "Unknown"
  end.

Definition _get_original_name (player_id : Z) (s : PandasDataStore) : string :=
  match _player_id_to_info s !! player_id with
  | Some info => pi_name info
  | None => "Unknown"
  end.

Definition _get_alias (player_id : Z) (s : PandasDataStore) : option string :=
  match _player_id_to_info s !! player_id with
  | Some info => pi_alias info
  | None => None
  end.

Definition is_open_for (character_name : option string) (z : ZoneRow) : bool :=
  bool_decide (z_character_name z = character_name)
  && bool_decide (z_left_time z = None).

(** The backward scan of [_zones_list]: the index of the most recent open
    zone of the character. *)
Fixpoint find_open (zones : list ZoneRow) (character_name : option string)
  : option nat :=
  match zones with
  | [] => None
  | z :: rest =>
      match find_open rest character_name with
      | Some i => Some (S i)
      | None => if is_open_for character_name z then Some 0%nat else None
      end
  end.

Definition close_zone (t : datetime) (z : ZoneRow) : ZoneRow :=
  {| z_zone_id := z_zone_id z; z_name := z_name z;
     z_character_name := z_character_name z;
     z_entered_time := z_entered_time z;
     z_left_time := Some t; z_log_date := z_log_date z |}.

Definition open_zone_of (s : PandasDataStore) (character_name : option string)
  : option (nat * ZoneRow) :=
  match find_open (_zones_list s) character_name with
  | Some i =>
      match _zones_list s !! i with
      | Some z => Some (i, z)
      | None => None
      end
  | None => None
  end.

(** The part of [create_zone_entry] after the duplicate test: close the
    open zone, if any, and append a fresh one. *)
Definition open_new_zone (name : string) (character_name : option string)
    (entered_time : datetime) (log_date : option string)
    (open_zone : option (nat * ZoneRow)) (s : PandasDataStore)
  : PandasDataStore * Z :=
  let '(zones, info) :=
    match open_zone with
    | Some (i, z) =>
        (alter (close_zone entered_time) i (_zones_list s),
         alter (close_zone entered_time) (z_zone_id z) (_zone_id_to_info s))
    | None => (_zones_list s, _zone_id_to_info s)
    end in
  let zone_id := _next_zone_id s in
  let zone_dict :=
    {| z_zone_id := zone_id; z_name := name;
       z_character_name := character_name;
       z_entered_time := entered_time;
       z_left_time := None; z_log_date := log_date |} in
  ({| _players_list := _players_list s;
      _zones_list := zones ++ [zone_dict];
      _events_list := _events_list s;
      _wisdom_list := _wisdom_list s;
      _player_name_to_id := _player_name_to_id s;
      _player_id_to_info := _player_id_to_info s;
      _zone_id_to_info := <[zone_id := zone_dict]> info;
      _aliases := _aliases s;
      _next_player_id := _next_player_id s;
      _next_zone_id := zone_id + 1;
      _next_event_id := _next_event_id s;
      aliases_file := aliases_file s |}, zone_id).

Definition create_zone_entry (name : string) (character_name : option string)
    (entered_time : datetime) (log_date : option string) (s : PandasDataStore)
  : PandasDataStore * Z :=
  match open_zone_of s character_name with
  | Some (i, z) =>
      if String.eqb (z_name z) name then (s, z_zone_id z)
      else open_new_zone name character_name entered_time log_date (Some (i, z)) s
  | None => open_new_zone name character_name entered_time log_date None s
  end.

Definition get_current_zone_id (character_name : option string) (s : PandasDataStore)
  : option Z :=
  z_zone_id <$> (snd <$> open_zone_of s character_name).

Definition push_event (r : EventRow) (s : PandasDataStore) : PandasDataStore :=
  {| _players_list := _players_list s;
     _zones_list := _zones_list s;
     _events_list := _events_list s ++ [r];
     _wisdom_list := _wisdom_list s;
     _player_name_to_id := _player_name_to_id s;
     _player_id_to_info := _player_id_to_info s;
     _zone_id_to_info := _zone_id_to_info s;
     _aliases := _aliases s;
     _next_player_id := _next_player_id s;
     _next_zone_id := _next_zone_id s;
     _next_event_id := _next_event_id s + 1;
     aliases_file := aliases_file s |}.

(** Returns the new event id, or the sentinel [-1]. *)
Definition insert_damage_event (event : DamageEvent) (zone_id : option Z)
    (s : PandasDataStore) : PandasDataStore * Z :=
  if (health_dmg event =? 0) && (armor_dmg event =? 0) then (s, -1) else
  let '(s1, player_id) := get_or_create_player (player_name event) s in
  let event_id := _next_event_id s1 in
  (push_event
     {| e_event_id := event_id; e_zone_id := zone_id;
        e_npc_id := npc_id event; e_npc_name := npc_name event;
        e_player_id := player_id;
        e_health_dmg := health_dmg event; e_armor_dmg := armor_dmg event;
        e_aggro_percent := aggro_percent event;
        e_timestamp := timestamp event;
        e_character_name := character_name event |} s1, event_id).

Definition row_of_tuple (event_id : Z) (e : EventTuple) : EventRow :=
  {| e_event_id := event_id; e_zone_id := Some (t_zone_id e);
     e_npc_id := t_npc_id e; e_npc_name := t_npc_name e;
     e_player_id := t_player_id e;
     e_health_dmg := t_health_dmg e; e_armor_dmg := t_armor_dmg e;
     e_aggro_percent := t_aggro_pct e;
     e_timestamp := t_timestamp e;
     e_character_name := t_char_name e |}.

Definition insert_damage_events_batch (events : list EventTuple) (s : PandasDataStore)
  : PandasDataStore * Z :=
  (foldl (λ s e, push_event (row_of_tuple (_next_event_id s) e) s) s events,
   Z.of_nat (length events)).

Definition key_of_row (e : EventRow) : event_key :=
  (e_zone_id e, e_npc_id e, e_player_id e, e_health_dmg e, e_armor_dmg e).

(** [log_date] is the optional argument; an empty string counts as absent. *)
Definition get_all_existing_event_keys (log_date : option string) (s : PandasDataStore)
  : gset event_key :=
  match _events_list s with
  | [] => ∅
  | _ =>
      match log_date with
      | Some d =>
          if nonempty d then
            let zone_ids : gset (option Z) :=
              list_to_set
                (map (λ z, Some (z_zone_id z))
                   (List.filter (λ z, bool_decide (z_log_date z = Some d))
                      (_zones_list s))) in
            list_to_set
              (map key_of_row
                 (List.filter (λ e, bool_decide (e_zone_id e ∈ zone_ids))
                    (_events_list s)))
          else list_to_set (map key_of_row (_events_list s))
      | None => list_to_set (map key_of_row (_events_list s))
      end
  end.

Definition add_wisdom (zone_id amount : Z) (s : PandasDataStore) : PandasDataStore :=
  {| _players_list := _players_list s;
     _zones_list := _zones_list s;
     _events_list := _events_list s;
     _wisdom_list := _wisdom_list s ++ [{| w_zone_id := zone_id; w_amount := amount |}];
     _player_name_to_id := _player_name_to_id s;
     _player_id_to_info := _player_id_to_info s;
     _zone_id_to_info := _zone_id_to_info s;
     _aliases := _aliases s;
     _next_player_id := _next_player_id s;
     _next_zone_id := _next_zone_id s;
     _next_event_id := _next_event_id s;
     aliases_file := aliases_file s |}.

(** [clear_all_data]: the four lists and the two player indices are
    cleared; the next statement reads [self._zone_key_to_id], an attribute
    that no method of the class ever sets, so Python raises
    [AttributeError] there and the statements after it are not reached. *)
Definition clear_all_data (s : PandasDataStore) : PandasDataStore * result unit :=
  ({| _players_list := [];
      _zones_list := [];
      _events_list := [];
      _wisdom_list := [];
      _player_name_to_id := ∅;
      _player_id_to_info := ∅;
      _zone_id_to_info := _zone_id_to_info s;
      _aliases := _aliases s;
      _next_player_id := _next_player_id s;
      _next_zone_id := _next_zone_id s;
      _next_event_id := _next_event_id s;
      aliases_file := aliases_file s |}, Raise AttributeError).

(** *** Queries *)

Definition has_damage (e : EventRow) : bool :=
  (e_health_dmg e >? 0) || (e_armor_dmg e >? 0).

Definition min_list (l : list Z) : option Z :=
  match l with
  | [] => None
  | x :: l' => Some (foldr Z.min x l')
  end.

Definition max_list (l : list Z) : option Z :=
  match l with
  | [] => None
  | x :: l' => Some (foldr Z.max x l')
  end.

(** [series.nunique()] *)
Definition nunique (l : list Z) : Z := Z.of_nat (length (remove_dups l)).

(** Arithmetic on an [int64] column: pandas adds in 64 bits and keeps the
    low 64 bits of a result that is out of range. *)
Definition wrap64 (z : Z) : Z := (z + 2 ^ 63) mod 2 ^ 64 - 2 ^ 63.

Definition in_int64 (z : Z) : bool := (- 2 ^ 63 <=? z) && (z <? 2 ^ 63).

(** Every damage figure of the store fits in 64 bits: the condition
    under which pandas makes [health_dmg] and [armor_dmg] columns of type
    [int64] when it builds the frame of the events. *)
Definition int64_figures (s : PandasDataStore) : Prop :=
  Forall (λ e, in_int64 (e_health_dmg e) = true ∧ in_int64 (e_armor_dmg e) = true)
    (_events_list s).

(** The figures of the events are not negative and add up to less than
    [2 ^ 63]: no sum over some of them leaves the 64 bits. *)
Definition no_wrap (events : list EventRow) : Prop :=
  Forall (λ e, 0 ≤ e_health_dmg e ∧ 0 ≤ e_armor_dmg e) events
  ∧ sum_with (λ e, e_health_dmg e + e_armor_dmg e) events < 2 ^ 63.

(** [filtered.groupby('player_id').agg(...)] followed by the sort on
    [total_dmg] and the loop that builds the result rows.  The groups come
    in ascending order of [player_id]; the descending sort is taken to keep
    that order among equal totals.  The two damage columns are [int64]
    columns (see [int64_figures]): the sums of a group and the sum of the
    two columns are taken in 64 bits. *)
Definition aggregate (filtered : list EventRow) (s : PandasDataStore)
  : list DamageRow :=
  let pids := merge_sort Z.le (remove_dups (map e_player_id filtered)) in
  let grouped :=
    map (λ pid,
           let rows := List.filter (λ e, e_player_id e =? pid) filtered in
           let health := wrap64 (sum_with e_health_dmg rows) in
           let armor := wrap64 (sum_with e_armor_dmg rows) in
           {| r_player_id := pid;
              r_original_name := _get_original_name pid s;
              r_alias := _get_alias pid s;
              r_display_name := _get_display_name pid s;
              r_health_dmg := health;
              r_armor_dmg := armor;
              r_total_dmg := wrap64 (health + armor);
              r_kills := nunique (map e_npc_id rows);
              r_first_hit := min_list (map e_timestamp rows);
              r_last_hit := max_list (map e_timestamp rows) |}) pids in
  sort_desc r_total_dmg grouped.

Definition get_damage_by_zone (zone_id : Z) (s : PandasDataStore) : list DamageRow :=
  aggregate
    (List.filter (λ e, bool_decide (e_zone_id e = Some zone_id) && has_damage e)
       (_events_list s)) s.

Definition get_zone_combat_times (zone_id : Z) (s : PandasDataStore)
  : option datetime * option datetime * Z :=
  let filtered :=
    List.filter (λ e, bool_decide (e_zone_id e = Some zone_id) && has_damage e)
      (_events_list s) in
  (min_list (map e_timestamp filtered), max_list (map e_timestamp filtered),
   nunique (map e_npc_id filtered)).

(** ** LogParser *)

(** What goes through [event_queue]. *)
Inductive QueueItem :=
| QCharacter (name : string)
| QZone (name : string) (t : datetime)
| QDamage (event : DamageEvent)
| QError (msg : string).

(** The parser object.  [data_store] is a reference to the shared store,
    which the functions below take and return next to the parser;
    [event_queue] lists what has been put on the queue; [current_date] is
    the day number of the midnight the Python field holds. *)
Record LogParser := {
  event_queue : list QueueItem;
  current_character : option string;
  current_zone : option ZoneInfo;
  current_zone_id : option Z;
  current_date : Z;
  last_timestamp : option datetime;
  pending_corpse : option (Z * string * datetime);
  log_date : option string;
  batch_mode : bool;
  pending_events : list DamageEvent;
  seen_events : gset event_key;
  zones_created : gmap (string * option string) Z;
  last_zone_name : option string;
  last_zone_time : option datetime;
  zone_debounce_seconds : Z
}.

(** [LogParser(data_store, queue)] on day [today], the queue being new. *)
Definition new_parser (today : Z) : LogParser :=
  {| event_queue := []; current_character := None; current_zone := None;
     current_zone_id := None; current_date := today; last_timestamp := None;
     pending_corpse := None; log_date := None; batch_mode := false;
     pending_events := []; seen_events := ∅; zones_created := ∅;
     last_zone_name := None; last_zone_time := None;
     zone_debounce_seconds := 30 |}.

Definition set_log_date (date_str : string) (p : LogParser) : LogParser :=
  {| event_queue := event_queue p;
     current_character := current_character p;
     current_zone := current_zone p;
     current_zone_id := current_zone_id p;
     current_date := default (current_date p) (strptime_ymd date_str);
     last_timestamp := last_timestamp p;
     pending_corpse := pending_corpse p;
     log_date := Some date_str;
     batch_mode := batch_mode p;
     pending_events := pending_events p;
     seen_events := seen_events p;
     zones_created := zones_created p;
     last_zone_name := last_zone_name p;
     last_zone_time := last_zone_time p;
     zone_debounce_seconds := zone_debounce_seconds p |}.

Definition reset (p : LogParser) : LogParser :=
  {| event_queue := event_queue p;
     current_character := None;
     current_zone := None;
     current_zone_id := None;
     current_date := current_date p;
     last_timestamp := None;
     pending_corpse := None;
     log_date := log_date p;
     batch_mode := batch_mode p;
     pending_events := [];
     seen_events := ∅;
     zones_created := ∅;
     last_zone_name := None;
     last_zone_time := None;
     zone_debounce_seconds := zone_debounce_seconds p |}.

Definition start_batch_mode (existing_events : gset event_key) (p : LogParser)
  : LogParser :=
  {| event_queue := event_queue p;
     current_character := current_character p;
     current_zone := current_zone p;
     current_zone_id := current_zone_id p;
     current_date := current_date p;
     last_timestamp := last_timestamp p;
     pending_corpse := pending_corpse p;
     log_date := log_date p;
     batch_mode := true;
     pending_events := [];
     seen_events := existing_events;
     zones_created := ∅;
     last_zone_name := last_zone_name p;
     last_zone_time := last_zone_time p;
     zone_debounce_seconds := zone_debounce_seconds p |}.

(** The fields [_flush_batch] writes. *)
Definition after_flush (seen : gset event_key)
    (created : gmap (string * option string) Z) (p : LogParser) : LogParser :=
  {| event_queue := event_queue p;
     current_character := current_character p;
     current_zone := current_zone p;
     current_zone_id := current_zone_id p;
     current_date := current_date p;
     last_timestamp := last_timestamp p;
     pending_corpse := pending_corpse p;
     log_date := log_date p;
     batch_mode := batch_mode p;
     pending_events := [];
     seen_events := seen;
     zones_created := created;
     last_zone_name := last_zone_name p;
     last_zone_time := last_zone_time p;
     zone_debounce_seconds := zone_debounce_seconds p |}.

Definition tuple_of (zone_id player_id : Z) (e : DamageEvent) : EventTuple :=
  {| t_zone_id := zone_id; t_npc_id := npc_id e; t_npc_name := npc_name e;
     t_player_id := player_id;
     t_health_dmg := health_dmg e; t_armor_dmg := armor_dmg e;
     t_aggro_pct := aggro_percent e; t_timestamp := timestamp e;
     t_char_name := character_name e |}.

(** What the loop of [_flush_batch] carries from one event to the next. *)
Record FlushState := {
  f_store : PandasDataStore;
  f_created : gmap (string * option string) Z;
  f_seen : gset event_key;
  f_insert : list EventTuple
}.

(** The zone id of a buffered event: its own if it has one, else the one
    cached for its zone and character, else a zone entry made for it. *)
Definition resolve_zone (log_date : option string) (e : DamageEvent)
    (st : FlushState) : FlushState * option Z :=
  if truthy_id (zone_id e) then (st, zone_id e) else
  let zone_key := (zone_name e, character_name e) in
  let cached_zone_id := f_created st !! zone_key in
  if truthy_id cached_zone_id then (st, cached_zone_id) else
  let '(s', z) :=
    create_zone_entry (zone_name e) (character_name e) (timestamp e) log_date
      (f_store st) in
  ({| f_store := s'; f_created := <[zone_key := z]> (f_created st);
      f_seen := f_seen st; f_insert := f_insert st |}, Some z).

(** One turn of the loop over [pending_events]. *)
Definition flush_event (player_ids : gmap string Z) (log_date : option string)
    (st : FlushState) (e : DamageEvent) : FlushState :=
  match player_ids !! player_name e with
  | None => st
  | Some player_id =>
      if player_id =? 0 then st else
      let '(st1, zone_id) := resolve_zone log_date e st in
      match zone_id with
      | None => st1
      | Some zid =>
          if zid =? 0 then st1 else
          let dedup_key : event_key :=
            (Some zid, npc_id e, player_id, health_dmg e, armor_dmg e) in
          if bool_decide (dedup_key ∈ f_seen st1) then st1 else
          {| f_store := f_store st1; f_created := f_created st1;
             f_seen := {[dedup_key]} ∪ f_seen st1;
             f_insert := f_insert st1 ++ [tuple_of zid player_id e] |}
      end
  end.

(** [_flush_batch].  A Python set is visited in an order the language does
    not fix; the set of player names is visited here in the order of
    [elements].  The order decides only which ids the players that are
    new in one flush get. *)
Definition _flush_batch (st : PandasDataStore * LogParser)
  : PandasDataStore * LogParser * Z :=
  let '(s, p) := st in
  match pending_events p with
  | [] => (s, p, 0)
  | _ =>
      let player_names : gset string := list_to_set (map player_name (pending_events p)) in
      let '(s1, player_ids) := get_or_create_players_batch (elements player_names) s in
      let st' :=
        foldl (flush_event player_ids (log_date p))
          {| f_store := s1; f_created := zones_created p;
             f_seen := seen_events p; f_insert := [] |}
          (pending_events p) in
      let '(s2, count) := insert_damage_events_batch (f_insert st') (f_store st') in
      (s2, after_flush (f_seen st') (f_created st') p, count)
  end.

Definition set_batch_mode (b : bool) (p : LogParser) : LogParser :=
  {| event_queue := event_queue p;
     current_character := current_character p;
     current_zone := current_zone p;
     current_zone_id := current_zone_id p;
     current_date := current_date p;
     last_timestamp := last_timestamp p;
     pending_corpse := pending_corpse p;
     log_date := log_date p;
     batch_mode := b;
     pending_events := pending_events p;
     seen_events := seen_events p;
     zones_created := zones_created p;
     last_zone_name := last_zone_name p;
     last_zone_time := last_zone_time p;
     zone_debounce_seconds := zone_debounce_seconds p |}.

Definition clear_pending (p : LogParser) : LogParser :=
  after_flush (seen_events p) (zones_created p) p.

Definition end_batch_mode (st : PandasDataStore * LogParser)
  : PandasDataStore * LogParser * Z :=
  let '(s, p) := st in
  let '(s', p', count) := _flush_batch (s, set_batch_mode false p) in
  (s', clear_pending p', count).

Definition set_clock (day : Z) (last : datetime) (p : LogParser) : LogParser :=
  {| event_queue := event_queue p;
     current_character := current_character p;
     current_zone := current_zone p;
     current_zone_id := current_zone_id p;
     current_date := day;
     last_timestamp := Some last;
     pending_corpse := pending_corpse p;
     log_date := log_date p;
     batch_mode := batch_mode p;
     pending_events := pending_events p;
     seen_events := seen_events p;
     zones_created := zones_created p;
     last_zone_name := last_zone_name p;
     last_zone_time := last_zone_time p;
     zone_debounce_seconds := zone_debounce_seconds p |}.

(** [parse_timestamp]: [strptime] raises before anything is written. *)
Definition parse_timestamp (time_str : string) (p : LogParser)
  : LogParser * result datetime :=
  match strptime_hms time_str with
  | None => (p, Raise ValueError)
  | Some time_obj =>
      let result := combine (current_date p) time_obj in
      let rolled :=
        match last_timestamp p with
        | Some last => result <? last
        | None => false
        end in
      if rolled then
        let result' := combine (current_date p + 1) time_obj in
        (set_clock (current_date p + 1) result' p, Ret result')
      else (set_clock (current_date p) result p, Ret result)
  end.

Definition put (item : QueueItem) (p : LogParser) : LogParser :=
  {| event_queue := event_queue p ++ [item];
     current_character := current_character p;
     current_zone := current_zone p;
     current_zone_id := current_zone_id p;
     current_date := current_date p;
     last_timestamp := last_timestamp p;
     pending_corpse := pending_corpse p;
     log_date := log_date p;
     batch_mode := batch_mode p;
     pending_events := pending_events p;
     seen_events := seen_events p;
     zones_created := zones_created p;
     last_zone_name := last_zone_name p;
     last_zone_time := last_zone_time p;
     zone_debounce_seconds := zone_debounce_seconds p |}.

Definition set_current_character (c : string) (p : LogParser) : LogParser :=
  {| event_queue := event_queue p;
     current_character := Some c;
     current_zone := current_zone p;
     current_zone_id := current_zone_id p;
     current_date := current_date p;
     last_timestamp := last_timestamp p;
     pending_corpse := pending_corpse p;
     log_date := log_date p;
     batch_mode := batch_mode p;
     pending_events := pending_events p;
     seen_events := seen_events p;
     zones_created := zones_created p;
     last_zone_name := last_zone_name p;
     last_zone_time := last_zone_time p;
     zone_debounce_seconds := zone_debounce_seconds p |}.

Definition set_current_zone (zi : ZoneInfo) (p : LogParser) : LogParser :=
  {| event_queue := event_queue p;
     current_character := current_character p;
     current_zone := Some zi;
     current_zone_id := current_zone_id p;
     current_date := current_date p;
     last_timestamp := last_timestamp p;
     pending_corpse := pending_corpse p;
     log_date := log_date p;
     batch_mode := batch_mode p;
     pending_events := pending_events p;
     seen_events := seen_events p;
     zones_created := zones_created p;
     last_zone_name := last_zone_name p;
     last_zone_time := last_zone_time p;
     zone_debounce_seconds := zone_debounce_seconds p |}.

(** The fields a zone change that is not a reload writes. *)
Definition enter_zone (zi : ZoneInfo) (zone_id : Z) (p : LogParser) : LogParser :=
  {| event_queue := event_queue p;
     current_character := current_character p;
     current_zone := Some zi;
     current_zone_id := Some zone_id;
     current_date := current_date p;
     last_timestamp := last_timestamp p;
     pending_corpse := pending_corpse p;
     log_date := log_date p;
     batch_mode := batch_mode p;
     pending_events := pending_events p;
     seen_events := seen_events p;
     zones_created := zones_created p;
     last_zone_name := Some (zi_name zi);
     last_zone_time := Some (zi_entered_time zi);
     zone_debounce_seconds := zone_debounce_seconds p |}.

Definition cache_zone (zone_key : string * option string) (zone_id : Z)
    (p : LogParser) : LogParser :=
  {| event_queue := event_queue p;
     current_character := current_character p;
     current_zone := current_zone p;
     current_zone_id := current_zone_id p;
     current_date := current_date p;
     last_timestamp := last_timestamp p;
     pending_corpse := pending_corpse p;
     log_date := log_date p;
     batch_mode := batch_mode p;
     pending_events := pending_events p;
     seen_events := seen_events p;
     zones_created := <[zone_key := zone_id]> (zones_created p);
     last_zone_name := last_zone_name p;
     last_zone_time := last_zone_time p;
     zone_debounce_seconds := zone_debounce_seconds p |}.

Definition set_pending_corpse (c : Z * string * datetime) (p : LogParser)
  : LogParser :=
  {| event_queue := event_queue p;
     current_character := current_character p;
     current_zone := current_zone p;
     current_zone_id := current_zone_id p;
     current_date := current_date p;
     last_timestamp := last_timestamp p;
     pending_corpse := Some c;
     log_date := log_date p;
     batch_mode := batch_mode p;
     pending_events := pending_events p;
     seen_events := seen_events p;
     zones_created := zones_created p;
     last_zone_name := last_zone_name p;
     last_zone_time := last_zone_time p;
     zone_debounce_seconds := zone_debounce_seconds p |}.

Definition push_pending (e : DamageEvent) (p : LogParser) : LogParser :=
  {| event_queue := event_queue p;
     current_character := current_character p;
     current_zone := current_zone p;
     current_zone_id := current_zone_id p;
     current_date := current_date p;
     last_timestamp := last_timestamp p;
     pending_corpse := pending_corpse p;
     log_date := log_date p;
     batch_mode := batch_mode p;
     pending_events := pending_events p ++ [e];
     seen_events := seen_events p;
     zones_created := zones_created p;
     last_zone_name := last_zone_name p;
     last_zone_time := last_zone_time p;
     zone_debounce_seconds := zone_debounce_seconds p |}.

(** [m.group(i)] of a group that took part in the match. *)
Definition group (g : groups) (i : nat) : string := default "" (g !! i).

Definition zone_patterns : list regex :=
  [ZONE_LOADING_PATTERN; ZONE_INIT_PATTERN; ZONE_C_INIT2_PATTERN].

(** The [for pattern in ...] loop up to the point where a pattern has
    matched a zone that is not skipped: the time string and the zone name. *)
Fixpoint zone_match (patterns : list regex) (line : string)
  : option (string * string) :=
  match patterns with
  | [] => None
  | pattern :: rest =>
      match search pattern line with
      | Some g =>
          if bool_decide (group g 2 ∈ SKIP_ZONES) then zone_match rest line
          else Some (group g 1, group g 2)
      | None => zone_match rest line
      end
  end.

(** The debounce test of a zone line. *)
Definition is_reload (zone_name : string) (timestamp : datetime) (p : LogParser)
  : bool :=
  bool_decide (last_zone_name p = Some zone_name)
  && match last_zone_time p with
     | Some t0 => total_seconds_lt (timestamp - t0) (zone_debounce_seconds p)
     | None => false
     end.

Abbreviation state := (PandasDataStore * LogParser)%type.

Definition on_character (name : string) (st : state)
  : state * result (option DamageEvent) :=
  let '(s, p) := st in
  let p1 := set_current_character name p in
  ((s, if batch_mode p1 then p1 else put (QCharacter name) p1), Ret None).

Definition on_zone (time_str zone_name : string) (st : state)
  : state * result (option DamageEvent) :=
  let '(s, p) := st in
  match parse_timestamp time_str p with
  | (p1, Raise e) => ((s, p1), Raise e)
  | (p1, Ret timestamp) =>
      let zi := {| zi_name := zone_name; zi_entered_time := timestamp;
                   zi_character_name := current_character p1 |} in
      if is_reload zone_name timestamp p1 then ((s, set_current_zone zi p1), Ret None)
      else
        let '(s', zone_id) :=
          create_zone_entry zone_name (current_character p1) timestamp
            (log_date p1) s in
        let p2 := enter_zone zi zone_id p1 in
        ((s', if batch_mode p2
              then cache_zone (zone_name, current_character p2) zone_id p2
              else put (QZone zone_name timestamp) p2), Ret None)
  end.

Definition on_corpse (now : datetime) (line : string) (g : groups) (st : state)
  : state * result (option DamageEvent) :=
  let '(s, p) := st in
  let npc_id := int (group g 1) in
  let npc_name := strip (group g 2) in
  match rmatch TIMESTAMP_PATTERN line with
  | Some ts_match =>
      match parse_timestamp (group ts_match 1) p with
      | (p1, Raise e) => ((s, p1), Raise e)
      | (p1, Ret timestamp) =>
          ((s, set_pending_corpse (npc_id, npc_name, timestamp) p1), Ret None)
      end
  | None => ((s, set_pending_corpse (npc_id, npc_name, now) p), Ret None)
  end.

(** [int(m.group(i)) if m.group(i) else 0] *)
Definition int_or_0 (g : groups) (i : nat) : Z :=
  match g !! i with
  | Some x => if nonempty x then int x else 0
  | None => 0
  end.

Definition on_damage (g : groups) (corpse : Z * string * datetime) (st : state)
  : state * result (option DamageEvent) :=
  let '(s, p) := st in
  let '(npc_id, npc_name, corpse_timestamp) := corpse in
  let player_name := strip (group g 1) in
  let health_dmg := int_or_0 g 2 in
  let armor_dmg := int_or_0 g 3 in
  let aggro_pct :=
    match g !! 4%nat with
    | Some aggro_str =>
        if nonempty aggro_str then float_of_str aggro_str else Some float_zero
    | None => Some float_zero
    end in
  match aggro_pct with
  | None => ((s, p), Raise ValueError)
  | Some aggro_pct =>
      if (health_dmg =? 0) && (armor_dmg =? 0) then ((s, p), Ret None) else
      let event :=
        {| player_name := player_name; health_dmg := health_dmg;
           armor_dmg := armor_dmg; aggro_percent := aggro_pct;
           npc_id := npc_id; npc_name := npc_name;
           zone_name := match current_zone p with
                        | Some z => zi_name z
                        | None => "Unknown"
                        end;
           timestamp := corpse_timestamp;
           character_name := current_character p;
           zone_id := current_zone_id p |} in
      if batch_mode p then
        let p1 := push_pending event p in
        if (BATCH_SIZE <=? length (pending_events p1))%nat
        then let '(s', p', _) := _flush_batch (s, p1) in ((s', p'), Ret (Some event))
        else ((s, p1), Ret (Some event))
      else
        let '(s', result) := insert_damage_event event (current_zone_id p) s in
        ((s', if result =? -1 then p else put (QDamage event) p), Ret (Some event))
  end.

Definition on_wisdom (g : groups) (st : state)
  : state * result (option DamageEvent) :=
  let '(s, p) := st in
  match current_zone_id p with
  | Some zone_id =>
      if zone_id =? 0 then ((s, p), Ret None)
      else ((add_wisdom zone_id (int (group g 1)) s, p), Ret None)
  | None => ((s, p), Ret None)
  end.

(** [parse_line].  [now] is what [datetime.now()] returns during the call;
    only a corpse line without time stamp reads it. *)
Definition parse_line (now : datetime) (line : string) (st : state)
  : state * result (option DamageEvent) :=
  let line := strip line in
  if negb (nonempty line) then (st, Ret None) else
  match search CHARACTER_PATTERN line with
  | Some char_match => on_character (group char_match 1) st
  | None =>
  match zone_match zone_patterns line with
  | Some (time_str, zone_name) => on_zone time_str zone_name st
  | None =>
  match search CORPSE_PATTERN line with
  | Some corpse_match => on_corpse now line corpse_match st
  | None =>
  match rmatch DAMAGE_PATTERN line, pending_corpse (snd st) with
  | Some damage_match, Some corpse => on_damage damage_match corpse st
  | _, _ =>
  match search WISDOM_PATTERN line with
  | Some wisdom_match => on_wisdom wisdom_match st
  | None => (st, Ret None)
  end end end end end.

(** ** Ingestion *)

(** The loop of [LogMonitor._monitor_loop] over the lines that are there:
    an exception of [parse_line] is swallowed. *)
Definition monitor_lines (lines : list timed_line) (st : state) : state :=
  foldl (λ st l, fst (parse_line (fst l) (snd l) st)) st lines.

(** The reading loop of [_load_worker]: state, line count, damage count. *)
Definition load_lines (lines : list timed_line) (st : state) : state * Z * Z :=
  foldl (λ '(st, line_count, damage_count) l,
           match parse_line (fst l) (snd l) st with
           | (st', Ret (Some _)) => (st', line_count + 1, damage_count + 1)
           | (st', _) => (st', line_count + 1, damage_count)
           end)
        (st, 0, 0) lines.

(** [BackgroundLoader._load_worker] on a file that is read to its end
    without a request to cancel, on day [today]: the store, the parser it
    used, and the line and damage counts it reports. *)
Definition _load_worker (today : Z) (lines : list timed_line) (log_date : string)
    (s : PandasDataStore) : PandasDataStore * LogParser * Z * Z :=
  let parser := set_log_date log_date (new_parser today) in
  let existing_events := get_all_existing_event_keys (Some log_date) s in
  let parser := start_batch_mode existing_events parser in
  let '(st, line_count, damage_count) := load_lines lines (s, parser) in
  let '(s', parser', final_count) := end_batch_mode st in
  (s', parser', line_count, damage_count + final_count).

(** ** Notions the statements below use *)

(** The time stamps [parse_timestamp] returns for a sequence of time
    strings, a string on which it raises giving none. *)
Fixpoint stamps (strs : list string) (p : LogParser) : list Z :=
  match strs with
  | [] => []
  | x :: rest =>
      match parse_timestamp x p with
      | (p', Ret t) => t :: stamps rest p'
      | (p', Raise _) => stamps rest p'
      end
  end.

(** The last time stamp lies before the end of the current day. *)
Definition clock_ok (p : LogParser) : Prop :=
  ∀ l, last_timestamp p = Some l → l < combine (current_date p + 1) 0.

(** [line] is a zone line: [parse_line] gets as far as the zone loop with
    it, and the loop finds the time string [ts] and the zone [z]. *)
Definition zone_line (line ts z : string) : Prop :=
  nonempty (strip line) = true
  ∧ search CHARACTER_PATTERN (strip line) = None
  ∧ zone_match zone_patterns (strip line) = Some (ts, z).

(** Damage that is not zero on both counts. *)
Definition nonzero_event (e : DamageEvent) : Prop :=
  ¬ (health_dmg e = 0 ∧ armor_dmg e = 0).

Definition nonzero_row (r : EventRow) : Prop :=
  ¬ (e_health_dmg r = 0 ∧ e_armor_dmg r = 0).

Definition nonzero_tuple (e : EventTuple) : Prop :=
  ¬ (t_health_dmg e = 0 ∧ t_armor_dmg e = 0).

(** No stored event and no buffered event has zero damage on both counts. *)
Definition no_zero_damage (st : state) : Prop :=
  Forall nonzero_row (_events_list (fst st))
  ∧ Forall nonzero_event (pending_events (snd st)).

(** The operations of the store and of the parser. *)
Inductive op :=
| OpInsert (event : DamageEvent) (zone_id : option Z)
| OpInsertBatch (events : list EventTuple)
| OpParse (now : Z) (line : string)
| OpFlush
| OpStartBatch (existing_events : gset event_key)
| OpEndBatch
| OpPlayer (name : string)
| OpZone (name : string) (character_name : option string) (entered_time : Z)
         (log_date : option string)
| OpAlias (player_id : Z) (alias : string)
| OpWisdom (zone_id amount : Z)
| OpClear
| OpReset
| OpSetLogDate (date_str : string).

Definition apply_op (o : op) (st : state) : state :=
  let '(s, p) := st in
  match o with
  | OpInsert event zone_id => (fst (insert_damage_event event zone_id s), p)
  | OpInsertBatch events => (fst (insert_damage_events_batch events s), p)
  | OpParse now line => fst (parse_line now line st)
  | OpFlush => fst (_flush_batch st)
  | OpStartBatch existing_events => (s, start_batch_mode existing_events p)
  | OpEndBatch => fst (end_batch_mode st)
  | OpPlayer name => (fst (get_or_create_player name s), p)
  | OpZone name c t d => (fst (create_zone_entry name c t d s), p)
  | OpAlias player_id alias => (update_player_alias player_id alias s, p)
  | OpWisdom zone_id amount => (add_wisdom zone_id amount s, p)
  | OpClear => (fst (clear_all_data s), p)
  | OpReset => (s, reset p)
  | OpSetLogDate date_str => (s, set_log_date date_str p)
  end.

(** The condition on a direct call of [insert_damage_events_batch]. *)
Definition op_ok (o : op) : Prop :=
  match o with
  | OpInsertBatch events => Forall nonzero_tuple events
  | _ => True
  end.

(** The rows [insert_damage_events_batch] appends, ids counting from [n]. *)
Fixpoint batch_rows (n : Z) (events : list EventTuple) : list EventRow :=
  match events with
  | [] => []
  | e :: rest => row_of_tuple n e :: batch_rows (n + 1) rest
  end.



(** The events [parse_line] returns for the lines of a sequence. *)
Fixpoint returned (lines : list timed_line) (st : state) : list DamageEvent :=
  match lines with
  | [] => []
  | l :: rest =>
      match parse_line (fst l) (snd l) st with
      | (st', Ret (Some e)) => e :: returned rest st'
      | (st', _) => returned rest st'
      end
  end.

(** Two stores with the same events and the same wisdom awards. *)
Definition same_log (s s' : PandasDataStore) : Prop :=
  _events_list s' = _events_list s ∧ _wisdom_list s' = _wisdom_list s.


(** [line] is a corpse line: [parse_line] gets as far as the corpse pattern
    with it; [id] and [name] are what it reads from the match, [ts] the
    time string at the start of the line, if there is one. *)
Definition corpse_line (line : string) (ts : option string) (id : Z)
    (name : string) : Prop :=
  nonempty (strip line) = true
  ∧ search CHARACTER_PATTERN (strip line) = None
  ∧ zone_match zone_patterns (strip line) = None
  ∧ (λ g, (int (group g 1), strip (group g 2)))
      <$> search CORPSE_PATTERN (strip line) = Some (id, name)
  ∧ (λ m, group m 1) <$> rmatch TIMESTAMP_PATTERN (strip line) = ts.

(** The lines of the scenario of the specification, section 8, in the form
    the patterns accept: no parentheses around the zone name, no time
    stamp in front of a damage line. *)
Definition scenario_zone : string := "[10:00:00] ...LOADING LEVEL AreaForest".
Definition scenario_wolf : string :=
  "[10:00:05] ProcessTalkScreen(42, Search Corpse of Wolf, ...)".
Definition scenario_alice1 : string :=
  "Alice: 50 health dmg 10 armor dmg Aggro (at death): 100.0%".
Definition scenario_bob : string := "Bob: 30 health dmg".
Definition scenario_bear : string :=
  "[10:00:10] ProcessTalkScreen(43, Search Corpse of Bear, ...)".
Definition scenario_alice2 : string := "Alice: 100 health dmg".

(** The same lines as the specification prints them. *)
Definition printed_lines : list string :=
  ["[10:00:00] ...LOADING LEVEL (AreaForest)";
   "[10:00:05] ProcessTalkScreen(42, Search Corpse of Wolf, ...)";
   "[10:00:05] Alice: 50 health dmg 10 armor dmg Aggro (at death): 100.0%";
   "[10:00:06] Bob: 30 health dmg";
   "[10:00:10] ProcessTalkScreen(43, Search Corpse of Bear, ...)";
   "[10:00:10] Alice: 100 health dmg"].

(** The printed lines with the zone line alone put right. *)
Definition stamped_lines : list string :=
  ["[10:00:00] ...LOADING LEVEL AreaForest";
   "[10:00:05] ProcessTalkScreen(42, Search Corpse of Wolf, ...)";
   "[10:00:05] Alice: 50 health dmg 10 armor dmg Aggro (at death): 100.0%";
   "[10:00:06] Bob: 30 health dmg";
   "[10:00:10] ProcessTalkScreen(43, Search Corpse of Bear, ...)";
   "[10:00:10] Alice: 100 health dmg"].

(** A log that visits two zones, with one kill in the first. *)
Definition two_zone_log : list string :=
  ["[10:00:00] LOADING LEVEL AreaForest";
   "[10:00:05] ProcessTalkScreen(42, Search Corpse of Wolf, ...)";
   "Alice: 50 health dmg";
   "[10:05:00] LOADING LEVEL AreaCave"].

(** From [p] to [p'] the clock has stayed, or moved as one successful call
    of [parse_timestamp] moves it. *)
Definition clock_step (p p' : LogParser) : Prop :=
  (current_date p' = current_date p ∧ last_timestamp p' = last_timestamp p)
  ∨ ∃ x t p1, parse_timestamp x p = (p1, Ret t)
              ∧ current_date p' = current_date p1
              ∧ last_timestamp p' = last_timestamp p1.

(** The signature of a tuple that goes to [insert_damage_events_batch]. *)
Definition key_of_tuple (e : EventTuple) : event_key :=
  (Some (t_zone_id e), t_npc_id e, t_player_id e, t_health_dmg e, t_armor_dmg e).

(** What a batch run has added to the events of [s0] so far: rows whose
    signatures differ from one another and from those of the seed set
    [seen0]; [seen] is the seed set with these signatures added. *)
Definition fresh_rows (seen0 : gset event_key) (s0 s : PandasDataStore)
    (seen : gset event_key) : Prop :=
  ∃ rows,
    _events_list s = _events_list s0 ++ rows
    ∧ NoDup (map key_of_row rows)
    ∧ (∀ k, k ∈ map key_of_row rows → k ∉ seen0)
    ∧ seen = seen0 ∪ list_to_set (map key_of_row rows).

(** ** Notions of the further properties *)

(** One call of one of the methods of the store the parser calls. *)
Inductive parser_step : PandasDataStore → PandasDataStore → Prop :=
| pstep_player (name : string) (s : PandasDataStore) :
    parser_step s (fst (get_or_create_player name s))
| pstep_zone (name : string) (c : option string) (t : datetime)
    (d : option string) (s : PandasDataStore) :
    parser_step s (fst (create_zone_entry name c t d s))
| pstep_event (event : DamageEvent) (zone_id : option Z) (s : PandasDataStore) :
    parser_step s (fst (insert_damage_event event zone_id s))
| pstep_batch (events : list EventTuple) (s : PandasDataStore) :
    parser_step s (fst (insert_damage_events_batch events s))
| pstep_wisdom (zone_id amount : Z) (s : PandasDataStore) :
    parser_step s (add_wisdom zone_id amount s).

(** One call of a method of the store that writes to it. *)
Inductive store_step : PandasDataStore → PandasDataStore → Prop :=
| step_player (name : string) (s : PandasDataStore) :
    store_step s (fst (get_or_create_player name s))
| step_alias (player_id : Z) (alias : string) (s : PandasDataStore) :
    store_step s (update_player_alias player_id alias s)
| step_zone (name : string) (c : option string) (t : datetime)
    (d : option string) (s : PandasDataStore) :
    store_step s (fst (create_zone_entry name c t d s))
| step_event (event : DamageEvent) (zone_id : option Z) (s : PandasDataStore) :
    store_step s (fst (insert_damage_event event zone_id s))
| step_batch (events : list EventTuple) (s : PandasDataStore) :
    store_step s (fst (insert_damage_events_batch events s))
| step_wisdom (zone_id amount : Z) (s : PandasDataStore) :
    store_step s (add_wisdom zone_id amount s)
| step_clear (s : PandasDataStore) :
    store_step s (fst (clear_all_data s)).

(** A run of operations of the store and the parser. *)
Definition run_ops (ops : list op) (st : state) : state :=
  foldl (λ st o, apply_op o st) st ops.

(** The player list and its two indices agree: identifiers and names are
    not repeated, the identifiers are positive and below the counter, and
    each index holds exactly what the rows of the list say. *)
Definition players_ok (s : PandasDataStore) : Prop :=
  NoDup (map p_player_id (_players_list s))
  ∧ NoDup (map p_original_name (_players_list s))
  ∧ 0 < _next_player_id s
  ∧ Forall (λ r, 0 < p_player_id r < _next_player_id s) (_players_list s)
  ∧ (∀ name id,
       _player_name_to_id s !! name = Some id
       ↔ ∃ r, r ∈ _players_list s ∧ p_original_name r = name ∧ p_player_id r = id)
  ∧ (∀ id info,
       _player_id_to_info s !! id = Some info
       ↔ {| p_player_id := id; p_original_name := pi_name info;
            p_alias := pi_alias info |} ∈ _players_list s).

(** The zone list: identifiers grow along the list and lie below the
    counter, the index holds every row of the list, and a character has at
    most one open zone. *)
Definition zones_ok (s : PandasDataStore) : Prop :=
  StronglySorted Z.lt (map z_zone_id (_zones_list s))
  ∧ 0 < _next_zone_id s
  ∧ Forall (λ z, 0 < z_zone_id z < _next_zone_id s) (_zones_list s)
  ∧ (∀ z, z ∈ _zones_list s → _zone_id_to_info s !! z_zone_id z = Some z)
  ∧ (∀ c i j zi zj,
       _zones_list s !! i = Some zi → _zones_list s !! j = Some zj →
       is_open_for c zi = true → is_open_for c zj = true → i = j).

(** The event list: identifiers grow along the list and lie below the
    counter. *)
Definition events_ok (s : PandasDataStore) : Prop :=
  StronglySorted Z.lt (map e_event_id (_events_list s))
  ∧ 0 < _next_event_id s
  ∧ Forall (λ e, 0 < e_event_id e < _next_event_id s) (_events_list s).

(** *** The other queries of the store *)

(** The rows of [events_df] a query selects: [mask] without the damage
    test, which every query adds. *)
Definition with_damage (mask : EventRow → bool) (s : PandasDataStore)
  : list EventRow :=
  List.filter (λ e, mask e && has_damage e) (_events_list s).

(** [events_df['zone_id'].isin(zone_ids)] *)
Definition zone_isin (zone_ids : list Z) (e : EventRow) : bool :=
  bool_decide (e_zone_id e ∈ map Some zone_ids).

Definition get_damage_by_zones (zone_ids : list Z) (s : PandasDataStore)
  : list DamageRow :=
  match zone_ids with
  | [] => []
  | _ => aggregate (with_damage (zone_isin zone_ids) s) s
  end.

Definition get_zones_combat_times (zone_ids : list Z) (s : PandasDataStore)
  : option datetime * option datetime * Z :=
  match zone_ids with
  | [] => (None, None, 0)
  | _ =>
      let filtered := with_damage (zone_isin zone_ids) s in
      (min_list (map e_timestamp filtered), max_list (map e_timestamp filtered),
       nunique (map e_npc_id filtered))
  end.

Definition get_latest_damage_timestamp (s : PandasDataStore) : option datetime :=
  max_list (map e_timestamp (with_damage (λ _, true) s)).

(** The mask of [get_damage_in_time_range]; [character_name] is the
    optional argument, [None] and the empty string meaning no filter. *)
Definition in_time_range (start_time end_time : datetime)
    (character_name : option string) (e : EventRow) : bool :=
  (start_time <=? e_timestamp e) && (e_timestamp e <=? end_time)
  && match character_name with
     | Some c => if nonempty c then bool_decide (e_character_name e = Some c) else true
     | None => true
     end.

Definition get_damage_in_time_range (start_time end_time : datetime)
    (character_name : option string) (s : PandasDataStore) : list DamageRow :=
  aggregate (with_damage (in_time_range start_time end_time character_name) s) s.

(** [rows] is what one of the three damage queries returns on the store
    [s], and [mask] is the selection of events the query makes. *)
Inductive damage_query (s : PandasDataStore)
  : (EventRow → bool) → list DamageRow → Prop :=
| query_zone (zone_id : Z) :
    damage_query s (λ e, bool_decide (e_zone_id e = Some zone_id))
      (get_damage_by_zone zone_id s)
| query_zones (zone_id : Z) (zone_ids : list Z) :
    damage_query s (zone_isin (zone_id :: zone_ids))
      (get_damage_by_zones (zone_id :: zone_ids) s)
| query_time_range (start_time end_time : datetime)
    (character_name : option string) :
    damage_query s (in_time_range start_time end_time character_name)
      (get_damage_in_time_range start_time end_time character_name s).

(** The dictionary [_get_zone_stats] returns. *)
Record ZoneStats := {
  zs_kills : Z;
  zs_total_dmg : Z;
  zs_wisdom : Z
}.

Definition _get_zone_stats (zone_id : Z) (s : PandasDataStore) : ZoneStats :=
  let zone_events :=
    List.filter (λ e, bool_decide (e_zone_id e = Some zone_id)
                      && ((e_health_dmg e >? 0) || (e_armor_dmg e >? 0)))
      (_events_list s) in
  match zone_events with
  | [] => {| zs_kills := 0; zs_total_dmg := 0; zs_wisdom := 0 |}
  | _ =>
      {| zs_kills :=
           Z.of_nat (size (list_to_set (C := gset Z) (map e_npc_id zone_events)));
         zs_total_dmg := sum_with (λ e, e_health_dmg e + e_armor_dmg e) zone_events;
         zs_wisdom :=
           sum_with w_amount
             (List.filter (λ w, w_zone_id w =? zone_id) (_wisdom_list s)) |}
  end.

(** The truth value of an optional [str] argument. *)
Definition given (o : option string) : bool :=
  match o with
  | Some x => nonempty x
  | None => false
  end.

(** The test of the loop of [get_all_zone_instances]: neither [continue]
    is taken. *)
Definition instance_kept (zone_name log_date : option string) (z : ZoneRow) : bool :=
  negb (given zone_name && negb (bool_decide (Some (z_name z) = zone_name)))
  && negb (given log_date && negb (bool_decide (z_log_date z = log_date))).

Definition get_all_zone_instances (zone_name log_date : option string)
    (s : PandasDataStore) : list ZoneRow :=
  List.filter (instance_kept zone_name log_date) (reverse (_zones_list s)).

(** [sorted(xs, key=key)] for a key that is a string: Python compares
    strings by code point, as [String.ltb] does, and its sort is stable:
    elements of equal key keep their order. *)
Fixpoint insert_asc {A} (key : A → string) (x : A) (l : list A) : list A :=
  match l with
  | [] => [x]
  | y :: l' =>
      if String.ltb (key y) (key x) then y :: insert_asc key x l' else x :: l
  end.

Definition sort_asc {A} (key : A → string) (l : list A) : list A :=
  foldr (insert_asc key) [] l.

(** [sorted(xs)] *)
Definition sorted (l : list string) : list string := sort_asc id l.

(** [sorted(set(...))]: the set is visited in the order of [elements]. *)
Definition get_unique_zone_names (s : PandasDataStore) : list string :=
  sorted (elements (list_to_set (C := gset string) (map z_name (_zones_list s)))).

(** [sorted(dates, reverse=True)] on a set: its elements are distinct, so
    the result is the ascending order turned round. *)
Definition get_unique_log_dates (s : PandasDataStore) : list string :=
  reverse
    (sorted
       (elements
          (list_to_set (C := gset string)
             (omap (λ z, match z_log_date z with
                         | Some d => if nonempty d then Some d else None
                         | None => None
                         end) (_zones_list s))))).

(** The dictionary [get_stats] returns. *)
Record Stats := {
  st_zones : Z;
  st_events : Z;
  st_players : Z
}.

Definition get_stats (s : PandasDataStore) : Stats :=
  {| st_zones := Z.of_nat (length (_zones_list s));
     st_events := Z.of_nat (length (_events_list s));
     st_players := Z.of_nat (length (_players_list s)) |}.

(** [s.lower()] *)
Definition lower_char (a : ascii) : ascii :=
  let n := nat_of_ascii a in
  if (65 <=? n)%nat && (n <=? 90)%nat then ascii_of_nat (n + 32) else a.

Fixpoint lower (s : string) : string :=
  match s with
  | String a s' => String (lower_char a) (lower s')
  | EmptyString => EmptyString
  end.

(** [needle in hay] *)
Fixpoint contains (needle hay : string) : bool :=
  match strip_prefix needle hay with
  | Some _ => true
  | None =>
      match hay with
      | String _ hay' => contains needle hay'
      | EmptyString => false
      end
  end.

(** The identifiers [get_all_players] loops over: those of the events
    with damage, as a set. *)
Definition active_player_ids (s : PandasDataStore) : gset Z :=
  list_to_set (map e_player_id (List.filter has_damage (_events_list s))).

(** One turn of the loop of [get_all_players]. *)
Definition player_entry (filter_text : option string) (s : PandasDataStore)
    (pid : Z) : option (Z * string * option string) :=
  match _player_id_to_info s !! pid with
  | Some info =>
      match filter_text with
      | Some f =>
          if nonempty f && negb (contains (lower f) (lower (pi_name info)))
          then None else Some (pid, pi_name info, pi_alias info)
      | None => Some (pid, pi_name info, pi_alias info)
      end
  | None => None
  end.

(** [get_all_players]: the set of identifiers is visited in the order of
    [elements]. *)
Definition get_all_players (filter_text : option string) (s : PandasDataStore)
  : list (Z * string * option string) :=
  match _events_list s with
  | [] => []
  | _ =>
      sort_asc (λ x, snd (fst x))
        (omap (player_entry filter_text s) (elements (active_player_ids s)))
  end.

(** The player identifiers [aggregate] makes groups for. *)
Definition group_ids (filtered : list EventRow) : list Z :=
  merge_sort Z.le (remove_dups (map e_player_id filtered)).

(** *** What a match of a pattern is *)

(** Every character of [w] is of the class [c]. *)
Fixpoint all_cls (c : cls) (w : string) : bool :=
  match w with
  | String a w' => cls_match c a && all_cls c w'
  | EmptyString => true
  end.

(** [matches r pos w g g']: at offset [pos] of the subject, the groups
    captured so far being [g], the pattern [r] matches the text [w] and
    leaves the groups [g']. *)
Fixpoint matches (r : regex) (pos : nat) (w : string) (g g' : groups) : Prop :=
  match r with
  | Bol => pos = 0%nat ∧ w = "" ∧ g' = g
  | Lit l => w = l ∧ g' = g
  | Rep n c => String.length w = n ∧ all_cls c w = true ∧ g' = g
  | Star c => all_cls c w = true ∧ g' = g
  | Plus c => w ≠ "" ∧ all_cls c w = true ∧ g' = g
  | Lazy c => all_cls c w = true ∧ g' = g
  | Seq r1 r2 =>
      ∃ w1 w2 g1,
        w = String.append w1 w2
        ∧ matches r1 pos w1 g g1
        ∧ matches r2 (pos + String.length w1) w2 g1 g'
  | Opt r' => matches r' pos w g g' ∨ (w = "" ∧ g' = g)
  | Grp i r' => ∃ g1, matches r' pos w g g1 ∧ g' = <[i := w]> g1
  end.

(** A string of the shape the time-stamp pattern captures: two digits, a
    colon, two digits, a colon, two digits. *)
Definition hms_shaped (ts : string) : Prop :=
  ∃ h1 h2 m1 m2 s1 s2,
    ts = String h1 (String h2 (String ":" (String m1 (String m2
           (String ":" (String s1 (String s2 EmptyString)))))))
    ∧ forallb is_digit [h1; h2; m1; m2; s1; s2] = true.

(** The row [insert_damage_event] appends for an event. *)
Definition row_of_event (event_id player_id : Z) (zone_id : option Z)
    (event : DamageEvent) : EventRow :=
  {| e_event_id := event_id; e_zone_id := zone_id;
     e_npc_id := npc_id event; e_npc_name := npc_name event;
     e_player_id := player_id;
     e_health_dmg := health_dmg event; e_armor_dmg := armor_dmg event;
     e_aggro_percent := aggro_percent event;
     e_timestamp := timestamp event;
     e_character_name := character_name event |}.

(** The events of the [('damage', event)] items of a queue. *)
Definition queued_damage (q : list QueueItem) : list DamageEvent :=
  omap (λ i, match i with QDamage e => Some e | _ => None end) q.

(** The row [r] of store [s] is the record of the event [e]: the same
    figures, and the player identifier the store has for the name. *)
Definition records (s : PandasDataStore) (r : EventRow) (e : DamageEvent) : Prop :=
  r = row_of_event (e_event_id r) (e_player_id r) (zone_id e) e
  ∧ _player_name_to_id s !! player_name e = Some (e_player_id r).

(** The zone row [z'] is the row [z], but for a [left_time] that the row
    [z] did not have yet. *)
Definition zone_kept (z z' : ZoneRow) : Prop :=
  z_zone_id z' = z_zone_id z ∧ z_name z' = z_name z
  ∧ z_character_name z' = z_character_name z
  ∧ z_entered_time z' = z_entered_time z
  ∧ z_log_date z' = z_log_date z
  ∧ ∀ t, z_left_time z = Some t → z_left_time z' = Some t.

(** The store [s'] has all that the store [s] has: the events, the wisdom
    awards and the players of [s] in front of its own, unchanged; the
    zone rows of [s] at their places, changed at most by a [left_time]
    they lacked; the names [s] knows under the same identifiers; counters
    that have not gone back; and the same aliases. *)
Definition grown (s s' : PandasDataStore) : Prop :=
  _events_list s `prefix_of` _events_list s'
  ∧ _wisdom_list s `prefix_of` _wisdom_list s'
  ∧ _players_list s `prefix_of` _players_list s'
  ∧ (∀ i z, _zones_list s !! i = Some z →
            ∃ z', _zones_list s' !! i = Some z' ∧ zone_kept z z')
  ∧ (∀ name id, _player_name_to_id s !! name = Some id →
                _player_name_to_id s' !! name = Some id)
  ∧ _next_player_id s ≤ _next_player_id s'
  ∧ _next_zone_id s ≤ _next_zone_id s'
  ∧ _next_event_id s ≤ _next_event_id s'
  ∧ _aliases s' = _aliases s
  ∧ aliases_file s' = aliases_file s.

(** ** The configuration file: [load_config] and [save_config] *)

(** A [dict] from strings to strings; Python keeps the keys in the order
    of their insertion. *)
Definition Config := list (string * string).

(** [config[key] = value]: a key the dictionary has keeps its place. *)
Fixpoint dict_set (key value : string) (config : Config) : Config :=
  match config with
  | [] => [(key, value)]
  | (k, v) :: rest =>
      if String.eqb k key then (k, value) :: rest
      else (k, v) :: dict_set key value rest
  end.

(** [config.get(key)] *)
Fixpoint dict_get (key : string) (config : Config) : option string :=
  match config with
  | [] => None
  | (k, v) :: rest => if String.eqb k key then Some v else dict_get key rest
  end.

(** [CONFIG_PATH] as the program finds it: no file, a file [open] cannot
    open, or a file with its content. *)
Inductive File :=
| Missing
| Unopenable
| Content (bytes : string).

(** The two values of [os.linesep]. *)
Inductive platform := Posix | Windows.

Definition newline : ascii := "010".
Definition carriage_return : ascii := "013".

Definition linesep (os : platform) : string :=
  match os with
  | Posix => String newline ""
  | Windows => String carriage_return (String newline "")
  end.

(** What [f.write(text)] appends to a file opened with [open(path, 'w')]:
    every newline of the text goes out as [os.linesep]. *)
Fixpoint write_text (os : platform) (text : string) : string :=
  match text with
  | String a text' =>
      if Ascii.eqb a newline then linesep os +:+ write_text os text'
      else String a (write_text os text')
  | EmptyString => EmptyString
  end.

(** What a file opened with [open(path, 'r')] hands out: a carriage
    return, with the newline that follows it if there is one, is read as
    one newline. *)
Fixpoint read_text (bytes : string) : string :=
  match bytes with
  | String a bytes' =>
      if Ascii.eqb a carriage_return then
        match bytes' with
        | String b bytes'' =>
            if Ascii.eqb b newline then String newline (read_text bytes'')
            else String newline (read_text bytes')
        | EmptyString => String newline EmptyString
        end
      else String a (read_text bytes')
  | EmptyString => EmptyString
  end.

(** [for line in f]: the lines of the text, each with the newline that
    ends it (the last one may have none). *)
Fixpoint readlines (text : string) : list string :=
  match text with
  | String a text' =>
      if Ascii.eqb a newline then String a "" :: readlines text'
      else match readlines text' with
           | [] => [String a ""]
           | line :: lines => String a line :: lines
           end
  | EmptyString => []
  end.

(** [s.split(c, 1)]: the text before the first [c] and the text after
    it; [None] when [s] has no [c] and the list has one element only. *)
Fixpoint split_first (c : ascii) (s : string) : option (string * string) :=
  match s with
  | String a s' =>
      if Ascii.eqb a c then Some ("", s')
      else match split_first c s' with
           | Some (before, after) => Some (String a before, after)
           | None => None
           end
  | EmptyString => None
  end.

Definition default_config : Config := [("timezone", "EST (UTC-5)")].

(** The loop of [load_config] over the lines of the file.  Unpacking a
    list of one element into [key, value] raises [ValueError], which ends
    the loop: [except Exception: pass]. *)
Fixpoint config_lines (lines : list string) (config : Config) : Config :=
  match lines with
  | [] => config
  | line :: rest =>
      if contains "=" line then
        match split_first "=" (strip line) with
        | Some (key, value) => config_lines rest (dict_set key value config)
        | None => config
        end
      else config_lines rest config
  end.

Definition load_config (file : File) : Config :=
  match file with
  | Missing => default_config
  | Unopenable => default_config
  | Content bytes => config_lines (readlines (read_text bytes)) default_config
  end.

(** [f"{key}={value}\n"] *)
Definition config_line (entry : string * string) : string :=
  fst entry +:+ "=" +:+ snd entry +:+ String newline "".

(** [save_config]: the file is cut to nothing by [open] and gets one
    [write] for each item; a file that cannot be opened stays as it
    is. *)
Definition save_config (os : platform) (config : Config) (file : File) : File :=
  match file with
  | Unopenable => Unopenable
  | _ => Content (foldl (λ bytes entry, bytes +:+ write_text os (config_line entry))
                    "" config)
  end.

(** [TIMEZONE_OPTIONS] *)
Definition TIMEZONE_OPTIONS : list (string * Z) :=
  [("UTC", 0); ("EST (UTC-5)", -5); ("EDT (UTC-4)", -4); ("CST (UTC-6)", -6);
   ("CDT (UTC-5)", -5); ("MST (UTC-7)", -7); ("MDT (UTC-6)", -6);
   ("PST (UTC-8)", -8); ("PDT (UTC-7)", -7)].

(** No carriage return and no newline in the string. *)
Fixpoint one_line (s : string) : bool :=
  match s with
  | String a s' =>
      negb (Ascii.eqb a newline) && negb (Ascii.eqb a carriage_return)
      && one_line s'
  | EmptyString => true
  end.

(** An item the file can hold: no [=] in the key, no line break in the
    key or in the value, no white space in front of the key or behind
    the value. *)
Definition entry_ok (entry : string * string) : bool :=
  negb (contains "=" (fst entry))
  && one_line (fst entry) && one_line (snd entry)
  && String.eqb (lstrip (fst entry)) (fst entry)
  && String.eqb (rstrip (snd entry)) (snd entry).

Definition config_ok (config : Config) : Prop :=
  NoDup (map fst config) ∧ Forall (λ entry, entry_ok entry = true) config.

(** [name[:max_len] if len(name) > max_len else name]; a negative
    [max_len] counts from the end of the name. *)
Definition slice_to (stop : Z) (s : string) : string :=
  let len := Z.of_nat (String.length s) in
  let stop' := if stop <? 0 then Z.max 0 (len + stop) else Z.min stop len in
  String.substring 0 (Z.to_nat stop') s.

Definition truncate_name (name : string) (max_len : Z) : string :=
  if Z.of_nat (String.length name) >? max_len then slice_to max_len name
  else name.

(** ** The display of times: [_get_tz_offset], [_apply_tz], [_format_time] *)

(** The three methods read the zone name from [self.timezone_var]; here
    it is the argument [tz]. *)
Definition _get_tz_offset (tz : string) : Z :=
  match List.find (λ choice, String.eqb (fst choice) tz) TIMEZONE_OPTIONS with
  | Some choice => snd choice
  | None => -5
  end.

(** [dt + timedelta(hours=...)] *)
Definition _apply_tz (tz : string) (dt : option datetime) : option datetime :=
  match dt with
  | None => None
  | Some dt => Some (dt + _get_tz_offset tz * 3600 * usec)
  end.

Definition digit_char (n : Z) : ascii := ascii_of_nat (48 + Z.to_nat n).

(** A field of [strftime]: two digits, the first one a zero if need
    be. *)
Definition two_digits (n : Z) : string :=
  String (digit_char (n / 10)) (String (digit_char (n mod 10)) "").

(** [dt.strftime('%H:%M:%S')] *)
Definition strftime_hms (dt : datetime) : string :=
  let second := (dt / usec) mod day_seconds in
  two_digits (second / 3600) +:+ ":" +:+ two_digits (second mod 3600 / 60)
  +:+ ":" +:+ two_digits (second mod 60).

(** [_apply_tz] of a time is a time, so its [None] is not met in the
    second [match]. *)
Definition _format_time (tz : string) (dt : option datetime) : string :=
  match dt with
  | None => "--"
  | Some _ =>
      match _apply_tz tz dt with
      | Some adjusted => strftime_hms adjusted
      | None => "--"
      end
  end.

(** *** What a run of lines records *)










(** Two parsers with the same batch state: what [_flush_batch] reads. *)
Definition same_batch (p q : LogParser) : Prop :=
  batch_mode q = batch_mode p
  ∧ pending_events q = pending_events p
  ∧ seen_events q = seen_events p
  ∧ zones_created q = zones_created p
  ∧ log_date q = log_date p.

(** A store with two players under one alias and an event of each in zone
    1, for the statements on sums below. *)
Definition team_store : PandasDataStore :=
  let alice := {| player_name := "Alice"; health_dmg := 50; armor_dmg := 10;
                  aggro_percent := float_of_lit "100.0"; npc_id := 42;
                  npc_name := "Wolf"; zone_name := "AreaForest"; timestamp := 5;
                  character_name := None; zone_id := Some 1 |} in
  let bob := {| player_name := "Bob"; health_dmg := 30; armor_dmg := 0;
                aggro_percent := float_of_lit "0.0"; npc_id := 42;
                npc_name := "Wolf"; zone_name := "AreaForest"; timestamp := 6;
                character_name := None; zone_id := Some 1 |} in
  fst (insert_damage_event bob (Some 1)
         (fst (insert_damage_event alice (Some 1)
                 (new_store (<["Alice" := "Team"]> (<["Bob" := "Team"]> ∅)))))).

(** ** The store: clearing and aliases *)

(** C2.  [clear_all_data] does not complete: on every store it raises
    [AttributeError] after the four lists and the two player indices have
    been emptied, and the three identifier counters (and the zone index)
    keep the values they had instead of going back to 1. *)
Theorem clear_all_data_raises (s : PandasDataStore) :
  snd (clear_all_data s) = Raise AttributeError
  ∧ _next_player_id (fst (clear_all_data s)) = _next_player_id s
  ∧ _next_zone_id (fst (clear_all_data s)) = _next_zone_id s
  ∧ _next_event_id (fst (clear_all_data s)) = _next_event_id s
  ∧ _zone_id_to_info (fst (clear_all_data s)) = _zone_id_to_info s
  ∧ _players_list (fst (clear_all_data s)) = []
  ∧ _zones_list (fst (clear_all_data s)) = []
  ∧ _events_list (fst (clear_all_data s)) = []
  ∧ _wisdom_list (fst (clear_all_data s)) = []
  ∧ _aliases (fst (clear_all_data s)) = _aliases s.
Proof. repeat split. Qed.

(** C2 at a store that has seen one player: the call raises and the next
    player id is still 2, not 1. *)
Lemma clear_all_data_after_one_player :
  let s := fst (get_or_create_player "Alice" (new_store ∅)) in
  snd (clear_all_data s) = Raise AttributeError
  ∧ _next_player_id (fst (clear_all_data s)) = 2.
Proof. split; reflexivity. Qed.

(** C9.  [update_player_alias] with a player id that the store does not
    know returns the store as it was: player rows, both indices, the alias
    dictionary and the alias file included.  The function is total and has
    no error result. *)
Theorem update_player_alias_unknown (s : PandasDataStore) (player_id : Z)
    (alias : string) :
  _player_id_to_info s !! player_id = None →
  update_player_alias player_id alias s = s.
Proof. intros Hnone. unfold update_player_alias. by rewrite Hnone. Qed.

(** ** Time stamps *)

Lemma is_digit_val (a : ascii) : is_digit a = true → 0 ≤ digit_val a ≤ 9.
Proof.
  unfold is_digit, digit_val. intros H.
  apply andb_prop in H as [H1 H2].
  apply Nat.leb_le in H1, H2. lia.
Qed.

Lemma strptime_hms_range (x : string) (t : Z) :
  strptime_hms x = Some t → 0 ≤ t < day_seconds.
Proof.
  unfold strptime_hms.
  destruct x as [|h1 [|h2 [|c1 [|m1 [|m2 [|c2 [|s1 [|s2 [|? ?]]]]]]]]]; try discriminate.
  destruct (forallb is_digit [h1; h2; m1; m2; s1; s2] && _ && _) eqn:Hd;
    [|discriminate].
  destruct ((_ <? 24) && _ && _) eqn:Hr; [|discriminate].
  intros [= <-].
  apply andb_prop in Hd as [Hd _]. apply andb_prop in Hd as [Hd _].
  cbn [forallb] in Hd.
  repeat (apply andb_prop in Hd as [?%is_digit_val Hd]).
  apply andb_prop in Hr as [Hr Hx]. apply andb_prop in Hr as [Hh Hm].
  apply Z.ltb_lt in Hh, Hm, Hx. unfold day_seconds. lia.
Qed.

Lemma combine_lt (d t t' : Z) : combine d t < combine d t' ↔ t < t'.
Proof. unfold combine, usec. lia. Qed.

(** One call: the result is not before the previous one, it becomes the
    last time stamp, and the clock stays consistent. *)
Lemma parse_timestamp_step (x : string) (p p' : LogParser) (t : Z) :
  clock_ok p →
  parse_timestamp x p = (p', Ret t) →
  (∀ l, last_timestamp p = Some l → l ≤ t)
  ∧ last_timestamp p' = Some t
  ∧ clock_ok p'.
Proof.
  intros Hok. unfold parse_timestamp.
  destruct (strptime_hms x) as [tod|] eqn:Hx; [|discriminate].
  apply strptime_hms_range in Hx. unfold clock_ok in *.
  destruct (last_timestamp p) as [last|] eqn:Hl.
  - specialize (Hok last eq_refl).
    destruct (combine (current_date p) tod <? last) eqn:Hlt; intros [= <- <-]; cbn.
    + apply Z.ltb_lt in Hlt.
      repeat split.
      * intros l [= <-]. revert Hok. unfold combine, usec, day_seconds in *. lia.
      * intros l [= <-]. unfold combine, usec, day_seconds in *. lia.
    + apply Z.ltb_ge in Hlt.
      repeat split.
      * by intros l [= <-].
      * intros l [= <-]. unfold combine, usec, day_seconds in *. lia.
  - intros [= <- <-]; cbn. repeat split; [done|].
    intros l [= <-]. unfold combine, usec, day_seconds in *. lia.
Qed.

(** A call that raises leaves the parser as it was. *)
Lemma parse_timestamp_raise (x : string) (p p' : LogParser) (e : exn) :
  parse_timestamp x p = (p', Raise e) → p' = p.
Proof.
  unfold parse_timestamp.
  destruct (strptime_hms x); [|by intros [= <-]].
  by destruct (match last_timestamp p with Some _ => _ | None => _ end).
Qed.

Lemma stamps_sorted (strs : list string) (p : LogParser) :
  clock_ok p →
  StronglySorted Z.le (stamps strs p)
  ∧ ∀ l, last_timestamp p = Some l → Forall (Z.le l) (stamps strs p).
Proof.
  revert p. induction strs as [|x strs IH]; intros p Hok; cbn.
  - split; [constructor|]. by constructor.
  - destruct (parse_timestamp x p) as [p' [t|e]] eqn:Hp.
    + destruct (parse_timestamp_step _ _ _ _ Hok Hp) as (Hle & Hlast & Hok').
      destruct (IH p' Hok') as [Hs Hall]. specialize (Hall t Hlast).
      split.
      * by constructor.
      * intros l Hl. constructor; [by apply Hle|].
        eapply Forall_impl; [exact Hall|]. intros y Hy. cbn in Hy.
        specialize (Hle l Hl). lia.
    + apply parse_timestamp_raise in Hp as ->. by apply IH.
Qed.

Lemma strptime_hms_235958 : strptime_hms "23:59:58" = Some 86398.
Proof. reflexivity. Qed.

Lemma strptime_hms_000002 : strptime_hms "00:00:02" = Some 2.
Proof. reflexivity. Qed.

(** Whatever the parser was, after a call that returns a time stamp that
    time stamp is the last one and lies on the current day. *)
Lemma parse_timestamp_clock (x : string) (p p' : LogParser) (t : Z) :
  parse_timestamp x p = (p', Ret t) →
  last_timestamp p' = Some t ∧ clock_ok p'.
Proof.
  unfold parse_timestamp.
  destruct (strptime_hms x) as [tod|] eqn:Hx; [|discriminate].
  apply strptime_hms_range in Hx. unfold clock_ok.
  destruct (match last_timestamp p with Some _ => _ | None => _ end);
    intros [= <- <-]; cbn; (split; [done|]); intros l [= <-];
    unfold combine, usec, day_seconds in *; lia.
Qed.

(** C5.  Within one run the time stamps [parse_timestamp] returns for any
    sequence of time strings never decrease, whatever the parser the run
    starts from (new, reset, or left by an earlier run with any last time
    stamp and any current day): a time string on which [strptime] raises
    gives no time stamp and changes nothing.  And from a parser without a
    last time stamp, [23:59:58] followed by [00:00:02] gives two time
    stamps four seconds apart, the second on the next day. *)
Theorem parse_timestamp_monotone (p : LogParser) (strs : list string) :
  StronglySorted Z.le (stamps strs p)
  ∧ (last_timestamp p = None →
     ∃ a b, stamps ["23:59:58"; "00:00:02"] p = [a; b]
            ∧ b - a = 4 * usec
            ∧ a = combine (current_date p) 86398
            ∧ b = combine (current_date p + 1) 2).
Proof.
  split.
  - induction strs as [|x strs IH]; [constructor|]. cbn [stamps].
    destruct (parse_timestamp x p) as [p' [t|e]] eqn:Hp.
    + destruct (parse_timestamp_clock _ _ _ _ Hp) as [Hlast Hok].
      destruct (stamps_sorted strs p' Hok) as [Hs Hall].
      constructor; [done|by apply Hall].
    + by apply parse_timestamp_raise in Hp as ->.
  - intros Hnone.
    exists (combine (current_date p) 86398), (combine (current_date p + 1) 2).
    split; [|unfold combine, usec, day_seconds; lia].
    cbn [stamps]. unfold parse_timestamp at 1.
    rewrite strptime_hms_235958, Hnone.
    unfold parse_timestamp. rewrite strptime_hms_000002. cbn.
    replace (combine (current_date p) 2 <? combine (current_date p) 86398) with true.
    + reflexivity.
    + symmetry. apply Z.ltb_lt, combine_lt. lia.
Qed.

(** ** Zone entries *)

Lemma find_open_snoc (l : list ZoneRow) (z : ZoneRow) (c : option string) :
  is_open_for c z = true → find_open (l ++ [z]) c = Some (length l).
Proof.
  intros Hz. induction l as [|x l IH]; cbn.
  - by rewrite Hz.
  - by rewrite IH.
Qed.

(** The zone a call of [create_zone_entry] returns is, after the call, the
    open zone of the character, and it has the name asked for. *)
Lemma create_zone_entry_open (name : string) (c : option string) (t : Z)
    (d : option string) (s s' : PandasDataStore) (zid : Z) :
  create_zone_entry name c t d s = (s', zid) →
  ∃ i z, open_zone_of s' c = Some (i, z) ∧ z_name z = name ∧ z_zone_id z = zid.
Proof.
  unfold create_zone_entry.
  destruct (open_zone_of s c) as [[i z]|] eqn:Ho.
  - destruct (String.eqb (z_name z) name) eqn:Hn.
    + intros [= <- <-]. exists i, z. by apply String.eqb_eq in Hn.
    + unfold open_new_zone. intros [= <- <-].
      eexists _, _. unfold open_zone_of. cbn.
      rewrite find_open_snoc.
      * rewrite lookup_app_r, Nat.sub_diag by done. cbn. done.
      * unfold is_open_for. cbn. by rewrite !bool_decide_eq_true_2.
  - unfold open_new_zone. intros [= <- <-].
    eexists _, _. unfold open_zone_of. cbn.
    rewrite find_open_snoc.
    + rewrite lookup_app_r, Nat.sub_diag by done. cbn. done.
    + unfold is_open_for. cbn. by rewrite !bool_decide_eq_true_2.
Qed.

(** Asking for the zone the character is in returns it and changes nothing. *)
Lemma create_zone_entry_same (name : string) (c : option string) (t : Z)
    (d : option string) (s : PandasDataStore) (i : nat) (z : ZoneRow) :
  open_zone_of s c = Some (i, z) → z_name z = name →
  create_zone_entry name c t d s = (s, z_zone_id z).
Proof.
  intros Ho Hn. unfold create_zone_entry. rewrite Ho.
  apply String.eqb_eq in Hn. by rewrite Hn.
Qed.

Lemma create_zone_entry_again (name : string) (c : option string) (t t' : Z)
    (d d' : option string) (s s' : PandasDataStore) (zid : Z) :
  create_zone_entry name c t d s = (s', zid) →
  create_zone_entry name c t' d' s' = (s', zid).
Proof.
  intros H. apply create_zone_entry_open in H as (i & z & Ho & Hn & <-).
  by eapply create_zone_entry_same.
Qed.

(** What a call does to the number of zone entries. *)
Lemma create_zone_entry_length (name : string) (c : option string) (t : Z)
    (d : option string) (s : PandasDataStore) :
  let s' := fst (create_zone_entry name c t d s) in
  match open_zone_of s c with
  | Some (_, z) =>
      if String.eqb (z_name z) name then s' = s
      else length (_zones_list s') = S (length (_zones_list s))
  | None => length (_zones_list s') = S (length (_zones_list s))
  end.
Proof.
  unfold create_zone_entry.
  destruct (open_zone_of s c) as [[i z]|].
  - destruct (String.eqb (z_name z) name); [done|].
    cbn. rewrite length_app, length_alter. cbn. lia.
  - cbn. rewrite length_app. cbn. lia.
Qed.

(** ** Zone lines *)

Lemma parse_line_zone (now : Z) (line ts z : string) (st : state) :
  zone_line line ts z → parse_line now line st = on_zone ts z st.
Proof.
  intros (Hne & Hc & Hz). unfold parse_line. by rewrite Hne, Hc, Hz.
Qed.

(** Parsing the time string that was parsed last gives the same time
    stamp and leaves the clock where it is. *)
Lemma parse_timestamp_again (x : string) (p p1 q : LogParser) (t : Z) :
  parse_timestamp x p = (p1, Ret t) →
  current_date q = current_date p1 → last_timestamp q = last_timestamp p1 →
  parse_timestamp x q = (set_clock (current_date q) t q, Ret t).
Proof.
  unfold parse_timestamp. intros H Hd Hl.
  destruct (strptime_hms x) as [tod|]; [|discriminate].
  assert (last_timestamp p1 = Some t ∧ t = combine (current_date p1) tod) as [Hl1 ->].
  { destruct (match last_timestamp p with Some _ => _ | None => _ end);
      injection H as <- <-; done. }
  rewrite Hl, Hl1, Hd, Z.ltb_irrefl. done.
Qed.

(** A reload leaves the store alone. *)
Lemma on_zone_reload (ts z : string) (s : PandasDataStore) (p p1 : LogParser)
    (t : Z) :
  parse_timestamp ts p = (p1, Ret t) → is_reload z t p1 = true →
  on_zone ts z (s, p) =
    ((s, set_current_zone {| zi_name := z; zi_entered_time := t;
                             zi_character_name := current_character p1 |} p1),
     Ret None).
Proof. intros Hp Hr. unfold on_zone. by rewrite Hp, Hr. Qed.

(** A zone line that is not a reload goes to the store. *)
Lemma on_zone_enter (ts z : string) (s : PandasDataStore) (p p1 : LogParser)
    (t : Z) :
  parse_timestamp ts p = (p1, Ret t) → is_reload z t p1 = false →
  let zi := {| zi_name := z; zi_entered_time := t;
               zi_character_name := current_character p1 |} in
  let r := create_zone_entry z (current_character p1) t (log_date p1) s in
  let p2 := enter_zone zi (snd r) p1 in
  on_zone ts z (s, p) =
    ((fst r, if batch_mode p1
             then cache_zone (z, current_character p1) (snd r) p2
             else put (QZone z t) p2), Ret None).
Proof.
  intros Hp Hr. unfold on_zone. rewrite Hp, Hr.
  by destruct (create_zone_entry _ _ _ _ _).
Qed.

(** [parse_timestamp] writes the clock only. *)
Lemma parse_timestamp_frame (x : string) (p p1 : LogParser) (r : result Z) :
  parse_timestamp x p = (p1, r) →
  current_character p1 = current_character p
  ∧ current_zone p1 = current_zone p
  ∧ current_zone_id p1 = current_zone_id p
  ∧ log_date p1 = log_date p
  ∧ batch_mode p1 = batch_mode p
  ∧ pending_events p1 = pending_events p
  ∧ pending_corpse p1 = pending_corpse p
  ∧ last_zone_name p1 = last_zone_name p
  ∧ last_zone_time p1 = last_zone_time p
  ∧ zone_debounce_seconds p1 = zone_debounce_seconds p
  ∧ event_queue p1 = event_queue p
  ∧ seen_events p1 = seen_events p
  ∧ zones_created p1 = zones_created p.
Proof.
  unfold parse_timestamp.
  destruct (strptime_hms x); [|by intros [= <- _]].
  destruct (match last_timestamp p with Some _ => _ | None => _ end);
    by intros [= <- _].
Qed.

Lemma on_zone_again (ts z : string) (s : PandasDataStore) (p : LogParser) :
  let st1 := fst (on_zone ts z (s, p)) in
  fst (fst (on_zone ts z st1)) = fst st1.
Proof.
  destruct (parse_timestamp ts p) as [p1 [t|e]] eqn:Hp.
  - destruct (is_reload z t p1) eqn:Hr.
    + rewrite (on_zone_reload _ _ _ _ _ _ Hp Hr). cbn [fst snd].
      erewrite on_zone_reload; [done| |].
      * by eapply parse_timestamp_again.
      * exact Hr.
    + rewrite (on_zone_enter _ _ _ _ _ _ Hp Hr). cbn [fst snd].
      destruct (create_zone_entry z (current_character p1) t (log_date p1) s)
        as [s' zid] eqn:Hc. cbn [fst snd].
      set (q := if batch_mode p1 then _ else _).
      assert (parse_timestamp ts q = (set_clock (current_date q) t q, Ret t)) as Hq.
      { eapply parse_timestamp_again; [exact Hp| |]; unfold q;
          by destruct (batch_mode p1). }
      destruct (is_reload z t (set_clock (current_date q) t q)) eqn:Hr'.
      * by rewrite (on_zone_reload _ _ _ _ _ _ Hq Hr').
      * rewrite (on_zone_enter _ _ _ _ _ _ Hq Hr'). cbn [fst snd].
        replace (current_character (set_clock (current_date q) t q))
          with (current_character p1)
          by (unfold q; by destruct (batch_mode p1)).
        by rewrite (create_zone_entry_again _ _ _ _ _ _ _ _ _ Hc).
  - apply parse_timestamp_raise in Hp as Heq. subst p1.
    assert (on_zone ts z (s, p) = ((s, p), Raise e)) as Hz
      by (unfold on_zone; by rewrite Hp).
    cbn zeta. rewrite Hz. cbn [fst snd]. by rewrite Hz.
Qed.

(** C7.  A zone line fed twice in a row changes the store no more than
    fed once; from a new store and parser the two feeds leave exactly one
    zone entry; a zone line inside the debounce window leaves the store as
    it is; so does a zone line for the zone that is already the open entry
    of the character; and [create_zone_entry] returns the id of that open
    entry without touching the store. *)
Theorem zone_reentry_idempotent (s : PandasDataStore) (p : LogParser)
    (now now' : Z) (line ts z : string) :
  zone_line line ts z →
  (let st1 := fst (parse_line now line (s, p)) in
   fst (fst (parse_line now' line st1)) = fst st1)
  ∧ (∀ today file, is_Some (strptime_hms ts) →
       let st1 := fst (parse_line now line (new_store file, new_parser today)) in
       length (_zones_list (fst (fst (parse_line now' line st1)))) = 1%nat)
  ∧ (∀ p1 t, parse_timestamp ts p = (p1, Ret t) → is_reload z t p1 = true →
       fst (fst (parse_line now line (s, p))) = s)
  ∧ (∀ i zr, open_zone_of s (current_character p) = Some (i, zr) →
       z_name zr = z → fst (fst (parse_line now line (s, p))) = s)
  ∧ (∀ c t d i zr, open_zone_of s c = Some (i, zr) → z_name zr = z →
       create_zone_entry z c t d s = (s, z_zone_id zr)).
Proof.
  intros Hline. repeat split.
  - cbn zeta. rewrite !(parse_line_zone _ _ _ _ _ Hline).
    destruct (on_zone ts z (s, p)) as [st1 r] eqn:H1.
    pose proof (on_zone_again ts z s p) as Ha. by rewrite H1 in Ha.
  - intros today file [tod Htod]. cbn zeta.
    rewrite !(parse_line_zone _ _ _ _ _ Hline).
    pose proof (on_zone_again ts z (new_store file) (new_parser today)) as Ha.
    cbn zeta in Ha. rewrite Ha.
    unfold on_zone, parse_timestamp. rewrite Htod. reflexivity.
  - intros p1 t Hp Hr. rewrite (parse_line_zone _ _ _ _ _ Hline).
    by rewrite (on_zone_reload _ _ _ _ _ _ Hp Hr).
  - intros i zr Ho Hn. rewrite (parse_line_zone _ _ _ _ _ Hline).
    destruct (parse_timestamp ts p) as [p1 [t|e]] eqn:Hp.
    + destruct (parse_timestamp_frame _ _ _ _ Hp) as (Hc & _ & _ & Hd & _).
      destruct (is_reload z t p1) eqn:Hr.
      * by rewrite (on_zone_reload _ _ _ _ _ _ Hp Hr).
      * rewrite (on_zone_enter _ _ _ _ _ _ Hp Hr). cbn. rewrite Hc.
        by rewrite (create_zone_entry_same _ _ _ _ _ _ _ Ho Hn).
    + unfold on_zone. by rewrite Hp.
  - intros c t d i zr Ho Hn. by eapply create_zone_entry_same.
Qed.

(** C6, as the program has it.  Take a zone line for the zone [z] of the
    previous zone change, [t0] being the time of that change and [t] the
    time stamp of the line.  If [t - t0] is at least the debounce threshold
    (equality included) the line is not debounced: the parser records the
    change (zone name, zone time, the id the store returns) and asks
    [create_zone_entry] for the zone, which adds an entry unless the open
    entry of the character already has that name, and then changes
    nothing.  If [t - t0] is below the threshold the line is debounced:
    store, zone id, zone name and zone time stay as they are. *)
Theorem debounce_boundary (s : PandasDataStore) (p p1 : LogParser) (now : Z)
    (line ts z : string) (t t0 : Z) :
  zone_line line ts z →
  parse_timestamp ts p = (p1, Ret t) →
  last_zone_name p = Some z →
  last_zone_time p = Some t0 →
  let st' := fst (parse_line now line (s, p)) in
  let r := create_zone_entry z (current_character p) t (log_date p) s in
  (zone_debounce_seconds p * usec ≤ t - t0 →
     fst st' = fst r
     ∧ current_zone_id (snd st') = Some (snd r)
     ∧ last_zone_name (snd st') = Some z
     ∧ last_zone_time (snd st') = Some t
     ∧ match open_zone_of s (current_character p) with
       | Some (_, zr) =>
           if String.eqb (z_name zr) z then fst st' = s
           else length (_zones_list (fst st')) = S (length (_zones_list s))
       | None => length (_zones_list (fst st')) = S (length (_zones_list s))
       end)
  ∧ (t - t0 < zone_debounce_seconds p * usec →
     fst st' = s
     ∧ current_zone_id (snd st') = current_zone_id p
     ∧ last_zone_name (snd st') = Some z
     ∧ last_zone_time (snd st') = Some t0).
Proof.
  intros Hline Hp Hn Ht0. cbn zeta.
  rewrite (parse_line_zone _ _ _ _ _ Hline).
  destruct (parse_timestamp_frame _ _ _ _ Hp)
    as (Hc & _ & Hzid & Hd & _ & _ & _ & Hn1 & Ht1 & Hdb & _).
  assert (is_reload z t p1 = (t - t0 <? zone_debounce_seconds p * usec)) as Hr.
  { unfold is_reload, total_seconds_lt. rewrite Hn1, Hn, Ht1, Ht0, Hdb.
    by rewrite bool_decide_eq_true_2. }
  split; intros Hcmp.
  - assert (is_reload z t p1 = false) as Hr' by (rewrite Hr; by apply Z.ltb_ge).
    rewrite (on_zone_enter _ _ _ _ _ _ Hp Hr'). cbn [fst snd].
    rewrite Hc, Hd.
    repeat split; try (by destruct (batch_mode p1)).
    apply create_zone_entry_length.
  - assert (is_reload z t p1 = true) as Hr' by (rewrite Hr; by apply Z.ltb_lt).
    rewrite (on_zone_reload _ _ _ _ _ _ Hp Hr'). cbn [fst snd].
    repeat split; cbn; congruence.
Qed.

Lemma same_log_trans (s1 s2 s3 : PandasDataStore) :
  same_log s1 s2 → same_log s2 s3 → same_log s1 s3.
Proof. unfold same_log. intros [? ?] [? ?]. split; congruence. Qed.

Lemma get_or_create_player_log (name : string) (s : PandasDataStore) :
  same_log s (fst (get_or_create_player name s)).
Proof. unfold get_or_create_player. by destruct (_ !! name). Qed.

Lemma get_or_create_players_batch_log (names : list string) (s : PandasDataStore) :
  same_log s (fst (get_or_create_players_batch names s)).
Proof.
  unfold get_or_create_players_batch.
  generalize (∅ : gmap string Z). revert s.
  induction names as [|n names IH]; intros s m; cbn [foldl]; [done|].
  pose proof (get_or_create_player_log n s) as Hn.
  destruct (get_or_create_player n s) as [s' id]. cbn [fst] in Hn.
  eapply same_log_trans; [exact Hn|]. apply IH.
Qed.

Lemma create_zone_entry_log (name : string) (c : option string) (t : Z)
    (d : option string) (s : PandasDataStore) :
  same_log s (fst (create_zone_entry name c t d s)).
Proof.
  unfold create_zone_entry, open_new_zone.
  destruct (open_zone_of s c) as [[i z]|]; [|done].
  by destruct (String.eqb (z_name z) name).
Qed.

Lemma insert_damage_events_batch_rows (events : list EventTuple)
    (s : PandasDataStore) :
  _events_list (fst (insert_damage_events_batch events s))
    = _events_list s ++ batch_rows (_next_event_id s) events
  ∧ _wisdom_list (fst (insert_damage_events_batch events s)) = _wisdom_list s.
Proof.
  unfold insert_damage_events_batch. cbn [fst].
  revert s. induction events as [|e events IH]; intros s; cbn [foldl batch_rows].
  - by rewrite app_nil_r.
  - destruct (IH (push_event (row_of_tuple (_next_event_id s) e) s)) as [-> ->].
    cbn. by rewrite <- app_assoc.
Qed.

Lemma batch_rows_nonzero (n : Z) (events : list EventTuple) :
  Forall nonzero_tuple events → Forall nonzero_row (batch_rows n events).
Proof.
  intros H. revert n. induction H as [|e events He _ IH]; intros n; cbn.
  - constructor.
  - constructor; [exact He|apply IH].
Qed.

Lemma insert_damage_event_zero (event : DamageEvent) (zone_id : option Z)
    (s : PandasDataStore) :
  health_dmg event = 0 → armor_dmg event = 0 →
  insert_damage_event event zone_id s = (s, -1).
Proof. intros Hh Ha. unfold insert_damage_event. by rewrite Hh, Ha. Qed.

(** What [insert_damage_event] stores when it does not reject. *)
Lemma insert_damage_event_row (event : DamageEvent) (zone_id : option Z)
    (s : PandasDataStore) :
  let s' := fst (insert_damage_event event zone_id s) in
  (s' = s ∧ health_dmg event = 0 ∧ armor_dmg event = 0)
  ∨ (nonzero_event event
     ∧ _wisdom_list s' = _wisdom_list s
     ∧ ∃ r, _events_list s' = _events_list s ++ [r]
            ∧ e_zone_id r = zone_id
            ∧ e_health_dmg r = health_dmg event
            ∧ e_armor_dmg r = armor_dmg event).
Proof.
  unfold insert_damage_event.
  destruct ((health_dmg event =? 0) && (armor_dmg event =? 0)) eqn:Hz.
  - left. apply andb_prop in Hz as [?%Z.eqb_eq ?%Z.eqb_eq]. done.
  - right. apply andb_false_iff in Hz.
    pose proof (get_or_create_player_log (player_name event) s) as [He Hw].
    destruct (get_or_create_player (player_name event) s) as [s1 pid].
    cbn [fst] in *. split; [|split].
    + intros [Hh Ha]. rewrite Hh, Ha in Hz. by destruct Hz.
    + cbn. exact Hw.
    + eexists. cbn. rewrite He. done.
Qed.

Lemma resolve_zone_frame (d : option string) (e : DamageEvent) (fs : FlushState) :
  let fs' := fst (resolve_zone d e fs) in
  same_log (f_store fs) (f_store fs')
  ∧ f_insert fs' = f_insert fs ∧ f_seen fs' = f_seen fs.
Proof.
  unfold resolve_zone.
  destruct (truthy_id (zone_id e)); [done|].
  destruct (truthy_id (f_created fs !! _)); [done|].
  pose proof (create_zone_entry_log (zone_name e) (character_name e)
                (timestamp e) d (f_store fs)) as Hl.
  by destruct (create_zone_entry _ _ _ _ _).
Qed.


Lemma flush_event_frame (pids : gmap string Z) (d : option string)
    (fs : FlushState) (e : DamageEvent) :
  let fs' := flush_event pids d fs e in
  same_log (f_store fs) (f_store fs')
  ∧ (f_insert fs' = f_insert fs
     ∨ ∃ zid pid, f_insert fs' = f_insert fs ++ [tuple_of zid pid e]).
Proof.
  unfold flush_event.
  destruct (pids !! player_name e) as [pid|]; [|by split; [|left]].
  destruct (pid =? 0); [by split; [|left]|].
  pose proof (resolve_zone_frame d e fs) as (Hl & Hi & _).
  destruct (resolve_zone d e fs) as [fs1 [zid|]]; cbn [fst] in *;
    [|by split; [|left]].
  destruct (zid =? 0); [by split; [|left]|].
  destruct (bool_decide _); [by split; [|left]|].
  cbn. split; [done|]. right. exists zid, pid. by rewrite Hi.
Qed.

Lemma flush_fold_frame (pids : gmap string Z) (d : option string)
    (events : list DamageEvent) (fs : FlushState) :
  Forall nonzero_event events →
  Forall nonzero_tuple (f_insert fs) →
  let fs' := foldl (flush_event pids d) fs events in
  same_log (f_store fs) (f_store fs') ∧ Forall nonzero_tuple (f_insert fs').
Proof.
  intros He. revert fs. induction He as [|e events He _ IH]; intros fs Hi;
    cbn [foldl]; [done|].
  pose proof (flush_event_frame pids d fs e) as [Hl Hins]. cbn zeta in *.
  destruct (IH (flush_event pids d fs e)) as [Hl' Hi'].
  - destruct Hins as [->|(zid & pid & ->)]; [done|].
    apply Forall_app. split; [done|]. by constructor.
  - split; [|done]. by eapply same_log_trans.
Qed.

Lemma flush_fold_log (pids : gmap string Z) (d : option string)
    (events : list DamageEvent) (fs : FlushState) :
  same_log (f_store fs) (f_store (foldl (flush_event pids d) fs events)).
Proof.
  revert fs. induction events as [|e l IH]; intros fs; cbn [foldl]; [done|].
  eapply same_log_trans; [|apply IH].
  apply (flush_event_frame pids d fs e).
Qed.

(** [_flush_batch]: rows are appended for buffered events only, the buffer
    is emptied, and the parser keeps its other fields. *)
Lemma flush_batch_effect (s : PandasDataStore) (p : LogParser) :
  let r := _flush_batch (s, p) in
  let s' := fst (fst r) in
  let p' := snd (fst r) in
  (∃ rows, _events_list s' = _events_list s ++ rows
           ∧ (Forall nonzero_event (pending_events p) → Forall nonzero_row rows))
  ∧ _wisdom_list s' = _wisdom_list s
  ∧ pending_events p' = []
  ∧ current_zone_id p' = current_zone_id p
  ∧ batch_mode p' = batch_mode p
  ∧ current_zone p' = current_zone p
  ∧ event_queue p' = event_queue p
  ∧ current_date p' = current_date p
  ∧ last_timestamp p' = last_timestamp p.
Proof.
  unfold _flush_batch.
  destruct (pending_events p) as [|e0 evs] eqn:Hpend.
  - cbn. split; [|done]. exists []. by rewrite app_nil_r.
  - rewrite <- Hpend.
    pose proof (get_or_create_players_batch_log
                  (elements (list_to_set (map player_name (pending_events p)) : gset string)) s)
      as [He1 Hw1].
    destruct (get_or_create_players_batch _ s) as [s1 pids]. cbn [fst] in *.
    set (fs0 := {| f_store := s1; f_created := zones_created p;
                   f_seen := seen_events p; f_insert := [] |}).
    set (fs' := foldl (flush_event pids (log_date p)) fs0 (pending_events p)).
    pose proof (insert_damage_events_batch_rows (f_insert fs') (f_store fs'))
      as [He2 Hw2].
    destruct (insert_damage_events_batch (f_insert fs') (f_store fs'))
      as [s2 count]. cbn [fst snd] in *.
    assert (∀ H : Forall nonzero_event (pending_events p),
              same_log s1 (f_store fs') ∧ Forall nonzero_tuple (f_insert fs')) as Hfold.
    { intros H. by apply (flush_fold_frame pids (log_date p) _ fs0 H). }
    assert (same_log s1 (f_store fs')) as [He3 Hw3]
      by apply (flush_fold_log pids (log_date p) (pending_events p) fs0).
    repeat split; try done.
    + eexists. split.
      * rewrite He2, He3. cbn [f_store fs0]. rewrite He1. reflexivity.
      * intros H. apply batch_rows_nonzero. by apply Hfold.
    + rewrite Hw2, Hw3. exact Hw1.
Qed.

(** ** The branches of [parse_line] *)

Lemma parse_line_cases (now : Z) (line : string) (st : state) :
  parse_line now line st = (st, Ret None)
  ∨ (∃ name, parse_line now line st = on_character name st)
  ∨ (∃ ts z, zone_line line ts z ∧ parse_line now line st = on_zone ts z st)
  ∨ (∃ g, zone_match zone_patterns (strip line) = None
          ∧ parse_line now line st = on_corpse now (strip line) g st)
  ∨ (∃ g c, zone_match zone_patterns (strip line) = None
            ∧ pending_corpse (snd st) = Some c
            ∧ parse_line now line st = on_damage g c st)
  ∨ (∃ g, zone_match zone_patterns (strip line) = None
          ∧ parse_line now line st = on_wisdom g st).
Proof.
  unfold parse_line.
  destruct (nonempty (strip line)) eqn:Hne; cbn [negb]; [|by left].
  destruct (search CHARACTER_PATTERN (strip line)) as [g|] eqn:Hc.
  { right; left. by eexists. }
  destruct (zone_match zone_patterns (strip line)) as [[ts z]|] eqn:Hz.
  { right; right; left. by exists ts, z. }
  destruct (search CORPSE_PATTERN (strip line)) as [g|].
  { right; right; right; left. by eexists. }
  destruct (rmatch DAMAGE_PATTERN (strip line)) as [g|].
  - destruct (pending_corpse (snd st)) as [c|] eqn:Hpc.
    { right; right; right; right; left. by exists g, c. }
    destruct (search WISDOM_PATTERN (strip line)) as [g'|]; [|by left].
    right; right; right; right; right. by eexists.
  - destruct (search WISDOM_PATTERN (strip line)) as [g'|]; [|by left].
    right; right; right; right; right. by eexists.
Qed.

Lemma on_character_effect (name : string) (s : PandasDataStore) (p : LogParser) :
  ∃ p', on_character name (s, p) = ((s, p'), Ret None)
        ∧ current_zone_id p' = current_zone_id p
        ∧ batch_mode p' = batch_mode p
        ∧ pending_events p' = pending_events p.
Proof.
  unfold on_character. cbn.
  destruct (batch_mode p) eqn:Hb; eexists; (split; [reflexivity|]); cbn;
    by rewrite Hb.
Qed.

Lemma on_corpse_effect (now : Z) (line : string) (g : groups)
    (s : PandasDataStore) (p : LogParser) :
  ∃ p' r, on_corpse now line g (s, p) = ((s, p'), r)
          ∧ (∀ e, r ≠ Ret (Some e))
          ∧ current_zone_id p' = current_zone_id p
          ∧ batch_mode p' = batch_mode p
          ∧ pending_events p' = pending_events p.
Proof.
  unfold on_corpse.
  destruct (rmatch TIMESTAMP_PATTERN line) as [m|].
  - destruct (parse_timestamp (group m 1) p) as [p1 [t|e]] eqn:Hp;
      destruct (parse_timestamp_frame _ _ _ _ Hp)
        as (_ & _ & Hz & _ & Hb & Hpe & _);
      eexists _, _; (split; [reflexivity|]); done.
  - eexists _, _. split; [reflexivity|]. done.
Qed.

Lemma on_wisdom_effect (g : groups) (s : PandasDataStore) (p : LogParser) :
  ∃ s', on_wisdom g (s, p) = ((s', p), Ret None)
        ∧ _events_list s' = _events_list s
        ∧ (s' = s
           ∨ ∃ zid amount, current_zone_id p = Some zid
                           ∧ s' = add_wisdom zid amount s).
Proof.
  unfold on_wisdom.
  destruct (current_zone_id p) as [zid|]; [|by exists s; split; [|split; [|left]]].
  destruct (zid =? 0); [by exists s; split; [|split; [|left]]|].
  eexists. split; [reflexivity|]. split; [done|]. right. by eexists _, _.
Qed.

(** A damage line either leaves everything as it is (zero damage, or an
    aggro figure that is no number), or makes an event with damage, which
    carries the current zone id and is buffered (batch mode, with a flush
    when the buffer is full) or inserted (streaming). *)
Lemma on_damage_effect (g : groups) (c : Z * string * Z)
    (s : PandasDataStore) (p : LogParser) (st' : state)
    (r : result (option DamageEvent)) :
  on_damage g c (s, p) = (st', r) →
  (st' = (s, p) ∧ ∀ e, r ≠ Ret (Some e))
  ∨ ∃ event,
      r = Ret (Some event)
      ∧ nonzero_event event
      ∧ zone_id event = current_zone_id p
      ∧ ((batch_mode p = true
          ∧ (st' = (s, push_pending event p)
             ∨ st' = fst (_flush_batch (s, push_pending event p))))
         ∨ (batch_mode p = false
            ∧ fst st' = fst (insert_damage_event event (current_zone_id p) s)
            ∧ (snd st' = p ∨ snd st' = put (QDamage event) p))).
Proof.
  unfold on_damage. destruct c as [[nid nname] ct].
  destruct (match g !! 4%nat with Some _ => _ | None => _ end) as [aggro|];
    [|intros [= <- <-]; by left].
  destruct ((int_or_0 g 2 =? 0) && (int_or_0 g 3 =? 0)) eqn:Hz;
    [intros [= <- <-]; by left|].
  apply andb_false_iff in Hz.
  set (event := {| player_name := strip (group g 1) |}).
  assert (nonzero_event event) as Hnz.
  { intros [Hh Ha]. cbn in Hh, Ha. rewrite Hh, Ha in Hz. by destruct Hz. }
  destruct (batch_mode p) eqn:Hb.
  - destruct (_ <=? _)%nat.
    + destruct (_flush_batch (s, push_pending event p)) as [[s' p'] n] eqn:Hf.
      intros [= <- <-]. right. exists event. repeat split; try done.
      left. split; [done|]. right. by rewrite Hf.
    + intros [= <- <-]. right. exists event. repeat split; try done.
      left. split; [done|]. by left.
  - destruct (insert_damage_event event (current_zone_id p) s) as [s' res] eqn:Hi.
    intros [= <- <-]. right. exists event. repeat split; try done.
    right. split; [done|]. split; [by rewrite Hi|].
    cbn [snd]. destruct (res =? -1); [by left|by right].
Qed.

Lemma on_zone_effect (ts z : string) (s : PandasDataStore) (p : LogParser) :
  ∃ s' p' r, on_zone ts z (s, p) = ((s', p'), r)
             ∧ same_log s s'
             ∧ batch_mode p' = batch_mode p
             ∧ pending_events p' = pending_events p
             ∧ ∀ e, r ≠ Ret (Some e).
Proof.
  destruct (parse_timestamp ts p) as [p1 [t|e]] eqn:Hp;
    destruct (parse_timestamp_frame _ _ _ _ Hp) as (_ & _ & _ & _ & Hb & Hpe & _).
  - destruct (is_reload z t p1) eqn:Hr.
    + rewrite (on_zone_reload _ _ _ _ _ _ Hp Hr). eexists _, _, _.
      split; [reflexivity|]. done.
    + rewrite (on_zone_enter _ _ _ _ _ _ Hp Hr). eexists _, _, _.
      split; [reflexivity|]. split; [apply create_zone_entry_log|].
      rewrite <- Hb, <- Hpe. by destruct (batch_mode p1) eqn:Hb1; cbn.
  - unfold on_zone. rewrite Hp. eexists _, _, _. split; [reflexivity|]. done.
Qed.

(** ** Zero damage *)

Lemma parse_line_no_zero (now : Z) (line : string) (st : state) :
  no_zero_damage st → no_zero_damage (fst (parse_line now line st)).
Proof.
  destruct st as [s p]. intros [Hs Hp]. cbn [fst snd] in *.
  destruct (parse_line_cases now line (s, p))
    as [H|[(name & H)|[(ts & z & _ & H)|[(g & _ & H)|[(g & c & _ & _ & H)|(g & _ & H)]]]]];
    rewrite H; clear H.
  - done.
  - destruct (on_character_effect name s p) as (p' & -> & _ & _ & Hpe).
    split; cbn; [done|by rewrite Hpe].
  - destruct (on_zone_effect ts z s p) as (s' & p' & r & -> & [He _] & _ & Hpe & _).
    split; cbn; [by rewrite He|by rewrite Hpe].
  - destruct (on_corpse_effect now (strip line) g s p)
      as (p' & r & -> & _ & _ & _ & Hpe).
    split; cbn; [done|by rewrite Hpe].
  - destruct (on_damage g c (s, p)) as [st' r] eqn:Hd.
    apply on_damage_effect in Hd
      as [[-> _]|(event & _ & Hnz & _ & [[_ [->| ->]]|(_ & Hi & Hq)])];
      cbn [fst].
    + done.
    + split; cbn; [done|]. apply Forall_app. split; [done|by constructor].
    + pose proof (flush_batch_effect s (push_pending event p))
        as ((rows & He & Hrows) & _ & Hpe & _).
      cbn zeta in *. split.
      * rewrite He. apply Forall_app. split; [done|]. apply Hrows.
        cbn. apply Forall_app. split; [done|by constructor].
      * rewrite Hpe. constructor.
    + split.
      * rewrite Hi.
        destruct (insert_damage_event_row event (current_zone_id p) s)
          as [(-> & _)|(_ & _ & row & -> & _ & Hh & Ha)]; [done|].
        apply Forall_app. split; [done|]. constructor; [|constructor].
        unfold nonzero_row. by rewrite Hh, Ha.
      * by destruct Hq as [-> | ->].
  - destruct (on_wisdom_effect g s p) as (s' & -> & He & _).
    split; cbn; [by rewrite He|done].
Qed.

Lemma flush_batch_no_zero (st : state) :
  no_zero_damage st → no_zero_damage (fst (_flush_batch st)).
Proof.
  destruct st as [s p]. intros [Hs Hp].
  pose proof (flush_batch_effect s p) as ((rows & He & Hrows) & _ & Hpe & _).
  cbn zeta in *. split.
  - rewrite He. apply Forall_app. split; [done|by apply Hrows].
  - rewrite Hpe. constructor.
Qed.

Lemma apply_op_no_zero (o : op) (st : state) :
  op_ok o → no_zero_damage st → no_zero_damage (apply_op o st).
Proof.
  intros Hok Hst. destruct st as [s p]. pose proof Hst as [Hs Hp].
  cbn [fst snd] in Hs, Hp.
  destruct o as [event zid|events|now line| |existing| |name|name c t d
                 |player_id alias|zid amount| | |date_str]; cbn [apply_op].
  - split; cbn [fst snd]; [|done].
    destruct (insert_damage_event_row event zid s)
      as [(-> & _)|(Hnz & _ & row & -> & _ & Hh & Ha)]; [done|].
    apply Forall_app. split; [done|]. constructor; [|constructor].
    unfold nonzero_row. by rewrite Hh, Ha.
  - split; cbn [fst snd]; [|done].
    destruct (insert_damage_events_batch_rows events s) as [-> _].
    apply Forall_app. split; [done|]. by apply batch_rows_nonzero.
  - by apply parse_line_no_zero.
  - by apply flush_batch_no_zero.
  - split; cbn; [done|constructor].
  - unfold end_batch_mode.
    pose proof (flush_batch_no_zero (s, set_batch_mode false p)) as Hf.
    destruct (_flush_batch (s, set_batch_mode false p)) as [[s' p'] n].
    destruct Hf as [Hs' _]; [done|]. split; cbn; [done|constructor].
  - destruct (get_or_create_player_log name s) as [He _].
    split; cbn [fst snd]; [by rewrite He|done].
  - destruct (create_zone_entry_log name c t d s) as [He _].
    split; cbn [fst snd]; [by rewrite He|done].
  - split; cbn [fst snd]; [|done].
    unfold update_player_alias. by destruct (_ !! player_id).
  - done.
  - split; cbn; [constructor|done].
  - split; cbn; [done|constructor].
  - done.
Qed.

(** What the guards of [insert_damage_event] and [parse_line] do give.
    Starting from a store and a buffer without a zero-damage event, no
    sequence of store and parser operations puts one into the store, as
    long as no direct call of [insert_damage_events_batch] is given a
    tuple without damage: that function has no guard of its own; the
    flush path calls it with tuples made from buffered events, and
    [parse_line] buffers no zero-damage event. *)
Lemma zero_damage_never_stored (st : state) (ops : list op) :
  no_zero_damage st →
  Forall op_ok ops →
  no_zero_damage (foldl (λ st o, apply_op o st) st ops)
  ∧ ∀ event zone_id s,
      health_dmg event = 0 → armor_dmg event = 0 →
      insert_damage_event event zone_id s = (s, -1).
Proof.
  intros Hst Hops. split.
  - revert st Hst. induction Hops as [|o ops Ho _ IH]; intros st Hst; cbn [foldl].
    + done.
    + apply IH. by apply apply_op_no_zero.
  - intros. by apply insert_damage_event_zero.
Qed.

(** ** Attribution to the current zone *)





(** ** The clock over a run of [parse_line] *)

Lemma parse_line_clock (now : Z) (line : string) (st : state) :
  clock_step (snd st) (snd (fst (parse_line now line st))).
Proof.
  destruct st as [s p]. cbn [snd].
  destruct (parse_line_cases now line (s, p))
    as [H|[(name & H)|[(ts & z & _ & H)|[(g & _ & H)|[(g & c & _ & _ & H)|(g & _ & H)]]]]];
    rewrite H; clear H.
  - by left.
  - left. unfold on_character. cbn. by destruct (batch_mode p).
  - destruct (parse_timestamp ts p) as [p1 [t|e]] eqn:Hp.
    + right. exists ts, t, p1. split; [done|].
      destruct (is_reload z t p1) eqn:Hr.
      * by rewrite (on_zone_reload _ _ _ _ _ _ Hp Hr).
      * rewrite (on_zone_enter _ _ _ _ _ _ Hp Hr). cbn [fst snd].
        by destruct (batch_mode p1).
    + left. unfold on_zone. rewrite Hp.
      by apply parse_timestamp_raise in Hp as ->.
  - unfold on_corpse. destruct (rmatch TIMESTAMP_PATTERN (strip line)) as [m|].
    + destruct (parse_timestamp (group m 1) p) as [p1 [t|e]] eqn:Hp.
      * right. by exists (group m 1), t, p1.
      * left. by apply parse_timestamp_raise in Hp as ->.
    + by left.
  - left. destruct (on_damage g c (s, p)) as [[s' p'] r] eqn:Hd. cbn [fst snd].
    apply on_damage_effect in Hd
      as [[[= -> ->] _]|(event & _ & _ & _ & [[_ [[= -> ->]|Hf]]|(_ & _ & Hq)])].
    + done.
    + done.
    + pose proof (flush_batch_effect s (push_pending event p)) as H.
      cbn zeta in H. rewrite <- Hf in H. cbn [fst snd] in H.
      destruct H as (_ & _ & _ & _ & _ & _ & _ & Hcd & Hlt).
      by rewrite Hcd, Hlt.
    + cbn [snd] in Hq. by destruct Hq as [-> | ->].
  - left. by destruct (on_wisdom_effect g s p) as (s' & -> & _).
Qed.

(** One line keeps the clock consistent and does not take the last time
    stamp back. *)
Lemma parse_line_clock_ok (now : Z) (line : string) (st : state) :
  clock_ok (snd st) →
  clock_ok (snd (fst (parse_line now line st)))
  ∧ ∀ l, last_timestamp (snd st) = Some l →
         ∃ l', last_timestamp (snd (fst (parse_line now line st))) = Some l'
               ∧ l ≤ l'.
Proof.
  intros Hok.
  destruct (parse_line_clock now line st) as [[Hd Hl]|(x & t & p1 & Hp & Hd & Hl)].
  - split.
    + intros l. rewrite Hl, Hd. apply Hok.
    + intros l Hl'. exists l. by rewrite Hl.
  - destruct (parse_timestamp_step _ _ _ _ Hok Hp) as (Hle & Hlast & Hok1).
    split.
    + intros l. rewrite Hl, Hd. apply Hok1.
    + intros l Hl'. exists t. rewrite Hl. split; [done|by apply Hle].
Qed.

(** So does a run. *)
Lemma monitor_lines_clock_ok (lines : list timed_line) (st : state) :
  clock_ok (snd st) →
  clock_ok (snd (monitor_lines lines st))
  ∧ ∀ l, last_timestamp (snd st) = Some l →
         ∃ l', last_timestamp (snd (monitor_lines lines st)) = Some l' ∧ l ≤ l'.
Proof.
  revert st. induction lines as [|[now line] lines IH]; intros st Hok.
  - split; [done|]. intros l Hl. by exists l.
  - unfold monitor_lines in *. cbn [foldl fst snd].
    destruct (parse_line_clock_ok now line st Hok) as [Hok1 Hmono1].
    destruct (IH _ Hok1) as [Hok2 Hmono2].
    split; [done|]. intros l Hl.
    destruct (Hmono1 l Hl) as (l1 & Hl1 & Hle1).
    destruct (Hmono2 l1 Hl1) as (l2 & Hl2 & Hle2).
    exists l2. split; [done|lia].
Qed.

(** ** What the deduplication of a batch run guarantees *)

Lemma batch_rows_keys (n : Z) (events : list EventTuple) :
  map key_of_row (batch_rows n events) = map key_of_tuple events.
Proof.
  revert n. induction events as [|e events IH]; intros n; cbn; [done|].
  by rewrite IH.
Qed.

Lemma flush_event_dedup (pids : gmap string Z) (d : option string)
    (fs : FlushState) (e : DamageEvent) :
  let fs' := flush_event pids d fs e in
  (f_insert fs' = f_insert fs ∧ f_seen fs' = f_seen fs)
  ∨ ∃ t, f_insert fs' = f_insert fs ++ [t]
         ∧ (key_of_tuple t ∉ f_seen fs)
         ∧ f_seen fs' = {[key_of_tuple t]} ∪ f_seen fs.
Proof.
  unfold flush_event.
  destruct (pids !! player_name e) as [pid|]; [|by left].
  destruct (pid =? 0); [by left|].
  pose proof (resolve_zone_frame d e fs) as (_ & Hi & Hs).
  destruct (resolve_zone d e fs) as [fs1 [zid|]]; cbn [fst] in *; [|by left].
  destruct (zid =? 0); [by left|].
  case_bool_decide as Hin; [by left|].
  right. exists (tuple_of zid pid e). cbn. rewrite Hi, Hs in *. done.
Qed.

Lemma flush_fold_dedup (pids : gmap string Z) (d : option string)
    (seen0 : gset event_key) (events : list DamageEvent) (fs : FlushState) :
  NoDup (map key_of_tuple (f_insert fs)) →
  (∀ k, k ∈ map key_of_tuple (f_insert fs) → k ∉ seen0) →
  f_seen fs = seen0 ∪ list_to_set (map key_of_tuple (f_insert fs)) →
  let fs' := foldl (flush_event pids d) fs events in
  NoDup (map key_of_tuple (f_insert fs'))
  ∧ (∀ k, k ∈ map key_of_tuple (f_insert fs') → k ∉ seen0)
  ∧ f_seen fs' = seen0 ∪ list_to_set (map key_of_tuple (f_insert fs')).
Proof.
  revert fs. induction events as [|e events IH]; intros fs Hnd Hnew Hseen;
    cbn [foldl]; [done|].
  destruct (flush_event_dedup pids d fs e) as [[Hi Hs]|(t & Hi & Hk & Hs)];
    cbn zeta in *.
  - apply IH; by rewrite ?Hi, ?Hs.
  - apply IH; rewrite ?Hi, ?Hs, ?map_app; cbn [map].
    + apply NoDup_app. split; [done|]. split; [|apply NoDup_singleton].
      intros k Hin Hk'. apply list_elem_of_singleton in Hk' as ->.
      apply Hk. rewrite Hseen.
      apply elem_of_union_r. by apply elem_of_list_to_set.
    + intros k [Hin|Hin]%elem_of_app; [by apply Hnew|].
      apply list_elem_of_singleton in Hin as ->.
      intros H0. apply Hk. rewrite Hseen. by apply elem_of_union_l.
    + rewrite Hseen, list_to_set_app_L. cbn.
      rewrite (right_id_L ∅ (∪)), (comm_L (∪) {[key_of_tuple t]}).
      by rewrite (assoc_L (∪)).
Qed.

(** A flush adds rows with new signatures only, and remembers them. *)
Lemma flush_batch_fresh (seen0 : gset event_key) (s0 s : PandasDataStore)
    (p : LogParser) :
  fresh_rows seen0 s0 s (seen_events p) →
  let r := _flush_batch (s, p) in
  fresh_rows seen0 s0 (fst (fst r)) (seen_events (snd (fst r))).
Proof.
  intros (rows & He & Hnd & Hnew & Hseen). unfold _flush_batch.
  destruct (pending_events p) as [|e0 evs] eqn:Hpend; [by exists rows|].
  rewrite <- Hpend.
  pose proof (get_or_create_players_batch_log
                (elements (list_to_set (map player_name (pending_events p)) : gset string)) s)
    as [He1 _].
  destruct (get_or_create_players_batch _ s) as [s1 pids]. cbn [fst] in *.
  set (fs0 := {| f_store := s1; f_created := zones_created p;
                 f_seen := seen_events p; f_insert := [] |}).
  set (fs' := foldl (flush_event pids (log_date p)) fs0 (pending_events p)).
  destruct (flush_fold_dedup pids (log_date p) (seen_events p) (pending_events p) fs0)
    as (Hnd' & Hnew' & Hseen').
  { constructor. }
  { intros k Hk. by apply elem_of_nil in Hk. }
  { cbn. by rewrite (right_id_L ∅ (∪)). }
  change (foldl (flush_event pids (log_date p)) fs0 (pending_events p))
    with fs' in Hnd', Hnew', Hseen'.
  pose proof (flush_fold_log pids (log_date p) (pending_events p) fs0) as [He3 _].
  fold fs' in He3. cbn [f_store fs0] in He3.
  pose proof (insert_damage_events_batch_rows (f_insert fs') (f_store fs')) as [He2 _].
  destruct (insert_damage_events_batch (f_insert fs') (f_store fs')) as [s2 count].
  cbn [fst snd] in *.
  exists (rows ++ batch_rows (_next_event_id (f_store fs')) (f_insert fs')).
  rewrite map_app, batch_rows_keys. split; [|split; [|split]].
  - rewrite He2, He3, He1, He. by rewrite <- app_assoc.
  - apply NoDup_app. split; [done|]. split; [|done].
    intros k Hk Hk'. apply (Hnew' k Hk'). rewrite Hseen.
    apply elem_of_union_r. by apply elem_of_list_to_set.
  - intros k [Hk|Hk]%elem_of_app; [by apply Hnew|].
    intros H0. apply (Hnew' k Hk). rewrite Hseen. by apply elem_of_union_l.
  - cbn [seen_events after_flush].
    rewrite Hseen', Hseen, list_to_set_app_L. by rewrite (assoc_L (∪)).
Qed.

(** In batch mode a line leaves the events and the signatures seen as they
    are, or flushes the buffer. *)
Lemma parse_line_batch (now : Z) (line : string) (s : PandasDataStore)
    (p : LogParser) :
  batch_mode p = true →
  let st' := fst (parse_line now line (s, p)) in
  batch_mode (snd st') = true
  ∧ ((_events_list (fst st') = _events_list s
      ∧ seen_events (snd st') = seen_events p)
     ∨ ∃ q, seen_events q = seen_events p ∧ st' = fst (_flush_batch (s, q))).
Proof.
  intros Hb.
  destruct (parse_line_cases now line (s, p))
    as [H|[(name & H)|[(ts & z & _ & H)|[(g & _ & H)|[(g & c & _ & _ & H)|(g & _ & H)]]]]];
    rewrite H; clear H; cbn zeta.
  - split; [done|by left].
  - unfold on_character. cbn. split; [by rewrite Hb|left]. by rewrite Hb.
  - destruct (parse_timestamp ts p) as [p1 [t|e]] eqn:Hp;
      destruct (parse_timestamp_frame _ _ _ _ Hp)
        as (_ & _ & _ & _ & Hb1 & _ & _ & _ & _ & _ & _ & Hs1 & _).
    + destruct (is_reload z t p1) eqn:Hr.
      * rewrite (on_zone_reload _ _ _ _ _ _ Hp Hr). cbn.
        split; [congruence|by left].
      * rewrite (on_zone_enter _ _ _ _ _ _ Hp Hr). cbn [fst snd].
        rewrite Hb1, Hb. cbn. split; [congruence|left].
        split; [apply create_zone_entry_log|done].
    + unfold on_zone. rewrite Hp. cbn. split; [congruence|by left].
  - unfold on_corpse. destruct (rmatch TIMESTAMP_PATTERN (strip line)) as [m|].
    + destruct (parse_timestamp (group m 1) p) as [p1 [t|e]] eqn:Hp;
        destruct (parse_timestamp_frame _ _ _ _ Hp)
          as (_ & _ & _ & _ & Hb1 & _ & _ & _ & _ & _ & _ & Hs1 & _);
        cbn; (split; [congruence|by left]).
    + cbn. split; [done|by left].
  - destruct (on_damage g c (s, p)) as [[s' p'] r] eqn:Hd. cbn [fst snd].
    apply on_damage_effect in Hd
      as [[[= -> ->] _]|(event & _ & _ & _ & [[_ [[= -> ->]|Hf]]|(Hb' & _)])].
    + split; [done|by left].
    + split; [done|by left].
    + pose proof (flush_batch_effect s (push_pending event p)) as H.
      cbn zeta in H. rewrite <- Hf in H. cbn [fst snd] in H.
      destruct H as (_ & _ & _ & _ & Hbm & _).
      split; [by rewrite Hbm|]. right. by exists (push_pending event p).
    + congruence.
  - destruct (on_wisdom_effect g s p) as (s' & -> & He & _).
    cbn [fst snd]. split; [done|by left].
Qed.

Lemma load_lines_state (lines : list timed_line) (st : state) :
  fst (fst (load_lines lines st)) = monitor_lines lines st.
Proof.
  unfold load_lines, monitor_lines.
  generalize 0 at 1 as lc. generalize 0 as dc. revert st.
  induction lines as [|l lines IH]; intros st dc lc; cbn [foldl]; [done|].
  destruct (parse_line (fst l) (snd l) st) as [st' [[e|]|e]]; apply IH.
Qed.

Lemma monitor_lines_fresh (seen0 : gset event_key) (s0 : PandasDataStore)
    (lines : list timed_line) (st : state) :
  batch_mode (snd st) = true →
  fresh_rows seen0 s0 (fst st) (seen_events (snd st)) →
  let st' := monitor_lines lines st in
  batch_mode (snd st') = true
  ∧ fresh_rows seen0 s0 (fst st') (seen_events (snd st')).
Proof.
  revert st. induction lines as [|[now line] lines IH]; intros [s p] Hb Hf;
    [done|].
  unfold monitor_lines in *. cbn [foldl fst snd] in *.
  destruct (parse_line_batch now line s p Hb) as [Hb' [[He Hs]|(q & Hq & Hst)]];
    cbn zeta in *.
  - apply IH; [done|]. rewrite Hs.
    destruct Hf as (rows & Hev & Hrest). exists rows. by rewrite He.
  - apply IH; [done|]. rewrite Hst. apply flush_batch_fresh. by rewrite Hq.
Qed.

(** A batch run appends events only, their signatures differ from one
    another, and none of them is a signature the store had for the log
    date before the run. *)
Lemma load_worker_fresh (today : Z) (lines : list timed_line) (log_date : string)
    (s : PandasDataStore) :
  let s' := fst (fst (fst (_load_worker today lines log_date s))) in
  ∃ rows,
    _events_list s' = _events_list s ++ rows
    ∧ NoDup (map key_of_row rows)
    ∧ ∀ r, r ∈ rows →
        key_of_row r ∉ get_all_existing_event_keys (Some log_date) s.
Proof.
  unfold _load_worker.
  set (seen0 := get_all_existing_event_keys (Some log_date) s).
  set (p0 := start_batch_mode seen0 (set_log_date log_date (new_parser today))).
  pose proof (load_lines_state lines (s, p0)) as Hst.
  destruct (load_lines lines (s, p0)) as [[st lc] dc]. cbn [fst] in Hst.
  destruct (monitor_lines_fresh seen0 s lines (s, p0)) as [_ Hf].
  { done. }
  { exists []. cbn. rewrite app_nil_r. repeat split; [constructor| |].
    - intros k Hk. by apply elem_of_nil in Hk.
    - by rewrite (right_id_L ∅ (∪)). }
  cbn zeta in Hf. rewrite <- Hst in Hf. destruct st as [s1 p1].
  unfold end_batch_mode.
  pose proof (flush_batch_fresh seen0 s s1 (set_batch_mode false p1) Hf) as Hf'.
  cbn zeta in Hf'.
  destruct (_flush_batch (s1, set_batch_mode false p1)) as [[s2 p2] n].
  cbn [fst snd] in *. destruct Hf' as (rows & He & Hnd & Hnew & _).
  exists rows. split; [done|]. split; [done|].
  intros r Hr. apply Hnew. by apply list_elem_of_fmap_2.
Qed.

(** ** The scenario of the specification *)

Lemma parse_line_corpse (now : Z) (line ts name : string) (id : Z)
    (s : PandasDataStore) (p : LogParser) :
  corpse_line line (Some ts) id name →
  parse_line now line (s, p) =
    match parse_timestamp ts p with
    | (p1, Raise e) => ((s, p1), Raise e)
    | (p1, Ret t) => ((s, set_pending_corpse (id, name, t) p1), Ret None)
    end.
Proof.
  intros (Hne & Hc & Hz & Hg & Hm). unfold parse_line.
  rewrite Hne, Hc, Hz. cbn [negb].
  destruct (search CORPSE_PATTERN (strip line)) as [g|]; [|done].
  injection Hg as Hid Hname. unfold on_corpse.
  destruct (rmatch TIMESTAMP_PATTERN (strip line)) as [m|]; [|done].
  injection Hm as Hts. rewrite Hts, Hid, Hname. done.
Qed.

Lemma parse_timestamp_first (x : string) (tod : Z) (p : LogParser) :
  strptime_hms x = Some tod → last_timestamp p = None →
  parse_timestamp x p =
    (set_clock (current_date p) (combine (current_date p) tod) p,
     Ret (combine (current_date p) tod)).
Proof. intros Hx Hl. unfold parse_timestamp. by rewrite Hx, Hl. Qed.

Lemma parse_timestamp_later (x : string) (tod : Z) (p : LogParser) (l : Z) :
  strptime_hms x = Some tod → last_timestamp p = Some l →
  l ≤ combine (current_date p) tod →
  parse_timestamp x p =
    (set_clock (current_date p) (combine (current_date p) tod) p,
     Ret (combine (current_date p) tod)).
Proof.
  intros Hx Hl Hle. unfold parse_timestamp. rewrite Hx, Hl.
  by rewrite (proj2 (Z.ltb_ge _ _) Hle).
Qed.

Lemma scenario_zone_line : zone_line scenario_zone "10:00:00" "AreaForest".
Proof. repeat split; vm_compute; reflexivity. Qed.

Lemma scenario_wolf_line : corpse_line scenario_wolf (Some "10:00:05") 42 "Wolf".
Proof. repeat split; vm_compute; reflexivity. Qed.

Lemma scenario_bear_line : corpse_line scenario_bear (Some "10:00:10") 43 "Bear".
Proof. repeat split; vm_compute; reflexivity. Qed.

(** Evaluate the innermost call of [parse_line] in the goal. *)
Ltac eval_parse_line :=
  match goal with
  | |- context [parse_line ?n ?l (?s, ?p)] =>
      lazymatch s with context [parse_line] => fail | _ => idtac end;
      lazymatch p with context [parse_line] => fail | _ => idtac end;
      let r := eval vm_compute in (parse_line n l (s, p)) in
      replace (parse_line n l (s, p)) with r by (vm_compute; reflexivity);
      cbn [fst snd]
  end.

(** C4, for lines in the form the patterns accept.  Fed to a new parser
    over a new store, on any day, the six lines leave one zone entry,
    [AreaForest]; three events, for target 42 Alice with 60 and Bob with
    30, for target 43 Alice with 100; the zone query gives Alice with a
    total of 160 and 2 kills before Bob with 30 and 1 kill; and the combat
    window of the zone runs from 10:00:05 to 10:00:10, five seconds. *)
Theorem scenario_end_to_end (today n1 n2 n3 n4 n5 n6 : Z)
    (file : gmap string string) :
  let st := monitor_lines
              [(n1, scenario_zone); (n2, scenario_wolf); (n3, scenario_alice1);
               (n4, scenario_bob); (n5, scenario_bear); (n6, scenario_alice2)]
              (new_store file, new_parser today) in
  let s := fst st in
  map (λ z, (z_zone_id z, z_name z)) (_zones_list s) = [(1, "AreaForest")]
  ∧ map (λ e, (e_zone_id e, e_npc_id e, _get_original_name (e_player_id e) s,
               e_health_dmg e + e_armor_dmg e)) (_events_list s)
    = [(Some 1, 42, "Alice", 60); (Some 1, 42, "Bob", 30); (Some 1, 43, "Alice", 100)]
  ∧ map (λ r, (r_original_name r, r_total_dmg r, r_kills r)) (get_damage_by_zone 1 s)
    = [("Alice", 160, 2); ("Bob", 30, 1)]
  ∧ get_zone_combat_times 1 s
    = (Some (combine today 36005), Some (combine today 36010), 2)
  ∧ combine today 36010 - combine today 36005 = 5 * usec.
Proof.
  cbn zeta. unfold monitor_lines. cbn [foldl fst snd].
  (* the zone line *)
  rewrite (parse_line_zone _ _ _ _ _ scenario_zone_line).
  rewrite (on_zone_enter "10:00:00" "AreaForest" _ _ _ _
             (parse_timestamp_first "10:00:00" 36000 (new_parser today) eq_refl eq_refl)
             eq_refl).
  cbn [fst snd current_date new_parser].
  remember (combine today 36000) as T0 eqn:HT0.
  (* the first corpse line *)
  rewrite (parse_line_corpse _ _ _ _ _ _ _ scenario_wolf_line).
  erewrite (parse_timestamp_later "10:00:05" 36005 _ T0 eq_refl);
    [|reflexivity|subst T0; cbn; unfold combine, usec, day_seconds; lia].
  cbn [fst snd current_date batch_mode new_parser set_clock enter_zone put].
  remember (combine today 36005) as T5 eqn:HT5.
  eval_parse_line. eval_parse_line.
  (* the second corpse line *)
  rewrite (parse_line_corpse _ _ _ _ _ _ _ scenario_bear_line).
  erewrite (parse_timestamp_later "10:00:10" 36010 _ T5 eq_refl);
    [|reflexivity|subst T5; cbn; unfold combine, usec, day_seconds; lia].
  cbn [fst snd current_date set_clock].
  remember (combine today 36010) as T10 eqn:HT10.
  eval_parse_line.
  split; [vm_compute; reflexivity|].
  split; [vm_compute; reflexivity|].
  split; [vm_compute; reflexivity|].
  split.
  - cbv -[Z.min Z.max]. repeat f_equal.
    + subst. unfold combine, usec, day_seconds. lia.
    + subst. unfold combine, usec, day_seconds. lia.
  - subst. unfold combine, usec, day_seconds. lia.
Qed.

(** ** The store is written through its methods only *)

Lemma parser_steps_batch_players (names : list string) (s : PandasDataStore) :
  rtc parser_step s (fst (get_or_create_players_batch names s)).
Proof.
  unfold get_or_create_players_batch.
  generalize (∅ : gmap string Z) as acc. revert s.
  induction names as [|n names IH]; intros s acc; cbn [foldl]; [done|].
  destruct (get_or_create_player n s) as [s' id] eqn:Hg.
  eapply rtc_l; [|apply IH].
  replace s' with (fst (get_or_create_player n s)) by (by rewrite Hg).
  constructor.
Qed.

Lemma parser_steps_resolve_zone (d : option string) (e : DamageEvent)
    (fs : FlushState) :
  rtc parser_step (f_store fs) (f_store (fst (resolve_zone d e fs))).
Proof.
  unfold resolve_zone.
  destruct (truthy_id (zone_id e)); [done|].
  destruct (truthy_id (f_created fs !! _)); [done|].
  destruct (create_zone_entry _ _ _ _ _) as [s' z] eqn:Hc. cbn [fst f_store].
  apply rtc_once.
  replace s' with (fst (create_zone_entry (zone_name e) (character_name e)
                          (timestamp e) d (f_store fs))) by (by rewrite Hc).
  constructor.
Qed.

Lemma parser_steps_flush_event (pids : gmap string Z) (d : option string)
    (fs : FlushState) (e : DamageEvent) :
  rtc parser_step (f_store fs) (f_store (flush_event pids d fs e)).
Proof.
  unfold flush_event.
  destruct (pids !! player_name e) as [pid|]; [|done].
  destruct (pid =? 0); [done|].
  pose proof (parser_steps_resolve_zone d e fs) as Hr.
  destruct (resolve_zone d e fs) as [fs1 [zid|]]; cbn [fst] in Hr; [|done].
  destruct (zid =? 0); [done|].
  by destruct (bool_decide _).
Qed.

Lemma parser_steps_flush_fold (pids : gmap string Z) (d : option string)
    (events : list DamageEvent) (fs : FlushState) :
  rtc parser_step (f_store fs) (f_store (foldl (flush_event pids d) fs events)).
Proof.
  revert fs. induction events as [|e events IH]; intros fs; cbn [foldl]; [done|].
  etrans; [apply parser_steps_flush_event|apply IH].
Qed.

Lemma parser_steps_flush_batch (s : PandasDataStore) (p : LogParser) :
  rtc parser_step s (fst (fst (_flush_batch (s, p)))).
Proof.
  unfold _flush_batch.
  destruct (pending_events p) as [|e0 evs] eqn:Hpe; [done|].
  pose proof (parser_steps_batch_players
                (elements (list_to_set (C := gset string)
                             (map player_name (e0 :: evs)))) s) as H1.
  destruct (get_or_create_players_batch _ s) as [s1 pids]. cbn [fst] in H1.
  pose proof (parser_steps_flush_fold pids (log_date p) (e0 :: evs)
                {| f_store := s1; f_created := zones_created p;
                   f_seen := seen_events p; f_insert := [] |}) as H2.
  cbn [f_store] in H2.
  set (fs := foldl _ _ _) in *.
  destruct (insert_damage_events_batch (f_insert fs) (f_store fs)) as [s2 n] eqn:Hi.
  cbn [fst].
  etrans; [exact H1|]. etrans; [exact H2|].
  apply rtc_once.
  replace s2 with (fst (insert_damage_events_batch (f_insert fs) (f_store fs)))
    by (by rewrite Hi).
  constructor.
Qed.

Lemma parser_steps_parse_line (now : Z) (line : string) (st : state) :
  rtc parser_step (fst st) (fst (fst (parse_line now line st))).
Proof.
  destruct st as [s p].
  destruct (parse_line_cases now line (s, p))
    as [H|[[name H]|[(ts & z & _ & H)|[(g & _ & H)|[(g & c & _ & _ & H)|(g & _ & H)]]]]];
    rewrite H; cbn [fst].
  - done.
  - destruct (on_character_effect name s p) as (p' & -> & _). done.
  - unfold on_zone.
    destruct (parse_timestamp ts p) as [p1 [t|e]]; [|done].
    destruct (is_reload z t p1); [done|].
    destruct (create_zone_entry z (current_character p1) t (log_date p1) s)
      as [s' zid] eqn:Hc. cbn [fst].
    apply rtc_once.
    replace s' with (fst (create_zone_entry z (current_character p1) t
                            (log_date p1) s)) by (by rewrite Hc).
    constructor.
  - destruct (on_corpse_effect now (strip line) g s p) as (p' & r & -> & _). done.
  - destruct (on_damage g c (s, p)) as [st' r] eqn:Hd.
    destruct (on_damage_effect g c s p st' r Hd)
      as [[-> _]|(ev & _ & _ & _ & [[_ [->| ->]]|(_ & Hs & _)])]; cbn [fst].
    + done.
    + done.
    + apply parser_steps_flush_batch.
    + rewrite Hs. apply rtc_once. constructor.
  - destruct (on_wisdom_effect g s p) as (s' & -> & _ & [->|(zid & a & _ & ->)]);
      cbn [fst]; [done|].
    apply rtc_once. constructor.
Qed.

Lemma parser_step_store (s s' : PandasDataStore) :
  parser_step s s' → store_step s s'.
Proof. destruct 1; constructor. Qed.

Lemma parser_steps_store (s s' : PandasDataStore) :
  rtc parser_step s s' → rtc store_step s s'.
Proof.
  induction 1 as [|s1 s2 s3 H _ IH]; [done|].
  eapply rtc_l; [by apply parser_step_store|done].
Qed.

Lemma store_steps_flush_batch (s : PandasDataStore) (p : LogParser) :
  rtc store_step s (fst (fst (_flush_batch (s, p)))).
Proof. apply parser_steps_store, parser_steps_flush_batch. Qed.

Lemma store_steps_parse_line (now : Z) (line : string) (st : state) :
  rtc store_step (fst st) (fst (fst (parse_line now line st))).
Proof. apply parser_steps_store, parser_steps_parse_line. Qed.

Lemma store_steps_apply_op (o : op) (st : state) :
  rtc store_step (fst st) (fst (apply_op o st)).
Proof.
  destruct st as [s p]. destruct o; cbn [apply_op fst].
  - apply rtc_once. constructor.
  - apply rtc_once. constructor.
  - apply (store_steps_parse_line _ _ (s, p)).
  - apply store_steps_flush_batch.
  - done.
  - unfold end_batch_mode.
    pose proof (store_steps_flush_batch s (set_batch_mode false p)) as H.
    destruct (_flush_batch (s, set_batch_mode false p)) as [[s' p'] n].
    exact H.
  - apply rtc_once. constructor.
  - apply rtc_once. constructor.
  - apply rtc_once. constructor.
  - apply rtc_once. constructor.
  - apply rtc_once. constructor.
  - done.
  - done.
Qed.

Lemma store_steps_run_ops (ops : list op) (st : state) :
  rtc store_step (fst st) (fst (run_ops ops st)).
Proof.
  unfold run_ops. revert st.
  induction ops as [|o ops IH]; intros st; cbn [foldl]; [done|].
  etrans; [apply store_steps_apply_op|apply IH].
Qed.

(** ** Players: the list and its indices *)

Lemma NoDup_map_eq {A B} (f : A → B) (l : list A) (x y : A) :
  NoDup (map f l) → x ∈ l → y ∈ l → f x = f y → x = y.
Proof.
  induction l as [|a l IH]; intros Hnd Hx Hy Hf.
  - by apply elem_of_nil in Hx.
  - cbn in Hnd. apply NoDup_cons in Hnd as [Ha Hnd].
    apply elem_of_cons in Hx as [->|Hx]; apply elem_of_cons in Hy as [->|Hy].
    + done.
    + destruct Ha. rewrite Hf. apply list_elem_of_fmap. by exists y.
    + destruct Ha. rewrite <- Hf. apply list_elem_of_fmap. by exists x.
    + by apply IH.
Qed.

Lemma players_ok_new (file : gmap string string) : players_ok (new_store file).
Proof.
  unfold players_ok, new_store; cbn.
  split; [constructor|]. split; [constructor|]. split; [lia|].
  split; [constructor|]. split.
  - intros name id. rewrite lookup_empty. split; [done|].
    intros (r & Hr & _). by apply elem_of_nil in Hr.
  - intros id info. rewrite lookup_empty. split; [done|].
    intros Hr. by apply elem_of_nil in Hr.
Qed.

Lemma players_ok_frame (s s' : PandasDataStore) :
  _players_list s' = _players_list s →
  _player_name_to_id s' = _player_name_to_id s →
  _player_id_to_info s' = _player_id_to_info s →
  _next_player_id s' = _next_player_id s →
  players_ok s → players_ok s'.
Proof. unfold players_ok. intros -> -> -> ->. done. Qed.

Lemma players_ok_add (name : string) (s : PandasDataStore) :
  _player_name_to_id s !! name = None →
  players_ok s → players_ok (fst (add_player name s)).
Proof.
  intros Hnone (Hids & Hnames & Hpos & Hlt & Hn2i & Hi2n).
  assert (∀ r, r ∈ _players_list s → p_player_id r ≠ _next_player_id s) as Hfresh.
  { intros r Hr. rewrite Forall_forall in Hlt. specialize (Hlt r Hr). lia. }
  assert (∀ r, r ∈ _players_list s → p_original_name r ≠ name) as Hnew.
  { intros r Hr Heq.
    assert (_player_name_to_id s !! name = Some (p_player_id r)) as Hs
      by (apply Hn2i; by exists r).
    congruence. }
  unfold players_ok, add_player; cbn [fst _players_list _player_name_to_id
    _player_id_to_info _next_player_id].
  split; [|split; [|split; [|split; [|split]]]].
  - rewrite map_app. cbn. apply NoDup_app. split; [done|]. split.
    + intros x Hx Hx'. apply list_elem_of_singleton in Hx'. subst x.
      apply list_elem_of_fmap in Hx as (r & Hr1 & Hr2). by apply (Hfresh r).
    + apply NoDup_singleton.
  - rewrite map_app. cbn. apply NoDup_app. split; [done|]. split.
    + intros x Hx Hx'. apply list_elem_of_singleton in Hx'. subst x.
      apply list_elem_of_fmap in Hx as (r & Hr1 & Hr2). by apply (Hnew r).
    + apply NoDup_singleton.
  - lia.
  - apply Forall_app. split.
    + eapply Forall_impl; [exact Hlt|]. cbn. intros r ?. lia.
    + constructor; [cbn; lia|constructor].
  - intros n id. destruct (decide (n = name)) as [->|Hne].
    + rewrite lookup_insert_eq. split.
      * intros [= <-]. eexists. split; [apply elem_of_app; right; by left|done].
      * intros (r & Hr & Hrn & Hri). apply elem_of_app in Hr as [Hr|Hr].
        -- by destruct (Hnew r Hr).
        -- apply list_elem_of_singleton in Hr. subst r. cbn in Hri. by subst.
    + rewrite lookup_insert_ne by done. rewrite Hn2i. split.
      * intros (r & Hr & ?). exists r. split; [apply elem_of_app; by left|done].
      * intros (r & Hr & Hrn & Hri). apply elem_of_app in Hr as [Hr|Hr].
        -- by exists r.
        -- apply list_elem_of_singleton in Hr. subst r. cbn in Hrn. congruence.
  - intros id info. destruct (decide (id = _next_player_id s)) as [->|Hne].
    + rewrite lookup_insert_eq. split.
      * intros [= <-]. cbn. apply elem_of_app; right; by left.
      * intros Hr. apply elem_of_app in Hr as [Hr|Hr].
        -- by destruct (Hfresh _ Hr).
        -- apply list_elem_of_singleton in Hr. injection Hr as Hn Ha.
           destruct info; cbn in *. by subst.
    + rewrite lookup_insert_ne by done. rewrite Hi2n. split.
      * intros Hr. apply elem_of_app; by left.
      * intros Hr. apply elem_of_app in Hr as [Hr|Hr]; [done|].
        apply list_elem_of_singleton in Hr. injection Hr as Hid _ _. congruence.
Qed.

Lemma players_ok_get_or_create (name : string) (s : PandasDataStore) :
  players_ok s → players_ok (fst (get_or_create_player name s)).
Proof.
  intros Hok. unfold get_or_create_player.
  destruct (_player_name_to_id s !! name) eqn:Hl; [done|].
  by apply players_ok_add.
Qed.

Lemma set_first_alias_ids (id : Z) (a : option string) (l : list PlayerRow) :
  map p_player_id (set_first_alias id a l) = map p_player_id l
  ∧ map p_original_name (set_first_alias id a l) = map p_original_name l.
Proof.
  induction l as [|r l [IH1 IH2]]; [done|]. cbn.
  destruct (p_player_id r =? id); cbn; [done|]. by rewrite IH1, IH2.
Qed.

Lemma set_first_alias_elem (id : Z) (a : option string) (l : list PlayerRow)
    (r : PlayerRow) :
  NoDup (map p_player_id l) →
  r ∈ set_first_alias id a l
  ↔ (p_player_id r ≠ id ∧ r ∈ l)
    ∨ (p_player_id r = id ∧ p_alias r = a
       ∧ ∃ r0, r0 ∈ l ∧ p_player_id r0 = id
               ∧ p_original_name r0 = p_original_name r).
Proof.
  induction l as [|x l IH]; intros Hnd.
  - cbn. split.
    + intros H. by apply elem_of_nil in H.
    + intros [[_ H]|(_ & _ & r0 & H & _)]; by apply elem_of_nil in H.
  - cbn in Hnd. apply NoDup_cons in Hnd as [Hx Hnd]. specialize (IH Hnd).
    cbn. destruct (p_player_id x =? id) eqn:He.
    + apply Z.eqb_eq in He.
      assert (∀ y, y ∈ l → p_player_id y ≠ id) as Hother.
      { intros y Hy Hyid. apply Hx. rewrite He, <- Hyid.
        apply list_elem_of_fmap. by exists y. }
      rewrite elem_of_cons. split.
      * intros [->|Hr].
        -- right. cbn. split; [done|]. split; [done|].
           exists x. split; [by left|done].
        -- left. split; [by apply Hother|by right].
      * intros [[Hne Hr]|(Hid & Ha & r0 & Hr0 & Hr0id & Hr0n)].
        -- apply elem_of_cons in Hr as [->|Hr]; [congruence|by right].
        -- apply elem_of_cons in Hr0 as [->|Hr0]; [|by destruct (Hother r0 Hr0)].
           left. destruct r; cbn in *. unfold set_row_alias. by subst.
    + apply Z.eqb_neq in He. rewrite elem_of_cons, IH. split.
      * intros [->|[[Hne Hr]|(Hid & Ha & r0 & Hr0 & Hr0id & Hr0n)]].
        -- left. split; [done|by left].
        -- left. split; [done|by right].
        -- right. split; [done|]. split; [done|]. exists r0. split; [by right|done].
      * intros [[Hne Hr]|(Hid & Ha & r0 & Hr0 & Hr0id & Hr0n)].
        -- apply elem_of_cons in Hr as [->|Hr]; [by left|right; left; done].
        -- apply elem_of_cons in Hr0 as [->|Hr0]; [congruence|].
           right; right. split; [done|]. split; [done|]. by exists r0.
Qed.

Lemma players_ok_alias (player_id : Z) (alias : string) (s : PandasDataStore) :
  players_ok s → players_ok (update_player_alias player_id alias s).
Proof.
  intros Hok. unfold update_player_alias.
  destruct (_player_id_to_info s !! player_id) as [info|] eqn:Hinfo; [|done].
  destruct Hok as (Hids & Hnames & Hpos & Hlt & Hn2i & Hi2n).
  set (a := if nonempty alias then Some alias else None).
  pose proof (proj1 (Hi2n _ _) Hinfo) as Hrow.
  destruct (set_first_alias_ids player_id a (_players_list s)) as [E1 E2].
  unfold players_ok; cbn [_players_list _player_name_to_id _player_id_to_info
    _next_player_id].
  split; [by rewrite E1|]. split; [by rewrite E2|]. split; [done|].
  split; [|split].
  - apply Forall_forall. intros r Hr.
    assert (p_player_id r ∈ map p_player_id (_players_list s)) as Hin.
    { rewrite <- E1. apply list_elem_of_fmap. by exists r. }
    apply list_elem_of_fmap in Hin as (r' & Hr'1 & Hr'2).
    rewrite Forall_forall in Hlt. specialize (Hlt r' Hr'2). lia.
  - intros n id. rewrite Hn2i. split.
    + intros (r & Hr & Hrn & Hri).
      destruct (decide (p_player_id r = player_id)) as [He|Hne].
      * exists (set_row_alias a r). split; [|done].
        apply set_first_alias_elem; [done|]. right. cbn.
        split; [done|]. split; [done|]. by exists r.
      * exists r. split; [|done]. apply set_first_alias_elem; [done|]. by left.
    + intros (r & Hr & Hrn & Hri).
      apply set_first_alias_elem in Hr as [[Hne Hr]|(Hid & Ha & r0 & Hr0 & Hr0id & Hr0n)];
        [|by exists r0; split; [done|split; congruence]|done].
      by exists r.
  - intros id i.
    rewrite set_first_alias_elem by done. cbn [p_player_id p_alias p_original_name].
    destruct (decide (id = player_id)) as [->|Hne].
    + rewrite lookup_insert_eq. split.
      * intros [= <-]. right. cbn. split; [done|]. split; [done|].
        eexists. split; [exact Hrow|done].
      * intros [[Hne _]|(_ & Ha & r0 & Hr0 & Hr0id & Hr0n)]; [done|].
        assert (r0 = {| p_player_id := player_id; p_original_name := pi_name info;
                        p_alias := pi_alias info |}) as ->.
        { by apply (NoDup_map_eq p_player_id (_players_list s)). }
        cbn in Hr0n. destruct i; cbn in *. by subst.
    + rewrite lookup_insert_ne by done. rewrite Hi2n. split.
      * intros Hr. by left.
      * intros [[_ Hr]|(Hid & _)]; done.
Qed.

Lemma create_zone_entry_players (name : string) (c : option string) (t : Z)
    (d : option string) (s : PandasDataStore) :
  let s' := fst (create_zone_entry name c t d s) in
  _players_list s' = _players_list s
  ∧ _player_name_to_id s' = _player_name_to_id s
  ∧ _player_id_to_info s' = _player_id_to_info s
  ∧ _next_player_id s' = _next_player_id s
  ∧ _events_list s' = _events_list s
  ∧ _next_event_id s' = _next_event_id s
  ∧ _aliases s' = _aliases s
  ∧ aliases_file s' = aliases_file s.
Proof.
  cbn zeta. unfold create_zone_entry, open_new_zone.
  destruct (open_zone_of s c) as [[i z]|]; [destruct (String.eqb _ _)|]; done.
Qed.

Lemma insert_damage_events_batch_frame (events : list EventTuple)
    (s : PandasDataStore) :
  let s' := fst (insert_damage_events_batch events s) in
  _players_list s' = _players_list s
  ∧ _player_name_to_id s' = _player_name_to_id s
  ∧ _player_id_to_info s' = _player_id_to_info s
  ∧ _next_player_id s' = _next_player_id s
  ∧ _zones_list s' = _zones_list s
  ∧ _zone_id_to_info s' = _zone_id_to_info s
  ∧ _next_zone_id s' = _next_zone_id s
  ∧ _aliases s' = _aliases s
  ∧ aliases_file s' = aliases_file s.
Proof.
  cbn zeta. unfold insert_damage_events_batch. cbn [fst]. revert s.
  induction events as [|e events IH]; intros s; cbn [foldl]; [done|].
  destruct (IH (push_event (row_of_tuple (_next_event_id s) e) s))
    as (-> & -> & -> & -> & -> & -> & -> & -> & ->). done.
Qed.

Lemma players_ok_step (s s' : PandasDataStore) :
  store_step s s' → players_ok s → players_ok s'.
Proof.
  intros Hstep Hok.
  destruct Hstep as [name s|pid alias s|name c t d s|event zid s|events s|zid amount s|s].
  - by apply players_ok_get_or_create.
  - by apply players_ok_alias.
  - destruct (create_zone_entry_players name c t d s) as (? & ? & ? & ? & _).
    by eapply players_ok_frame.
  - unfold insert_damage_event.
    destruct ((health_dmg event =? 0) && (armor_dmg event =? 0)); [done|].
    pose proof (players_ok_get_or_create (player_name event) s Hok) as H1.
    destruct (get_or_create_player (player_name event) s) as [s1 pid1].
    cbn [fst] in *. by eapply players_ok_frame; [..|exact H1].
  - destruct (insert_damage_events_batch_frame events s) as (? & ? & ? & ? & _).
    by eapply players_ok_frame.
  - by eapply players_ok_frame; [..|exact Hok].
  - destruct Hok as (_ & _ & Hpos & _).
    unfold players_ok, clear_all_data; cbn.
    split; [constructor|]. split; [constructor|]. split; [done|].
    split; [constructor|]. split.
    + intros name id. rewrite lookup_empty. split; [done|].
      intros (r & Hr & _). by apply elem_of_nil in Hr.
    + intros id info. rewrite lookup_empty. split; [done|].
      intros Hr. by apply elem_of_nil in Hr.
Qed.

Lemma players_ok_steps (s s' : PandasDataStore) :
  rtc store_step s s' → players_ok s → players_ok s'.
Proof. induction 1; eauto using players_ok_step. Qed.

(** ** Zones: one open zone for a character *)

Lemma find_open_Some (zones : list ZoneRow) (c : option string) (i : nat) :
  find_open zones c = Some i →
  ∃ z, zones !! i = Some z ∧ is_open_for c z = true
       ∧ ∀ j zj, zones !! j = Some zj → is_open_for c zj = true → (j ≤ i)%nat.
Proof.
  revert i. induction zones as [|z zones IH]; intros i; cbn; [done|].
  destruct (find_open zones c) as [k|] eqn:Hf.
  - intros [= <-]. destruct (IH k eq_refl) as (zk & Hk & Hopen & Hmax).
    exists zk. split; [done|]. split; [done|].
    intros [|j] zj Hj Ho; [lia|]. cbn in Hj. specialize (Hmax j zj Hj Ho). lia.
  - destruct (is_open_for c z) eqn:Ho; [|done]. intros [= <-].
    exists z. split; [done|]. split; [done|].
    intros [|j] zj Hj Hoj; [lia|]. cbn in Hj.
    exfalso. clear IH. revert j Hj Hf.
    induction zones as [|y zones IH]; intros j Hj Hf; [done|].
    cbn in Hf. destruct (find_open zones c) eqn:Hf'; [done|].
    destruct (is_open_for c y) eqn:Hy; [done|].
    destruct j as [|j]; cbn in Hj; [congruence|]. by eapply IH.
Qed.

Lemma find_open_None (zones : list ZoneRow) (c : option string) :
  find_open zones c = None → Forall (λ z, is_open_for c z = false) zones.
Proof.
  induction zones as [|z zones IH]; cbn; [constructor|].
  destruct (find_open zones c); [done|].
  destruct (is_open_for c z) eqn:Ho; [done|]. intros _. constructor; auto.
Qed.

Lemma zones_ok_new (file : gmap string string) : zones_ok (new_store file).
Proof.
  unfold zones_ok, new_store; cbn.
  split; [constructor|]. split; [lia|]. split; [constructor|]. split.
  - intros z Hz. by apply elem_of_nil in Hz.
  - intros c i j zi zj Hi. by rewrite lookup_nil in Hi.
Qed.

Lemma zones_ok_frame (s s' : PandasDataStore) :
  _zones_list s' = _zones_list s →
  _zone_id_to_info s' = _zone_id_to_info s →
  _next_zone_id s' = _next_zone_id s →
  zones_ok s → zones_ok s'.
Proof. unfold zones_ok. intros -> -> ->. done. Qed.

Lemma is_open_for_close (c : option string) (t : Z) (z : ZoneRow) :
  is_open_for c (close_zone t z) = false.
Proof. unfold is_open_for, close_zone; cbn. by rewrite andb_false_r. Qed.

Lemma is_open_for_char (c c' : option string) (z : ZoneRow) :
  is_open_for c z = true → is_open_for c' z = true → c = c'.
Proof.
  unfold is_open_for. intros [H1 _]%andb_true_iff [H2 _]%andb_true_iff.
  apply bool_decide_eq_true in H1, H2. congruence.
Qed.

Lemma StronglySorted_snoc_lt (l : list Z) (x : Z) :
  StronglySorted Z.lt l → Forall (λ y, y < x) l → StronglySorted Z.lt (l ++ [x]).
Proof.
  induction l as [|a l IH]; intros Hs Hf; cbn.
  - repeat constructor.
  - apply StronglySorted_inv in Hs as [Hs Ha].
    apply Forall_cons in Hf as [Hax Hf].
    constructor; [by apply IH|].
    apply Forall_app. split; [done|]. by constructor.
Qed.

Lemma sorted_lt_NoDup (l : list Z) : StronglySorted Z.lt l → NoDup l.
Proof.
  induction 1 as [|a l Hs IH Ha]; constructor; [|done].
  intros Hin. rewrite Forall_forall in Ha. specialize (Ha a Hin). lia.
Qed.

Lemma zones_ok_open_new (name : string) (c : option string) (t : Z)
    (d : option string) (s : PandasDataStore) :
  zones_ok s →
  zones_ok (fst (open_new_zone name c t d (open_zone_of s c) s)).
Proof.
  intros (Hsorted & Hpos & Hlt & Hidx & Hone).
  set (nz := {| z_zone_id := _next_zone_id s; z_name := name;
                z_character_name := c; z_entered_time := t;
                z_left_time := None; z_log_date := d |}).
  assert (is_open_for c nz = true) as Hnz.
  { unfold is_open_for, nz; cbn. by rewrite !bool_decide_eq_true_2. }
  assert (∀ z, z ∈ _zones_list s → z_zone_id z ≠ _next_zone_id s) as Hfresh.
  { intros z Hz. rewrite Forall_forall in Hlt. specialize (Hlt z Hz). lia. }
  unfold open_zone_of.
  destruct (find_open (_zones_list s) c) as [i|] eqn:Hf.
  - destruct (find_open_Some _ _ _ Hf) as (z & Hz & Hopen & Hmax).
    rewrite Hz. unfold open_new_zone, zones_ok.
    cbn [fst _zones_list _zone_id_to_info _next_zone_id]. fold nz.
    assert (map z_zone_id (alter (close_zone t) i (_zones_list s))
            = map z_zone_id (_zones_list s)) as Hids.
    { apply list_eq. intros j. rewrite !list_lookup_fmap, list_lookup_alter.
      destruct (decide (i = j)) as [<-|]; [|done]. by rewrite Hz. }
    assert (∀ z', z' ∈ alter (close_zone t) i (_zones_list s) →
                  ∃ z0, z0 ∈ _zones_list s ∧ z_zone_id z0 = z_zone_id z'
                        ∧ (z' = z0 ∧ z0 ≠ z ∨ z' = close_zone t z ∧ z0 = z)) as Hel.
    { intros z' Hz'. apply list_elem_of_lookup in Hz' as [j Hj].
      rewrite list_lookup_alter in Hj. destruct (decide (i = j)) as [<-|Hne].
      - rewrite Hz in Hj. injection Hj as <-. exists z.
        split; [by eapply list_elem_of_lookup_2|]. split; [done|]. by right.
      - exists z'. split; [by eapply list_elem_of_lookup_2|]. split; [done|].
        left. split; [done|]. intros ->.
        assert (NoDup (map z_zone_id (_zones_list s))) as Hnd
          by (by apply sorted_lt_NoDup).
        apply Hne. eapply NoDup_lookup; [exact Hnd|..].
        + rewrite list_lookup_fmap, Hz. done.
        + rewrite list_lookup_fmap, Hj. done. }
    split; [|split; [|split; [|split]]].
    + rewrite map_app, Hids. cbn. apply StronglySorted_snoc_lt; [done|].
      apply Forall_fmap. eapply Forall_impl; [exact Hlt|]. cbn. intros; lia.
    + lia.
    + apply Forall_app. split.
      * apply Forall_forall. intros z' Hz'.
        destruct (Hel z' Hz') as (z0 & Hz0 & <- & _).
        rewrite Forall_forall in Hlt. specialize (Hlt z0 Hz0). lia.
      * constructor; [cbn; lia|constructor].
    + intros z' Hz'. apply elem_of_app in Hz' as [Hz'|Hz'].
      * destruct (Hel z' Hz') as (z0 & Hz0 & Hid & Hcase).
        rewrite lookup_insert_ne by (cbn; rewrite <- Hid; intros E; by destruct (Hfresh z0 Hz0)).
        destruct Hcase as [[-> Hne]|[-> ->]].
        -- rewrite lookup_alter_ne; [by apply Hidx|].
           intros E. apply Hne.
           by apply (NoDup_map_eq z_zone_id (_zones_list s));
             [apply sorted_lt_NoDup|..|
              eapply list_elem_of_lookup_2|].
        -- cbn [close_zone z_zone_id]. rewrite lookup_alter_eq.
           rewrite (Hidx z) by (by eapply list_elem_of_lookup_2). done.
      * apply list_elem_of_singleton in Hz'. subst z'. cbn [nz z_zone_id].
        by rewrite lookup_insert_eq.
    + assert (∀ c' j zj, alter (close_zone t) i (_zones_list s) !! j = Some zj →
                is_open_for c' zj = true →
                _zones_list s !! j = Some zj ∧ c' ≠ c) as Hold.
      { intros c' j zj Hj Ho. rewrite list_lookup_alter in Hj.
        destruct (decide (i = j)) as [<-|Hne].
        - rewrite Hz in Hj. injection Hj as <-. by rewrite is_open_for_close in Ho.
        - split; [done|]. intros ->. apply Hne. by eapply Hone. }
      assert (length (alter (close_zone t) i (_zones_list s))
              = length (_zones_list s)) as Hlen by apply length_alter.
      intros c' j k zj zk Hj Hk Hoj Hok.
      apply lookup_app_Some in Hj as [Hj|[Hj1 Hj2]];
        apply lookup_app_Some in Hk as [Hk|[Hk1 Hk2]].
      * destruct (Hold _ _ _ Hj Hoj) as [Hj' _].
        destruct (Hold _ _ _ Hk Hok) as [Hk' _]. by eapply Hone.
      * destruct (Hold _ _ _ Hj Hoj) as [_ Hc'].
        apply list_lookup_singleton_Some in Hk2 as [_ <-].
        destruct Hc'. by apply (is_open_for_char c' c nz).
      * destruct (Hold _ _ _ Hk Hok) as [_ Hc'].
        apply list_lookup_singleton_Some in Hj2 as [_ <-].
        destruct Hc'. by apply (is_open_for_char c' c nz).
      * apply list_lookup_singleton_Some in Hj2 as [Hj2 _].
        apply list_lookup_singleton_Some in Hk2 as [Hk2 _]. lia.
  - pose proof (find_open_None _ _ Hf) as Hclosed.
    unfold open_new_zone, zones_ok.
    cbn [fst _zones_list _zone_id_to_info _next_zone_id]. fold nz.
    split; [|split; [|split; [|split]]].
    + rewrite map_app. cbn. apply StronglySorted_snoc_lt; [done|].
      apply Forall_fmap. eapply Forall_impl; [exact Hlt|]. cbn. intros; lia.
    + lia.
    + apply Forall_app. split.
      * eapply Forall_impl; [exact Hlt|]. cbn. intros; lia.
      * constructor; [cbn; lia|constructor].
    + intros z' Hz'. apply elem_of_app in Hz' as [Hz'|Hz'].
      * rewrite lookup_insert_ne by (cbn; intros E; by destruct (Hfresh z' Hz')).
        by apply Hidx.
      * apply list_elem_of_singleton in Hz'. subst z'. cbn [nz z_zone_id].
        by rewrite lookup_insert_eq.
    + intros c' j k zj zk Hj Hk Hoj Hok.
      assert (∀ j zj, _zones_list s !! j = Some zj → is_open_for c' zj = true →
                c' ≠ c) as Hother.
      { intros j0 z0 Hj0 Ho0 ->. rewrite Forall_forall in Hclosed.
        rewrite (Hclosed z0) in Ho0; [done|]. by eapply list_elem_of_lookup_2. }
      apply lookup_app_Some in Hj as [Hj|[Hj1 Hj2]];
        apply lookup_app_Some in Hk as [Hk|[Hk1 Hk2]].
      * by eapply Hone.
      * apply list_lookup_singleton_Some in Hk2 as [_ <-].
        destruct (Hother _ _ Hj Hoj). by apply (is_open_for_char c' c nz).
      * apply list_lookup_singleton_Some in Hj2 as [_ <-].
        destruct (Hother _ _ Hk Hok). by apply (is_open_for_char c' c nz).
      * apply list_lookup_singleton_Some in Hj2 as [Hj2 _].
        apply list_lookup_singleton_Some in Hk2 as [Hk2 _]. lia.
Qed.

Lemma zones_ok_create (name : string) (c : option string) (t : Z)
    (d : option string) (s : PandasDataStore) :
  zones_ok s → zones_ok (fst (create_zone_entry name c t d s)).
Proof.
  intros Hok. pose proof (zones_ok_open_new name c t d s Hok) as Hnew.
  unfold create_zone_entry.
  destruct (open_zone_of s c) as [[i z]|]; [|done].
  by destruct (String.eqb (z_name z) name).
Qed.

Lemma get_or_create_player_frame (name : string) (s : PandasDataStore) :
  let s' := fst (get_or_create_player name s) in
  _zones_list s' = _zones_list s
  ∧ _zone_id_to_info s' = _zone_id_to_info s
  ∧ _next_zone_id s' = _next_zone_id s
  ∧ _events_list s' = _events_list s
  ∧ _next_event_id s' = _next_event_id s
  ∧ _wisdom_list s' = _wisdom_list s
  ∧ _aliases s' = _aliases s
  ∧ aliases_file s' = aliases_file s.
Proof.
  cbn zeta. unfold get_or_create_player.
  by destruct (_player_name_to_id s !! name).
Qed.

Lemma update_player_alias_frame (player_id : Z) (alias : string)
    (s : PandasDataStore) :
  let s' := update_player_alias player_id alias s in
  _zones_list s' = _zones_list s
  ∧ _zone_id_to_info s' = _zone_id_to_info s
  ∧ _next_zone_id s' = _next_zone_id s
  ∧ _events_list s' = _events_list s
  ∧ _next_event_id s' = _next_event_id s
  ∧ _wisdom_list s' = _wisdom_list s.
Proof.
  cbn zeta. unfold update_player_alias.
  by destruct (_player_id_to_info s !! player_id).
Qed.

Lemma insert_damage_event_frame (event : DamageEvent) (zone_id : option Z)
    (s : PandasDataStore) :
  let s' := fst (insert_damage_event event zone_id s) in
  _zones_list s' = _zones_list s
  ∧ _zone_id_to_info s' = _zone_id_to_info s
  ∧ _next_zone_id s' = _next_zone_id s
  ∧ _wisdom_list s' = _wisdom_list s
  ∧ _aliases s' = _aliases s
  ∧ aliases_file s' = aliases_file s.
Proof.
  cbn zeta. unfold insert_damage_event.
  destruct ((health_dmg event =? 0) && (armor_dmg event =? 0)); [done|].
  destruct (get_or_create_player_frame (player_name event) s)
    as (? & ? & ? & _ & _ & ? & ? & ?).
  destruct (get_or_create_player (player_name event) s) as [s1 pid].
  cbn [fst] in *. done.
Qed.

Lemma zones_ok_step (s s' : PandasDataStore) :
  store_step s s' → zones_ok s → zones_ok s'.
Proof.
  intros Hstep Hok.
  destruct Hstep as [name s|pid alias s|name c t d s|event zid s|events s|zid amount s|s].
  - destruct (get_or_create_player_frame name s) as (? & ? & ? & _).
    by eapply zones_ok_frame.
  - destruct (update_player_alias_frame pid alias s) as (? & ? & ? & _).
    by eapply zones_ok_frame.
  - by apply zones_ok_create.
  - destruct (insert_damage_event_frame event zid s) as (? & ? & ? & _).
    by eapply zones_ok_frame.
  - destruct (insert_damage_events_batch_frame events s)
      as (_ & _ & _ & _ & ? & ? & ? & _).
    by eapply zones_ok_frame.
  - by eapply zones_ok_frame; [..|exact Hok].
  - destruct Hok as (_ & Hpos & _).
    unfold zones_ok, clear_all_data; cbn.
    split; [constructor|]. split; [done|]. split; [constructor|]. split.
    + intros z Hz. by apply elem_of_nil in Hz.
    + intros c i j zi zj Hi. by rewrite lookup_nil in Hi.
Qed.

Lemma zones_ok_steps (s s' : PandasDataStore) :
  rtc store_step s s' → zones_ok s → zones_ok s'.
Proof. induction 1; eauto using zones_ok_step. Qed.

Lemma open_zone_of_unique (s : PandasDataStore) (c : option string) (z : ZoneRow) :
  zones_ok s → z ∈ _zones_list s → is_open_for c z = true →
  ∃ i, open_zone_of s c = Some (i, z).
Proof.
  intros (_ & _ & _ & _ & Hone) Hz Ho.
  apply list_elem_of_lookup in Hz as [j Hj].
  unfold open_zone_of.
  destruct (find_open (_zones_list s) c) as [i|] eqn:Hf.
  - destruct (find_open_Some _ _ _ Hf) as (zi & Hi & Hoi & _).
    rewrite Hi. exists i.
    assert (i = j) as -> by (by eapply Hone). congruence.
  - pose proof (find_open_None _ _ Hf) as Hclosed.
    rewrite Forall_forall in Hclosed.
    rewrite (Hclosed z) in Ho; [done|]. by eapply list_elem_of_lookup_2.
Qed.

(** ** Events: identifiers *)

Lemma events_ok_new (file : gmap string string) : events_ok (new_store file).
Proof.
  unfold events_ok, new_store; cbn.
  split; [constructor|]. split; [lia|constructor].
Qed.

Lemma events_ok_frame (s s' : PandasDataStore) :
  _events_list s' = _events_list s →
  _next_event_id s' = _next_event_id s →
  events_ok s → events_ok s'.
Proof. unfold events_ok. intros -> ->. done. Qed.

Lemma events_ok_push (r : EventRow) (s : PandasDataStore) :
  e_event_id r = _next_event_id s → events_ok s → events_ok (push_event r s).
Proof.
  intros Hid (Hsorted & Hpos & Hlt).
  unfold events_ok, push_event; cbn [_events_list _next_event_id].
  split; [|split].
  - rewrite map_app. cbn. apply StronglySorted_snoc_lt; [done|].
    apply Forall_fmap. eapply Forall_impl; [exact Hlt|]. cbn. intros; lia.
  - lia.
  - apply Forall_app. split.
    + eapply Forall_impl; [exact Hlt|]. cbn. intros; lia.
    + constructor; [lia|constructor].
Qed.

Lemma events_ok_step (s s' : PandasDataStore) :
  store_step s s' → events_ok s → events_ok s'.
Proof.
  intros Hstep Hok.
  destruct Hstep as [name s|pid alias s|name c t d s|event zid s|events s|zid amount s|s].
  - destruct (get_or_create_player_frame name s) as (_ & _ & _ & ? & ? & _).
    by eapply events_ok_frame.
  - destruct (update_player_alias_frame pid alias s)
      as (_ & _ & _ & ? & ? & _).
    by eapply events_ok_frame.
  - destruct (create_zone_entry_players name c t d s)
      as (_ & _ & _ & _ & ? & ? & _).
    by eapply events_ok_frame.
  - unfold insert_damage_event.
    destruct ((health_dmg event =? 0) && (armor_dmg event =? 0)); [done|].
    destruct (get_or_create_player_frame (player_name event) s)
      as (_ & _ & _ & He & Hn & _).
    destruct (get_or_create_player (player_name event) s) as [s1 pid1].
    cbn [fst] in *. apply events_ok_push; [done|].
    by eapply events_ok_frame; [..|exact Hok].
  - unfold insert_damage_events_batch. cbn [fst]. revert s Hok.
    induction events as [|e events IH]; intros s Hok; cbn [foldl]; [done|].
    apply IH. by apply events_ok_push.
  - by eapply events_ok_frame; [..|exact Hok].
  - destruct Hok as (_ & Hpos & _).
    unfold events_ok, clear_all_data; cbn.
    split; [constructor|]. split; [done|constructor].
Qed.

Lemma events_ok_steps (s s' : PandasDataStore) :
  rtc store_step s s' → events_ok s → events_ok s'.
Proof. induction 1; eauto using events_ok_step. Qed.

Lemma players_ok_lookup (s : PandasDataStore) (name : string) (id : Z) :
  players_ok s → _player_name_to_id s !! name = Some id →
  ∃ info, _player_id_to_info s !! id = Some info ∧ pi_name info = name.
Proof.
  intros (_ & _ & _ & _ & Hn2i & Hi2n) Hl.
  apply Hn2i in Hl as (r & Hr & Hrn & Hri).
  exists {| pi_name := p_original_name r; pi_alias := p_alias r |}.
  split; [|done]. apply Hi2n. cbn. rewrite <- Hri. by destruct r.
Qed.

Lemma players_ok_inj (s : PandasDataStore) (name name' : string) (id : Z) :
  players_ok s → _player_name_to_id s !! name = Some id →
  _player_name_to_id s !! name' = Some id → name' = name.
Proof.
  intros (Hids & _ & _ & _ & Hn2i & _) H1 H2.
  apply Hn2i in H1 as (r & Hr & Hrn & Hri).
  apply Hn2i in H2 as (r' & Hr' & Hrn' & Hri').
  assert (r' = r) as -> by (apply (NoDup_map_eq p_player_id (_players_list s));
                            [done..|congruence]).
  congruence.
Qed.

(** X1.  Players keep one identifier each.  If the player list and its
    two indices agree ([players_ok]: no identifier and no name twice,
    identifiers positive and below the counter, both indices holding what
    the rows say), they still agree after any run of operations of the
    store and the parser, [clear_all_data] included.  In the store so
    reached [get_or_create_player(name)] returns an identifier that
    [_get_original_name] maps back to [name], a second call returns the
    same identifier and leaves the store as it is, and no other name gets
    that identifier. *)
Theorem players_index_kept (st : state) (ops : list op) :
  players_ok (fst st) →
  let s := fst (run_ops ops st) in
  players_ok s
  ∧ ∀ name,
      let r := get_or_create_player name s in
      _get_original_name (snd r) (fst r) = name
      ∧ get_or_create_player name (fst r) = r
      ∧ ∀ name', snd (get_or_create_player name' (fst r)) = snd r → name' = name.
Proof.
  intros Hst. cbn zeta.
  pose proof (players_ok_steps _ _ (store_steps_run_ops ops st) Hst) as Hok.
  split; [exact Hok|]. intros name.
  pose proof (players_ok_get_or_create name _ Hok) as Hok'.
  set (s := fst (run_ops ops st)) in *.
  assert (_player_name_to_id (fst (get_or_create_player name s)) !! name
          = Some (snd (get_or_create_player name s))) as Hname.
  { unfold get_or_create_player.
    destruct (_player_name_to_id s !! name) as [id|] eqn:Hl; [done|].
    cbn. by rewrite lookup_insert_eq. }
  set (r := get_or_create_player name s) in *.
  split; [|split].
  - destruct (players_ok_lookup _ _ _ Hok' Hname) as (info & Hinfo & Hn).
    unfold _get_original_name. by rewrite Hinfo.
  - unfold get_or_create_player at 1. rewrite Hname. by destruct r.
  - intros name' Hid. unfold get_or_create_player in Hid.
    destruct (_player_name_to_id (fst r) !! name') as [id'|] eqn:Hl'.
    + cbn in Hid. subst id'. by eapply players_ok_inj.
    + cbn in Hid. destruct Hok' as (_ & _ & _ & Hlt & Hn2i & _).
      apply Hn2i in Hname as (row & Hrow & _ & Hrid).
      rewrite Forall_forall in Hlt. specialize (Hlt row Hrow). lia.
Qed.

(** X2.  A character has at most one open zone.  If the zone list is in
    order ([zones_ok]: identifiers growing along the list, positive and
    below the counter, the index holding every row, at most one row of a
    character without [left_time]), it is still in order after any run of
    operations of the store and the parser.  In the store so reached an
    open zone of a character is the zone [get_current_zone_id] returns for
    that character, and the identifier [get_current_zone_id] returns is
    that of a row of the list that belongs to the character, has no
    [left_time] and is the entry of the index under that identifier. *)
Theorem one_open_zone_per_character (st : state) (ops : list op) :
  zones_ok (fst st) →
  let s := fst (run_ops ops st) in
  zones_ok s
  ∧ (∀ c z, z ∈ _zones_list s → is_open_for c z = true →
       get_current_zone_id c s = Some (z_zone_id z))
  ∧ (∀ c id, get_current_zone_id c s = Some id →
       ∃ z, z ∈ _zones_list s ∧ z_zone_id z = id
            ∧ z_character_name z = c ∧ z_left_time z = None
            ∧ _zone_id_to_info s !! id = Some z).
Proof.
  intros Hst. cbn zeta.
  pose proof (zones_ok_steps _ _ (store_steps_run_ops ops st) Hst) as Hok.
  split; [exact Hok|]. split.
  - intros c z Hz Ho.
    destruct (open_zone_of_unique _ _ _ Hok Hz Ho) as [i Hi].
    unfold get_current_zone_id. by rewrite Hi.
  - intros c id Hid. unfold get_current_zone_id, open_zone_of in Hid.
    destruct (find_open _ c) as [i|] eqn:Hf; [|done].
    destruct (find_open_Some _ _ _ Hf) as (z & Hz & Ho & _).
    rewrite Hz in Hid. cbn in Hid. injection Hid as <-.
    assert (z ∈ _zones_list (fst (run_ops ops st))) as Hin
      by (by eapply list_elem_of_lookup_2).
    exists z. split; [done|]. split; [done|].
    unfold is_open_for in Ho. apply andb_true_iff in Ho as [H1 H2].
    apply bool_decide_eq_true in H1, H2.
    split; [done|]. split; [done|].
    destruct Hok as (_ & _ & _ & Hidx & _). by apply Hidx.
Qed.

Lemma sorted_lt_length (l : list Z) (lo hi : Z) :
  StronglySorted Z.lt l → Forall (λ x, lo < x < hi) l → lo < hi →
  Z.of_nat (length l) ≤ hi - lo - 1.
Proof.
  revert lo. induction l as [|a l IH]; intros lo Hs Hf Hlo; cbn [length].
  - lia.
  - apply StronglySorted_inv in Hs as [Hs Ha].
    apply Forall_cons in Hf as [Hal Hf].
    assert (Z.of_nat (length l) ≤ hi - a - 1) as Hl.
    { apply IH; [done| |lia].
      rewrite Forall_forall in *. intros x Hx.
      specialize (Ha x Hx). specialize (Hf x Hx). lia. }
    lia.
Qed.

(** X3.  Event identifiers are never reused.  If the identifiers of the
    event list grow along the list, are positive and lie below
    [_next_event_id] ([events_ok]), this is still so after any run of
    operations of the store and the parser; so no two stored events have
    the same identifier, and the number of stored events is below the
    next identifier. *)
Theorem event_ids_never_reused (st : state) (ops : list op) :
  events_ok (fst st) →
  let s := fst (run_ops ops st) in
  events_ok s
  ∧ NoDup (map e_event_id (_events_list s))
  ∧ Z.of_nat (length (_events_list s)) < _next_event_id s.
Proof.
  intros Hst. cbn zeta.
  pose proof (events_ok_steps _ _ (store_steps_run_ops ops st) Hst) as Hok.
  split; [exact Hok|]. destruct Hok as (Hs & Hpos & Hlt).
  split; [by apply sorted_lt_NoDup|].
  pose proof (sorted_lt_length (map e_event_id (_events_list (fst (run_ops ops st))))
                0 (_next_event_id (fst (run_ops ops st))) Hs) as Hlen.
  rewrite length_map in Hlen.
  assert (Forall (λ x, 0 < x < _next_event_id (fst (run_ops ops st)))
            (map e_event_id (_events_list (fst (run_ops ops st))))) as Hf
    by (by apply Forall_fmap).
  specialize (Hlen Hf Hpos). lia.
Qed.

(** ** The matcher returns matches *)

Lemma strip_prefix_Some (p s s' : string) :
  strip_prefix p s = Some s' → s = String.append p s'.
Proof.
  revert s. induction p as [|a p IH]; intros s; cbn.
  - by intros [= ->].
  - destruct s as [|b s]; [done|].
    destruct (Ascii.eqb_spec a b) as [->|]; [|done].
    intros H. by rewrite (IH _ H).
Qed.

Lemma append_cons (a : ascii) (w s : string) :
  String.append (String a w) s = String a (String.append w s).
Proof. done. Qed.

Lemma append_nil (s : string) : String.append "" s = s.
Proof. done. Qed.

Lemma substring_prefix (w s : string) :
  String.substring 0 (String.length w) (String.append w s) = w.
Proof.
  induction w as [|a w IH].
  - rewrite append_nil. by destruct s.
  - rewrite append_cons. cbn. f_equal. exact IH.
Qed.

Lemma append_assoc (a b c : string) :
  String.append (String.append a b) c = String.append a (String.append b c).
Proof.
  induction a as [|x a IH]; [done|]. rewrite !append_cons. by rewrite IH.
Qed.

Lemma length_append (a b : string) :
  String.length (String.append a b) = (String.length a + String.length b)%nat.
Proof.
  induction a as [|x a IH]; [done|]. rewrite append_cons. cbn. by rewrite IH.
Qed.

Lemma rep_sound {A} (n : nat) (c : cls) (pos : nat) (s : string)
    (k : nat → string → option A) (x : A) :
  Re.rep n c pos s k = Some x →
  ∃ w s', s = String.append w s' ∧ String.length w = n ∧ all_cls c w = true
          ∧ k (pos + n)%nat s' = Some x.
Proof.
  revert pos s. induction n as [|n IH]; intros pos s; cbn.
  - intros H. exists "", s. rewrite Nat.add_0_r. done.
  - destruct s as [|a s]; [done|].
    destruct (cls_match c a) eqn:Ha; [|done].
    intros (w & s' & -> & Hlen & Hall & Hk)%IH.
    exists (String a w), s'. cbn. rewrite Ha, Hall, Hlen.
    replace (pos + S n)%nat with (S pos + n)%nat by lia. done.
Qed.

Lemma star_greedy_sound {A} (c : cls) (pos : nat) (s : string)
    (k : nat → string → option A) (x : A) :
  Re.star_greedy c pos s k = Some x →
  ∃ w s', s = String.append w s' ∧ all_cls c w = true
          ∧ k (pos + String.length w)%nat s' = Some x.
Proof.
  revert pos. induction s as [|a s IH]; intros pos; cbn.
  - intros H. exists "", "". rewrite Nat.add_0_r. done.
  - assert (k pos (String a s) = Some x →
            ∃ w s', String a s = String.append w s' ∧ all_cls c w = true
                    ∧ k (pos + String.length w)%nat s' = Some x) as Hhere.
    { intros H. exists "", (String a s). rewrite Nat.add_0_r. done. }
    destruct (cls_match c a) eqn:Ha; [|done].
    destruct (Re.star_greedy c (S pos) s k) as [y|] eqn:Hrec; [|done].
    intros [= ->]. apply IH in Hrec as (w & s' & -> & Hall & Hk).
    exists (String a w), s'. cbn. rewrite Ha, Hall.
    replace (pos + S (String.length w))%nat with (S pos + String.length w)%nat
      by lia. done.
Qed.

Lemma star_lazy_sound {A} (c : cls) (pos : nat) (s : string)
    (k : nat → string → option A) (x : A) :
  Re.star_lazy c pos s k = Some x →
  ∃ w s', s = String.append w s' ∧ all_cls c w = true
          ∧ k (pos + String.length w)%nat s' = Some x.
Proof.
  revert pos. induction s as [|a s IH]; intros pos; cbn.
  - destruct (k pos "") eqn:Hk; [|done]. intros [= ->].
    exists "", "". rewrite Nat.add_0_r. done.
  - destruct (k pos (String a s)) eqn:Hk.
    + intros [= ->]. exists "", (String a s). rewrite Nat.add_0_r. done.
    + destruct (cls_match c a) eqn:Ha; [|done].
      intros (w & s' & -> & Hall & Hk')%IH.
      exists (String a w), s'. cbn. rewrite Ha, Hall.
      replace (pos + S (String.length w))%nat with (S pos + String.length w)%nat
        by lia. done.
Qed.

(** Whatever the matcher hands to its continuation is a match of the
    pattern, the continuation getting the rest of the subject. *)
Lemma exec_sound {A} (r : regex) (pos : nat) (s : string) (g : groups)
    (k : nat → string → groups → option A) (x : A) :
  Re.exec r pos s g k = Some x →
  ∃ w s' g', s = String.append w s' ∧ matches r pos w g g'
             ∧ k (pos + String.length w)%nat s' g' = Some x.
Proof.
  revert pos s g k.
  induction r as [|l|n c|c|c|c|r1 IH1 r2 IH2|r IH|i r IH]; intros pos s g k; cbn.
  - destruct (Nat.eqb_spec pos 0) as [->|]; [|done].
    intros H. by exists "", s, g.
  - destruct (strip_prefix l s) as [s'|] eqn:Hs; [|done].
    apply strip_prefix_Some in Hs as ->. intros H. by exists l, s', g.
  - intros (w & s' & -> & Hlen & Hall & Hk)%rep_sound.
    exists w, s', g. by rewrite Hlen.
  - intros (w & s' & -> & Hall & Hk)%star_greedy_sound. by exists w, s', g.
  - destruct s as [|a s]; [done|].
    destruct (cls_match c a) eqn:Ha; [|done].
    intros (w & s' & -> & Hall & Hk)%star_greedy_sound.
    exists (String a w), s', g. cbn. rewrite Ha, Hall.
    replace (pos + S (String.length w))%nat with (S pos + String.length w)%nat
      by lia. done.
  - intros (w & s' & -> & Hall & Hk)%star_lazy_sound. by exists w, s', g.
  - intros (w1 & s1 & g1 & -> & H1 & (w2 & s2 & g2 & -> & H2 & Hk)%IH2)%IH1.
    exists (String.append w1 w2), s2, g2.
    rewrite append_assoc, length_append, Nat.add_assoc.
    split; [done|]. split; [|done]. by exists w1, w2, g1.
  - destruct (Re.exec r pos s g k) as [y|] eqn:Hr.
    + intros [= ->]. apply IH in Hr as (w & s' & g' & -> & Hm & Hk).
      exists w, s', g'. split; [done|]. split; [by left|done].
    + intros H. exists "", s, g. rewrite Nat.add_0_r.
      split; [done|]. split; [by right|done].
  - intros (w & s' & g' & -> & Hm & Hk)%IH.
    exists w, s', (<[i := w]> g'). split; [done|]. split; [by exists g'|].
    replace (pos + String.length w - pos)%nat with (String.length w) in Hk by lia.
    by rewrite substring_prefix in Hk.
Qed.

Lemma rmatch_sound (r : regex) (s : string) (g : groups) :
  rmatch r s = Some g →
  ∃ w s', s = String.append w s' ∧ matches r 0 w ∅ g.
Proof.
  unfold rmatch. intros (w & s' & g' & -> & Hm & [= ->])%exec_sound.
  by exists w, s'.
Qed.

Lemma search_sound (r : regex) (s : string) (g : groups) :
  search r s = Some g →
  ∃ pre w s', s = String.append pre (String.append w s')
              ∧ matches r (String.length pre) w ∅ g.
Proof.
  unfold search.
  assert (∀ pos t, search_from r pos t = Some g →
            ∃ pre w s', t = String.append pre (String.append w s')
                        ∧ matches r (pos + String.length pre) w ∅ g) as H.
  { intros pos t. revert pos. induction t as [|a t IH]; intros pos; cbn.
    - destruct (Re.exec r pos "" ∅ _) as [y|] eqn:He; [|done].
      intros [= ->]. apply exec_sound in He as (w & s' & g' & Hs & Hm & [= ->]).
      exists "", w, s'. rewrite Nat.add_0_r. done.
    - destruct (Re.exec r pos (String a t) ∅ _) as [y|] eqn:He.
      + intros [= ->]. apply exec_sound in He as (w & s' & g' & Hs & Hm & [= ->]).
        exists "", w, s'. rewrite Nat.add_0_r. done.
      + intros (pre & w & s' & -> & Hm)%IH.
        exists (String a pre), w, s'. cbn.
        replace (pos + S (String.length pre))%nat
          with (S pos + String.length pre)%nat by lia. done. }
  intros Hs. apply H in Hs as (pre & w & s' & -> & Hm). by exists pre, w, s'.
Qed.

Ltac inv_matches :=
  repeat match goal with
  | H : matches _ _ _ _ _ |- _ => cbn [matches] in H
  | H : ∃ _, _ |- _ => destruct H as [? H]
  | H : _ ∧ _ |- _ => destruct H as [? ?]
  end.

Lemma all_cls_length2 (c : cls) (w : string) :
  String.length w = 2%nat → all_cls c w = true →
  ∃ a b, w = String a (String b EmptyString)
         ∧ cls_match c a = true ∧ cls_match c b = true.
Proof.
  destruct w as [|a [|b [|? ?]]]; try done. cbn. intros _ H.
  apply andb_true_iff in H as [Ha H]. apply andb_true_iff in H as [Hb _].
  by exists a, b.
Qed.

Lemma matches_hms (pos : nat) (w : string) (g g' : groups) :
  matches hms pos w g g' → g' = g ∧ hms_shaped w.
Proof.
  unfold hms. intros H. inv_matches. subst.
  repeat match goal with
  | Hl : String.length ?w = 2%nat, Ha : all_cls CDigit ?w = true |- _ =>
      let a := fresh "d" in let b := fresh "d" in
      let Ha' := fresh "Hd" in let Hb' := fresh "Hd" in
      destruct (all_cls_length2 CDigit w Hl Ha) as (a & b & -> & Ha' & Hb');
      clear Hl Ha
  end.
  split; [done|]. unfold hms_shaped. do 6 eexists. split; [reflexivity|].
  cbn [cls_match] in *. cbn [forallb]. by rewrite Hd, Hd0, Hd1, Hd2, Hd3, Hd4.
Qed.

Lemma matches_stamp (pos : nat) (w : string) (g g' : groups) :
  matches stamp pos w g g' → ∃ ts, g' = <[1%nat := ts]> g ∧ hms_shaped ts.
Proof.
  unfold stamp. intros H. cbn [matches] in H.
  destruct H as (w1 & w2 & g1 & -> & (_ & -> & ->) & H).
  destruct H as (w1 & w3 & g1 & -> & (-> & ->) & H).
  destruct H as (w1 & w4 & g1 & -> & (g2 & Hh & ->) & (-> & ->)).
  apply matches_hms in Hh as [-> Hs]. by exists w1.
Qed.

Lemma matches_area (pos : nat) (w : string) (g g' : groups) :
  matches area pos w g g' →
  g' = g ∧ ∃ rest, w = String.append "Area" rest ∧ rest ≠ ""
                   ∧ all_cls CWord rest = true.
Proof.
  unfold area. cbn [matches].
  intros (w1 & w2 & g1 & -> & (-> & ->) & (Hne & Hall & ->)).
  split; [done|]. by exists w2.
Qed.

(** What a match of one of the three zone patterns has captured. *)
Lemma matches_zone_pattern (r : regex) (pos : nat) (w : string) (g : groups) :
  r ∈ zone_patterns → matches r pos w ∅ g →
  ∃ ts rest,
    group g 1 = ts ∧ hms_shaped ts
    ∧ group g 2 = String.append "Area" rest
    ∧ rest ≠ "" ∧ all_cls CWord rest = true.
Proof.
  unfold zone_patterns. intros Hr Hm.
  assert (∃ r' pos1 w1 w2 g1, matches stamp pos1 w1 ∅ g1
            ∧ matches (Grp 2 area) r' w2 g1 g) as (r' & pos1 & w1 & w2 & g1 & Hs & Ha).
  { rewrite !elem_of_cons, elem_of_nil in Hr.
    destruct Hr as [->|[->|[->|[]]]].
    - unfold ZONE_LOADING_PATTERN in Hm. cbn [matches] in Hm.
      destruct Hm as (w1 & ? & g1 & _ & Hs & (? & ? & ? & _ & (_ & ->) &
        (? & ? & ? & _ & (_ & ->) & Ha))).
      by eexists _, _, _, _, _.
    - unfold ZONE_INIT_PATTERN in Hm. cbn [matches] in Hm.
      destruct Hm as (w1 & ? & g1 & _ & Hs & (? & ? & ? & _ & (_ & ->) &
        (? & ? & ? & _ & (_ & ->) & (? & ? & ? & _ & (_ & ->) &
        (? & ? & ? & _ & (_ & ->) & (? & ? & ? & _ & (_ & ->) & Ha)))))).
      by eexists _, _, _, _, _.
    - unfold ZONE_C_INIT2_PATTERN in Hm. cbn [matches] in Hm.
      destruct Hm as (w1 & ? & g1 & _ & Hs & (? & ? & ? & _ & (_ & ->) &
        (? & ? & ? & _ & (_ & ->) & Ha))).
      by eexists _, _, _, _, _. }
  apply matches_stamp in Hs as (ts & -> & Hts).
  cbn [matches] in Ha. destruct Ha as (g2 & Ha & ->).
  apply matches_area in Ha as (-> & rest & -> & Hne & Hall).
  exists ts, rest. unfold group.
  rewrite lookup_insert_ne by done. rewrite !lookup_insert_eq. done.
Qed.

Lemma area_not_skipped (rest : string) :
  String.append "Area" rest ∉ SKIP_ZONES.
Proof.
  unfold SKIP_ZONES. rewrite !elem_of_cons, elem_of_nil.
  intros [H|[H|[H|[]]]]; discriminate H.
Qed.

(** X11.  Zone names and the skip list.  Whatever one of the three zone
    patterns finds in a line, the zone name it captures is [Area]
    followed by at least one word character, and the time string is two
    digits, a colon, two digits, a colon and two digits; so the name is
    never one of [SKIP_ZONES], the test [zone_name in SKIP_ZONES] of
    [parse_line] never holds, and the loop over the patterns stops at the
    first pattern that matches: it finds no zone only when none of the
    three patterns matches the line. *)
Theorem skip_zones_never_met (line : string) :
  (∀ pattern g, pattern ∈ zone_patterns → search pattern line = Some g →
     bool_decide (group g 2 ∈ SKIP_ZONES) = false
     ∧ hms_shaped (group g 1)
     ∧ ∃ rest, group g 2 = String.append "Area" rest ∧ rest ≠ ""
               ∧ all_cls CWord rest = true)
  ∧ match zone_match zone_patterns line with
    | Some (ts, z) =>
        hms_shaped ts
        ∧ (z ∉ SKIP_ZONES)
        ∧ (∃ rest, z = String.append "Area" rest ∧ rest ≠ ""
                   ∧ all_cls CWord rest = true)
        ∧ ∃ pattern g, pattern ∈ zone_patterns ∧ search pattern line = Some g
                       ∧ ts = group g 1 ∧ z = group g 2
    | None => ∀ pattern, pattern ∈ zone_patterns → search pattern line = None
    end.
Proof.
  assert (∀ pattern g, pattern ∈ zone_patterns → search pattern line = Some g →
            bool_decide (group g 2 ∈ SKIP_ZONES) = false
            ∧ hms_shaped (group g 1)
            ∧ ∃ rest, group g 2 = String.append "Area" rest ∧ rest ≠ ""
                      ∧ all_cls CWord rest = true) as Hpat.
  { intros pattern g Hin Hs.
    apply search_sound in Hs as (pre & w & s' & _ & Hm).
    destruct (matches_zone_pattern _ _ _ _ Hin Hm)
      as (ts & rest & <- & Hts & Hz & Hne & Hall).
    split; [|split; [done|by exists rest]].
    apply bool_decide_eq_false_2. rewrite Hz. apply area_not_skipped. }
  split; [exact Hpat|].
  assert (∀ ps, (∀ p, p ∈ ps → p ∈ zone_patterns) →
            match zone_match ps line with
            | Some (ts, z) =>
                ∃ pattern g, pattern ∈ ps ∧ search pattern line = Some g
                             ∧ ts = group g 1 ∧ z = group g 2
            | None => ∀ pattern, pattern ∈ ps → search pattern line = None
            end) as Hloop.
  { induction ps as [|p ps IH]; intros Hps; cbn [zone_match].
    - intros pattern Hin. by apply elem_of_nil in Hin.
    - assert (∀ p, p ∈ ps → p ∈ zone_patterns) as Hps'
        by (intros q Hq; apply Hps; by right).
      specialize (IH Hps').
      destruct (search p line) as [g|] eqn:Hs.
      + destruct (Hpat p g (Hps p ltac:(by left)) Hs) as (-> & _).
        exists p, g. split; [by left|done].
      + destruct (zone_match ps line) as [[ts z]|].
        * destruct IH as (q & g & Hq & Hg & -> & ->).
          exists q, g. split; [by right|done].
        * intros q [->|Hq]%elem_of_cons; [done|by apply IH]. }
  specialize (Hloop zone_patterns (λ _ H, H)).
  destruct (zone_match zone_patterns line) as [[ts z]|]; [|done].
  destruct Hloop as (p & g & Hp & Hg & -> & ->).
  destruct (Hpat p g Hp Hg) as (Hskip & Hts & rest & Hz & Hne & Hall).
  split; [done|]. split.
  { rewrite Hz. apply area_not_skipped. }
  split; [by exists rest|]. by exists p, g.
Qed.

(** ** What [parse_line] returns *)

Lemma parse_timestamp_error (x : string) (p p' : LogParser) (e : exn) :
  parse_timestamp x p = (p', Raise e) → e = ValueError ∧ p' = p.
Proof.
  unfold parse_timestamp. destruct (strptime_hms x); [|by intros [= <- <-]].
  by destruct (match last_timestamp p with Some _ => _ | None => _ end).
Qed.

Lemma on_zone_raise (ts z : string) (st st' : state) (e : exn) :
  on_zone ts z st = (st', Raise e) → e = ValueError ∧ st' = st.
Proof.
  destruct st as [s p]. unfold on_zone.
  destruct (parse_timestamp ts p) as [p1 [t|e']] eqn:Hp.
  - destruct (is_reload z t p1); [done|].
    by destruct (create_zone_entry _ _ _ _ _).
  - apply parse_timestamp_error in Hp as [-> ->]. by intros [= <- <-].
Qed.

Lemma on_corpse_raise (now : Z) (line : string) (g : groups) (st st' : state)
    (e : exn) :
  on_corpse now line g st = (st', Raise e) → e = ValueError ∧ st' = st.
Proof.
  destruct st as [s p]. unfold on_corpse.
  destruct (rmatch TIMESTAMP_PATTERN line) as [m|]; [|done].
  destruct (parse_timestamp (group m 1) p) as [p1 [t|e']] eqn:Hp; [done|].
  apply parse_timestamp_error in Hp as [-> ->]. by intros [= <- <-].
Qed.

Lemma on_damage_raise (g : groups) (c : Z * string * Z) (st st' : state)
    (e : exn) :
  on_damage g c st = (st', Raise e) → e = ValueError ∧ st' = st.
Proof.
  destruct st as [s p], c as [[id name] t]. unfold on_damage.
  destruct (match g !! 4%nat with Some _ => _ | None => _ end) as [a|];
    [|by intros [= <- <-]].
  destruct ((int_or_0 g 2 =? 0) && (int_or_0 g 3 =? 0)); [done|].
  destruct (batch_mode p).
  - destruct (BATCH_SIZE <=? _)%nat; [|done].
    by destruct (_flush_batch _) as [[? ?] ?].
  - by destruct (insert_damage_event _ _ _).
Qed.

(** X12.  Errors of [parse_line].  When [parse_line] raises, the
    exception is a [ValueError] (of [strptime] on a time out of range, or
    of [float] on an aggro figure that is no number), and neither the
    parser nor the store has been changed; the loops of [LogMonitor] and
    [BackgroundLoader], which catch it, go on with the next line from the
    state they had. *)
Theorem parse_line_error (now : Z) (line : string) (st : state) (e : exn) :
  snd (parse_line now line st) = Raise e →
  e = ValueError
  ∧ fst (parse_line now line st) = st
  ∧ (∀ rest, monitor_lines ((now, line) :: rest) st = monitor_lines rest st)
  ∧ (∀ rest, fst (fst (load_lines ((now, line) :: rest) st))
             = fst (fst (load_lines rest st))).
Proof.
  intros Hr.
  assert (e = ValueError ∧ fst (parse_line now line st) = st) as [-> Hst].
  { destruct (parse_line now line st) as [st' r] eqn:Hp. cbn [fst snd] in *.
    subst r.
    destruct (parse_line_cases now line st)
      as [H|[[name H]|[(ts & z & _ & H)|[(g & _ & H)|[(g & c & _ & _ & H)|(g & _ & H)]]]]];
      rewrite Hp in H.
    - done.
    - destruct st as [s p].
      destruct (on_character_effect name s p) as (p' & Hc & _). congruence.
    - symmetry in H. by apply on_zone_raise in H.
    - symmetry in H. by apply on_corpse_raise in H.
    - symmetry in H. by apply on_damage_raise in H.
    - destruct st as [s p].
      destruct (on_wisdom_effect g s p) as (s' & Hc & _). congruence. }
  split; [done|]. split; [done|]. split.
  - intros rest. unfold monitor_lines. cbn [foldl fst snd]. by rewrite Hst.
  - intros rest. rewrite !load_lines_state. unfold monitor_lines.
    cbn [foldl fst snd]. by rewrite Hst.
Qed.

Lemma int_acc_nonneg (s : string) (acc : Z) :
  all_cls CDigit s = true → 0 ≤ acc → 0 ≤ int_acc acc s.
Proof.
  revert acc. induction s as [|a s IH]; intros acc; cbn; [done|].
  intros [Ha Hs]%andb_true_iff Hacc. apply IH; [done|].
  pose proof (is_digit_val a Ha). lia.
Qed.

Lemma lstrip_first (s : string) (a : ascii) (t : string) :
  lstrip s = String a t → is_space a = false.
Proof.
  induction s as [|b s IH]; cbn; [done|].
  destruct (is_space b) eqn:Hb; [done|]. by intros [= <- <-].
Qed.

Lemma rstrip_first (a : ascii) (t : string) :
  is_space a = false → ∃ t', rstrip (String a t) = String a t'.
Proof.
  intros Ha. cbn. destruct (rstrip t); [|by eexists].
  rewrite Ha. by eexists.
Qed.

Lemma strip_first (s : string) (a : ascii) (t : string) :
  strip s = String a t → is_space a = false.
Proof.
  unfold strip. destruct (lstrip s) as [|b u] eqn:Hl; [done|].
  pose proof (lstrip_first _ _ _ Hl) as Hb.
  destruct (rstrip_first b u Hb) as [t' ->]. by intros [= <- <-].
Qed.

Lemma strip_nonspace (a : ascii) (t : string) :
  is_space a = false → ∃ t', strip (String a t) = String a t'.
Proof.
  intros Ha. unfold strip. cbn [lstrip]. rewrite Ha. by apply rstrip_first.
Qed.

Lemma all_cls_rstrip (c : cls) (s : string) :
  all_cls c s = true → all_cls c (rstrip s) = true.
Proof.
  induction s as [|a s IH]; cbn; [done|].
  intros [Ha Hs]%andb_true_iff. specialize (IH Hs).
  destruct (rstrip s); [|by cbn in *; rewrite Ha, IH].
  destruct (is_space a); cbn; [done|]. by rewrite Ha.
Qed.

Lemma all_cls_lstrip (c : cls) (s : string) :
  all_cls c s = true → all_cls c (lstrip s) = true.
Proof.
  induction s as [|a s IH]; cbn; [done|].
  intros [Ha Hs]%andb_true_iff.
  destruct (is_space a); [by apply IH|]. cbn. by rewrite Ha, Hs.
Qed.

Lemma all_cls_strip (c : cls) (s : string) :
  all_cls c s = true → all_cls c (strip s) = true.
Proof. intros H. unfold strip. by apply all_cls_rstrip, all_cls_lstrip. Qed.

(** What a match of the damage pattern at the start of a line has
    captured. *)
Lemma matches_damage (w : string) (g : groups) :
  matches DAMAGE_PATTERN 0 w ∅ g →
  (∃ name rest, g !! 1%nat = Some name ∧ name ≠ ""
                ∧ all_cls (CNot ":") name = true
                ∧ w = String.append name rest)
  ∧ (∀ x, g !! 2%nat = Some x → all_cls CDigit x = true)
  ∧ (∀ x, g !! 3%nat = Some x → all_cls CDigit x = true)
  ∧ (∀ x, g !! 4%nat = Some x → x ≠ "" ∧ all_cls CDigitDot x = true).
Proof.
  unfold DAMAGE_PATTERN. cbn [matches].
  intros (w0 & ? & g0 & -> & (_ & -> & ->) & H).
  destruct H as (name & ? & g1 & -> & (? & (Hne & Hall & ->) & ->) & H).
  destruct H as (? & ? & ? & -> & (_ & ->) & H).
  destruct H as (? & ? & ? & -> & (_ & ->) & H).
  destruct H as (? & ? & g2 & -> & H2 & H).
  destruct H as (? & ? & ? & -> & (_ & ->) & H).
  destruct H as (? & ? & g3 & -> & H3 & H4).
  assert (g2 = <[1%nat := name]> ∅
          ∨ ∃ d, all_cls CDigit d = true ∧ g2 = <[2%nat := d]> (<[1%nat := name]> ∅))
    as Hg2.
  { destruct H2 as [H2|[_ ->]]; [|by left]. right.
    destruct H2 as (d & ? & ? & _ & (? & (_ & Hd & ->) & ->) & H2).
    destruct H2 as (? & ? & ? & _ & (_ & _ & ->) & H2).
    destruct H2 as (? & ? & ? & _ & (_ & ->) & H2).
    destruct H2 as (? & ? & ? & _ & (_ & _ & ->) & (_ & ->)).
    by exists d. }
  assert (g3 = g2 ∨ ∃ d, all_cls CDigit d = true ∧ g3 = <[3%nat := d]> g2) as Hg3.
  { destruct H3 as [H3|[_ ->]]; [|by left]. right.
    destruct H3 as (d & ? & ? & _ & (? & (_ & Hd & ->) & ->) & H3).
    destruct H3 as (? & ? & ? & _ & (_ & _ & ->) & H3).
    destruct H3 as (? & ? & ? & _ & (_ & ->) & H3).
    destruct H3 as (? & ? & ? & _ & (_ & _ & ->) & (_ & ->)).
    by exists d. }
  assert (g = g3 ∨ ∃ d, d ≠ "" ∧ all_cls CDigitDot d = true
                        ∧ g = <[4%nat := d]> g3) as Hg4.
  { destruct H4 as [H4|[_ ->]]; [|by left]. right.
    destruct H4 as (? & ? & ? & _ & (_ & ->) & H4).
    destruct H4 as (? & ? & ? & _ & (_ & ->) & H4).
    destruct H4 as (? & ? & ? & _ & (_ & ->) & H4).
    destruct H4 as (? & ? & ? & _ & (_ & ->) & H4).
    destruct H4 as (? & ? & ? & _ & (_ & ->) & H4).
    destruct H4 as (d & ? & ? & _ & (? & (Hd1 & Hd2 & ->) & ->) & (_ & ->)).
    by exists d. }
  split.
  { exists name. eexists. split; [|split; [done|split; [done|]]].
    - destruct Hg2 as [->|(d2 & _ & ->)], Hg3 as [->|(d3 & _ & ->)],
        Hg4 as [->|(d4 & _ & _ & ->)]; by simplify_map_eq.
    - rewrite append_nil. reflexivity. }
  split; [|split].
  - intros v Hv.
    destruct Hg2 as [->|(d2 & ? & ->)], Hg3 as [->|(d3 & ? & ->)],
      Hg4 as [->|(d4 & ? & ? & ->)]; by simplify_map_eq.
  - intros v Hv.
    destruct Hg2 as [->|(d2 & ? & ->)], Hg3 as [->|(d3 & ? & ->)],
      Hg4 as [->|(d4 & ? & ? & ->)]; by simplify_map_eq.
  - intros v Hv.
    destruct Hg2 as [->|(d2 & ? & ->)], Hg3 as [->|(d3 & ? & ->)],
      Hg4 as [->|(d4 & ? & ? & ->)]; by simplify_map_eq.
Qed.

Lemma flush_batch_parser (s : PandasDataStore) (p : LogParser) :
  let p' := snd (fst (_flush_batch (s, p))) in
  p' = p ∨ ∃ seen created, p' = after_flush seen created p.
Proof.
  cbn zeta. unfold _flush_batch.
  destruct (pending_events p) as [|e0 evs]; [by left|].
  destruct (get_or_create_players_batch _ s) as [s1 pids].
  destruct (insert_damage_events_batch _ _) as [s2 n]. cbn [fst snd].
  right. by eexists _, _.
Qed.

Lemma parse_line_returns (now : Z) (line : string) (st : state) (e : DamageEvent) :
  snd (parse_line now line st) = Ret (Some e) →
  ∃ g c, nonempty (strip line) = true
         ∧ rmatch DAMAGE_PATTERN (strip line) = Some g
         ∧ pending_corpse (snd st) = Some c
         ∧ parse_line now line st = on_damage g c st.
Proof.
  unfold parse_line. destruct st as [s p].
  destruct (nonempty (strip line)) eqn:Hne; cbn [negb]; [|done].
  destruct (search CHARACTER_PATTERN (strip line)) as [m|].
  { destruct (on_character_effect (group m 1) s p) as (p' & -> & _). done. }
  destruct (zone_match zone_patterns (strip line)) as [[ts z]|].
  { destruct (on_zone_effect ts z s p) as (s' & p' & r & -> & _ & _ & _ & Hr).
    cbn [snd]. intros H. by destruct (Hr e). }
  destruct (search CORPSE_PATTERN (strip line)) as [m|].
  { destruct (on_corpse_effect now (strip line) m s p) as (p' & r & -> & Hr & _).
    cbn [snd]. intros H. by destruct (Hr e). }
  cbn [snd].
  destruct (rmatch DAMAGE_PATTERN (strip line)) as [g|] eqn:Hg.
  - destruct (pending_corpse p) as [c|] eqn:Hc.
    + intros _. by exists g, c.
    + destruct (search WISDOM_PATTERN (strip line)) as [m|]; [|done].
      destruct (on_wisdom_effect m s p) as (s' & -> & _). done.
  - destruct (search WISDOM_PATTERN (strip line)) as [m|]; [|done].
    destruct (on_wisdom_effect m s p) as (s' & -> & _). done.
Qed.

Lemma on_damage_event (g : groups) (c : Z * string * Z) (s : PandasDataStore)
    (p : LogParser) (st' : state) (e : DamageEvent) :
  on_damage g c (s, p) = (st', Ret (Some e)) →
  player_name e = strip (group g 1)
  ∧ health_dmg e = int_or_0 g 2
  ∧ armor_dmg e = int_or_0 g 3
  ∧ (npc_id e, npc_name e, timestamp e) = c
  ∧ zone_name e = match current_zone p with
                  | Some z => zi_name z
                  | None => "Unknown"
                  end
  ∧ character_name e = current_character p
  ∧ zone_id e = current_zone_id p
  ∧ ¬ (health_dmg e = 0 ∧ armor_dmg e = 0)
  ∧ pending_corpse (snd st') = pending_corpse p.
Proof.
  destruct c as [[id name] t]. unfold on_damage.
  destruct (match g !! 4%nat with Some _ => _ | None => _ end) as [a|]; [|done].
  destruct ((int_or_0 g 2 =? 0) && (int_or_0 g 3 =? 0)) eqn:Hz; [done|].
  assert (¬ (int_or_0 g 2 = 0 ∧ int_or_0 g 3 = 0)) as Hnz.
  { intros [H2 H3]. rewrite H2, H3 in Hz. done. }
  set (ev := {| player_name := strip (group g 1); health_dmg := int_or_0 g 2;
                armor_dmg := int_or_0 g 3; aggro_percent := a;
                npc_id := id; npc_name := name;
                zone_name := match current_zone p with
                             | Some z => zi_name z
                             | None => "Unknown"
                             end;
                timestamp := t; character_name := current_character p;
                zone_id := current_zone_id p |}).
  assert (∀ p', pending_corpse p' = pending_corpse p →
            ∀ s', ((s', p'), Ret (Some ev)) = (st', Ret (Some e)) →
            player_name e = strip (group g 1)
            ∧ health_dmg e = int_or_0 g 2
            ∧ armor_dmg e = int_or_0 g 3
            ∧ (npc_id e, npc_name e, timestamp e) = (id, name, t)
            ∧ zone_name e = match current_zone p with
                            | Some z => zi_name z
                            | None => "Unknown"
                            end
            ∧ character_name e = current_character p
            ∧ zone_id e = current_zone_id p
            ∧ ¬ (health_dmg e = 0 ∧ armor_dmg e = 0)
            ∧ pending_corpse (snd st') = pending_corpse p) as Hfin.
  { intros p' Hp' s' [= <- <-]. cbn [snd]. by repeat split. }
  destruct (batch_mode p).
  - destruct (BATCH_SIZE <=? _)%nat.
    + pose proof (flush_batch_parser s (push_pending ev p)) as Hfl.
      destruct (_flush_batch (s, push_pending ev p)) as [[s' p'] n].
      cbn [fst snd] in Hfl. apply Hfin.
      by destruct Hfl as [->|(seen & created & ->)].
    + by apply Hfin.
  - destruct (insert_damage_event ev (current_zone_id p) s) as [s' r].
    apply Hfin. by destruct (r =? -1).
Qed.

Lemma strip_group_name (line name rest : string) :
  nonempty (strip line) = true →
  strip line = String.append name rest → name ≠ "" →
  all_cls (CNot ":") name = true →
  strip name ≠ "" ∧ all_cls (CNot ":") (strip name) = true.
Proof.
  intros Hne Hl Hname Hall. split; [|by apply all_cls_strip].
  destruct name as [|a name]; [done|].
  rewrite append_cons in Hl. apply strip_first in Hl.
  destruct (strip_nonspace a name Hl) as [t' ->]. done.
Qed.

(** X13.  What a returned event is.  When [parse_line] returns an event,
    a corpse was pending, and the event has the identifier, the name and
    the time stamp of that corpse, the character, the zone identifier and
    the zone name ([Unknown] when there is none) the parser had; its
    health and armor damage are not negative and not both zero; its
    player name is not empty and has no colon; and the corpse is still
    pending afterwards, so the next damage line is counted for the same
    kill. *)
Theorem returned_event_fields (now : Z) (line : string) (st : state)
    (e : DamageEvent) :
  snd (parse_line now line st) = Ret (Some e) →
  pending_corpse (snd st) = Some (npc_id e, npc_name e, timestamp e)
  ∧ character_name e = current_character (snd st)
  ∧ zone_id e = current_zone_id (snd st)
  ∧ zone_name e = match current_zone (snd st) with
                  | Some z => zi_name z
                  | None => "Unknown"
                  end
  ∧ 0 ≤ health_dmg e ∧ 0 ≤ armor_dmg e ∧ 0 < health_dmg e + armor_dmg e
  ∧ player_name e ≠ ""
  ∧ all_cls (CNot ":") (player_name e) = true
  ∧ pending_corpse (snd (fst (parse_line now line st))) = pending_corpse (snd st).
Proof.
  intros Hr.
  destruct (parse_line_returns _ _ _ _ Hr) as (g & c & Hne & Hg & Hc & Hp).
  destruct st as [s p]. cbn [snd] in *.
  destruct (parse_line now line (s, p)) as [st' r] eqn:Hpl. cbn [fst snd] in *.
  subst r. symmetry in Hp.
  destruct (on_damage_event _ _ _ _ _ _ Hp)
    as (Hn & Hh & Ha & Hcorpse & Hzn & Hch & Hzid & Hnz & Hpc).
  apply rmatch_sound in Hg as (w & s' & Hline & Hm).
  apply matches_damage in Hm as ((name & rest & Hg1 & Hname & Hall & ->) & H2 & H3 & _).
  rewrite append_assoc in Hline.
  destruct (strip_group_name _ _ _ Hne Hline Hname Hall) as [Hsn Hsa].
  assert (0 ≤ int_or_0 g 2) as Hh0.
  { unfold int_or_0. destruct (g !! 2%nat) as [x|] eqn:Hx; [|done].
    destruct (nonempty x); [|done]. apply int_acc_nonneg; [by apply H2|done]. }
  assert (0 ≤ int_or_0 g 3) as Ha0.
  { unfold int_or_0. destruct (g !! 3%nat) as [x|] eqn:Hx; [|done].
    destruct (nonempty x); [|done]. apply int_acc_nonneg; [by apply H3|done]. }
  split; [by rewrite Hc, Hcorpse|]. split; [done|]. split; [done|].
  split; [done|]. split; [lia|]. split; [lia|]. split; [lia|].
  rewrite Hn. unfold group. rewrite Hg1. cbn [default]. done.
Qed.

(** ** The parser only adds to the store *)

Lemma zone_kept_refl (z : ZoneRow) : zone_kept z z.
Proof. by repeat split. Qed.

Lemma zone_kept_trans (z1 z2 z3 : ZoneRow) :
  zone_kept z1 z2 → zone_kept z2 z3 → zone_kept z1 z3.
Proof.
  intros (A1 & A2 & A3 & A4 & A5 & H1) (B1 & B2 & B3 & B4 & B5 & H2).
  repeat split; try congruence. intros t Ht. apply H2, H1, Ht.
Qed.

Lemma grown_refl (s : PandasDataStore) : grown s s.
Proof.
  unfold grown. repeat split; try done; try lia.
  intros i z Hz. exists z. split; [done|apply zone_kept_refl].
Qed.

Lemma grown_trans (s1 s2 s3 : PandasDataStore) :
  grown s1 s2 → grown s2 s3 → grown s1 s3.
Proof.
  intros (E1 & W1 & P1 & Z1 & N1 & C1 & C2 & C3 & A1 & F1)
         (E2 & W2 & P2 & Z2 & N2 & D1 & D2 & D3 & A2 & F2).
  unfold grown.
  split; [by etrans|]. split; [by etrans|]. split; [by etrans|].
  split.
  { intros i z Hz. destruct (Z1 i z Hz) as (z' & Hz' & K1).
    destruct (Z2 i z' Hz') as (z'' & Hz'' & K2).
    exists z''. split; [done|]. by eapply zone_kept_trans. }
  split; [by auto|].
  split; [lia|]. split; [lia|]. split; [lia|]. split; congruence.
Qed.

Lemma grown_get_or_create (name : string) (s : PandasDataStore) :
  grown s (fst (get_or_create_player name s)).
Proof.
  unfold get_or_create_player.
  destruct (_player_name_to_id s !! name) as [id|] eqn:Hl; [apply grown_refl|].
  unfold grown, add_player; cbn.
  split; [done|]. split; [done|]. split; [by apply prefix_app_r|].
  split.
  { intros i z Hz. exists z. split; [done|apply zone_kept_refl]. }
  split.
  { intros n id Hn. rewrite lookup_insert_ne; [done|]. congruence. }
  repeat split; try done; lia.
Qed.

Lemma grown_push_event (r : EventRow) (s : PandasDataStore) :
  grown s (push_event r s).
Proof.
  unfold grown, push_event; cbn.
  split; [by apply prefix_app_r|]. split; [done|]. split; [done|].
  split.
  { intros i z Hz. exists z. split; [done|apply zone_kept_refl]. }
  repeat split; try done; lia.
Qed.

Lemma grown_create_zone (name : string) (c : option string) (t : Z)
    (d : option string) (s : PandasDataStore) :
  grown s (fst (create_zone_entry name c t d s)).
Proof.
  assert (∀ o, (∀ i z, o = Some (i, z) →
                  _zones_list s !! i = Some z ∧ z_left_time z = None) →
            grown s (fst (open_new_zone name c t d o s))) as Hnew.
  { intros o Ho. unfold grown, open_new_zone.
    destruct o as [[i z]|]; cbn.
    - destruct (Ho i z eq_refl) as [Hz Hopen].
      split; [done|]. split; [done|]. split; [done|].
      split.
      { intros j zj Hj. destruct (decide (i = j)) as [<-|Hne].
        - exists (close_zone t z). split.
          + rewrite lookup_app_l by (rewrite length_alter; by eapply lookup_lt_Some).
            rewrite list_lookup_alter. rewrite decide_True by done.
            by rewrite Hz.
          + assert (zj = z) as -> by congruence.
            unfold zone_kept, close_zone; cbn. repeat split; try done.
            intros t'. by rewrite Hopen.
        - exists zj. split; [|apply zone_kept_refl].
          rewrite lookup_app_l by (rewrite length_alter; by eapply lookup_lt_Some).
          by rewrite list_lookup_alter_ne. }
      repeat split; try done; lia.
    - split; [done|]. split; [done|]. split; [done|].
      split.
      { intros j zj Hj. exists zj. split; [|apply zone_kept_refl].
        rewrite lookup_app_l by (by eapply lookup_lt_Some). done. }
      repeat split; try done; lia. }
  unfold create_zone_entry.
  destruct (open_zone_of s c) as [[i z]|] eqn:Ho.
  - destruct (String.eqb (z_name z) name); [apply grown_refl|].
    apply Hnew. intros i' z' [= <- <-].
    unfold open_zone_of in Ho.
    destruct (find_open (_zones_list s) c) as [k|] eqn:Hf; [|done].
    destruct (find_open_Some _ _ _ Hf) as (zk & Hk & Hok & _).
    rewrite Hk in Ho. injection Ho as <- <-. split; [done|].
    unfold is_open_for in Hok. apply andb_true_iff in Hok as [_ Hok].
    by apply bool_decide_eq_true in Hok.
  - apply Hnew. done.
Qed.

Lemma grown_step (s s' : PandasDataStore) : parser_step s s' → grown s s'.
Proof.
  intros Hstep.
  destruct Hstep as [name s|name c t d s|event zid s|events s|zid amount s].
  - apply grown_get_or_create.
  - apply grown_create_zone.
  - unfold insert_damage_event.
    destruct ((health_dmg event =? 0) && (armor_dmg event =? 0));
      [apply grown_refl|].
    pose proof (grown_get_or_create (player_name event) s) as H1.
    destruct (get_or_create_player (player_name event) s) as [s1 pid].
    cbn [fst] in *. eapply grown_trans; [exact H1|apply grown_push_event].
  - unfold insert_damage_events_batch. cbn [fst]. revert s.
    induction events as [|e events IH]; intros s; cbn [foldl]; [apply grown_refl|].
    eapply grown_trans; [apply grown_push_event|apply IH].
  - unfold grown, add_wisdom; cbn.
    split; [done|]. split; [by apply prefix_app_r|]. split; [done|].
    split.
    { intros i z Hz. exists z. split; [done|apply zone_kept_refl]. }
    repeat split; try done; lia.
Qed.

Lemma grown_steps (s s' : PandasDataStore) : rtc parser_step s s' → grown s s'.
Proof.
  induction 1 as [|s1 s2 s3 H _ IH]; [apply grown_refl|].
  eapply grown_trans; [by apply grown_step|done].
Qed.

Lemma parser_steps_monitor_lines (lines : list timed_line) (st : state) :
  rtc parser_step (fst st) (fst (monitor_lines lines st)).
Proof.
  unfold monitor_lines. revert st.
  induction lines as [|l lines IH]; intros st; cbn [foldl]; [done|].
  etrans; [apply parser_steps_parse_line|apply IH].
Qed.

Lemma parser_steps_load_worker (today : Z) (lines : list timed_line)
    (log_date : string) (s : PandasDataStore) :
  rtc parser_step s (fst (fst (fst (_load_worker today lines log_date s)))).
Proof.
  unfold _load_worker.
  set (p0 := start_batch_mode _ _).
  pose proof (parser_steps_monitor_lines lines (s, p0)) as H1.
  rewrite <- load_lines_state in H1.
  destruct (load_lines lines (s, p0)) as [[[s1 p1] lc] dc]. cbn [fst] in H1.
  unfold end_batch_mode.
  pose proof (parser_steps_flush_batch s1 (set_batch_mode false p1)) as H2.
  destruct (_flush_batch (s1, set_batch_mode false p1)) as [[s2 p2] n].
  cbn [fst] in *. by etrans.
Qed.

(** X14.  The parser only adds to the store.  Whatever lines the
    monitor loop ([LogMonitor]) or a load ([BackgroundLoader]) feeds to
    [parse_line], and whatever the state before, the store afterwards
    has all it had: the event rows, the wisdom awards and the player rows
    it had, unchanged and in front of the new ones; the zone rows it had
    at their places, changed at most by a [left_time] where there was
    none; every player name under the identifier it had; the three
    counters not lower than they were; and the aliases and the alias file
    as they were. *)
Theorem parser_only_adds (lines : list timed_line) (st : state) :
  grown (fst st) (fst (monitor_lines lines st))
  ∧ ∀ today log_date,
      grown (fst st) (fst (fst (fst (_load_worker today lines log_date (fst st))))).
Proof.
  split.
  - apply grown_steps, parser_steps_monitor_lines.
  - intros today log_date. apply grown_steps, parser_steps_load_worker.
Qed.

(** ** Streaming: what is returned is stored and queued *)

Lemma queued_damage_app (q q' : list QueueItem) :
  queued_damage (q ++ q') = queued_damage q ++ queued_damage q'.
Proof. unfold queued_damage. apply omap_app. Qed.

Lemma get_or_create_player_id (name : string) (s : PandasDataStore) :
  _player_name_to_id (fst (get_or_create_player name s)) !! name
  = Some (snd (get_or_create_player name s)).
Proof.
  unfold get_or_create_player.
  destruct (_player_name_to_id s !! name) as [id|] eqn:Hl; [done|].
  cbn. by rewrite lookup_insert_eq.
Qed.

Lemma streaming_line (now : Z) (line : string) (s : PandasDataStore)
    (p : LogParser) :
  batch_mode p = false → 0 < _next_event_id s →
  let r := parse_line now line (s, p) in
  batch_mode (snd (fst r)) = false
  ∧ match snd r with
    | Ret (Some e) =>
        ∃ row, _events_list (fst (fst r)) = _events_list s ++ [row]
               ∧ records (fst (fst r)) row e
               ∧ event_queue (snd (fst r)) = event_queue p ++ [QDamage e]
    | _ =>
        _events_list (fst (fst r)) = _events_list s
        ∧ queued_damage (event_queue (snd (fst r))) = queued_damage (event_queue p)
    end.
Proof.
  intros Hb Hpos. cbn zeta. unfold parse_line.
  destruct (nonempty (strip line)); cbn [negb]; [|done].
  destruct (search CHARACTER_PATTERN (strip line)) as [m|].
  { unfold on_character. cbn [batch_mode set_current_character]. rewrite Hb.
    cbn [fst snd put batch_mode event_queue]. split; [done|]. split; [done|].
    rewrite queued_damage_app. cbn. by rewrite app_nil_r. }
  destruct (zone_match zone_patterns (strip line)) as [[ts z]|].
  { unfold on_zone.
    destruct (parse_timestamp ts p) as [p1 [t|e]] eqn:Hp.
    - destruct (parse_timestamp_frame _ _ _ _ Hp)
        as (_ & _ & _ & _ & Hb1 & _ & _ & _ & _ & _ & Hq & _).
      destruct (is_reload z t p1).
      + cbn. rewrite Hb1, Hq. done.
      + destruct (create_zone_entry_players z (current_character p1) t
                    (log_date p1) s) as (_ & _ & _ & _ & He & _).
        destruct (create_zone_entry z (current_character p1) t (log_date p1) s)
          as [s' zid]. cbn [fst] in He.
        cbn [batch_mode enter_zone]. rewrite Hb1. rewrite Hb.
        cbn [fst snd put enter_zone batch_mode event_queue].
        rewrite ?Hb1, ?Hq, ?Hb.
        split; [done|]. split; [done|].
        rewrite queued_damage_app. cbn. by rewrite app_nil_r.
    - apply parse_timestamp_error in Hp as [_ ->]. done. }
  destruct (search CORPSE_PATTERN (strip line)) as [m|].
  { unfold on_corpse.
    destruct (rmatch TIMESTAMP_PATTERN (strip line)) as [m'|]; [|done].
    destruct (parse_timestamp (group m' 1) p) as [p1 [t|e]] eqn:Hp.
    - destruct (parse_timestamp_frame _ _ _ _ Hp)
        as (_ & _ & _ & _ & Hb1 & _ & _ & _ & _ & _ & Hq & _).
      cbn. by rewrite Hb1, Hq.
    - apply parse_timestamp_error in Hp as [_ ->]. done. }
  cbn [snd].
  assert (match search WISDOM_PATTERN (strip line) with
          | Some m => on_wisdom m (s, p)
          | None => ((s, p), Ret None)
          end = ((fst (fst (match search WISDOM_PATTERN (strip line) with
                            | Some m => on_wisdom m (s, p)
                            | None => ((s, p), Ret None)
                            end)), p), Ret None)
          ∧ _events_list (fst (fst (match search WISDOM_PATTERN (strip line) with
                            | Some m => on_wisdom m (s, p)
                            | None => ((s, p), Ret None)
                            end))) = _events_list s) as [Hw1 Hw2].
  { destruct (search WISDOM_PATTERN (strip line)) as [m|]; [|done].
    destruct (on_wisdom_effect m s p) as (s' & -> & He & _). done. }
  destruct (rmatch DAMAGE_PATTERN (strip line)) as [g|];
    [|rewrite Hw1; cbn [fst snd]; by rewrite Hw2].
  destruct (pending_corpse p) as [[[id name] t]|];
    [|rewrite Hw1; cbn [fst snd]; by rewrite Hw2].
  clear Hw1 Hw2. unfold on_damage.
  destruct (match g !! 4%nat with Some _ => _ | None => _ end) as [a|]; [|done].
  destruct ((int_or_0 g 2 =? 0) && (int_or_0 g 3 =? 0)) eqn:Hz; [done|].
  rewrite Hb. unfold insert_damage_event.
  cbn [health_dmg armor_dmg player_name]. rewrite Hz.
  pose proof (get_or_create_player_id (strip (group g 1)) s) as Hid.
  destruct (get_or_create_player_frame (strip (group g 1)) s)
    as (_ & _ & _ & He & Hn & _).
  destruct (get_or_create_player (strip (group g 1)) s) as [s1 pid].
  cbn [fst snd] in *. rewrite Hn.
  rewrite (proj2 (Z.eqb_neq _ _)) by lia.
  cbn [put batch_mode event_queue push_event _events_list]. rewrite Hb, He.
  split; [done|]. eexists. split; [reflexivity|]. split; [|done].
  unfold records. cbn. done.
Qed.

Lemma records_grown (s s' : PandasDataStore) (r : EventRow) (e : DamageEvent) :
  grown s s' → records s r e → records s' r e.
Proof.
  intros (_ & _ & _ & _ & Hn & _) [Hr Hp]. split; [done|]. by apply Hn.
Qed.

(** X15.  Streaming.  With batch mode off and a positive next event
    identifier, feeding lines through the monitor loop appends to the
    event list exactly one row for each event [parse_line] returns, in
    the order of the lines: the row has the figures of the event (target
    identifier and name, health and armor damage, aggro, time stamp,
    character, zone identifier), and its player identifier is the one
    the store has for the player name; and the queue gets exactly one
    [('damage', event)] item for each returned event, in the same
    order. *)
Theorem streaming_feed (lines : list timed_line) (st : state) :
  batch_mode (snd st) = false → 0 < _next_event_id (fst st) →
  let st' := monitor_lines lines st in
  ∃ rows,
    _events_list (fst st') = _events_list (fst st) ++ rows
    ∧ Forall2 (records (fst st')) rows (returned lines st)
    ∧ queued_damage (event_queue (snd st'))
      = queued_damage (event_queue (snd st)) ++ returned lines st.
Proof.
  cbn zeta. revert st.
  induction lines as [|[now line] lines IH]; intros [s p] Hb Hpos.
  - exists []. cbn. rewrite !app_nil_r. by repeat split.
  - unfold monitor_lines. cbn [foldl returned fst snd].
    pose proof (streaming_line now line s p Hb Hpos) as [Hb1 H1].
    pose proof (grown_steps _ _ (parser_steps_parse_line now line (s, p)))
      as Hg1.
    destruct (parse_line now line (s, p)) as [[s1 p1] r] eqn:Hpl.
    cbn [fst snd] in *.
    assert (0 < _next_event_id s1) as Hpos1.
    { destruct Hg1 as (_ & _ & _ & _ & _ & _ & _ & Hn & _). lia. }
    specialize (IH (s1, p1) Hb1 Hpos1). cbn [fst snd] in IH.
    destruct IH as (rows & He & Hrec & Hq).
    fold (monitor_lines lines (s1, p1)).
    assert (_events_list s1 = _events_list s
            ∧ queued_damage (event_queue p1) = queued_damage (event_queue p)
            → ∃ rows0,
                _events_list (fst (monitor_lines lines (s1, p1)))
                = _events_list s ++ rows0
                ∧ Forall2 (records (fst (monitor_lines lines (s1, p1)))) rows0
                    (returned lines (s1, p1))
                ∧ queued_damage (event_queue (snd (monitor_lines lines (s1, p1))))
                  = queued_damage (event_queue p) ++ returned lines (s1, p1))
      as Hsame.
    { intros [E Q]. exists rows. by rewrite He, Hq, E, Q. }
    destruct r as [[e|]|ex]; [|by apply Hsame..].
    destruct H1 as (row & E & Hrow & Q).
    exists (row :: rows). rewrite He, Hq, E, Q, queued_damage_app.
    rewrite <- !app_assoc. cbn. split; [done|]. split; [|done].
    constructor; [|done].
    eapply records_grown; [|exact Hrow].
    apply (grown_steps _ _ (parser_steps_monitor_lines lines (s1, p1))).
Qed.

(** ** Batch mode: flushes and the report of a load *)

Lemma batch_rows_length (n : Z) (events : list EventTuple) :
  length (batch_rows n events) = length events.
Proof.
  revert n. induction events as [|e events IH]; intros n; cbn; [done|].
  by rewrite IH.
Qed.

Lemma flush_fold_length (pids : gmap string Z) (d : option string)
    (events : list DamageEvent) (fs : FlushState) :
  (length (f_insert (foldl (flush_event pids d) fs events))
   ≤ length (f_insert fs) + length events)%nat.
Proof.
  revert fs. induction events as [|e events IH]; intros fs; cbn [foldl length].
  - lia.
  - specialize (IH (flush_event pids d fs e)).
    destruct (flush_event_frame pids d fs e) as [_ [Hi|(zid & pid & Hi)]];
      rewrite Hi in IH; [lia|].
    rewrite length_app in IH. cbn in IH. lia.
Qed.

Lemma flush_batch_rows (s : PandasDataStore) (p : LogParser) :
  let r := _flush_batch (s, p) in
  ∃ rows,
    _events_list (fst (fst r)) = _events_list s ++ rows
    ∧ snd r = Z.of_nat (length rows)
    ∧ (length rows ≤ length (pending_events p))%nat
    ∧ pending_events (snd (fst r)) = []
    ∧ batch_mode (snd (fst r)) = batch_mode p.
Proof.
  cbn zeta. unfold _flush_batch.
  destruct (pending_events p) as [|e0 evs] eqn:Hpe.
  { exists []. cbn. rewrite app_nil_r. by repeat split. }
  destruct (get_or_create_players_batch_log
              (elements (list_to_set (C := gset string)
                           (map player_name (e0 :: evs)))) s) as [He1 _].
  destruct (get_or_create_players_batch _ s) as [s1 pids]. cbn [fst] in He1.
  set (fs0 := {| f_store := s1; f_created := zones_created p;
                 f_seen := seen_events p; f_insert := [] |}).
  destruct (flush_fold_log pids (log_date p) (e0 :: evs) fs0) as [He2 _].
  pose proof (flush_fold_length pids (log_date p) (e0 :: evs) fs0) as Hlen.
  set (fs := foldl _ fs0 _) in *. cbn [f_store fs0 f_insert length] in *.
  destruct (insert_damage_events_batch_rows (f_insert fs) (f_store fs)) as [He3 _].
  unfold insert_damage_events_batch in *. cbn [fst snd] in *.
  exists (batch_rows (_next_event_id (f_store fs)) (f_insert fs)).
  rewrite batch_rows_length.
  split; [by rewrite He3, He2, He1|]. split; [done|]. split; [lia|]. done.
Qed.

(** X16.  A flush.  [_flush_batch] appends rows to the event list and
    nothing else to it, returns the number of rows it has appended, which
    is at most the number of buffered events, and leaves the buffer
    empty; with an empty buffer it returns 0 and changes nothing, so a
    flush right after a flush does nothing; and [end_batch_mode] is a
    flush that also leaves batch mode. *)
Theorem flush_batch_count (st : state) :
  let r := _flush_batch st in
  (∃ rows,
     _events_list (fst (fst r)) = _events_list (fst st) ++ rows
     ∧ snd r = Z.of_nat (length rows)
     ∧ (length rows ≤ length (pending_events (snd st)))%nat)
  ∧ pending_events (snd (fst r)) = []
  ∧ _flush_batch (fst r) = (fst r, 0)
  ∧ (pending_events (snd st) = [] → r = (st, 0))
  ∧ (let r' := end_batch_mode st in
     batch_mode (snd (fst r')) = false
     ∧ pending_events (snd (fst r')) = []
     ∧ fst (fst r') = fst (fst (_flush_batch (fst st, set_batch_mode false (snd st))))
     ∧ snd r' = snd (_flush_batch (fst st, set_batch_mode false (snd st)))).
Proof.
  destruct st as [s p]. cbn zeta. cbn [fst snd].
  destruct (flush_batch_rows s p) as (rows & He & Hc & Hl & Hp & Hb).
  assert (∀ st0 : state, pending_events (snd st0) = [] → _flush_batch st0 = (st0, 0))
    as Hempty.
  { intros [s0 p0] H0. cbn [snd] in H0. unfold _flush_batch. by rewrite H0. }
  split; [by exists rows|]. split; [done|]. split; [by apply Hempty|].
  split; [by apply (Hempty (s, p))|].
  unfold end_batch_mode.
  destruct (flush_batch_rows s (set_batch_mode false p))
    as (rows' & _ & _ & _ & Hp' & Hb').
  destruct (_flush_batch (s, set_batch_mode false p)) as [[s' p'] n].
  cbn [fst snd] in *. by repeat split.
Qed.

Lemma flush_batch_queue (s : PandasDataStore) (p : LogParser) :
  event_queue (snd (fst (_flush_batch (s, p)))) = event_queue p.
Proof.
  destruct (flush_batch_parser s p) as [->|(seen & created & ->)]; done.
Qed.

Lemma batch_line (now : Z) (line : string) (s : PandasDataStore) (p : LogParser) :
  batch_mode p = true →
  let r := parse_line now line (s, p) in
  batch_mode (snd (fst r)) = true
  ∧ event_queue (snd (fst r)) = event_queue p
  ∧ ∃ rows,
      _events_list (fst (fst r)) = _events_list s ++ rows
      ∧ (length rows + length (pending_events (snd (fst r)))
         ≤ length (pending_events p)
           + match snd r with Ret (Some _) => 1 | _ => 0 end)%nat.
Proof.
  intros Hb. cbn zeta.
  assert (∀ (s' : PandasDataStore) (p' : LogParser) (r : result (option DamageEvent)),
            batch_mode p' = true → event_queue p' = event_queue p →
            _events_list s' = _events_list s →
            pending_events p' = pending_events p →
            batch_mode (snd (fst ((s', p'), r))) = true
            ∧ event_queue (snd (fst ((s', p'), r))) = event_queue p
            ∧ ∃ rows,
                _events_list (fst (fst ((s', p'), r))) = _events_list s ++ rows
                ∧ (length rows + length (pending_events (snd (fst ((s', p'), r))))
                   ≤ length (pending_events p)
                     + match snd ((s', p'), r) with Ret (Some _) => 1 | _ => 0 end)%nat)
    as Hsame.
  { intros s' p' r Hb' Hq' He' Hp'. cbn [fst snd]. split; [done|]. split; [done|].
    exists []. rewrite app_nil_r, Hp'. split; [done|]. cbn. lia. }
  unfold parse_line.
  destruct (nonempty (strip line)); cbn [negb]; [|by apply Hsame].
  destruct (search CHARACTER_PATTERN (strip line)) as [m|].
  { unfold on_character. cbn [batch_mode set_current_character]. rewrite Hb.
    by apply Hsame. }
  destruct (zone_match zone_patterns (strip line)) as [[ts z]|].
  { unfold on_zone.
    destruct (parse_timestamp ts p) as [p1 [t|e]] eqn:Hp.
    - destruct (parse_timestamp_frame _ _ _ _ Hp)
        as (_ & _ & _ & _ & Hb1 & Hpe & _ & _ & _ & _ & Hq & _).
      destruct (is_reload z t p1).
      + apply Hsame; cbn; congruence.
      + destruct (create_zone_entry_players z (current_character p1) t
                    (log_date p1) s) as (_ & _ & _ & _ & He & _).
        destruct (create_zone_entry z (current_character p1) t (log_date p1) s)
          as [s' zid]. cbn [fst] in He.
        cbn [batch_mode enter_zone]. rewrite Hb1, Hb.
        apply Hsame; cbn; congruence.
    - apply parse_timestamp_error in Hp as [_ ->]. by apply Hsame. }
  destruct (search CORPSE_PATTERN (strip line)) as [m|].
  { unfold on_corpse.
    destruct (rmatch TIMESTAMP_PATTERN (strip line)) as [m'|]; [|by apply Hsame].
    destruct (parse_timestamp (group m' 1) p) as [p1 [t|e]] eqn:Hp.
    - destruct (parse_timestamp_frame _ _ _ _ Hp)
        as (_ & _ & _ & _ & Hb1 & Hpe & _ & _ & _ & _ & Hq & _).
      apply Hsame; cbn; congruence.
    - apply parse_timestamp_error in Hp as [_ ->]. by apply Hsame. }
  cbn [snd].
  assert (∃ s', match search WISDOM_PATTERN (strip line) with
                | Some m => on_wisdom m (s, p)
                | None => ((s, p), Ret None)
                end = ((s', p), Ret None) ∧ _events_list s' = _events_list s)
    as (sw & Hw1 & Hw2).
  { destruct (search WISDOM_PATTERN (strip line)) as [m|]; [|by exists s].
    destruct (on_wisdom_effect m s p) as (s' & -> & He & _). by exists s'. }
  destruct (rmatch DAMAGE_PATTERN (strip line)) as [g|];
    [|rewrite Hw1; by apply Hsame].
  destruct (pending_corpse p) as [[[id name] t]|];
    [|rewrite Hw1; by apply Hsame].
  clear sw Hw1 Hw2. unfold on_damage.
  destruct (match g !! 4%nat with Some _ => _ | None => _ end) as [a|];
    [|by apply Hsame].
  destruct ((int_or_0 g 2 =? 0) && (int_or_0 g 3 =? 0)); [by apply Hsame|].
  rewrite Hb.
  set (ev := {| player_name := strip (group g 1) |}).
  destruct (BATCH_SIZE <=? _)%nat.
  - destruct (flush_batch_rows s (push_pending ev p))
      as (rows & He & _ & Hl & Hp & Hb').
    pose proof (flush_batch_queue s (push_pending ev p)) as Hq.
    destruct (_flush_batch (s, push_pending ev p)) as [[s' p'] n].
    cbn [fst snd] in *. split; [by rewrite Hb'|]. split; [done|].
    exists rows. split; [done|]. rewrite Hp.
    cbn [push_pending pending_events] in Hl. rewrite length_app in Hl.
    cbn in *. lia.
  - cbn [fst snd push_pending batch_mode event_queue pending_events].
    split; [done|]. split; [done|]. exists []. rewrite app_nil_r.
    split; [done|]. rewrite length_app. cbn. lia.
Qed.

Lemma batch_lines_fold (lines : list timed_line) (st : state) (lc dc : Z) :
  batch_mode (snd st) = true →
  let r := foldl (λ '(st, line_count, damage_count) l,
                    match parse_line (fst l) (snd l) st with
                    | (st', Ret (Some _)) => (st', line_count + 1, damage_count + 1)
                    | (st', _) => (st', line_count + 1, damage_count)
                    end) (st, lc, dc) lines in
  batch_mode (snd (fst (fst r))) = true
  ∧ event_queue (snd (fst (fst r))) = event_queue (snd st)
  ∧ snd (fst r) = lc + Z.of_nat (length lines)
  ∧ snd r = dc + Z.of_nat (length (returned lines st))
  ∧ ∃ rows,
      _events_list (fst (fst (fst r))) = _events_list (fst st) ++ rows
      ∧ (length rows + length (pending_events (snd (fst (fst r))))
         ≤ length (pending_events (snd st)) + length (returned lines st))%nat.
Proof.
  cbn zeta. revert st lc dc.
  induction lines as [|[now line] lines IH]; intros [s p] lc dc Hb.
  - cbn. split; [done|]. split; [done|]. split; [lia|]. split; [lia|].
    exists []. rewrite app_nil_r. split; [done|]. cbn. lia.
  - cbn [foldl returned fst snd].
    destruct (batch_line now line s p Hb) as (Hb1 & Hq1 & rows1 & He1 & Hl1).
    destruct (parse_line now line (s, p)) as [[s1 p1] r1].
    cbn [fst snd] in *.
    destruct r1 as [[e|]|ex].
    + destruct (IH (s1, p1) (lc + 1) (dc + 1) Hb1)
        as (Hb2 & Hq2 & Hlc & Hdc & rows2 & He2 & Hl2).
      cbn [fst snd length] in *.
      split; [done|]. split; [congruence|]. split; [lia|]. split; [lia|].
      exists (rows1 ++ rows2). rewrite He2, He1, app_assoc.
      split; [done|]. rewrite length_app. lia.
    + destruct (IH (s1, p1) (lc + 1) dc Hb1)
        as (Hb2 & Hq2 & Hlc & Hdc & rows2 & He2 & Hl2).
      cbn [fst snd length] in *.
      split; [done|]. split; [congruence|]. split; [lia|]. split; [lia|].
      exists (rows1 ++ rows2). rewrite He2, He1, app_assoc.
      split; [done|]. rewrite length_app. lia.
    + destruct (IH (s1, p1) (lc + 1) dc Hb1)
        as (Hb2 & Hq2 & Hlc & Hdc & rows2 & He2 & Hl2).
      cbn [fst snd length] in *.
      split; [done|]. split; [congruence|]. split; [lia|]. split; [lia|].
      exists (rows1 ++ rows2). rewrite He2, He1, app_assoc.
      split; [done|]. rewrite length_app. lia.
Qed.

(** X17.  The report of a load.  [_load_worker], run to the end of a
    file, reports as line count the number of lines of the file, and as
    damage count the number of events [parse_line] returned plus the
    number of rows the final flush stored, a number between the number of
    returned events and twice that number.  It puts nothing on a queue
    and leaves its parser out of batch mode with an empty buffer.  The
    rows it appends to the event list, those of the flushes of full
    buffers and then those of the final flush, are at most as many as the
    events returned; their signatures (zone, target, player, health
    damage, armor damage) differ from one another and from every
    signature the store had for the log date before the load. *)
Theorem load_worker_report (today : Z) (lines : list timed_line)
    (log_date : string) (s : PandasDataStore) :
  let r := _load_worker today lines log_date s in
  let parsed :=
    Z.of_nat (length (returned lines
      (s, start_batch_mode (get_all_existing_event_keys (Some log_date) s)
            (set_log_date log_date (new_parser today))))) in
  snd (fst r) = Z.of_nat (length lines)
  ∧ parsed ≤ snd r ≤ 2 * parsed
  ∧ event_queue (snd (fst (fst r))) = []
  ∧ batch_mode (snd (fst (fst r))) = false
  ∧ pending_events (snd (fst (fst r))) = []
  ∧ ∃ rows flushed,
      _events_list (fst (fst (fst r))) = _events_list s ++ rows ++ flushed
      ∧ snd r = parsed + Z.of_nat (length flushed)
      ∧ Z.of_nat (length (rows ++ flushed)) ≤ parsed
      ∧ NoDup (map key_of_row (rows ++ flushed))
      ∧ ∀ row, row ∈ rows ++ flushed →
          key_of_row row ∉ get_all_existing_event_keys (Some log_date) s.
Proof.
  cbn zeta.
  destruct (load_worker_fresh today lines log_date s) as (rows & He & Hnd & Hnew).
  revert He. unfold _load_worker.
  set (p0 := start_batch_mode _ _).
  destruct (batch_lines_fold lines (s, p0) 0 0 eq_refl)
    as (Hb1 & Hq1 & Hlc & Hdc & rows1 & He1 & Hl1).
  fold (load_lines lines (s, p0)) in *.
  destruct (load_lines lines (s, p0)) as [[[s1 p1] lc] dc].
  cbn [fst snd] in *.
  unfold end_batch_mode.
  destruct (flush_batch_rows s1 (set_batch_mode false p1))
    as (rows2 & He2 & Hc2 & Hl2 & Hp2 & Hb2).
  pose proof (flush_batch_queue s1 (set_batch_mode false p1)) as Hq2.
  destruct (_flush_batch (s1, set_batch_mode false p1)) as [[s2 p2] n].
  cbn [fst snd] in *. intros He.
  cbn [set_batch_mode pending_events] in Hl2.
  assert (pending_events p0 = []) as Hp0 by done.
  rewrite Hp0 in Hl1. cbn [length] in Hl1.
  unfold clear_pending. cbn [after_flush event_queue batch_mode pending_events].
  split; [lia|]. split; [lia|].
  split; [rewrite Hq2; cbn [set_batch_mode event_queue]; by rewrite Hq1|].
  split; [done|]. split; [done|].
  assert (rows = rows1 ++ rows2) as ->.
  { rewrite He2, He1, <- app_assoc in He. by apply app_inv_head in He. }
  exists rows1, rows2. split; [done|]. split; [lia|].
  split; [rewrite length_app; lia|]. done.
Qed.

(** ** What a quiet run records *)



Lemma same_batch_sym (p q : LogParser) : same_batch p q → same_batch q p.
Proof. intros (H1 & H2 & H3 & H4 & H5). by repeat split. Qed.





















End Model.

(** ** Alias grouping *)

Lemma find_group_upsert (k : string) (d : DamageRow) (acc : list GroupRow) :
  find_group k (upsert d acc) =
    if String.eqb (r_display_name d) k
    then Some (add_row d (default (new_group k) (find_group k acc)))
    else find_group k acc.
Proof.
  unfold find_group. induction acc as [|g rest IH]; cbn [upsert List.find].
  - cbn. destruct (String.eqb_spec (r_display_name d) k); congruence.
  - destruct (String.eqb_spec (g_display_name g) (r_display_name d)) as [Hg|Hg].
    + cbn [List.find add_row g_display_name]. rewrite Hg.
      destruct (String.eqb_spec (r_display_name d) k); cbn; congruence.
    + cbn [List.find]. rewrite IH.
      destruct (String.eqb_spec (r_display_name d) k) as [Hk|Hk];
        destruct (String.eqb_spec (g_display_name g) k) as [Hk'|Hk'];
        congruence.
Qed.

Lemma find_group_name (k : string) (l : list GroupRow) (g : GroupRow) :
  find_group k l = Some g → g ∈ l ∧ g_display_name g = k.
Proof.
  unfold find_group. intros H. apply find_some in H as [Hin Heq].
  split; [by apply list_elem_of_In|by apply String.eqb_eq].
Qed.

Lemma find_group_elem (l : list GroupRow) (g : GroupRow) :
  NoDup (map g_display_name l) → g ∈ l → find_group (g_display_name g) l = Some g.
Proof.
  unfold find_group. induction l as [|x l IH]; cbn [map List.find]; intros Hnd Hin.
  - by apply elem_of_nil in Hin.
  - apply NoDup_cons in Hnd as [Hx Hnd].
    apply elem_of_cons in Hin as [->|Hin].
    + by rewrite String.eqb_refl.
    + destruct (String.eqb_spec (g_display_name x) (g_display_name g)) as [He|_].
      * exfalso. apply Hx. rewrite He. by apply list_elem_of_fmap_2.
      * by apply IH.
Qed.

Lemma upsert_names (d : DamageRow) (acc : list GroupRow) :
  map g_display_name (upsert d acc) =
    if bool_decide (r_display_name d ∈ map g_display_name acc)
    then map g_display_name acc
    else map g_display_name acc ++ [r_display_name d].
Proof.
  induction acc as [|g rest IH]; cbn [upsert map].
  - by rewrite bool_decide_eq_false_2 by apply not_elem_of_nil.
  - destruct (String.eqb_spec (g_display_name g) (r_display_name d)) as [Hg|Hg].
    + cbn. rewrite bool_decide_eq_true_2; [done|]. rewrite Hg. by left.
    + cbn [map]. rewrite IH.
      destruct (bool_decide (r_display_name d ∈ map g_display_name rest)) eqn:Hin.
      * rewrite bool_decide_eq_true_2; [done|].
        apply bool_decide_eq_true_1 in Hin. by right.
      * rewrite bool_decide_eq_false_2; [done|].
        apply bool_decide_eq_false_1 in Hin.
        intros [?|?]%elem_of_cons; congruence.
Qed.

Lemma upsert_NoDup (d : DamageRow) (acc : list GroupRow) :
  NoDup (map g_display_name acc) → NoDup (map g_display_name (upsert d acc)).
Proof.
  intros H. rewrite upsert_names. case_bool_decide as Hin; [done|].
  apply NoDup_app. split; [done|]. split.
  - intros x Hx ->%list_elem_of_singleton. done.
  - apply NoDup_singleton.
Qed.

Lemma grouped_NoDup (data : list DamageRow) (acc : list GroupRow) :
  NoDup (map g_display_name acc) →
  NoDup (map g_display_name (foldl (λ grouped d, upsert d grouped) acc data)).
Proof.
  revert acc. induction data as [|d data IH]; intros acc H; cbn [foldl]; [done|].
  apply IH. by apply upsert_NoDup.
Qed.

Lemma omin_None_r (a : option Z) : omin a None = a.
Proof. by destruct a. Qed.

Lemma omax_None_r (a : option Z) : omax a None = a.
Proof. by destruct a. Qed.

Lemma omin_assoc (a b c : option Z) : omin (omin a b) c = omin a (omin b c).
Proof. destruct a, b, c; cbn; f_equal; lia. Qed.

Lemma omax_assoc (a b c : option Z) : omax (omax a b) c = omax a (omax b c).
Proof. destruct a, b, c; cbn; f_equal; lia. Qed.

Lemma omin_comm (a b : option Z) : omin a b = omin b a.
Proof. destruct a, b; cbn; f_equal; lia. Qed.

Lemma omax_comm (a b : option Z) : omax a b = omax b a.
Proof. destruct a, b; cbn; f_equal; lia. Qed.

Lemma add_row_first (d : DamageRow) (g : GroupRow) :
  g_first_hit (add_row d g) = omin (g_first_hit g) (r_first_hit d).
Proof.
  cbn. destruct (r_first_hit d) as [t|], (g_first_hit g) as [t0|]; cbn; try done.
  destruct (Z.ltb_spec t t0); f_equal; lia.
Qed.

Lemma add_row_last (d : DamageRow) (g : GroupRow) :
  g_last_hit (add_row d g) = omax (g_last_hit g) (r_last_hit d).
Proof.
  cbn. destruct (r_last_hit d) as [t|], (g_last_hit g) as [t0|]; cbn; try done.
  rewrite Z.gtb_ltb. destruct (Z.ltb_spec t0 t); f_equal; lia.
Qed.

(** The loop body applied to the rows of one display name, one after the
    other, adds up to the sums and extrema of these rows. *)
Lemma add_row_fold (ms : list DamageRow) (g : GroupRow) :
  foldl (λ g d, add_row d g) g ms =
    {| g_display_name := g_display_name g;
       g_player_ids := g_player_ids g ++ map r_player_id ms;
       g_original_names := g_original_names g ++ map r_original_name ms;
       g_health_dmg := g_health_dmg g + sum_with r_health_dmg ms;
       g_armor_dmg := g_armor_dmg g + sum_with r_armor_dmg ms;
       g_total_dmg := g_total_dmg g + sum_with r_total_dmg ms;
       g_kills := g_kills g + sum_with r_kills ms;
       g_first_hit := omin (g_first_hit g) (earliest (map r_first_hit ms));
       g_last_hit := omax (g_last_hit g) (latest (map r_last_hit ms)) |}.
Proof.
  revert g. induction ms as [|d ms IH]; intros g; cbn [foldl].
  - destruct g. cbn. rewrite !app_nil_r, !Z.add_0_r, omin_None_r, omax_None_r.
    done.
  - rewrite IH, add_row_first, add_row_last. cbn [add_row g_display_name
      g_player_ids g_original_names g_health_dmg g_armor_dmg g_total_dmg
      g_kills map sum_with foldr earliest latest].
    rewrite <- !app_assoc, omin_assoc, omax_assoc. cbn [app].
    f_equal; unfold sum_with; lia.
Qed.

Lemma add_row_fold_new (k : string) (data : list DamageRow) :
  foldl (λ g d, add_row d g) (new_group k) (members k data) = merged k data.
Proof. rewrite add_row_fold. unfold merged. cbn. done. Qed.

Lemma find_group_grouped (k : string) (data : list DamageRow) (acc : list GroupRow) :
  find_group k (foldl (λ grouped d, upsert d grouped) acc data) =
    match members k data with
    | [] => find_group k acc
    | ms => Some (foldl (λ g d, add_row d g)
                    (default (new_group k) (find_group k acc)) ms)
    end.
Proof.
  revert acc. induction data as [|d data IH]; intros acc; cbn [foldl]; [done|].
  rewrite IH, find_group_upsert. unfold members. rewrite filter_cons.
  destruct (decide (r_display_name d = k)) as [Hk|Hk].
  - apply String.eqb_eq in Hk as Hk'. rewrite Hk'. cbn [default].
    by destruct (filter _ data).
  - apply String.eqb_neq in Hk as Hk'. by rewrite Hk'.
Qed.

(** The rows of [grouped] after the loop: one for each display name of the
    input, and it is [merged]. *)
Lemma grouped_elem (data : list DamageRow) (g : GroupRow) :
  g ∈ foldl (λ grouped d, upsert d grouped) [] data
  ↔ ∃ d, d ∈ data ∧ g = merged (r_display_name d) data.
Proof.
  pose proof (grouped_NoDup data [] (NoDup_nil_2 : NoDup (map g_display_name []))) as Hnd.
  split.
  - intros Hin. pose proof (find_group_elem _ _ Hnd Hin) as Hf.
    rewrite find_group_grouped in Hf.
    destruct (members (g_display_name g) data) as [|d ms] eqn:Hms; [done|].
    assert (d ∈ members (g_display_name g) data) as Hd by (rewrite Hms; by left).
    apply list_elem_of_filter in Hd as [Hk Hd].
    exists d. split; [done|]. rewrite Hk, <- add_row_fold_new, Hms.
    cbn [find_group List.find default] in Hf. congruence.
  - intros (d & Hd & ->).
    assert (d ∈ members (r_display_name d) data) as Hm
      by (by apply list_elem_of_filter).
    assert (find_group (r_display_name d) (foldl (λ grouped d, upsert d grouped) [] data)
            = Some (merged (r_display_name d) data)) as Hf.
    { rewrite find_group_grouped, <- add_row_fold_new.
      destruct (members (r_display_name d) data); [by apply elem_of_nil in Hm|done]. }
    by apply find_group_name in Hf as [? _].
Qed.

(** The sort. *)
Lemma insert_desc_perm {A} (key : A → Z) (x : A) (l : list A) :
  insert_desc key x l ≡ₚ x :: l.
Proof.
  induction l as [|y l IH]; cbn; [done|].
  destruct (key y >? key x); [|done].
  rewrite IH. apply perm_swap.
Qed.

Lemma sort_desc_perm {A} (key : A → Z) (l : list A) : sort_desc key l ≡ₚ l.
Proof.
  induction l as [|x l IH]; cbn; [done|].
  fold (sort_desc key l). by rewrite insert_desc_perm, IH.
Qed.

Lemma insert_desc_sorted {A} (key : A → Z) (x : A) (l : list A) :
  StronglySorted (λ a b, key b ≤ key a) l →
  StronglySorted (λ a b, key b ≤ key a) (insert_desc key x l).
Proof.
  induction 1 as [|y l Hs IH Hy]; cbn.
  - repeat constructor.
  - destruct (Z.gtb_spec (key y) (key x)) as [Hgt|Hle].
    + constructor; [done|]. rewrite insert_desc_perm.
      constructor; [lia|done].
    + constructor; [by constructor|].
      constructor; [done|].
      eapply Forall_impl; [exact Hy|]. cbn. intros; lia.
Qed.

Lemma sort_desc_sorted {A} (key : A → Z) (l : list A) :
  StronglySorted (λ a b, key b ≤ key a) (sort_desc key l).
Proof.
  induction l as [|x l IH]; cbn; [constructor|].
  by apply insert_desc_sorted.
Qed.

Lemma sum_with_perm {A} (f : A → Z) (l l' : list A) :
  l ≡ₚ l' → sum_with f l = sum_with f l'.
Proof. unfold sum_with. induction 1; cbn; lia. Qed.

Lemma earliest_perm (l l' : list (option Z)) : l ≡ₚ l' → earliest l = earliest l'.
Proof.
  unfold earliest. induction 1 as [|x l l' _ IH|x y l|l1 l2 l3 _ IH1 _ IH2]; cbn.
  - done.
  - by rewrite IH.
  - by rewrite <- !omin_assoc, (omin_comm y x).
  - congruence.
Qed.

Lemma latest_perm (l l' : list (option Z)) : l ≡ₚ l' → latest l = latest l'.
Proof.
  unfold latest. induction 1 as [|x l l' _ IH|x y l|l1 l2 l3 _ IH1 _ IH2]; cbn.
  - done.
  - by rewrite IH.
  - by rewrite <- !omax_assoc, (omax_comm y x).
  - congruence.
Qed.

Lemma merged_perm (k : string) (data data' : list DamageRow) :
  data ≡ₚ data' →
  figures (merged k data) = figures (merged k data')
  ∧ g_player_ids (merged k data) ≡ₚ g_player_ids (merged k data')
  ∧ g_original_names (merged k data) ≡ₚ g_original_names (merged k data').
Proof.
  intros Hp.
  assert (members k data ≡ₚ members k data') as Hm by (unfold members; by rewrite Hp).
  unfold figures, merged. cbn.
  rewrite !(sum_with_perm _ _ _ Hm).
  rewrite (earliest_perm (map r_first_hit (members k data))
             (map r_first_hit (members k data'))) by (by apply Permutation_map).
  rewrite (latest_perm (map r_last_hit (members k data))
             (map r_last_hit (members k data'))) by (by apply Permutation_map).
  split; [done|]. split; by apply Permutation_map.
Qed.

(** C8, as the program has it.  The result of [group_damage_by_alias] has
    exactly one row for each display name of the input; the row's health,
    armor and total damage and its kill count are the sums over the input
    rows of that name, its first hit the least and its last hit the
    greatest of theirs, its lists of ids and names theirs in input order;
    the result is sorted by total damage, greatest first.  Permuting the
    input gives, for each display name, the same figures and the same ids
    and names up to their order, hence the same rows up to the order of
    the rows and of the ids and names inside them. *)
Theorem group_damage_by_alias_order (data data' : list DamageRow) :
  data ≡ₚ data' →
  let out := group_damage_by_alias data in
  let out' := group_damage_by_alias data' in
  (∀ g, g ∈ out ↔ ∃ d, d ∈ data ∧ g = merged (r_display_name d) data)
  ∧ NoDup (map g_display_name out)
  ∧ StronglySorted (λ a b, g_total_dmg b ≤ g_total_dmg a) out
  ∧ map figures out ≡ₚ map figures out'
  ∧ (∀ k, figures (merged k data) = figures (merged k data')
          ∧ g_player_ids (merged k data) ≡ₚ g_player_ids (merged k data')
          ∧ g_original_names (merged k data) ≡ₚ g_original_names (merged k data')).
Proof.
  intros Hp. cbn zeta. unfold group_damage_by_alias.
  assert (∀ l, NoDup (map g_display_name
                        (sort_desc g_total_dmg
                           (foldl (λ grouped d, upsert d grouped) [] l)))) as Hnd.
  { intros l. rewrite sort_desc_perm. apply grouped_NoDup. constructor. }
  assert (∀ l g, g ∈ sort_desc g_total_dmg (foldl (λ grouped d, upsert d grouped) [] l)
                 ↔ ∃ d, d ∈ l ∧ g = merged (r_display_name d) l) as Hel.
  { intros l g. rewrite sort_desc_perm. apply grouped_elem. }
  split; [apply Hel|]. split; [apply Hnd|].
  split; [apply sort_desc_sorted|]. split; [|intros k; by apply merged_perm].
  apply NoDup_Permutation.
  - eapply (NoDup_fmap_1 fst). rewrite <- list_fmap_compose.
    eapply (NoDup_fmap_1 fst). rewrite <- list_fmap_compose. apply Hnd.
  - eapply (NoDup_fmap_1 fst). rewrite <- list_fmap_compose.
    eapply (NoDup_fmap_1 fst). rewrite <- list_fmap_compose. apply Hnd.
  - intros x. rewrite !list_elem_of_fmap. split.
    + intros (g & -> & (d & Hd & ->)%Hel). eexists. split; [|apply Hel].
      * apply (merged_perm (r_display_name d) data data' Hp).
      * exists d. split; [by rewrite <- Hp|done].
    + intros (g & -> & (d & Hd & ->)%Hel). eexists. split; [|apply Hel].
      * symmetry. apply (merged_perm (r_display_name d) data data' Hp).
      * exists d. split; [by rewrite Hp|done].
Qed.

(** C8 at two rows of equal total: the two orders of the input give the
    rows in two different orders; and at two rows that share a display
    name: the member ids come in input order. *)
Lemma grouping_depends_on_order :
  let a := {| r_player_id := 1; r_original_name := "Ann"; r_alias := None;
              r_display_name := "Ann"; r_health_dmg := 10; r_armor_dmg := 0;
              r_total_dmg := 10; r_kills := 1;
              r_first_hit := None; r_last_hit := None |} in
  let b := {| r_player_id := 2; r_original_name := "Bea"; r_alias := None;
              r_display_name := "Bea"; r_health_dmg := 10; r_armor_dmg := 0;
              r_total_dmg := 10; r_kills := 1;
              r_first_hit := None; r_last_hit := None |} in
  let c := {| r_player_id := 3; r_original_name := "Cy"; r_alias := Some "Ann";
              r_display_name := "Ann"; r_health_dmg := 5; r_armor_dmg := 0;
              r_total_dmg := 5; r_kills := 1;
              r_first_hit := None; r_last_hit := None |} in
  [a; b] ≡ₚ [b; a]
  ∧ group_damage_by_alias [a; b] ≠ group_damage_by_alias [b; a]
  ∧ map g_display_name (group_damage_by_alias [a; b]) = ["Ann"; "Bea"]
  ∧ map g_display_name (group_damage_by_alias [b; a]) = ["Bea"; "Ann"]
  ∧ map g_player_ids (group_damage_by_alias [a; c]) = [[1; 3]]
  ∧ map g_player_ids (group_damage_by_alias [c; a]) = [[3; 1]].
Proof.
  cbn zeta. split; [apply perm_swap|]. split; [|by vm_compute].
  vm_compute. discriminate.
Qed.

Lemma group_damage_by_alias_order_witness :
  let a := {| r_player_id := 1; r_original_name := "Ann"; r_alias := None;
              r_display_name := "Ann"; r_health_dmg := 10; r_armor_dmg := 2;
              r_total_dmg := 12; r_kills := 1;
              r_first_hit := Some 5; r_last_hit := Some 9 |} in
  let b := {| r_player_id := 2; r_original_name := "Bea"; r_alias := Some "Ann";
              r_display_name := "Ann"; r_health_dmg := 7; r_armor_dmg := 0;
              r_total_dmg := 7; r_kills := 2;
              r_first_hit := Some 3; r_last_hit := Some 4 |} in
  [a; b] ≡ₚ [b; a]
  ∧ map figures (group_damage_by_alias [a; b])
    ≡ₚ map figures (group_damage_by_alias [b; a]).
Proof.
  cbn zeta. split; [apply perm_swap|].
  refine (proj1 (proj2 (proj2 (proj2 (group_damage_by_alias_order _ _ _))))).
  apply perm_swap.
Defined.

(** ** The properties at concrete inputs *)

(** C1 at the log [two_zone_log], loaded twice under the log date
    2024-01-01 (day 19723) into a store that starts empty: the first run
    stores the one event of the log under zone 1; the second run opens the
    zones of the log again, under the new ids 3 and 4, and stores the same
    event a second time under zone 3; so the signatures after the second
    run are not those after the first. *)
Theorem batch_rerun_inserts_again {float : Type} (float_of_lit : string → float)
    (today now : Z) :
  let load := _load_worker float_of_lit (λ _, Some 19723) today
                (map (pair now) two_zone_log) "2024-01-01" in
  let s1 := fst (fst (fst (load (new_store ∅)))) in
  let s2 := fst (fst (fst (load s1))) in
  map key_of_row (_events_list s1) = [(Some 1, 42, 1, 50, 0)]
  ∧ map key_of_row (_events_list s2)
    = [(Some 1, 42, 1, 50, 0); (Some 3, 42, 1, 50, 0)]
  ∧ map (λ z, (z_zone_id z, z_name z)) (_zones_list s1)
    = [(1, "AreaForest"); (2, "AreaCave")]
  ∧ map (λ z, (z_zone_id z, z_name z)) (_zones_list s2)
    = [(1, "AreaForest"); (2, "AreaCave"); (3, "AreaForest"); (4, "AreaCave")]
  ∧ elements (get_all_existing_event_keys (Some "2024-01-01") s1)
    = [(Some 1, 42, 1, 50, 0)]
  ∧ (Some 3, 42, 1, 50, 0) ∈ get_all_existing_event_keys (Some "2024-01-01") s2
  ∧ get_all_existing_event_keys (Some "2024-01-01") s1
    ≠ get_all_existing_event_keys (Some "2024-01-01") s2.
Proof.
  cbn zeta.
  set (load := _load_worker float_of_lit (λ _, Some 19723) today
                 (map (pair now) two_zone_log) "2024-01-01").
  do 5 (split; [by vm_compute|]).
  assert ((Some 3, 42, 1, 50, 0)
          ∈ get_all_existing_event_keys (Some "2024-01-01")
              (fst (fst (fst (load (fst (fst (fst (load (new_store ∅))))))))))
    as Hin.
  { apply (bool_decide_unpack _). by vm_compute. }
  split; [exact Hin|].
  intros Heq. rewrite <- Heq in Hin.
  apply (bool_decide_pack _) in Hin. revert Hin. by vm_compute.
Qed.


(** C4 at the lines as the specification prints them: no zone entry and no
    event; and with the zone line put right but the damage lines still
    behind a time stamp: the zone entry, and no event. *)
Lemma printed_scenario_stores_nothing :
  let run lines :=
    fst (monitor_lines (float := string) id (map (pair 0) lines)
           (new_store ∅, new_parser 0)) in
  _zones_list (run printed_lines) = []
  ∧ _events_list (run printed_lines) = []
  ∧ get_damage_by_zone 1 (run printed_lines) = []
  ∧ map z_name (_zones_list (run stamped_lines)) = ["AreaForest"]
  ∧ _events_list (run stamped_lines) = []
  ∧ get_damage_by_zone 1 (run stamped_lines) = [].
Proof. cbn zeta. repeat split; by vm_compute. Qed.

(** C6 at two lines for the same zone, thirty seconds apart, which is the
    threshold: the second line is not debounced (the zone time moves to
    it), and the store has the one zone entry it had, not two. *)
Lemma threshold_reentry_reuses_instance :
  let st1 := fst (parse_line (float := string) id 0
                    "[10:00:00] LOADING LEVEL AreaForest"
                    (new_store ∅, new_parser 0)) in
  let st2 := fst (parse_line id 0 "[10:00:30] LOADING LEVEL AreaForest" st1) in
  zone_debounce_seconds (snd st1) = 30
  ∧ last_zone_time (snd st1) = Some (combine 0 36000)
  ∧ last_zone_time (snd st2) = Some (combine 0 36030)
  ∧ length (_zones_list (fst st1)) = 1%nat
  ∧ length (_zones_list (fst st2)) = 1%nat
  ∧ fst st2 = fst st1.
Proof. cbn zeta. repeat split; by vm_compute. Qed.

Lemma update_player_alias_unknown_witness :
  _player_id_to_info (new_store (float := string) ∅) !! 7 = None
  ∧ update_player_alias 7 "Ace" (new_store (float := string) ∅) = new_store ∅.
Proof.
  split; [reflexivity|].
  apply (update_player_alias_unknown (new_store ∅) 7 "Ace"). reflexivity.
Defined.

Lemma parse_timestamp_monotone_witness :
  let p := set_clock 0 (combine 2 3600) (new_parser (float := string) 0) in
  StronglySorted Z.le (stamps ["00:30:00"; "00:10:00"; "23:59:58"; "00:00:02"] p)
  ∧ ∃ a b, stamps ["23:59:58"; "00:00:02"] (new_parser (float := string) 0) = [a; b]
           ∧ b - a = 4 * usec.
Proof.
  cbn zeta. split.
  - exact (proj1 (parse_timestamp_monotone (float := string)
                    (set_clock 0 (combine 2 3600) (new_parser 0))
                    ["00:30:00"; "00:10:00"; "23:59:58"; "00:00:02"])).
  - destruct (proj2 (parse_timestamp_monotone (float := string) (new_parser 0) [])
                eq_refl)
      as (a & b & Hs & Hd & _).
    exists a, b. split; [exact Hs|exact Hd].
Defined.

Lemma zone_reentry_idempotent_witness :
  zone_line "[10:00:00] LOADING LEVEL AreaForest" "10:00:00" "AreaForest"
  ∧ let st1 := fst (parse_line (float := string) id 0
                      "[10:00:00] LOADING LEVEL AreaForest"
                      (new_store ∅, new_parser 0)) in
    fst (fst (parse_line id 1 "[10:00:00] LOADING LEVEL AreaForest" st1)) = fst st1.
Proof.
  assert (zone_line "[10:00:00] LOADING LEVEL AreaForest" "10:00:00" "AreaForest")
    as Hline by (repeat split; vm_compute; reflexivity).
  split; [exact Hline|].
  exact (proj1 (zone_reentry_idempotent id (new_store ∅) (new_parser 0) 0 1
                  _ _ _ Hline)).
Defined.

Lemma debounce_boundary_witness :
  let st := fst (parse_line (float := string) id 0
                   "[10:00:00] LOADING LEVEL AreaForest"
                   (new_store ∅, new_parser 0)) in
  let line := "[10:00:30] LOADING LEVEL AreaForest" in
  let p1 := set_clock 0 (combine 0 36030) (snd st) in
  zone_line line "10:00:30" "AreaForest"
  ∧ parse_timestamp "10:00:30" (snd st) = (p1, Ret (combine 0 36030))
  ∧ last_zone_name (snd st) = Some "AreaForest"
  ∧ last_zone_time (snd st) = Some (combine 0 36000)
  ∧ zone_debounce_seconds (snd st) * usec ≤ combine 0 36030 - combine 0 36000
  ∧ last_zone_time (snd (fst (parse_line id 0 line (fst st, snd st))))
    = Some (combine 0 36030).
Proof.
  cbn zeta.
  set (st := fst (parse_line (float := string) id 0
                    "[10:00:00] LOADING LEVEL AreaForest"
                    (new_store ∅, new_parser 0))).
  assert (zone_line "[10:00:30] LOADING LEVEL AreaForest" "10:00:30" "AreaForest")
    as Hline by (repeat split; vm_compute; reflexivity).
  assert (parse_timestamp "10:00:30" (snd st)
          = (set_clock 0 (combine 0 36030) (snd st), Ret (combine 0 36030)))
    as Hp by (vm_compute; reflexivity).
  assert (last_zone_name (snd st) = Some "AreaForest") as Hn
    by (vm_compute; reflexivity).
  assert (last_zone_time (snd st) = Some (combine 0 36000)) as Ht
    by (vm_compute; reflexivity).
  assert (zone_debounce_seconds (snd st) * usec ≤ combine 0 36030 - combine 0 36000)
    as Hle by (vm_compute; discriminate).
  do 5 (split; [assumption|]).
  exact (proj1 (proj2 (proj2 (proj2
           (proj1 (debounce_boundary id (fst st) (snd st) _ 0 _ _ _ _ _
                     Hline Hp Hn Ht) Hle))))).
Defined.

Lemma zero_damage_never_stored_witness :
  let st := (new_store (float := string) ∅, new_parser 0) in
  let ops := [OpParse 0 scenario_wolf; OpParse 0 scenario_alice1;
              OpParse 0 "Bob: 0 health dmg"; OpInsertBatch []] in
  no_zero_damage st
  ∧ Forall op_ok ops
  ∧ no_zero_damage (foldl (λ st o, apply_op id (λ _, None) o st) st ops).
Proof.
  cbn zeta.
  assert (no_zero_damage (new_store (float := string) ∅, new_parser 0)) as Hst
    by (split; constructor).
  assert (Forall (op_ok (float := string))
            [OpParse 0 scenario_wolf; OpParse 0 scenario_alice1;
             OpParse 0 "Bob: 0 health dmg"; OpInsertBatch []]) as Hops
    by (repeat constructor).
  split; [exact Hst|]. split; [exact Hops|].
  exact (proj1 (zero_damage_never_stored id (λ _, None) _ _ Hst Hops)).
Defined.


(** ** The queries of the store *)

Section Queries.
Context {float : Type}.
Implicit Types (s : PandasDataStore (float := float)) (e : EventRow (float := float)).

Lemma elem_of_List_filter {A} (p : A → bool) (l : list A) (x : A) :
  x ∈ List.filter p l ↔ p x = true ∧ x ∈ l.
Proof. rewrite !list_elem_of_In, filter_In. tauto. Qed.

Lemma sum_with_app {A} (f : A → Z) (l k : list A) :
  sum_with f (l ++ k) = sum_with f l + sum_with f k.
Proof. induction l as [|x l IH]; cbn; [done|]. unfold sum_with in *. cbn. lia. Qed.

Lemma sum_with_map {A B} (f : B → Z) (g : A → B) (l : list A) :
  sum_with f (map g l) = sum_with (λ x, f (g x)) l.
Proof. induction l as [|x l IH]; [done|]. unfold sum_with in *. cbn. by rewrite IH. Qed.

Lemma sum_with_ext {A} (f g : A → Z) (l : list A) :
  (∀ x, x ∈ l → f x = g x) → sum_with f l = sum_with g l.
Proof.
  induction l as [|x l IH]; intros H; [done|]. unfold sum_with in *. cbn.
  rewrite (H x) by by left. rewrite IH; [done|]. intros y Hy. apply H. by right.
Qed.

Lemma sum_with_add {A} (f g : A → Z) (l : list A) :
  sum_with (λ x, f x + g x) l = sum_with f l + sum_with g l.
Proof. induction l as [|x l IH]; [done|]. unfold sum_with in *. cbn. lia. Qed.

(** A sum over the rows whose key is one of [ks] is the sum, over the
    keys, of the sums over the rows of that key. *)
Lemma sum_with_partition {A K} `{EqDecision K} (f : A → Z) (key : A → K)
    (ks : list K) (l : list A) :
  NoDup ks →
  sum_with (λ k, sum_with f (List.filter (λ x, bool_decide (key x = k)) l)) ks
  = sum_with f (List.filter (λ x, bool_decide (key x ∈ ks)) l).
Proof.
  induction ks as [|k ks IH]; intros Hnd.
  - cbn. rewrite (filter_ext _ (λ _, false)).
    + by induction l.
    + intros x. apply bool_decide_eq_false_2. apply not_elem_of_nil.
  - apply NoDup_cons in Hnd as [Hk Hnd].
    change (sum_with _ (k :: ks)) with
      (sum_with f (List.filter (λ x, bool_decide (key x = k)) l)
       + sum_with (λ k, sum_with f (List.filter (λ x, bool_decide (key x = k)) l)) ks).
    rewrite (IH Hnd). clear IH.
    induction l as [|x l IHl]; [done|]. cbn [List.filter].
    destruct (decide (key x = k)) as [Hx|Hx].
    + rewrite (bool_decide_eq_true_2 (key x = k)) by done.
      rewrite (bool_decide_eq_false_2 (key x ∈ ks)) by (by rewrite Hx).
      rewrite (bool_decide_eq_true_2 (key x ∈ k :: ks)) by (rewrite Hx; by left).
      unfold sum_with in *. cbn. lia.
    + rewrite (bool_decide_eq_false_2 (key x = k)) by done.
      destruct (decide (key x ∈ ks)) as [Hin|Hin].
      * rewrite (bool_decide_eq_true_2 (key x ∈ ks)) by done.
        rewrite (bool_decide_eq_true_2 (key x ∈ k :: ks)) by (by right).
        unfold sum_with in *. cbn. lia.
      * rewrite (bool_decide_eq_false_2 (key x ∈ ks)) by done.
        rewrite (bool_decide_eq_false_2 (key x ∈ k :: ks))
          by (rewrite elem_of_cons; tauto).
        done.
Qed.

Lemma List_filter_all {A} (p : A → bool) (l : list A) :
  (∀ x, x ∈ l → p x = true) → List.filter p l = l.
Proof.
  induction l as [|x l IH]; intros H; [done|]. cbn.
  rewrite (H x) by by left. f_equal. apply IH. intros y Hy. apply H. by right.
Qed.

Lemma group_ids_NoDup (filtered : list (EventRow (float := float))) :
  NoDup (group_ids filtered).
Proof.
  unfold group_ids. rewrite merge_sort_Permutation. apply NoDup_remove_dups.
Qed.

Lemma group_ids_elem (filtered : list (EventRow (float := float))) (pid : Z) :
  pid ∈ group_ids filtered ↔ ∃ e, e ∈ filtered ∧ e_player_id e = pid.
Proof.
  unfold group_ids. rewrite merge_sort_Permutation, elem_of_remove_dups.
  rewrite list_elem_of_fmap. split; intros (e & H1 & H2); by exists e.
Qed.

(** *** Sums in 64 bits *)

Lemma wrap64_small (z : Z) : in_int64 z = true → wrap64 z = z.
Proof.
  unfold in_int64, wrap64. intros H. apply andb_true_iff in H as [H1 H2].
  apply Z.leb_le in H1. apply Z.ltb_lt in H2.
  rewrite Z.mod_small by lia. lia.
Qed.

Lemma wrap64_mod (z : Z) : wrap64 z mod 2 ^ 64 = z mod 2 ^ 64.
Proof.
  unfold wrap64.
  rewrite <- (Zdiv.Zminus_mod_idemp_l ((z + 2 ^ 63) mod 2 ^ 64)).
  rewrite Z.mod_mod by done. rewrite Zdiv.Zminus_mod_idemp_l. f_equal. lia.
Qed.

Lemma sum_with_mod {A} (f g : A → Z) (l : list A) (m : Z) :
  (∀ x, x ∈ l → f x mod m = g x mod m) →
  sum_with f l mod m = sum_with g l mod m.
Proof.
  induction l as [|x l IH]; intros H; [done|].
  change (sum_with f (x :: l)) with (f x + sum_with f l).
  change (sum_with g (x :: l)) with (g x + sum_with g l).
  rewrite (Zdiv.Zplus_mod (f x)), (Zdiv.Zplus_mod (g x)).
  rewrite (H x) by by left. rewrite IH; [done|]. intros y Hy. apply H. by right.
Qed.

Lemma sum_with_nonneg {A} (f : A → Z) (l : list A) :
  Forall (λ x, 0 ≤ f x) l → 0 ≤ sum_with f l.
Proof.
  induction 1 as [|x l Hx Hl IH]; [done|].
  change (sum_with f (x :: l)) with (f x + sum_with f l). lia.
Qed.

Lemma sum_with_filter_le {A} (f : A → Z) (p : A → bool) (l : list A) :
  Forall (λ x, 0 ≤ f x) l → sum_with f (List.filter p l) ≤ sum_with f l.
Proof.
  induction 1 as [|x l Hx Hl IH]; [done|]. cbn [List.filter].
  change (sum_with f (x :: l)) with (f x + sum_with f l).
  destruct (p x); [|lia].
  change (sum_with f (x :: List.filter p l)) with (f x + sum_with f (List.filter p l)).
  lia.
Qed.

Lemma no_wrap_filter (p : EventRow (float := float) → bool)
    (l : list (EventRow (float := float))) :
  no_wrap l → no_wrap (List.filter p l).
Proof.
  intros [Hpos Hlt]. split.
  - rewrite Forall_forall in *. intros e He.
    apply elem_of_List_filter in He as [_ He]. by apply Hpos.
  - pose proof (sum_with_filter_le (λ e, e_health_dmg e + e_armor_dmg e) p l) as H.
    assert (sum_with (λ e, e_health_dmg e + e_armor_dmg e) (List.filter p l)
            ≤ sum_with (λ e, e_health_dmg e + e_armor_dmg e) l); [|lia].
    apply H. eapply Forall_impl; [exact Hpos|]. cbn. intros; lia.
Qed.

(** Without wrap the three sums of a group are the sums of the figures. *)
Lemma no_wrap_sums (l : list (EventRow (float := float))) :
  no_wrap l →
  wrap64 (sum_with e_health_dmg l) = sum_with e_health_dmg l
  ∧ wrap64 (sum_with e_armor_dmg l) = sum_with e_armor_dmg l
  ∧ wrap64 (sum_with e_health_dmg l + sum_with e_armor_dmg l)
    = sum_with e_health_dmg l + sum_with e_armor_dmg l.
Proof.
  intros [Hpos Hlt]. rewrite sum_with_add in Hlt.
  assert (0 ≤ sum_with e_health_dmg l) as Hh.
  { apply sum_with_nonneg. eapply Forall_impl; [exact Hpos|]. cbn. intros; lia. }
  assert (0 ≤ sum_with e_armor_dmg l) as Ha.
  { apply sum_with_nonneg. eapply Forall_impl; [exact Hpos|]. cbn. intros; lia. }
  repeat split; apply wrap64_small; unfold in_int64;
    (apply andb_true_iff; split; [apply Z.leb_le|apply Z.ltb_lt]); lia.
Qed.

Lemma filter_player_id (pid : Z) (l : list (EventRow (float := float))) :
  List.filter (λ e, e_player_id e =? pid) l
  = List.filter (λ e, bool_decide (e_player_id e = pid)) l.
Proof.
  apply filter_ext. intros e. destruct (Z.eqb_spec (e_player_id e) pid).
  - by rewrite bool_decide_eq_true_2.
  - by rewrite bool_decide_eq_false_2.
Qed.

Lemma partition_by_player (f : EventRow (float := float) → Z)
    (filtered : list (EventRow (float := float))) :
  sum_with (λ pid, sum_with f (List.filter (λ e, e_player_id e =? pid) filtered))
    (group_ids filtered)
  = sum_with f filtered.
Proof.
  rewrite (sum_with_ext _
    (λ pid, sum_with f (List.filter (λ e, bool_decide (e_player_id e = pid)) filtered)))
    by (intros pid _; by rewrite filter_player_id).
  rewrite sum_with_partition by apply group_ids_NoDup.
  f_equal. apply List_filter_all. intros e He.
  apply bool_decide_eq_true_2, group_ids_elem. by exists e.
Qed.

(** The damage [aggregate] reports is, up to a multiple of [2 ^ 64], the
    damage of the rows it is given. *)
Lemma aggregate_total_mod (filtered : list (EventRow (float := float))) s :
  sum_with r_total_dmg (aggregate filtered s) mod 2 ^ 64
  = sum_with (λ e, e_health_dmg e + e_armor_dmg e) filtered mod 2 ^ 64.
Proof.
  unfold aggregate. rewrite (sum_with_perm _ _ _ (sort_desc_perm _ _)).
  rewrite sum_with_map. cbn [r_total_dmg]. fold (group_ids filtered).
  rewrite <- (partition_by_player (λ e, e_health_dmg e + e_armor_dmg e)).
  apply sum_with_mod. intros pid _. rewrite sum_with_add, wrap64_mod.
  rewrite Zdiv.Zplus_mod, !wrap64_mod. by rewrite <- Zdiv.Zplus_mod.
Qed.

(** And it is that damage when no sum wraps. *)
Lemma aggregate_total (filtered : list (EventRow (float := float))) s :
  no_wrap filtered →
  sum_with r_total_dmg (aggregate filtered s)
  = sum_with (λ e, e_health_dmg e + e_armor_dmg e) filtered.
Proof.
  intros Hnw. unfold aggregate. rewrite (sum_with_perm _ _ _ (sort_desc_perm _ _)).
  rewrite sum_with_map. cbn [r_total_dmg]. fold (group_ids filtered).
  rewrite <- (partition_by_player (λ e, e_health_dmg e + e_armor_dmg e)).
  apply sum_with_ext. intros pid _.
  destruct (no_wrap_sums _ (no_wrap_filter (λ e, e_player_id e =? pid) _ Hnw))
    as (-> & -> & ->).
  by rewrite sum_with_add.
Qed.

Lemma upsert_total (d : DamageRow) (acc : list GroupRow) :
  sum_with g_total_dmg (upsert d acc) = sum_with g_total_dmg acc + r_total_dmg d.
Proof.
  induction acc as [|g acc IH]; cbn.
  - unfold sum_with. cbn. lia.
  - destruct (String.eqb _ _).
    + unfold sum_with. cbn. lia.
    + unfold sum_with in *. cbn. lia.
Qed.

(** Grouping by alias keeps the total. *)
Lemma group_damage_by_alias_total (data : list DamageRow) :
  sum_with g_total_dmg (group_damage_by_alias data) = sum_with r_total_dmg data.
Proof.
  unfold group_damage_by_alias.
  rewrite (sum_with_perm _ _ _ (sort_desc_perm _ _)).
  assert (∀ acc, sum_with g_total_dmg (foldl (λ grouped d, upsert d grouped) acc data)
                 = sum_with g_total_dmg acc + sum_with r_total_dmg data) as H.
  { induction data as [|d data IH]; intros acc; cbn [foldl].
    - unfold sum_with. cbn. lia.
    - rewrite IH, upsert_total. unfold sum_with. cbn. lia. }
  rewrite H. unfold sum_with. cbn. lia.
Qed.

Lemma size_list_to_set_remove_dups (l : list Z) :
  size (list_to_set (C := gset Z) l) = length (remove_dups l).
Proof.
  rewrite <- (size_list_to_set (C := gset Z) (remove_dups l))
    by apply NoDup_remove_dups.
  f_equal. apply set_eq. intros x.
  by rewrite !elem_of_list_to_set, elem_of_remove_dups.
Qed.

Lemma zone_stats_total (zone_id : Z) (s : PandasDataStore (float := float)) :
  zs_total_dmg (_get_zone_stats zone_id s)
  = sum_with (λ e, e_health_dmg e + e_armor_dmg e)
      (List.filter (λ e, bool_decide (e_zone_id e = Some zone_id) && has_damage e)
         (_events_list s)).
Proof. unfold _get_zone_stats, has_damage. by destruct (List.filter _ _). Qed.

(** X4.  The views of one zone agree.  For every store and zone
    identifier: the kill count of [get_zone_combat_times] is the [kills]
    of [_get_zone_stats]; the [total_dmg] of [_get_zone_stats] is the
    health and armor damage of the stored events of the zone that have
    damage; [group_damage_by_alias] keeps the total of the rows it is
    given; and, the damage columns being [int64] columns, the total of
    the rows [get_damage_by_zone] returns differs from the [total_dmg] of
    [_get_zone_stats] by a multiple of [2 ^ 64], and is that number, as is
    the total after [group_damage_by_alias], when the figures of the zone
    are not negative and add up to less than [2 ^ 63]. *)
Theorem zone_views_agree (zone_id : Z) s :
  let stats := _get_zone_stats zone_id s in
  let rows := get_damage_by_zone zone_id s in
  let zone_events :=
    List.filter (λ e, bool_decide (e_zone_id e = Some zone_id) && has_damage e)
      (_events_list s) in
  snd (get_zone_combat_times zone_id s) = zs_kills stats
  ∧ zs_total_dmg stats
    = sum_with (λ e, e_health_dmg e + e_armor_dmg e) zone_events
  ∧ sum_with g_total_dmg (group_damage_by_alias rows) = sum_with r_total_dmg rows
  ∧ (int64_figures s →
       sum_with r_total_dmg rows mod 2 ^ 64 = zs_total_dmg stats mod 2 ^ 64)
  ∧ (int64_figures s → no_wrap zone_events →
       sum_with r_total_dmg rows = zs_total_dmg stats
       ∧ sum_with g_total_dmg (group_damage_by_alias rows) = zs_total_dmg stats).
Proof.
  cbn zeta. pose proof (zone_stats_total zone_id s) as Htot.
  split; [|split; [|split; [|split]]].
  - unfold get_zone_combat_times, _get_zone_stats, has_damage, nunique. cbn [snd].
    destruct (List.filter _ _) as [|e0 l] eqn:Hf; [done|]. cbn [zs_kills].
    by rewrite size_list_to_set_remove_dups.
  - exact Htot.
  - apply group_damage_by_alias_total.
  - intros _. rewrite Htot. unfold get_damage_by_zone. apply aggregate_total_mod.
  - intros _ Hnw. rewrite group_damage_by_alias_total, Htot.
    unfold get_damage_by_zone. by rewrite aggregate_total.
Qed.

Lemma List_filter_and {A} (p q : A → bool) (l : list A) :
  List.filter (λ x, p x && q x) l = List.filter p (List.filter q l).
Proof.
  induction l as [|x l IH]; [done|]. cbn.
  destruct (q x); cbn; destruct (p x); cbn; by rewrite ?IH.
Qed.

Lemma List_filter_none {A} (p : A → bool) (l : list A) :
  (∀ x, x ∈ l → p x = false) → List.filter p l = [].
Proof.
  induction l as [|x l IH]; intros H; [done|]. cbn.
  rewrite (H x) by by left. apply IH. intros y Hy. apply H. by right.
Qed.

Lemma zone_isin_singleton (z : Z) e :
  zone_isin [z] e = bool_decide (e_zone_id e = Some z).
Proof.
  unfold zone_isin. cbn. apply bool_decide_ext. apply list_elem_of_singleton.
Qed.

Lemma zone_isin_ext (zs zs' : list Z) e :
  (∀ z, z ∈ zs ↔ z ∈ zs') → zone_isin zs e = zone_isin zs' e.
Proof.
  intros H. unfold zone_isin. apply bool_decide_ext.
  rewrite !list_elem_of_fmap. split; intros (z & Hz & Hin); exists z;
    (split; [done|by apply H]).
Qed.

(** X5.  The damage of a selection of zones is the sum of the damage of
    the zones selected.  For every store and list of zone identifiers: a
    list with one identifier gives what [get_damage_by_zone] and
    [get_zone_combat_times] give for it; the empty list gives no rows and
    no times; two lists with the same members give the same rows and
    times, whatever their order and repetitions; and, the damage columns
    being [int64] columns, the total damage of the rows
    [get_damage_by_zones] returns differs by a multiple of [2 ^ 64] from
    the sum, over the distinct identifiers of the list, of the
    [total_dmg] that [_get_zone_stats] gives for each, and is that sum
    when the figures of the selected events are not negative and add up
    to less than [2 ^ 63]. *)
Theorem selected_zones_add_up (zone_ids : list Z) s :
  let rows := get_damage_by_zones zone_ids s in
  let stats_total :=
    sum_with (λ z, zs_total_dmg (_get_zone_stats z s)) (remove_dups zone_ids) in
  (∀ z, get_damage_by_zones [z] s = get_damage_by_zone z s
        ∧ get_zones_combat_times [z] s = get_zone_combat_times z s)
  ∧ get_damage_by_zones [] s = []
  ∧ get_zones_combat_times [] s = (None, None, 0)
  ∧ (∀ zone_ids', (∀ z, z ∈ zone_ids ↔ z ∈ zone_ids') →
       get_damage_by_zones zone_ids s = get_damage_by_zones zone_ids' s
       ∧ get_zones_combat_times zone_ids s = get_zones_combat_times zone_ids' s)
  ∧ (int64_figures s →
       sum_with r_total_dmg rows mod 2 ^ 64 = stats_total mod 2 ^ 64)
  ∧ (int64_figures s → no_wrap (with_damage (zone_isin zone_ids) s) →
       sum_with r_total_dmg rows = stats_total).
Proof.
  cbn zeta.
  assert (sum_with (λ z, zs_total_dmg (_get_zone_stats z s)) (remove_dups zone_ids)
          = sum_with (λ e, e_health_dmg e + e_armor_dmg e)
              (with_damage (zone_isin zone_ids) s)) as Hstats.
  { rewrite (sum_with_ext _
      (λ z, sum_with (λ e, e_health_dmg e + e_armor_dmg e)
              (List.filter (λ e, bool_decide (e_zone_id e = Some z))
                 (List.filter has_damage (_events_list s))))).
    2:{ intros z _. rewrite (zone_stats_total z s).
        by rewrite List_filter_and. }
    rewrite <- (sum_with_map
      (λ k, sum_with (λ e, e_health_dmg e + e_armor_dmg e)
              (List.filter (λ e, bool_decide (e_zone_id e = k))
                 (List.filter has_damage (_events_list s)))) Some).
    rewrite sum_with_partition
      by (apply (NoDup_fmap_2 Some), NoDup_remove_dups).
    unfold with_damage. rewrite List_filter_and. f_equal.
    apply filter_ext. intros e. unfold zone_isin. apply bool_decide_ext.
    rewrite !list_elem_of_fmap. split; intros (z & Hz & Hin); exists z;
      (split; [done|by apply elem_of_remove_dups]). }
  assert (zone_ids = [] → with_damage (zone_isin zone_ids) s = []) as Hnil.
  { intros ->. unfold with_damage. apply List_filter_none. intros e _.
    apply andb_false_iff. left. apply bool_decide_eq_false_2, not_elem_of_nil. }
  split; [|split; [|split; [|split; [|split]]]].
  - intros z. unfold get_damage_by_zones, get_zones_combat_times,
      get_damage_by_zone, get_zone_combat_times, with_damage.
    rewrite (filter_ext (λ e, zone_isin [z] e && has_damage e)
               (λ e, bool_decide (e_zone_id e = Some z) && has_damage e)); [done|].
    intros e. by rewrite zone_isin_singleton.
  - done.
  - done.
  - intros zs' Hsame.
    destruct zone_ids as [|z0 zs], zs' as [|z0' zs''].
    + done.
    + exfalso. by apply (elem_of_nil z0'), Hsame; left.
    + exfalso. by apply (elem_of_nil z0), Hsame; left.
    + unfold get_damage_by_zones, get_zones_combat_times, with_damage.
      rewrite (filter_ext (λ e, zone_isin (z0 :: zs) e && has_damage e)
                 (λ e, zone_isin (z0' :: zs'') e && has_damage e)); [done|].
      intros e. by rewrite (zone_isin_ext _ _ e Hsame).
  - intros _. rewrite Hstats. destruct zone_ids as [|z0 zs].
    + by rewrite Hnil.
    + unfold get_damage_by_zones. apply aggregate_total_mod.
  - intros _ Hnw. rewrite Hstats. destruct zone_ids as [|z0 zs].
    + by rewrite Hnil.
    + unfold get_damage_by_zones. by apply aggregate_total.
Qed.

Lemma min_list_spec (l : list Z) :
  l ≠ [] → ∃ m, min_list l = Some m ∧ m ∈ l ∧ Forall (Z.le m) l.
Proof.
  destruct l as [|x l]; [done|]. intros _. cbn.
  induction l as [|y l (m & Hm & Hin & Hle)]; cbn.
  - exists x. split; [done|]. split; [by left|]. constructor; [lia|constructor].
  - injection Hm as <-. eexists. split; [done|].
    apply Forall_cons in Hle as [Hx Hl]. split.
    + destruct (Z.min_spec y (foldr Z.min x l)) as [[_ ->]|[_ ->]].
      * right; by left.
      * apply elem_of_cons in Hin as [->|Hin]; [by left|right; by right].
    + constructor; [lia|]. constructor; [lia|].
      eapply Forall_impl; [exact Hl|]. cbn. intros; lia.
Qed.

Lemma max_list_spec (l : list Z) :
  l ≠ [] → ∃ m, max_list l = Some m ∧ m ∈ l ∧ Forall (λ x, x ≤ m) l.
Proof.
  destruct l as [|x l]; [done|]. intros _. cbn.
  induction l as [|y l (m & Hm & Hin & Hle)]; cbn.
  - exists x. split; [done|]. split; [by left|]. constructor; [lia|constructor].
  - injection Hm as <-. eexists. split; [done|].
    apply Forall_cons in Hle as [Hx Hl]. split.
    + destruct (Z.max_spec y (foldr Z.max x l)) as [[_ ->]|[_ ->]].
      * apply elem_of_cons in Hin as [->|Hin]; [by left|right; by right].
      * right; by left.
    + constructor; [lia|]. constructor; [lia|].
      eapply Forall_impl; [exact Hl|]. cbn. intros; lia.
Qed.

Lemma nunique_pos (l : list Z) : l ≠ [] → 1 ≤ nunique l.
Proof.
  destruct l as [|x l]; [done|]. intros _. unfold nunique.
  assert (x ∈ remove_dups (x :: l)) as Hin by (apply elem_of_remove_dups; by left).
  destruct (remove_dups (x :: l)); [by apply elem_of_nil in Hin|]. cbn. lia.
Qed.

(** What [aggregate] says of a row, in terms of the selected events of the
    player of the row. *)
Lemma aggregate_row (filtered : list (EventRow (float := float))) s (r : DamageRow) :
  r ∈ aggregate filtered s →
  let mine := List.filter (λ e, e_player_id e =? r_player_id r) filtered in
  mine ≠ []
  ∧ r_health_dmg r = wrap64 (sum_with e_health_dmg mine)
  ∧ r_armor_dmg r = wrap64 (sum_with e_armor_dmg mine)
  ∧ r_total_dmg r = wrap64 (r_health_dmg r + r_armor_dmg r)
  ∧ r_kills r = nunique (map e_npc_id mine)
  ∧ r_first_hit r = min_list (map e_timestamp mine)
  ∧ r_last_hit r = max_list (map e_timestamp mine)
  ∧ r_original_name r = _get_original_name (r_player_id r) s
  ∧ r_alias r = _get_alias (r_player_id r) s
  ∧ r_display_name r = _get_display_name (r_player_id r) s.
Proof.
  unfold aggregate. rewrite sort_desc_perm. fold (group_ids filtered).
  intros (pid & -> & Hpid)%list_elem_of_fmap. cbn.
  split; [|done].
  apply group_ids_elem in Hpid as (e & He & Hep).
  assert (e ∈ List.filter (λ e, e_player_id e =? pid) filtered) as Hin.
  { apply elem_of_List_filter. split; [lia|done]. }
  intros Hnil. rewrite Hnil in Hin. by apply elem_of_nil in Hin.
Qed.

Lemma aggregate_ids (filtered : list (EventRow (float := float))) s :
  map r_player_id (aggregate filtered s) ≡ₚ group_ids filtered.
Proof.
  unfold aggregate. rewrite sort_desc_perm. fold (group_ids filtered).
  rewrite map_map. cbn. by rewrite map_id.
Qed.

Lemma aggregate_row_times (filtered : list (EventRow (float := float))) s
    (r : DamageRow) :
  r ∈ aggregate filtered s →
  let mine := List.filter (λ e, e_player_id e =? r_player_id r) filtered in
  ∃ first last,
    r_first_hit r = Some first ∧ r_last_hit r = Some last
    ∧ first ≤ last
    ∧ first ∈ map e_timestamp mine ∧ last ∈ map e_timestamp mine
    ∧ Forall (λ e, first ≤ e_timestamp e ≤ last) mine.
Proof.
  intros Hr. cbn zeta.
  destruct (aggregate_row _ _ _ Hr) as (Hne & _ & _ & _ & _ & Hf & Hl & _).
  set (mine := List.filter _ filtered) in *.
  assert (map e_timestamp mine ≠ []) as Hts by (by destruct mine).
  destruct (min_list_spec _ Hts) as (a & Hmin & Hain & Hale).
  destruct (max_list_spec _ Hts) as (b & Hmax & Hbin & Hble).
  exists a, b. rewrite Hf, Hl.
  split; [done|]. split; [done|].
  rewrite Forall_forall in Hale, Hble.
  split; [by apply Hale|]. split; [done|]. split; [done|].
  apply Forall_forall. intros e He.
  assert (e_timestamp e ∈ map e_timestamp mine) as Hin
    by (apply list_elem_of_fmap; by exists e).
  split; [by apply Hale|by apply Hble].
Qed.

(** X6.  The rows of the damage queries.  For every store, the rows
    that [get_damage_by_zone], [get_damage_by_zones] (for a list that is
    not empty) or [get_damage_in_time_range] returns, the selected events
    being the stored events with damage of the zone, of the zones of the
    list, or of the time range and character, are these: one row for
    each player that has a selected event and none for any other, no two
    rows for one player, in descending order of total damage; in each row
    the kill count is at least 1, and [first_hit] and [last_hit] are both
    present, the time stamps of selected events of the player, with
    [first_hit] not after [last_hit]; and, the damage columns being
    [int64] columns, the health and armor damage of a row are the sums
    over the selected events of the player taken in 64 bits, the total is
    their sum in 64 bits, and all three are the plain sums when the
    figures of these events are not negative and add up to less than
    [2 ^ 63]. *)
Theorem damage_rows_per_player (mask : EventRow (float := float) → bool) s
    (rows : list DamageRow) :
  damage_query s mask rows →
  NoDup (map r_player_id rows)
  ∧ StronglySorted (λ a b, r_total_dmg b ≤ r_total_dmg a) rows
  ∧ (∀ pid, pid ∈ map r_player_id rows
            ↔ ∃ e, e ∈ _events_list s ∧ mask e = true ∧ has_damage e = true
                   ∧ e_player_id e = pid)
  ∧ ∀ r, r ∈ rows →
      let mine := List.filter (λ e, e_player_id e =? r_player_id r)
                    (with_damage mask s) in
      1 ≤ r_kills r
      ∧ (∃ first last,
           r_first_hit r = Some first ∧ r_last_hit r = Some last
           ∧ first ≤ last
           ∧ first ∈ map e_timestamp mine ∧ last ∈ map e_timestamp mine
           ∧ Forall (λ e, first ≤ e_timestamp e ≤ last) mine)
      ∧ (int64_figures s →
           r_health_dmg r = wrap64 (sum_with e_health_dmg mine)
           ∧ r_armor_dmg r = wrap64 (sum_with e_armor_dmg mine)
           ∧ r_total_dmg r = wrap64 (r_health_dmg r + r_armor_dmg r))
      ∧ (int64_figures s → no_wrap mine →
           r_health_dmg r = sum_with e_health_dmg mine
           ∧ r_armor_dmg r = sum_with e_armor_dmg mine
           ∧ r_total_dmg r = r_health_dmg r + r_armor_dmg r).
Proof.
  intros Hq.
  assert (rows = aggregate (with_damage mask s) s) as -> by (by destruct Hq).
  clear Hq.
  pose proof (aggregate_ids (with_damage mask s) s) as Hids.
  split; [|split; [|split]].
  - rewrite Hids. apply group_ids_NoDup.
  - apply sort_desc_sorted.
  - intros pid. rewrite Hids, group_ids_elem. unfold with_damage.
    split.
    + intros (e & He & Hp). apply elem_of_List_filter in He as [Hm He].
      apply andb_true_iff in Hm as [Hm Hd]. by exists e.
    + intros (e & He & Hm & Hd & Hp). exists e. split; [|done].
      apply elem_of_List_filter. by rewrite Hm, Hd.
  - intros r Hr.
    destruct (aggregate_row _ _ _ Hr) as (Hne & Hh & Ha & Ht & Hk & _).
    split; [|split; [by apply (aggregate_row_times _ s)|split]].
    + rewrite Hk. apply nunique_pos.
      by destruct (List.filter _ (with_damage mask s)).
    + done.
    + intros _ Hnw. destruct (no_wrap_sums _ Hnw) as (Eh & Ea & Et).
      rewrite Ht, Hh, Ha, Eh, Ea, Et. done.
Qed.

(** X7.  The rolling window.  For every store: if
    [get_latest_damage_timestamp] returns a time, that time is the time
    stamp of a stored event with damage, no stored event with damage is
    later, and [get_damage_in_time_range] over a window that ends at that
    time and is not of negative length returns at least one row; if it
    returns nothing, no stored event has damage and
    [get_damage_in_time_range] returns no row for any window; and in
    every row [get_damage_in_time_range] returns, [first_hit] and
    [last_hit] are present and lie between the start and the end of the
    window, [first_hit] not after [last_hit]. *)
Theorem rolling_window_rows s :
  match get_latest_damage_timestamp s with
  | Some t =>
      (∃ e, e ∈ _events_list s ∧ has_damage e = true ∧ e_timestamp e = t)
      ∧ (∀ e, e ∈ _events_list s → has_damage e = true → e_timestamp e ≤ t)
      ∧ (∀ w, 0 ≤ w → get_damage_in_time_range (t - w) t None s ≠ [])
  | None =>
      (∀ e, e ∈ _events_list s → has_damage e = false)
      ∧ (∀ a b c, get_damage_in_time_range a b c s = [])
  end
  ∧ ∀ a b c r, r ∈ get_damage_in_time_range a b c s →
      ∃ first last,
        r_first_hit r = Some first ∧ r_last_hit r = Some last
        ∧ a ≤ first ∧ first ≤ last ∧ last ≤ b.
Proof.
  split.
  - unfold get_latest_damage_timestamp.
    assert (with_damage (λ _, true) s = List.filter has_damage (_events_list s))
      as -> by done.
    destruct (List.filter has_damage (_events_list s)) as [|e0 l] eqn:Hf.
    + cbn. split.
      * intros e He. destruct (has_damage e) eqn:Hd; [|done].
        assert (e ∈ List.filter has_damage (_events_list s)) as Hin
          by (by apply elem_of_List_filter).
        rewrite Hf in Hin. by apply elem_of_nil in Hin.
      * intros a b c. unfold get_damage_in_time_range, with_damage.
        rewrite List_filter_and, Hf. done.
    + destruct (max_list_spec (map e_timestamp (e0 :: l)))
        as (t & Ht & Hin & Hle); [done|].
      rewrite Ht. rewrite <- Hf in Hin, Hle.
      apply list_elem_of_fmap in Hin as (e & -> & He).
      apply elem_of_List_filter in He as [Hd He].
      split; [by exists e|]. split.
      * intros e' He' Hd'. rewrite Forall_forall in Hle. apply Hle.
        apply list_elem_of_fmap. exists e'. split; [done|].
        by apply elem_of_List_filter.
      * intros w Hw Hnil.
        assert (e_player_id e ∈ map r_player_id
                  (get_damage_in_time_range (e_timestamp e - w) (e_timestamp e)
                     None s)) as Hrow.
        { unfold get_damage_in_time_range. rewrite (aggregate_ids _ s).
          apply group_ids_elem. exists e. split; [|done].
          unfold with_damage. apply elem_of_List_filter. split; [|done].
          rewrite Hd. unfold in_time_range.
          rewrite !andb_true_r. apply andb_true_iff. split; lia. }
        rewrite Hnil in Hrow. by apply elem_of_nil in Hrow.
  - intros a b c r Hr. unfold get_damage_in_time_range in Hr.
    destruct (aggregate_row_times _ _ _ Hr)
      as (first & last & Hf & Hl & Hfl & Hfin & Hlin & _).
    exists first, last. split; [done|]. split; [done|].
    assert (∀ t, t ∈ map e_timestamp
                   (List.filter (λ e, e_player_id e =? r_player_id r)
                      (with_damage (in_time_range a b c) s)) → a ≤ t ≤ b) as Hin.
    { intros t (e & -> & He)%list_elem_of_fmap.
      apply elem_of_List_filter in He as [_ He]. unfold with_damage in He.
      apply elem_of_List_filter in He as [Hm _].
      apply andb_true_iff in Hm as [Hm _]. unfold in_time_range in Hm.
      apply andb_true_iff in Hm as [Hm _].
      apply andb_true_iff in Hm as [H1 H2]. lia. }
    pose proof (Hin _ Hfin). pose proof (Hin _ Hlin). lia.
Qed.

(** ** Strings in order *)

Lemma ltb_lt (a b : string) :
  String.ltb a b = true ↔ OrderedTypeEx.String_as_OT.lt a b.
Proof.
  rewrite <- OrderedTypeEx.String_as_OT.cmp_lt.
  unfold String.ltb, OrderedTypeEx.String_as_OT.cmp.
  by destruct (String.compare a b).
Qed.

Lemma ltb_trans (a b c : string) :
  String.ltb a b = true → String.ltb b c = true → String.ltb a c = true.
Proof.
  rewrite !ltb_lt. apply OrderedTypeEx.String_as_OT.lt_trans.
Qed.

Lemma ltb_irrefl (a : string) : String.ltb a a = false.
Proof.
  destruct (String.ltb a a) eqn:H; [|done].
  apply ltb_lt, OrderedTypeEx.String_as_OT.lt_not_eq in H. by destruct H.
Qed.

Lemma leb_ltb (a b : string) : String.leb a b = negb (String.ltb b a).
Proof.
  unfold String.leb, String.ltb. rewrite (String.compare_antisym b a).
  by destruct (String.compare a b).
Qed.

Lemma leb_iff (a b : string) :
  String.leb a b = true ↔ String.ltb a b = true ∨ a = b.
Proof.
  unfold String.leb, String.ltb. split.
  - destruct (String.compare a b) eqn:Hc; [|by left|done].
    intros _. right. by apply String.compare_eq_iff.
  - intros [H| ->].
    + by destruct (String.compare a b).
    + pose proof (String.compare_antisym b b) as Hi.
      by destruct (String.compare b b).
Qed.

Lemma leb_trans (a b c : string) :
  String.leb a b = true → String.leb b c = true → String.leb a c = true.
Proof.
  rewrite !leb_iff. intros [H1| ->] [H2| ->]; eauto using ltb_trans.
Qed.

Lemma insert_asc_perm {A} (key : A → string) (x : A) (l : list A) :
  insert_asc key x l ≡ₚ x :: l.
Proof.
  induction l as [|y l IH]; cbn; [done|].
  destruct (String.ltb (key y) (key x)); [|done].
  rewrite IH. apply perm_swap.
Qed.

Lemma sort_asc_perm {A} (key : A → string) (l : list A) : sort_asc key l ≡ₚ l.
Proof.
  induction l as [|x l IH]; cbn; [done|].
  fold (sort_asc key l). by rewrite insert_asc_perm, IH.
Qed.

Lemma insert_asc_sorted {A} (key : A → string) (x : A) (l : list A) :
  StronglySorted (λ a b, String.leb (key a) (key b) = true) l →
  StronglySorted (λ a b, String.leb (key a) (key b) = true) (insert_asc key x l).
Proof.
  induction 1 as [|y l Hs IH Hy]; cbn.
  - repeat constructor.
  - destruct (String.ltb (key y) (key x)) eqn:Hlt.
    + constructor; [done|]. rewrite insert_asc_perm.
      constructor; [|done]. apply leb_iff. by left.
    + assert (String.leb (key x) (key y) = true) as Hle
        by (by rewrite leb_ltb, Hlt).
      constructor; [by constructor|].
      constructor; [done|].
      eapply Forall_impl; [exact Hy|]. cbn. intros z Hz.
      by eapply leb_trans.
Qed.

Lemma sort_asc_sorted {A} (key : A → string) (l : list A) :
  StronglySorted (λ a b, String.leb (key a) (key b) = true) (sort_asc key l).
Proof.
  induction l as [|x l IH]; cbn; [constructor|].
  by apply insert_asc_sorted.
Qed.

Lemma sorted_strict (l : list string) :
  StronglySorted (λ a b, String.leb a b = true) l → NoDup l →
  StronglySorted (λ a b, String.ltb a b = true) l.
Proof.
  induction 1 as [|x l Hs IH Hx]; intros Hnd; [constructor|].
  apply NoDup_cons in Hnd as [Hnin Hnd].
  constructor; [by apply IH|].
  apply Forall_forall. intros y Hy. rewrite Forall_forall in Hx.
  specialize (Hx y Hy). apply leb_iff in Hx as [Hlt| ->]; done.
Qed.

Lemma StronglySorted_reverse {A} (R : relation A) (l : list A) :
  StronglySorted R l → StronglySorted (flip R) (reverse l).
Proof.
  induction 1 as [|x l Hs IH Hx]; [constructor|].
  rewrite reverse_cons. apply StronglySorted_app_2.
  - intros a b Ha Hb. apply list_elem_of_singleton in Hb as ->.
    rewrite elem_of_reverse in Ha. rewrite Forall_forall in Hx.
    unfold flip. by apply Hx.
  - done.
  - repeat constructor.
Qed.

Lemma StronglySorted_List_filter {A} (R : relation A) (p : A → bool) (l : list A) :
  StronglySorted R l → StronglySorted R (List.filter p l).
Proof.
  induction 1 as [|x l Hs IH Hx]; cbn; [constructor|].
  destruct (p x); [|done]. constructor; [done|].
  apply Forall_forall. intros y Hy. apply elem_of_List_filter in Hy as [_ Hy].
  rewrite Forall_forall in Hx. by apply Hx.
Qed.

Lemma StronglySorted_map {A B} (R : relation B) (f : A → B) (l : list A) :
  StronglySorted (λ a b, R (f a) (f b)) l → StronglySorted R (map f l).
Proof.
  induction 1 as [|x l Hs IH Hx]; cbn; [constructor|].
  constructor; [done|]. by apply Forall_fmap.
Qed.

Lemma List_filter_sublist {A} (p : A → bool) (l : list A) :
  List.filter p l `sublist_of` l.
Proof.
  induction l as [|x l IH]; cbn; [constructor|].
  destruct (p x); by constructor.
Qed.

Lemma player_entry_id (filter_text : option string) s (pid : Z)
    (x : Z * string * option string) :
  player_entry filter_text s pid = Some x → fst (fst x) = pid.
Proof.
  unfold player_entry. destruct (_player_id_to_info s !! pid); [|done].
  destruct filter_text as [f|]; [destruct (nonempty f && negb _); [done|]|];
    by intros [= <-].
Qed.

Lemma player_entries_NoDup (filter_text : option string) s (l : list Z) :
  NoDup l →
  NoDup (map (λ x : Z * string * option string, fst (fst x))
           (omap (player_entry filter_text s) l)).
Proof.
  induction 1 as [|pid l Hpid Hl IH]; cbn; [constructor|].
  destruct (player_entry filter_text s pid) as [x|] eqn:Hx; [|done].
  cbn. constructor; [|done]. rewrite (player_entry_id _ _ _ _ Hx).
  intros (y & Hy1 & Hy2)%list_elem_of_fmap. apply Hpid.
  apply list_elem_of_omap in Hy2 as (pid' & Hp & Hy).
  apply player_entry_id in Hy. congruence.
Qed.

(** X8.  The list of the alias editor.  For every store and filter text,
    [get_all_players] returns its triples in ascending order of the
    player name, with no identifier twice; a triple (id, name, alias) is
    in the result exactly when some stored event with damage has that
    player id, the index [_player_id_to_info] holds that name and alias
    for the id, and the name contains the filter text, case ignored (a
    filter that is absent or empty lets every name pass); and when no two
    players of the index have the same name, the names of the result are
    in strictly ascending order, so the result does not depend on the
    order in which the set of identifiers is visited. *)
Theorem alias_list_sorted (filter_text : option string) s :
  let result := get_all_players filter_text s in
  StronglySorted (λ a b, String.leb (snd (fst a)) (snd (fst b)) = true) result
  ∧ NoDup (map (λ x, fst (fst x)) result)
  ∧ (∀ pid name alias,
       (pid, name, alias) ∈ result
       ↔ (∃ e, e ∈ _events_list s ∧ has_damage e = true ∧ e_player_id e = pid)
         ∧ _player_id_to_info s !! pid = Some {| pi_name := name; pi_alias := alias |}
         ∧ (∀ f, filter_text = Some f → nonempty f = true →
                 contains (lower f) (lower name) = true))
  ∧ ((∀ i j a b, _player_id_to_info s !! i = Some a →
                 _player_id_to_info s !! j = Some b →
                 pi_name a = pi_name b → i = j) →
     StronglySorted (λ a b, String.ltb a b = true)
       (map (λ x, snd (fst x)) result)).
Proof.
  cbn zeta.
  set (entries := omap (player_entry filter_text s) (elements (active_player_ids s))).
  assert (∀ pid name alias,
            (pid, name, alias) ∈ entries
            ↔ (∃ e, e ∈ _events_list s ∧ has_damage e = true ∧ e_player_id e = pid)
              ∧ _player_id_to_info s !! pid = Some {| pi_name := name; pi_alias := alias |}
              ∧ (∀ f, filter_text = Some f → nonempty f = true →
                      contains (lower f) (lower name) = true)) as Hentries.
  { intros pid name alias. unfold entries. rewrite list_elem_of_omap.
    setoid_rewrite elem_of_elements. unfold active_player_ids.
    setoid_rewrite elem_of_list_to_set. setoid_rewrite list_elem_of_fmap.
    setoid_rewrite elem_of_List_filter. unfold player_entry. split.
    - intros (pid' & (e & -> & Hd & He) & Hentry).
      destruct (_player_id_to_info s !! e_player_id e) as [info|] eqn:Hinfo; [|done].
      assert (pid = e_player_id e ∧ name = pi_name info ∧ alias = pi_alias info
              ∧ (∀ f, filter_text = Some f → nonempty f = true →
                      contains (lower f) (lower (pi_name info)) = true))
        as (-> & -> & -> & Hf).
      { destruct filter_text as [f|].
        - destruct (nonempty f) eqn:Hn; cbn in Hentry.
          + destruct (contains (lower f) (lower (pi_name info))) eqn:Hc;
              cbn in Hentry; [|done].
            injection Hentry as <- <- <-.
            repeat split. by intros ? [= <-].
          + injection Hentry as <- <- <-.
            repeat split. intros ? [= <-]. congruence.
        - injection Hentry as <- <- <-. repeat split. done. }
      split; [by exists e|]. split; [by destruct info|done].
    - intros ((e & He & Hd & <-) & Hinfo & Hf).
      exists (e_player_id e). split; [by exists e|].
      rewrite Hinfo. cbn. destruct filter_text as [f|]; [|done].
      destruct (nonempty f) eqn:Hn; [|done]. cbn.
      by rewrite (Hf f eq_refl Hn). }
  assert (NoDup (map (λ x : Z * string * option string, fst (fst x)) entries))
    as Hnd by (apply player_entries_NoDup, NoDup_elements).
  assert (get_all_players filter_text s = sort_asc (λ x, snd (fst x)) entries
          ∨ (get_all_players filter_text s = [] ∧ entries = [])) as [Hr|[Hr He]].
  { unfold get_all_players. destruct (_events_list s) eqn:Hev; [|by left].
    right. split; [done|]. unfold entries, active_player_ids. rewrite Hev.
    cbn. by rewrite elements_empty. }
  - rewrite Hr. split; [apply sort_asc_sorted|].
    split; [by rewrite sort_asc_perm|].
    split.
    + intros pid name alias. rewrite sort_asc_perm. apply Hentries.
    + intros Hnames.
      apply sorted_strict.
      * apply StronglySorted_map, sort_asc_sorted.
      * rewrite sort_asc_perm.
        apply (NoDup_fmap_2_strong (λ x : Z * string * option string, snd (fst x))).
        2:{ eapply (NoDup_fmap_1 (λ x : Z * string * option string, fst (fst x))).
            exact Hnd. }
        intros [[i n] a] [[j m] b] Hx Hy Heq. cbn in Heq. subst m.
        apply Hentries in Hx as (_ & Hx & _). apply Hentries in Hy as (_ & Hy & _).
        assert (i = j) as -> by (by eapply Hnames).
        rewrite Hx in Hy. by injection Hy as ->.
  - rewrite Hr. split; [constructor|]. split; [constructor|]. split.
    + intros pid name alias. rewrite <- Hentries, He. done.
    + intros _. constructor.
Qed.

Lemma instance_kept_all (z : ZoneRow) : instance_kept None None z = true.
Proof. done. Qed.

Lemma instance_kept_iff (zone_name log_date : option string) (z : ZoneRow) :
  instance_kept zone_name log_date z = true
  ↔ (given zone_name = true → Some (z_name z) = zone_name)
    ∧ (given log_date = true → z_log_date z = log_date).
Proof.
  unfold instance_kept. rewrite andb_true_iff, !negb_true_iff, !andb_false_iff.
  rewrite !negb_false_iff, !bool_decide_eq_true.
  split; intros [H1 H2]; split.
  - intros Hg. destruct H1 as [H1|H1]; [congruence|done].
  - intros Hg. destruct H2 as [H2|H2]; [congruence|done].
  - destruct (given zone_name); [right; by apply H1|by left].
  - destruct (given log_date); [right; by apply H2|by left].
Qed.

(** X9.  The list of zone runs.  For every store,
    [get_all_zone_instances] without filters returns the zone list in
    reverse, the newest entry first, as many entries as [get_stats]
    counts zones; with filters it returns, in the same order, exactly the
    entries whose name is the zone name asked for and whose log date is
    the date asked for (a filter that is absent or empty asks for
    nothing); and when the identifiers of the zone list grow along the
    list ([zones_ok]), the identifiers of the result go down. *)
Theorem zone_instances_newest_first s :
  get_all_zone_instances None None s = reverse (_zones_list s)
  ∧ Z.of_nat (length (get_all_zone_instances None None s)) = st_zones (get_stats s)
  ∧ ∀ zone_name log_date,
      let r := get_all_zone_instances zone_name log_date s in
      r `sublist_of` get_all_zone_instances None None s
      ∧ (∀ z, z ∈ r
              ↔ z ∈ _zones_list s
                ∧ (given zone_name = true → Some (z_name z) = zone_name)
                ∧ (given log_date = true → z_log_date z = log_date))
      ∧ (zones_ok s → StronglySorted (λ a b, z_zone_id b < z_zone_id a) r).
Proof.
  assert (get_all_zone_instances None None s = reverse (_zones_list s)) as Hall.
  { unfold get_all_zone_instances. apply List_filter_all. intros z _.
    apply instance_kept_all. }
  split; [exact Hall|]. split.
  - rewrite Hall, length_reverse. done.
  - intros zone_name log_date. cbn zeta. split; [|split].
    + rewrite Hall. apply List_filter_sublist.
    + intros z. unfold get_all_zone_instances.
      rewrite elem_of_List_filter, elem_of_reverse, instance_kept_iff. tauto.
    + intros (Hs & _). unfold get_all_zone_instances.
      apply StronglySorted_List_filter.
      apply (StronglySorted_reverse (λ a b, z_zone_id a < z_zone_id b)).
      clear -Hs. induction (_zones_list s) as [|z l IH]; [constructor|].
      cbn in Hs. apply StronglySorted_inv in Hs as [Hs Hz].
      constructor; [by apply IH|].
      apply Forall_forall. intros y Hy. rewrite Forall_forall in Hz.
      apply Hz. apply list_elem_of_fmap. by exists y.
Qed.

(** X10.  The choices of the zone and date filters.  For every store,
    [get_unique_zone_names] returns the names of the entries of the zone
    list, each once, in strictly ascending order, and
    [get_unique_log_dates] returns the log dates of the entries that have
    one that is not empty, each once, in strictly descending order; so
    neither depends on the order in which Python visits a set. *)
Theorem filter_choices_sorted s :
  StronglySorted (λ a b, String.ltb a b = true) (get_unique_zone_names s)
  ∧ (∀ n, n ∈ get_unique_zone_names s ↔ ∃ z, z ∈ _zones_list s ∧ z_name z = n)
  ∧ StronglySorted (λ a b, String.ltb b a = true) (get_unique_log_dates s)
  ∧ (∀ d, d ∈ get_unique_log_dates s
          ↔ nonempty d = true ∧ ∃ z, z ∈ _zones_list s ∧ z_log_date z = Some d).
Proof.
  assert (∀ X : gset string,
            StronglySorted (λ a b, String.ltb a b = true) (sorted (elements X))
            ∧ ∀ x, x ∈ sorted (elements X) ↔ x ∈ X) as Hsorted.
  { intros X. unfold sorted. split.
    - apply sorted_strict.
      + apply (sort_asc_sorted id).
      + rewrite sort_asc_perm. apply NoDup_elements.
    - intros x. by rewrite sort_asc_perm, elem_of_elements. }
  split; [|split; [|split]].
  - apply Hsorted.
  - intros n. unfold get_unique_zone_names.
    rewrite (proj2 (Hsorted _)), elem_of_list_to_set, list_elem_of_fmap.
    split; intros (z & H1 & H2); by exists z.
  - unfold get_unique_log_dates.
    apply (StronglySorted_reverse (λ a b, String.ltb a b = true)), Hsorted.
  - intros d. unfold get_unique_log_dates.
    rewrite elem_of_reverse, (proj2 (Hsorted _)), elem_of_list_to_set.
    rewrite list_elem_of_omap. split.
    + intros (z & Hz & Hd). destruct (z_log_date z) as [d'|] eqn:Hl; [|done].
      destruct (nonempty d') eqn:Hn; [|done]. injection Hd as ->.
      split; [done|]. by exists z.
    + intros (Hn & z & Hz & Hl). exists z. split; [done|]. by rewrite Hl, Hn.
Qed.

(** ** Aliases *)

(** X18.  An alias is kept.  For a player the index knows,
    [update_player_alias] makes the display name the alias (the original
    name when the alias is empty) and leaves the original name; it writes
    the alias dictionary to the alias file, with the alias under the
    original name (no entry when the alias is empty) and every other
    entry as it was; a store made later from that file shows the player
    under the same display name as soon as the name is seen; no other
    player's display name changes; and the rows [get_damage_by_zone]
    returns for the player carry the new display name. *)
Theorem alias_is_kept s (player_id : Z) (alias : string) (info : PlayerInfo) :
  _player_id_to_info s !! player_id = Some info →
  let s' := update_player_alias player_id alias s in
  let shown := if nonempty alias then alias else pi_name info in
  let entry := if nonempty alias then Some alias else None in
  _get_display_name player_id s' = shown
  ∧ _get_original_name player_id s' = pi_name info
  ∧ _get_alias player_id s' = entry
  ∧ aliases_file s' = _aliases s'
  ∧ aliases_file s' !! pi_name info = entry
  ∧ (∀ name, name ≠ pi_name info → aliases_file s' !! name = _aliases s !! name)
  ∧ (let r := get_or_create_player (pi_name info)
                (new_store (float := float) (aliases_file s')) in
     _get_display_name (snd r) (fst r) = shown)
  ∧ (∀ other, other ≠ player_id →
       _get_display_name other s' = _get_display_name other s)
  ∧ (∀ z row, row ∈ get_damage_by_zone z s' → r_player_id row = player_id →
       r_display_name row = shown).
Proof.
  intros Hinfo. cbn zeta.
  assert (_get_display_name player_id (update_player_alias player_id alias s)
          = if nonempty alias then alias else pi_name info) as Hshown.
  { unfold _get_display_name, update_player_alias. rewrite Hinfo. cbn.
    rewrite lookup_insert_eq. cbn. destruct (nonempty alias) eqn:Hn; [|done].
    by rewrite Hn. }
  assert (∀ z row,
            row ∈ get_damage_by_zone z (update_player_alias player_id alias s) →
            r_player_id row = player_id →
            r_display_name row = if nonempty alias then alias else pi_name info)
    as Hlast.
  { intros z row Hrow Hpid. unfold get_damage_by_zone in Hrow.
    destruct (aggregate_row _ _ _ Hrow) as (_ & _ & _ & _ & _ & _ & _ & _ & _ & ->).
    rewrite Hpid. exact Hshown. }
  split; [exact Hshown|]. revert Hlast.
  unfold _get_original_name, _get_alias, _get_display_name, update_player_alias.
  rewrite Hinfo. cbn [_player_id_to_info aliases_file _aliases].
  rewrite lookup_insert_eq. cbn [pi_name pi_alias]. intros Hlast.
  split; [done|]. split; [done|]. split; [done|]. split.
  { destruct (nonempty alias); [by rewrite lookup_insert_eq|].
    by rewrite lookup_delete_eq. }
  split.
  { intros name Hne. destruct (nonempty alias).
    - by rewrite lookup_insert_ne.
    - by rewrite lookup_delete_ne. }
  split.
  { unfold get_or_create_player, new_store. cbn. rewrite lookup_empty. cbn.
    rewrite lookup_insert_eq. cbn.
    destruct (nonempty alias) eqn:Hn.
    - by rewrite lookup_insert_eq, Hn.
    - by rewrite lookup_delete_eq. }
  split.
  { intros other Hne. by rewrite lookup_insert_ne. }
  exact Hlast.
Qed.

Lemma NoDup_map_filter {A B} (f : A → B) (P : A → Prop)
    `{∀ x, Decision (P x)} (l : list A) :
  NoDup (map f l) → NoDup (map f (filter P l)).
Proof.
  induction l as [|x l IH]; [done|]. intros Hnd. cbn [map] in Hnd.
  apply NoDup_cons in Hnd as [Hx Hl].
  rewrite filter_cons. destruct (decide (P x)); [|by apply IH].
  cbn. constructor; [|by apply IH].
  intros (y & Hy1 & Hy2)%list_elem_of_fmap. apply Hx.
  apply list_elem_of_fmap. exists y. split; [done|].
  by apply list_elem_of_filter in Hy2 as [_ ?].
Qed.

(** X19.  Players under one alias are one row.  For every store, zone
    and display name under which some player has an event with damage in
    the zone: grouping the rows of [get_damage_by_zone] with
    [group_damage_by_alias] gives exactly one row of that display name;
    its player identifiers are those of the players of that display name
    who have such an event; and, the damage columns being [int64]
    columns, its total damage differs by a multiple of [2 ^ 64] from the
    health and armor damage of all events with damage of the zone whose
    player has that display name, and is that damage when the figures of
    these events are not negative and add up to less than [2 ^ 63]. *)
Theorem same_alias_one_row (zone_id : Z) s (k : string) (e0 : EventRow) :
  e0 ∈ _events_list s → e_zone_id e0 = Some zone_id → has_damage e0 = true →
  _get_display_name (e_player_id e0) s = k →
  let out := group_damage_by_alias (get_damage_by_zone zone_id s) in
  let mine e := bool_decide (e_zone_id e = Some zone_id) && has_damage e
                && bool_decide (_get_display_name (e_player_id e) s = k) in
  let damage := sum_with (λ e, e_health_dmg e + e_armor_dmg e)
                  (List.filter mine (_events_list s)) in
  ∃ g, g ∈ out ∧ g_display_name g = k
       ∧ (∀ g', g' ∈ out → g_display_name g' = k → g' = g)
       ∧ (∀ pid, pid ∈ g_player_ids g
                 ↔ ∃ e, e ∈ _events_list s ∧ mine e = true ∧ e_player_id e = pid)
       ∧ (int64_figures s → g_total_dmg g mod 2 ^ 64 = damage mod 2 ^ 64)
       ∧ (int64_figures s → no_wrap (List.filter mine (_events_list s)) →
            g_total_dmg g = damage).
Proof.
  intros He0 Hz0 Hd0 Hk0. cbn zeta.
  set (filtered := List.filter (λ e, bool_decide (e_zone_id e = Some zone_id)
                                     && has_damage e) (_events_list s)).
  set (rows := get_damage_by_zone zone_id s).
  assert (rows = aggregate filtered s) as Hrows by done.
  set (S := λ pid, sum_with (λ e, e_health_dmg e + e_armor_dmg e)
                     (List.filter (λ e, bool_decide (e_player_id e = pid))
                        filtered)).
  assert (∀ row, row ∈ rows →
            r_display_name row = _get_display_name (r_player_id row) s
            ∧ r_total_dmg row mod 2 ^ 64 = S (r_player_id row) mod 2 ^ 64
            ∧ (no_wrap (List.filter (λ e, bool_decide (e_player_id e = r_player_id row))
                          filtered) →
               r_total_dmg row = S (r_player_id row))) as Hrow.
  { intros row Hin. rewrite Hrows in Hin.
    destruct (aggregate_row _ _ _ Hin) as (_ & Hh & Ha & Ht & _ & _ & _ & _ & _ & Hdn).
    split; [done|]. unfold S. rewrite Ht, Hh, Ha, filter_player_id, sum_with_add.
    split.
    - rewrite wrap64_mod, Zdiv.Zplus_mod, !wrap64_mod. by rewrite <- Zdiv.Zplus_mod.
    - intros Hnw. by destruct (no_wrap_sums _ Hnw) as (-> & -> & ->). }
  assert (∀ pid, pid ∈ map r_player_id rows
                 ↔ ∃ e, e ∈ filtered ∧ e_player_id e = pid) as Hids.
  { intros pid. rewrite Hrows, (aggregate_ids filtered s). apply group_ids_elem. }
  assert (NoDup (map r_player_id rows)) as Hnd.
  { rewrite Hrows, (aggregate_ids filtered s). apply group_ids_NoDup. }
  assert (e0 ∈ filtered) as Hf0.
  { apply elem_of_List_filter. split; [|done].
    by rewrite Hd0, bool_decide_eq_true_2. }
  assert (∀ g, g ∈ group_damage_by_alias rows
               ↔ ∃ d, d ∈ rows ∧ g = merged (r_display_name d) rows) as Hout.
  { intros g. unfold group_damage_by_alias. rewrite sort_desc_perm.
    apply grouped_elem. }
  assert (∃ d0, d0 ∈ rows ∧ r_player_id d0 = e_player_id e0) as (d0 & Hd0in & Hd0id).
  { assert (e_player_id e0 ∈ map r_player_id rows) as Hin
      by (apply Hids; by exists e0).
    apply list_elem_of_fmap in Hin as (d & Hd1 & Hd2). by exists d. }
  assert (r_display_name d0 = k) as Hd0k.
  { rewrite (proj1 (Hrow d0 Hd0in)), Hd0id. done. }
  assert (∀ pid, pid ∈ map r_player_id (members k rows)
                 ↔ ∃ e, e ∈ filtered ∧ e_player_id e = pid
                        ∧ _get_display_name pid s = k) as Hmem.
  { intros pid. unfold members. rewrite list_elem_of_fmap. split.
    - intros (d & -> & Hd). apply list_elem_of_filter in Hd as [Hdk Hd].
      assert (r_player_id d ∈ map r_player_id rows) as Hin
        by (apply list_elem_of_fmap; by exists d).
      apply Hids in Hin as (e & Hein & Hep). exists e.
      split; [done|]. split; [done|]. by rewrite <- (proj1 (Hrow d Hd)).
    - intros (e & Hein & Hep & Hdk).
      assert (pid ∈ map r_player_id rows) as Hin by (apply Hids; by exists e).
      apply list_elem_of_fmap in Hin as (d & -> & Hd). exists d. split; [done|].
      apply list_elem_of_filter. split; [|done].
      by rewrite (proj1 (Hrow d Hd)). }
  assert (sum_with (λ row, S (r_player_id row)) (members k rows)
          = sum_with (λ e, e_health_dmg e + e_armor_dmg e)
              (List.filter
                 (λ e, bool_decide (e_zone_id e = Some zone_id) && has_damage e
                       && bool_decide (_get_display_name (e_player_id e) s = k))
                 (_events_list s))) as Hpart.
  { rewrite <- (sum_with_map S r_player_id). unfold S.
    rewrite sum_with_partition by (by apply NoDup_map_filter).
    unfold filtered. rewrite <- List_filter_and. f_equal.
    apply filter_ext_in. intros e Hein. apply list_elem_of_In in Hein.
    destruct (bool_decide (e_zone_id e = Some zone_id) && has_damage e) eqn:Hm.
    + rewrite andb_true_r. cbn. apply bool_decide_ext. rewrite Hmem. split.
      * intros (e' & _ & Hep & Hdk). by rewrite <- Hdk.
      * intros Hdk. exists e. split; [by apply elem_of_List_filter|]. done.
    + by rewrite andb_false_r. }
  exists (merged k rows). split; [|split; [done|split; [|split; [|split]]]].
  - apply Hout. exists d0. by rewrite Hd0k.
  - intros g' Hg' Hname. apply Hout in Hg' as (d & Hd & ->).
    cbn in Hname. by rewrite Hname.
  - intros pid. cbn [merged g_player_ids]. rewrite Hmem. split.
    + intros (e & Hein & Hep & Hdk). exists e.
      apply elem_of_List_filter in Hein as [Hm Hein].
      split; [done|]. split; [|done].
      rewrite Hm. cbn. apply bool_decide_eq_true_2. by rewrite Hep.
    + intros (e & Hein & Hm & Hep).
      apply andb_true_iff in Hm as [Hm Hdk]. apply bool_decide_eq_true in Hdk.
      exists e. split; [by apply elem_of_List_filter|].
      split; [done|]. by rewrite <- Hep.
  - intros _. cbn [merged g_total_dmg]. rewrite <- Hpart.
    apply sum_with_mod. intros row Hin. apply Hrow. unfold members in Hin.
    by apply list_elem_of_filter in Hin as [_ ?].
  - intros _ Hnw. cbn [merged g_total_dmg]. rewrite <- Hpart.
    apply sum_with_ext. intros row Hin. unfold members in Hin.
    apply list_elem_of_filter in Hin as [Hdk Hin].
    apply Hrow; [done|].
    assert (_get_display_name (r_player_id row) s = k) as Hk
      by (by rewrite <- (proj1 (Hrow row Hin))).
    replace (List.filter (λ e, bool_decide (e_player_id e = r_player_id row)) filtered)
      with (List.filter (λ e, bool_decide (e_player_id e = r_player_id row))
              (List.filter
                 (λ e, bool_decide (e_zone_id e = Some zone_id) && has_damage e
                       && bool_decide (_get_display_name (e_player_id e) s = k))
                 (_events_list s))).
    + by apply no_wrap_filter.
    + unfold filtered. rewrite <- !List_filter_and. apply filter_ext. intros e.
      destruct (decide (e_player_id e = r_player_id row)) as [Hp|Hp].
      * rewrite (bool_decide_eq_true_2 _ Hp). cbn [andb].
        rewrite Hp, (bool_decide_eq_true_2 _ Hk). by rewrite andb_true_r.
      * by rewrite (bool_decide_eq_false_2 _ Hp).
Qed.

End Queries.

(** ** The configuration file *)

Lemma append_inv_head (a b c : string) : a +:+ b = a +:+ c → b = c.
Proof.
  induction a as [|x a IH]; [done|]. rewrite !append_cons. intros [= H]. by apply IH.
Qed.

Lemma append_empty_r (s : string) : s +:+ "" = s.
Proof. induction s as [|a s IH]; [done|]. by rewrite append_cons, IH. Qed.

Lemma one_line_app (a b : string) :
  one_line (a +:+ b) = one_line a && one_line b.
Proof.
  induction a as [|x a IH]; [done|]. rewrite append_cons. cbn [one_line].
  rewrite IH. by rewrite andb_assoc.
Qed.

Lemma write_text_app (os : platform) (a b : string) :
  write_text os (a +:+ b) = write_text os a +:+ write_text os b.
Proof.
  induction a as [|x a IH]; [done|]. rewrite append_cons. cbn [write_text].
  rewrite IH. destruct (Ascii.eqb x newline).
  - by rewrite append_assoc.
  - by rewrite append_cons.
Qed.

Lemma write_text_one_line (os : platform) (s : string) :
  one_line s = true → write_text os s = s.
Proof.
  induction s as [|x s IH]; [done|]. cbn [one_line write_text].
  intros H. apply andb_true_iff in H as [H Hs]. apply andb_true_iff in H as [Hn _].
  apply negb_true_iff in Hn. rewrite Hn. by rewrite IH.
Qed.

Lemma read_text_line (os : platform) (s rest : string) :
  one_line s = true →
  read_text (s +:+ linesep os +:+ rest) = s +:+ String newline (read_text rest).
Proof.
  induction s as [|x s IH]; intros H.
  - rewrite !append_nil. by destruct os.
  - cbn [one_line] in H.
    apply andb_true_iff in H as [H Hs]. apply andb_true_iff in H as [_ Hc].
    apply negb_true_iff in Hc. rewrite !append_cons. cbn [read_text].
    rewrite Hc. by rewrite IH.
Qed.

Lemma readlines_line (s rest : string) :
  one_line s = true →
  readlines (s +:+ String newline rest) = (s +:+ String newline "") :: readlines rest.
Proof.
  induction s as [|x s IH]; intros H.
  - done.
  - cbn [one_line] in H.
    apply andb_true_iff in H as [H Hs]. apply andb_true_iff in H as [Hn _].
    apply negb_true_iff in Hn. rewrite !append_cons. cbn [readlines].
    rewrite Hn. by rewrite IH.
Qed.

(** *** White space at the ends *)

Lemma lstrip_fixed (s : string) :
  lstrip s = s ↔ match s with String a _ => is_space a = false | EmptyString => True end.
Proof.
  assert (∀ t, (String.length (lstrip t) ≤ String.length t)%nat) as Hlen.
  { induction t as [|a t IH]; [done|]. cbn [lstrip].
    destruct (is_space a); cbn [String.length]; lia. }
  destruct s as [|a s]; [done|]. cbn [lstrip].
  destruct (is_space a) eqn:Ha; [|done]. split; [|done].
  intros H. specialize (Hlen s). rewrite H in Hlen. cbn [String.length] in Hlen. lia.
Qed.

Lemma lstrip_app (a b : string) : lstrip a = a → a ≠ "" → lstrip (a +:+ b) = a +:+ b.
Proof.
  intros H Hne. destruct a as [|x a]; [done|].
  apply lstrip_fixed in H. rewrite append_cons. cbn [lstrip]. by rewrite H.
Qed.

Lemma rstrip_app (a b : string) :
  rstrip (a +:+ b) = match rstrip b with
                     | EmptyString => rstrip a
                     | r => a +:+ r
                     end.
Proof.
  induction a as [|x a IH].
  - rewrite append_nil. by destruct (rstrip b).
  - rewrite append_cons. cbn [rstrip]. rewrite IH.
    destruct (rstrip b) as [|y r]; [done|].
    rewrite append_cons. destruct a; by rewrite ?append_cons, ?append_nil.
Qed.

Lemma rstrip_fixed_app (a b : string) :
  rstrip (a +:+ b) = a +:+ b → rstrip b = b.
Proof.
  rewrite rstrip_app. destruct (rstrip b) as [|y r] eqn:Hb.
  - intros H. destruct b as [|z b]; [done|].
    assert (String.length (rstrip a) ≤ String.length a)%nat as Hlen.
    { clear. induction a as [|x a IH]; [done|]. cbn [rstrip].
      destruct (rstrip a); [destruct (is_space x)|]; cbn [String.length] in *; lia. }
    rewrite H, length_append in Hlen. cbn [String.length] in Hlen. lia.
  - by intros H%append_inv_head.
Qed.

Lemma lstrip_app_any (a b : string) :
  lstrip (a +:+ b) = match lstrip a with
                     | EmptyString => lstrip b
                     | l => l +:+ b
                     end.
Proof.
  induction a as [|x a IH]; [by rewrite append_nil|].
  rewrite append_cons. cbn [lstrip]. destruct (is_space x); [done|].
  by rewrite append_cons.
Qed.

Lemma lstrip_suffix (s : string) : ∃ p, s = p +:+ lstrip s.
Proof.
  induction s as [|a s [p IH]]; [by exists ""|]. cbn [lstrip].
  destruct (is_space a).
  - exists (String a p). by rewrite append_cons, <- IH.
  - by exists "".
Qed.

Lemma rstrip_prefix (s : string) : ∃ q, s = rstrip s +:+ q.
Proof.
  induction s as [|a s [q IH]]; [by exists ""|]. cbn [rstrip].
  destruct (rstrip s) as [|b r].
  - rewrite append_nil in IH. subst q. destruct (is_space a).
    + by exists (String a s).
    + by exists s.
  - exists q. by rewrite append_cons, <- IH.
Qed.

Lemma rstrip_rstrip (s : string) : rstrip (rstrip s) = rstrip s.
Proof.
  induction s as [|a s IH]; [done|]. cbn [rstrip].
  destruct (rstrip s) as [|b r] eqn:Hr.
  - destruct (is_space a) eqn:Ha; [done|]. cbn [rstrip]. by rewrite Ha.
  - cbn [rstrip]. cbn [rstrip] in IH. by rewrite IH.
Qed.

Lemma lstrip_strip (s : string) : lstrip (strip s) = strip s.
Proof.
  unfold strip.
  assert (lstrip (lstrip s) = lstrip s) as Hl.
  { induction s as [|a s IH]; [done|]. cbn [lstrip].
    destruct (is_space a) eqn:Ha; [done|]. cbn [lstrip]. by rewrite Ha. }
  destruct (lstrip s) as [|a u]; [done|].
  apply lstrip_fixed in Hl. apply lstrip_fixed. cbn [rstrip].
  destruct (rstrip u); [by rewrite Hl|done].
Qed.

Lemma strip_newline (body : string) :
  strip (body +:+ String newline "") = strip body.
Proof.
  unfold strip. rewrite lstrip_app_any.
  destruct (lstrip body) as [|a l]; [done|].
  by rewrite rstrip_app.
Qed.

Lemma one_line_strip (body : string) : one_line body = true → one_line (strip body) = true.
Proof.
  intros H. unfold strip.
  destruct (lstrip_suffix body) as [p Hp].
  destruct (rstrip_prefix (lstrip body)) as [q Hq].
  rewrite Hp, Hq, !one_line_app in H.
  apply andb_true_iff in H as [_ H]. by apply andb_true_iff in H as [H _].
Qed.

(** *** Items and lines *)

Lemma contains_eq_cons (a : ascii) (s : string) :
  contains "=" (String a s) = Ascii.eqb "=" a || contains "=" s.
Proof. cbn [contains strip_prefix]. by destruct (Ascii.eqb "=" a). Qed.

Lemma split_first_eq (key value : string) :
  contains "=" key = false →
  split_first "=" (key +:+ "=" +:+ value) = Some (key, value).
Proof.
  induction key as [|a key IH]; [done|]. rewrite contains_eq_cons.
  intros H. apply orb_false_iff in H as [Ha Hk].
  rewrite append_cons. cbn [split_first].
  rewrite Ascii.eqb_sym, Ha. by rewrite IH.
Qed.

Lemma split_first_Some (s key value : string) :
  split_first "=" s = Some (key, value) →
  s = key +:+ "=" +:+ value ∧ contains "=" key = false.
Proof.
  revert key. induction s as [|a s IH]; intros key; [done|]. cbn [split_first].
  destruct (Ascii.eqb a "=") eqn:Ha.
  - intros [= <- <-]. apply Ascii.eqb_eq in Ha as ->. done.
  - destruct (split_first "=" s) as [[before after]|]; [|done].
    intros [= <- <-]. destruct (IH before eq_refl) as [-> Hb].
    split; [done|]. rewrite contains_eq_cons, Hb, Ascii.eqb_sym, Ha. done.
Qed.

Lemma contains_eq_app (a b : string) : contains "=" (a +:+ "=" +:+ b) = true.
Proof.
  induction a as [|x a IH]; [done|]. rewrite append_cons, contains_eq_cons, IH.
  by destruct (Ascii.eqb "=" x).
Qed.

Lemma config_line_body (entry : string * string) :
  config_line entry = (fst entry +:+ "=" +:+ snd entry) +:+ String newline "".
Proof. unfold config_line. by rewrite !append_assoc. Qed.

Lemma entry_ok_body (entry : string * string) :
  entry_ok entry = true → one_line (fst entry +:+ "=" +:+ snd entry) = true.
Proof.
  unfold entry_ok. intros H. repeat (apply andb_true_iff in H as [H ?]).
  rewrite !one_line_app. by repeat (apply andb_true_iff; split).
Qed.

Lemma strip_config_line (entry : string * string) :
  entry_ok entry = true →
  strip (config_line entry) = fst entry +:+ "=" +:+ snd entry.
Proof.
  destruct entry as [key value]. unfold entry_ok. cbn [fst snd]. intros H.
  repeat (apply andb_true_iff in H as [H ?]).
  apply String.eqb_eq in H0, H1.
  rewrite config_line_body, strip_newline. cbn [fst snd]. unfold strip.
  assert (lstrip (key +:+ "=" +:+ value) = key +:+ "=" +:+ value) as ->.
  { destruct key as [|a key]; [done|]. by apply lstrip_app. }
  assert (rstrip ("=" +:+ value) = "=" +:+ value) as Hv.
  { rewrite rstrip_app, H0. by destruct value. }
  rewrite rstrip_app, Hv. done.
Qed.

(** *** The dictionary *)

Lemma dict_get_set_eq (key value : string) (config : Config) :
  dict_get key (dict_set key value config) = Some value.
Proof.
  induction config as [|[k v] config IH]; cbn [dict_set dict_get].
  - by rewrite String.eqb_refl.
  - destruct (String.eqb k key) eqn:Hk; cbn [dict_get]; by rewrite Hk.
Qed.

Lemma dict_get_set_ne (key key' value : string) (config : Config) :
  key ≠ key' → dict_get key' (dict_set key value config) = dict_get key' config.
Proof.
  intros Hne. induction config as [|[k v] config IH]; cbn [dict_set dict_get].
  - by apply String.eqb_neq in Hne as ->.
  - destruct (String.eqb k key) eqn:Hk; cbn [dict_get]; [|by rewrite IH].
    apply String.eqb_eq in Hk as ->. by apply String.eqb_neq in Hne as ->.
Qed.

Lemma dict_get_None (key : string) (config : Config) :
  key ∉ map fst config → dict_get key config = None.
Proof.
  induction config as [|[k v] config IH]; [done|]. cbn [map fst dict_get].
  intros H. apply not_elem_of_cons in H as [Hk H].
  apply not_eq_sym, String.eqb_neq in Hk. rewrite Hk. by apply IH.
Qed.

Lemma dict_set_new (key value : string) (config : Config) :
  key ∉ map fst config → dict_set key value config = config ++ [(key, value)].
Proof.
  induction config as [|[k v] config IH]; [done|]. cbn [map fst dict_set].
  intros H. apply not_elem_of_cons in H as [Hk H].
  apply not_eq_sym, String.eqb_neq in Hk. rewrite Hk. by rewrite IH.
Qed.

Lemma dict_set_keys (key value : string) (config : Config) :
  map fst (dict_set key value config)
  = if decide (key ∈ map fst config) then map fst config
    else map fst config ++ [key].
Proof.
  induction config as [|[k v] config IH]; cbn [dict_set map fst].
  - destruct (decide (key ∈ [])) as [H|_]; [by apply elem_of_nil in H|done].
  - destruct (String.eqb k key) eqn:Hk.
    + apply String.eqb_eq in Hk as ->. cbn [map fst].
      destruct (decide (key ∈ key :: map fst config)) as [_|H]; [done|].
      exfalso. apply H. by left.
    + apply String.eqb_neq in Hk. cbn [map fst]. rewrite IH.
      destruct (decide (key ∈ map fst config)) as [H|H];
        destruct (decide (key ∈ k :: map fst config)) as [H'|H']; try done.
      * exfalso. apply H'. by right.
      * apply elem_of_cons in H' as [?|?]; congruence.
Qed.

Lemma dict_set_ok (key value : string) (config : Config) :
  entry_ok (key, value) = true → config_ok config →
  config_ok (dict_set key value config).
Proof.
  intros He [Hnd Hall]. split.
  - rewrite dict_set_keys.
    destruct (decide (key ∈ map fst config)) as [_|H]; [done|].
    apply NoDup_app. split; [done|]. split; [|apply NoDup_singleton].
    intros x Hx ->%list_elem_of_singleton. done.
  - clear Hnd. induction config as [|[k v] config IH]; cbn [dict_set].
    + by repeat constructor.
    + apply Forall_cons in Hall as [Hkv Hall].
      destruct (String.eqb k key) eqn:Hk.
      * apply String.eqb_eq in Hk as ->. by constructor.
      * constructor; [done|by apply IH].
Qed.

Lemma foldl_set_new (config acc : Config) :
  NoDup (map fst (acc ++ config)) →
  foldl (λ d entry, dict_set (fst entry) (snd entry) d) acc config = acc ++ config.
Proof.
  revert acc. induction config as [|[k v] config IH]; intros acc Hnd.
  - by rewrite app_nil_r.
  - cbn [foldl fst snd]. rewrite dict_set_new.
    + rewrite IH; rewrite <- app_assoc; done.
    + rewrite map_app in Hnd. apply NoDup_app in Hnd as (_ & Hd & _).
      intros Hk. apply (Hd k Hk). by left.
Qed.

Lemma foldl_set_get (config acc : Config) (key : string) :
  NoDup (map fst config) →
  dict_get key (foldl (λ d entry, dict_set (fst entry) (snd entry) d) acc config)
  = match dict_get key config with
    | Some value => Some value
    | None => dict_get key acc
    end.
Proof.
  revert acc. induction config as [|[k v] config IH]; intros acc Hnd; [done|].
  cbn [map fst] in Hnd. apply NoDup_cons in Hnd as [Hk Hnd].
  cbn [foldl fst snd dict_get]. rewrite IH by done.
  destruct (String.eqb k key) eqn:Hkk.
  - apply String.eqb_eq in Hkk as ->.
    by rewrite dict_get_None, dict_get_set_eq.
  - apply String.eqb_neq in Hkk. rewrite dict_get_set_ne by done. done.
Qed.

(** *** What is written is read back *)

Lemma foldl_append {A} (f : A → string) (l : list A) (pre : string) :
  foldl (λ bytes x, bytes +:+ f x) pre l
  = pre +:+ foldr (λ x text, f x +:+ text) "" l.
Proof.
  revert pre. induction l as [|x l IH]; intros pre; cbn [foldl foldr].
  - by rewrite append_empty_r.
  - by rewrite IH, append_assoc.
Qed.

Lemma saved_lines (os : platform) (config : Config) :
  Forall (λ entry, entry_ok entry = true) config →
  readlines (read_text (foldr (λ entry text, write_text os (config_line entry) +:+ text)
                          "" config))
  = map config_line config.
Proof.
  intros Hall.
  assert (read_text (foldr (λ entry text, write_text os (config_line entry) +:+ text)
                       "" config)
          = foldr (λ entry text, config_line entry +:+ text) "" config) as ->.
  { induction Hall as [|entry config He Hall IH]; [done|]. cbn [foldr].
    apply entry_ok_body in He. rewrite config_line_body.
    set (body := fst entry +:+ "=" +:+ snd entry) in *.
    rewrite write_text_app, write_text_one_line by done.
    cbn [write_text]. rewrite Ascii.eqb_refl. cbn [write_text].
    rewrite append_empty_r, !append_assoc, read_text_line by done.
    rewrite IH. by rewrite append_cons, append_nil. }
  induction Hall as [|entry config He Hall IH]; [done|]. cbn [foldr map].
  apply entry_ok_body in He. rewrite config_line_body.
  set (body := fst entry +:+ "=" +:+ snd entry) in *.
  rewrite append_assoc, append_cons, append_nil.
  rewrite readlines_line by done. by rewrite IH.
Qed.

Lemma config_lines_saved (config acc : Config) :
  Forall (λ entry, entry_ok entry = true) config →
  config_lines (map config_line config) acc
  = foldl (λ d entry, dict_set (fst entry) (snd entry) d) acc config.
Proof.
  intros Hall. revert acc.
  induction Hall as [|entry config He Hall IH]; intros acc; [done|].
  cbn [map config_lines foldl].
  rewrite strip_config_line by done.
  unfold config_line at 1. rewrite contains_eq_app.
  rewrite split_first_eq; [by rewrite IH|].
  unfold entry_ok in He. repeat (apply andb_true_iff in He as [He ?]).
  by apply negb_true_iff in He.
Qed.

Lemma load_saved (os : platform) (config : Config) (file : File) :
  file ≠ Unopenable → Forall (λ entry, entry_ok entry = true) config →
  load_config (save_config os config file)
  = foldl (λ d entry, dict_set (fst entry) (snd entry) d) default_config config.
Proof.
  intros Hf Hall.
  assert (save_config os config file
          = Content (foldl (λ bytes entry, bytes +:+ write_text os (config_line entry))
                       "" config)) as ->
    by (by destruct file).
  cbn [load_config]. rewrite foldl_append, append_nil, saved_lines by done.
  by apply config_lines_saved.
Qed.

Lemma load_saved_exact (os : platform) (config : Config) (file : File)
    (tz : string) (rest : Config) :
  file ≠ Unopenable → config_ok config → config = ("timezone", tz) :: rest →
  load_config (save_config os config file) = config.
Proof.
  intros Hf [Hnd Hall] ->. rewrite load_saved by done.
  cbn [foldl default_config fst snd dict_set]. rewrite String.eqb_refl.
  by rewrite foldl_set_new.
Qed.

(** X20.  The configuration file gives back what was saved.  For a
    dictionary whose keys are distinct and whose items the file can hold
    ([config_ok]: no [=] and no line break in a key, no line break in a
    value, no white space in front of a key or behind a value), and a
    file that can be opened, on either platform: [load_config] after
    [save_config] finds every key of the dictionary with its value, a
    value with [=] in it too, and gives [timezone] its default only if
    the dictionary has no such key; and if [timezone] is the first key of
    the dictionary, [load_config] returns the very dictionary, in the
    same order. *)
Theorem config_round_trip (os : platform) (config : Config) (file : File) :
  config_ok config → file ≠ Unopenable →
  let loaded := load_config (save_config os config file) in
  (∀ key, dict_get key loaded
          = match dict_get key config with
            | Some value => Some value
            | None => dict_get key default_config
            end)
  ∧ (∀ tz rest, config = ("timezone", tz) :: rest → loaded = config).
Proof.
  intros Hok Hf. cbn zeta. split.
  - intros key. destruct Hok as [Hnd Hall].
    rewrite load_saved by done. by apply foldl_set_get.
  - intros tz rest Hc. by eapply load_saved_exact.
Qed.

(** *** What is read can be written *)

Lemma read_text_no_return (bytes : string) :
  all_cls (CNot carriage_return) (read_text bytes) = true.
Proof.
  induction bytes as [|a bytes IH]; [done|]. cbn [read_text].
  destruct (Ascii.eqb a carriage_return) eqn:Ha.
  - destruct bytes as [|b bytes]; [done|].
    destruct (Ascii.eqb b newline) eqn:Hb; cbn [all_cls cls_match]; [|done].
    cbn [read_text] in IH. apply Ascii.eqb_eq in Hb as ->.
    cbn [Ascii.eqb Bool.eqb carriage_return newline] in IH.
    cbn [all_cls cls_match] in IH. by apply andb_true_iff in IH as [_ IH].
  - cbn [all_cls cls_match]. by rewrite IH, Ha.
Qed.

Lemma readlines_shape (text line : string) :
  all_cls (CNot carriage_return) text = true → line ∈ readlines text →
  ∃ body, one_line body = true
          ∧ (line = body ∨ line = body +:+ String newline "").
Proof.
  revert line. induction text as [|a text IH]; intros line Hcr Hin.
  - by apply elem_of_nil in Hin.
  - cbn [all_cls cls_match] in Hcr. apply andb_true_iff in Hcr as [Ha Hcr].
    apply negb_true_iff in Ha.
    cbn [readlines] in Hin. destruct (Ascii.eqb a newline) eqn:Hn.
    + apply elem_of_cons in Hin as [->|Hin]; [|by apply IH].
      apply Ascii.eqb_eq in Hn as ->. exists "". split; [done|by right].
    + destruct (readlines text) as [|l ls] eqn:Hl.
      * apply list_elem_of_singleton in Hin as ->. exists (String a "").
        split; [|by left]. cbn [one_line]. by rewrite Hn, Ha.
      * apply elem_of_cons in Hin as [->|Hin].
        -- destruct (IH l Hcr ltac:(by left)) as (body & Hb & Hl').
           exists (String a body). split; [cbn [one_line]; by rewrite Hn, Ha, Hb|].
           destruct Hl' as [->| ->]; [by left|by right].
        -- apply IH; [done|by right].
Qed.

Lemma split_line_ok (body key value : string) :
  one_line body = true →
  split_first "=" (strip body) = Some (key, value) →
  entry_ok (key, value) = true.
Proof.
  intros Hb Hs. apply split_first_Some in Hs as [Ht Hk].
  pose proof (one_line_strip body Hb) as H1.
  pose proof (lstrip_strip body) as Hl.
  assert (rstrip (strip body) = strip body) as Hr by apply rstrip_rstrip.
  rewrite Ht in H1, Hl, Hr. rewrite !one_line_app in H1.
  apply andb_true_iff in H1 as [Hk1 H1]. apply andb_true_iff in H1 as [_ Hv1].
  unfold entry_ok. cbn [fst snd]. rewrite Hk, Hk1, Hv1. cbn [negb andb].
  apply andb_true_iff. split; apply String.eqb_eq.
  - destruct key as [|a key]; [done|]. apply lstrip_fixed.
    apply lstrip_fixed in Hl. by rewrite append_cons in Hl.
  - rewrite <- (append_assoc key "=" value) in Hr.
    by apply rstrip_fixed_app in Hr.
Qed.

Lemma config_lines_ok (lines : list string) (config : Config) :
  (∀ line, line ∈ lines →
     ∃ body, one_line body = true
             ∧ (line = body ∨ line = body +:+ String newline "")) →
  config_ok config → config_ok (config_lines lines config).
Proof.
  revert config. induction lines as [|line lines IH]; intros config Hl Hok; [done|].
  assert (∀ l, l ∈ lines →
            ∃ body, one_line body = true
                    ∧ (l = body ∨ l = body +:+ String newline "")) as Hl'
    by (intros l Hin; apply Hl; by right).
  cbn [config_lines]. destruct (contains "=" line); [|by apply IH].
  destruct (split_first "=" (strip line)) as [[key value]|] eqn:Hs; [|done].
  apply IH; [done|]. apply dict_set_ok; [|done].
  destruct (Hl line ltac:(by left)) as (body & Hb & [->| ->]).
  - by eapply split_line_ok.
  - rewrite strip_newline in Hs. by eapply split_line_ok.
Qed.

Lemma config_lines_first (lines : list string) (key value : string) (config : Config) :
  ∃ value' config',
    config_lines lines ((key, value) :: config) = (key, value') :: config'.
Proof.
  revert value config. induction lines as [|line lines IH]; intros value config.
  - by exists value, config.
  - cbn [config_lines]. destruct (contains "=" line); [|by apply IH].
    destruct (split_first "=" (strip line)) as [[k v]|]; [|by exists value, config].
    cbn [dict_set]. destruct (String.eqb key k); apply IH.
Qed.

Lemma load_config_ok (file : File) :
  config_ok (load_config file)
  ∧ ∃ tz rest, load_config file = ("timezone", tz) :: rest.
Proof.
  assert (config_ok default_config) as Hd.
  { split; [apply NoDup_singleton|by repeat constructor]. }
  destruct file as [| |bytes]; cbn [load_config].
  - split; [done|]. by exists "EST (UTC-5)", [].
  - split; [done|]. by exists "EST (UTC-5)", [].
  - split.
    + apply config_lines_ok; [|done]. intros line Hin.
      by apply (readlines_shape (read_text bytes)), Hin; apply read_text_no_return.
    + apply config_lines_first.
Qed.

(** X21.  The settings come back at the next start.  Whatever the
    configuration file holds (or if there is none, or none that opens),
    the dictionary [load_config] returns has [timezone] as its first key,
    no key twice, and only items the file can hold; so [save_config] of
    it, on either platform, followed by [load_config] gives the same
    dictionary again, and so it does after [config['timezone'] = tz] for
    a [tz] without line break and without white space at its end, as
    every key of [TIMEZONE_OPTIONS] is: the time zone chosen in the menu
    is the time zone of the next start. *)
Theorem config_survives_restart (file : File) :
  let config := load_config file in
  config_ok config
  ∧ (∃ tz rest, config = ("timezone", tz) :: rest)
  ∧ (∀ os file', file' ≠ Unopenable →
       load_config (save_config os config file') = config)
  ∧ (∀ os file' tz, file' ≠ Unopenable → entry_ok ("timezone", tz) = true →
       let config' := dict_set "timezone" tz config in
       load_config (save_config os config' file') = config'
       ∧ dict_get "timezone" config' = Some tz)
  ∧ Forall (λ choice, entry_ok ("timezone", fst choice) = true) TIMEZONE_OPTIONS.
Proof.
  cbn zeta. destruct (load_config_ok file) as [Hok (tz0 & rest & Hc)].
  split; [done|]. split; [by exists tz0, rest|]. split; [|split].
  - intros os file' Hf. by eapply load_saved_exact.
  - intros os file' tz Hf Htz. split; [|apply dict_get_set_eq].
    eapply load_saved_exact; [done|by apply dict_set_ok|].
    rewrite Hc. cbn [dict_set]. by rewrite String.eqb_refl.
  - by repeat constructor.
Qed.

(** ** Names cut for display *)

Lemma substring_0_length (n : nat) (s : string) :
  String.length (String.substring 0 n s) = Nat.min n (String.length s).
Proof.
  revert n. induction s as [|a s IH]; intros [|n]; cbn; try done.
  by rewrite IH.
Qed.

Lemma substring_0_prefix (n : nat) (s : string) :
  ∃ rest, s = String.substring 0 n s +:+ rest.
Proof.
  revert n. induction s as [|a s IH]; intros [|n]; cbn [String.substring].
  - by exists "".
  - by exists "".
  - by exists (String a s).
  - destruct (IH n) as [rest Hr]. exists rest. by rewrite append_cons, <- Hr.
Qed.

(** X22.  Names cut for display.  For every name and every [max_len],
    [truncate_name] returns the beginning of the name; for a [max_len]
    that is not negative the result has [min(len(name), max_len)]
    characters, is the name itself when that has at most [max_len]
    characters, and is left as it is by a second call; for a negative
    [max_len] the result is the name without its last [-max_len]
    characters, so it is not within [max_len] characters. *)
Theorem truncate_name_length (name : string) (max_len : Z) :
  let short := truncate_name name max_len in
  let len := Z.of_nat (String.length name) in
  (∃ rest, name = short +:+ rest)
  ∧ (0 ≤ max_len →
       Z.of_nat (String.length short) = Z.min len max_len
       ∧ (len ≤ max_len → short = name)
       ∧ truncate_name short max_len = short)
  ∧ (max_len < 0 →
       Z.of_nat (String.length short) = Z.max 0 (len + max_len)).
Proof.
  cbn zeta.
  assert (∀ n max, 0 ≤ max → Z.of_nat (String.length n) ≤ max →
            truncate_name n max = n) as Hfit.
  { intros n max _ Hn. unfold truncate_name.
    destruct (Z.gtb_spec (Z.of_nat (String.length n)) max); [lia|done]. }
  assert (0 ≤ max_len →
          Z.of_nat (String.length (truncate_name name max_len))
          = Z.min (Z.of_nat (String.length name)) max_len) as Hlen.
  { intros Hm. unfold truncate_name, slice_to.
    destruct (Z.gtb_spec (Z.of_nat (String.length name)) max_len); [|lia].
    destruct (Z.ltb_spec max_len 0); [lia|].
    rewrite substring_0_length. lia. }
  split; [|split].
  - unfold truncate_name, slice_to.
    destruct (Z.of_nat (String.length name) >? max_len).
    + apply substring_0_prefix.
    + exists "". by rewrite append_empty_r.
  - intros Hm. split; [by apply Hlen|]. split; [by apply Hfit|].
    apply Hfit; [done|]. rewrite Hlen by done. lia.
  - intros Hm. unfold truncate_name, slice_to.
    destruct (Z.gtb_spec (Z.of_nat (String.length name)) max_len); [|lia].
    destruct (Z.ltb_spec max_len 0); [|lia].
    rewrite substring_0_length. lia.
Qed.

(** ** The display of times *)

Lemma digit_char_digit (n : Z) :
  0 ≤ n ≤ 9 → is_digit (digit_char n) = true ∧ digit_val (digit_char n) = n.
Proof.
  intros Hn. unfold is_digit, digit_val, digit_char.
  rewrite nat_ascii_embedding by lia. split; [|lia].
  apply andb_true_iff. split; apply Nat.leb_le; lia.
Qed.

Lemma digit_char_val (a : ascii) : is_digit a = true → digit_char (digit_val a) = a.
Proof.
  unfold is_digit, digit_val, digit_char. intros H.
  apply andb_true_iff in H as [H1 H2]. apply Nat.leb_le in H1, H2.
  replace (48 + Z.to_nat (Z.of_nat (nat_of_ascii a) - 48))%nat with (nat_of_ascii a)
    by lia.
  apply ascii_nat_embedding.
Qed.

Lemma strptime_strftime (dt : Z) :
  strptime_hms (strftime_hms dt) = Some ((dt / usec) mod day_seconds).
Proof.
  unfold strftime_hms. cbn zeta.
  pose proof (Z.mod_pos_bound (dt / usec) day_seconds ltac:(done)) as Hs.
  set (second := (dt / usec) mod day_seconds) in *. unfold day_seconds in Hs.
  set (h := second / 3600). set (m := second mod 3600 / 60). set (x := second mod 60).
  assert (0 ≤ h < 24) as Hh by (unfold h; split;
    [apply Z.div_pos; lia|apply Z.div_lt_upper_bound; lia]).
  assert (0 ≤ m < 60) as Hm.
  { pose proof (Z.mod_pos_bound second 3600 ltac:(done)). unfold m. split;
      [apply Z.div_pos; lia|apply Z.div_lt_upper_bound; lia]. }
  assert (0 ≤ x < 60) as Hx by (apply Z.mod_pos_bound; lia).
  assert (second = h * 3600 + m * 60 + x) as Hsum.
  { unfold h, m, x.
    pose proof (Z.div_mod second 3600 ltac:(done)).
    pose proof (Z.div_mod (second mod 3600) 60 ltac:(done)).
    assert (second mod 3600 mod 60 = second mod 60) as E.
    { pose proof (Z.mod_pos_bound (second mod 3600) 60 ltac:(done)).
      pose proof (Z.div_mod (second mod 3600) 60 ltac:(done)).
      apply (Z.mod_unique second 60 (60 * (second / 3600) + second mod 3600 / 60));
        lia. }
    lia. }
  assert (∀ n, 0 ≤ n < 60 →
            is_digit (digit_char (n / 10)) = true
            ∧ is_digit (digit_char (n mod 10)) = true
            ∧ digit_val (digit_char (n / 10)) * 10 + digit_val (digit_char (n mod 10))
              = n) as Hd.
  { intros n Hn.
    assert (0 ≤ n / 10 ≤ 9) as H1 by (split;
      [apply Z.div_pos; lia|apply Z.lt_succ_r, Z.div_lt_upper_bound; lia]).
    assert (0 ≤ n mod 10 ≤ 9) as H2
      by (pose proof (Z.mod_pos_bound n 10 ltac:(done)); lia).
    destruct (digit_char_digit _ H1) as [-> ->].
    destruct (digit_char_digit _ H2) as [-> ->].
    pose proof (Z.div_mod n 10 ltac:(done)). repeat split; lia. }
  destruct (Hd h ltac:(lia)) as (Hh1 & Hh2 & Hhv).
  destruct (Hd m Hm) as (Hm1 & Hm2 & Hmv). destruct (Hd x Hx) as (Hx1 & Hx2 & Hxv).
  unfold two_digits. rewrite !append_cons, !append_nil.
  unfold strptime_hms. cbn [forallb].
  rewrite Hh1, Hh2, Hm1, Hm2, Hx1, Hx2, Hhv, Hmv, Hxv. cbn [andb].
  rewrite !Ascii.eqb_refl. cbn [andb].
  destruct (Z.ltb_spec h 24); [|lia]. destruct (Z.ltb_spec m 60); [|lia].
  destruct (Z.ltb_spec x 60); [|lia]. cbn [andb]. by rewrite Hsum.
Qed.

Lemma strftime_strptime (time_str : string) (time_obj d : Z) :
  strptime_hms time_str = Some time_obj →
  strftime_hms (combine d time_obj) = time_str.
Proof.
  unfold strptime_hms.
  destruct time_str as [|h1 [|h2 [|c1 [|m1 [|m2 [|c2 [|s1 [|s2 [|? ?]]]]]]]]];
    try discriminate.
  destruct (forallb is_digit [h1; h2; m1; m2; s1; s2] && _ && _) eqn:Hd;
    [|discriminate].
  destruct ((_ <? 24) && _ && _) eqn:Hr; [|discriminate].
  intros [= <-].
  apply andb_prop in Hd as [Hd Hc2]. apply andb_prop in Hd as [Hd Hc1].
  apply Ascii.eqb_eq in Hc1 as ->, Hc2 as ->.
  cbn [forallb] in Hd.
  apply andb_prop in Hd as [Dh1 Hd]. apply andb_prop in Hd as [Dh2 Hd].
  apply andb_prop in Hd as [Dm1 Hd]. apply andb_prop in Hd as [Dm2 Hd].
  apply andb_prop in Hd as [Ds1 Hd]. apply andb_prop in Hd as [Ds2 _].
  apply andb_prop in Hr as [Hr Hx]. apply andb_prop in Hr as [Hh Hm].
  apply Z.ltb_lt in Hh, Hm, Hx.
  pose proof (is_digit_val _ Dh1). pose proof (is_digit_val _ Dh2).
  pose proof (is_digit_val _ Dm1). pose proof (is_digit_val _ Dm2).
  pose proof (is_digit_val _ Ds1). pose proof (is_digit_val _ Ds2).
  set (h := digit_val h1 * 10 + digit_val h2) in *.
  set (m := digit_val m1 * 10 + digit_val m2) in *.
  set (x := digit_val s1 * 10 + digit_val s2) in *.
  unfold strftime_hms, combine. cbn zeta.
  assert (((d * day_seconds + (h * 3600 + m * 60 + x)) * usec / usec) mod day_seconds
          = h * 3600 + m * 60 + x) as ->.
  { rewrite Z.div_mul by done. unfold day_seconds.
    rewrite Z.add_comm, Z.mod_add by done. apply Z.mod_small. lia. }
  assert ((h * 3600 + m * 60 + x) / 3600 = h) as ->
    by (symmetry; apply (Z.div_unique _ _ _ (m * 60 + x)); lia).
  assert ((h * 3600 + m * 60 + x) mod 3600 = m * 60 + x) as ->
    by (symmetry; apply (Z.mod_unique _ _ h); lia).
  assert ((m * 60 + x) / 60 = m) as ->
    by (symmetry; apply (Z.div_unique _ _ _ x); lia).
  assert ((h * 3600 + m * 60 + x) mod 60 = x) as ->
    by (symmetry; apply (Z.mod_unique _ _ (h * 60 + m)); lia).
  assert (∀ a b, is_digit a = true → is_digit b = true →
            two_digits (digit_val a * 10 + digit_val b) = String a (String b "")) as Htwo.
  { intros a b Da Db. pose proof (is_digit_val _ Da). pose proof (is_digit_val _ Db).
    unfold two_digits.
    assert ((digit_val a * 10 + digit_val b) / 10 = digit_val a) as ->
      by (symmetry; apply (Z.div_unique _ _ _ (digit_val b)); lia).
    assert ((digit_val a * 10 + digit_val b) mod 10 = digit_val b) as ->
      by (symmetry; apply (Z.mod_unique _ _ (digit_val a)); lia).
    by rewrite !digit_char_val. }
  unfold h, m, x. rewrite !Htwo by done. by rewrite !append_cons, !append_nil.
Qed.

(** X23.  The time shown is the time of the log.  When [parse_timestamp]
    returns a time for the time string of a log line, whatever the day
    it has put it on, [_format_time] shows that time as a string
    [strptime] reads back as the time of day of the line moved by the
    offset of the time zone, around the clock; and for a time zone whose
    offset is 0, as [UTC] is, it shows the very string of the line. *)
Theorem shown_time_is_log_time {float : Type} (tz time_str : string)
    (p p' : LogParser (float := float)) (t : Z) :
  parse_timestamp time_str p = (p', Ret t) →
  ∃ time_obj,
    strptime_hms time_str = Some time_obj
    ∧ strptime_hms (_format_time tz (Some t))
      = Some ((time_obj + _get_tz_offset tz * 3600) mod day_seconds)
    ∧ (_get_tz_offset tz = 0 → _format_time tz (Some t) = time_str)
    ∧ _get_tz_offset "UTC" = 0.
Proof.
  unfold parse_timestamp.
  destruct (strptime_hms time_str) as [time_obj|] eqn:Hs; [|discriminate].
  intros Ht. exists time_obj. split; [done|].
  assert (∃ d, t = combine d time_obj) as [d ->].
  { destruct (match last_timestamp p with Some _ => _ | None => _ end);
      injection Ht as _ <-; eauto. }
  split; [|split; [|done]].
  - unfold _format_time, _apply_tz.
    rewrite strptime_strftime. f_equal. unfold combine, day_seconds.
    replace ((d * 86400 + time_obj) * usec + _get_tz_offset tz * 3600 * usec)
      with ((d * 86400 + time_obj + _get_tz_offset tz * 3600) * usec) by lia.
    rewrite Z.div_mul by done.
    replace (d * 86400 + time_obj + _get_tz_offset tz * 3600)
      with (time_obj + _get_tz_offset tz * 3600 + d * 86400) by lia.
    by rewrite Z.mod_add.
  - intros H0. unfold _format_time, _apply_tz. rewrite H0.
    rewrite Z.mul_0_l, Z.add_0_r. by apply strftime_strptime.
Qed.


(** ** The further properties at concrete inputs *)

Lemma players_index_kept_witness :
  let st := (new_store (float := string) ∅, new_parser 0) in
  let ops := [OpPlayer "Alice"; OpPlayer "Bob"; OpParse 0 scenario_wolf;
              OpParse 0 scenario_alice1; OpAlias 1 "Ace"; OpClear] in
  players_ok (fst st)
  ∧ players_ok (fst (run_ops id (λ _, None) ops st)).
Proof.
  cbn zeta. split; [apply players_ok_new|].
  exact (proj1 (players_index_kept id (λ _, None) (new_store ∅, new_parser 0) _
                  (players_ok_new ∅))).
Defined.

Lemma one_open_zone_per_character_witness :
  let st := (new_store (float := string) ∅, new_parser 0) in
  let ops := [OpZone "AreaForest" (Some "Ann") 10 None;
              OpZone "AreaCave" (Some "Ann") 20 None;
              OpZone "AreaForest" (Some "Bea") 30 None] in
  zones_ok (fst st)
  ∧ zones_ok (fst (run_ops id (λ _, None) ops st)).
Proof.
  cbn zeta. split; [apply zones_ok_new|].
  exact (proj1 (one_open_zone_per_character id (λ _, None)
                  (new_store ∅, new_parser 0) _ (zones_ok_new ∅))).
Defined.

Lemma event_ids_never_reused_witness :
  let st := (new_store (float := string) ∅, new_parser 0) in
  let ops := [OpParse 0 scenario_wolf; OpParse 0 scenario_alice1;
              OpParse 0 scenario_bob; OpClear; OpParse 0 scenario_alice2] in
  events_ok (fst st)
  ∧ NoDup (map e_event_id (_events_list (fst (run_ops id (λ _, None) ops st)))).
Proof.
  cbn zeta. split; [apply events_ok_new|].
  exact (proj1 (proj2 (event_ids_never_reused id (λ _, None)
                         (new_store ∅, new_parser 0) _ (events_ok_new ∅)))).
Defined.

Lemma parse_line_error_witness :
  let st := (new_store (float := string) ∅, new_parser 0) in
  let line := "[25:00:00] LOADING LEVEL AreaForest" in
  snd (parse_line id 0 line st) = Raise ValueError
  ∧ fst (parse_line id 0 line st) = st.
Proof.
  cbn zeta.
  assert (snd (parse_line (float := string) id 0
                 "[25:00:00] LOADING LEVEL AreaForest"
                 (new_store ∅, new_parser 0)) = Raise ValueError) as H
    by (vm_compute; reflexivity).
  split; [exact H|].
  exact (proj1 (proj2 (parse_line_error id 0 _ _ _ H))).
Defined.

Lemma returned_event_fields_witness :
  let st := fst (parse_line (float := string) id 0 scenario_wolf
                   (new_store ∅, new_parser 0)) in
  let e := {| player_name := "Alice"; health_dmg := 50; armor_dmg := 10;
              aggro_percent := "100.0"; npc_id := 42; npc_name := "Wolf";
              zone_name := "Unknown"; timestamp := combine 0 36005;
              character_name := None; zone_id := None |} in
  snd (parse_line id 0 scenario_alice1 st) = Ret (Some e)
  ∧ pending_corpse (snd st) = Some (42, "Wolf", combine 0 36005).
Proof.
  cbn zeta.
  set (st := fst (parse_line (float := string) id 0 scenario_wolf
                    (new_store ∅, new_parser 0))).
  set (e := {| player_name := "Alice"; health_dmg := 50; armor_dmg := 10;
               aggro_percent := "100.0"; npc_id := 42; npc_name := "Wolf";
               zone_name := "Unknown"; timestamp := combine 0 36005;
               character_name := None; zone_id := None |}).
  assert (snd (parse_line id 0 scenario_alice1 st) = Ret (Some e)) as H
    by (vm_compute; reflexivity).
  split; [exact H|].
  exact (proj1 (returned_event_fields id 0 _ _ _ H)).
Defined.

Lemma streaming_feed_witness :
  let st := (new_store (float := string) ∅, new_parser 0) in
  let lines := map (pair 0) [scenario_wolf; scenario_alice1; scenario_bob] in
  batch_mode (snd st) = false
  ∧ 0 < _next_event_id (fst st)
  ∧ ∃ rows,
      _events_list (fst (monitor_lines id lines st)) = _events_list (fst st) ++ rows
      ∧ Forall2 (records (fst (monitor_lines id lines st))) rows
          (returned id lines st).
Proof.
  cbn zeta. split; [reflexivity|]. split; [reflexivity|].
  destruct (streaming_feed id
              (map (pair 0) [scenario_wolf; scenario_alice1; scenario_bob])
              (new_store ∅, new_parser 0) eq_refl eq_refl)
    as (rows & He & Hr & _).
  exists rows. split; [exact He|exact Hr].
Defined.

Lemma alias_is_kept_witness :
  let s := fst (get_or_create_player "Alice" (new_store (float := string) ∅)) in
  _player_id_to_info s !! 1 = Some {| pi_name := "Alice"; pi_alias := None |}
  ∧ _get_display_name 1 (update_player_alias 1 "Ace" s) = "Ace"
  ∧ aliases_file (update_player_alias 1 "Ace" s) !! "Alice" = Some "Ace".
Proof.
  cbn zeta.
  set (s := fst (get_or_create_player "Alice" (new_store (float := string) ∅))).
  assert (_player_id_to_info s !! 1
          = Some {| pi_name := "Alice"; pi_alias := None |}) as H
    by (vm_compute; reflexivity).
  split; [exact H|].
  pose proof (alias_is_kept s 1 "Ace" _ H) as (H1 & _ & _ & _ & H5 & _).
  split; [exact H1|exact H5].
Defined.

Lemma zone_views_agree_witness :
  let s := team_store (float := string) id in
  int64_figures s
  ∧ no_wrap (List.filter (λ e, bool_decide (e_zone_id e = Some 1) && has_damage e)
               (_events_list s))
  ∧ sum_with r_total_dmg (get_damage_by_zone 1 s) = 90
  ∧ zs_total_dmg (_get_zone_stats 1 s) = 90.
Proof.
  cbn zeta. set (s := team_store (float := string) id).
  assert (int64_figures s) as Hi
    by (apply (bool_decide_unpack _); vm_compute; reflexivity).
  assert (no_wrap (List.filter (λ e, bool_decide (e_zone_id e = Some 1) && has_damage e)
                     (_events_list s))) as Hn
    by (apply (bool_decide_unpack _); vm_compute; reflexivity).
  split; [exact Hi|]. split; [exact Hn|].
  destruct (zone_views_agree 1 s) as (_ & _ & _ & _ & H).
  destruct (H Hi Hn) as [-> _]. split; vm_compute; reflexivity.
Defined.

Lemma selected_zones_add_up_witness :
  let s := team_store (float := string) id in
  int64_figures s
  ∧ no_wrap (with_damage (zone_isin [1; 7; 1]) s)
  ∧ sum_with r_total_dmg (get_damage_by_zones [1; 7; 1] s) = 90.
Proof.
  cbn zeta. set (s := team_store (float := string) id).
  assert (int64_figures s) as Hi
    by (apply (bool_decide_unpack _); vm_compute; reflexivity).
  assert (no_wrap (with_damage (zone_isin [1; 7; 1]) s)) as Hn
    by (apply (bool_decide_unpack _); vm_compute; reflexivity).
  split; [exact Hi|]. split; [exact Hn|].
  destruct (selected_zones_add_up [1; 7; 1] s) as (_ & _ & _ & _ & _ & H).
  rewrite (H Hi Hn). vm_compute. reflexivity.
Defined.

Lemma damage_rows_per_player_witness :
  let s := team_store (float := string) id in
  let r := {| r_player_id := 1; r_original_name := "Alice"; r_alias := Some "Team";
              r_display_name := "Team"; r_health_dmg := 50; r_armor_dmg := 10;
              r_total_dmg := 60; r_kills := 1; r_first_hit := Some 5;
              r_last_hit := Some 5 |} in
  let mine := List.filter (λ e, e_player_id e =? 1)
                (with_damage (λ e, bool_decide (e_zone_id e = Some 1)) s) in
  r ∈ get_damage_by_zone 1 s
  ∧ int64_figures s
  ∧ no_wrap mine
  ∧ r_total_dmg r = sum_with e_health_dmg mine + sum_with e_armor_dmg mine.
Proof.
  cbn zeta. set (s := team_store (float := string) id).
  set (r := {| r_player_id := 1; r_original_name := "Alice"; r_alias := Some "Team";
               r_display_name := "Team"; r_health_dmg := 50; r_armor_dmg := 10;
               r_total_dmg := 60; r_kills := 1; r_first_hit := Some 5;
               r_last_hit := Some 5 |}).
  assert (get_damage_by_zone 1 s !! 0%nat = Some r) as Hr0
    by (vm_compute; reflexivity).
  assert (r ∈ get_damage_by_zone 1 s) as Hr
    by (exact (list_elem_of_lookup_2 _ _ _ Hr0)).
  assert (int64_figures s) as Hi
    by (apply (bool_decide_unpack _); vm_compute; reflexivity).
  assert (no_wrap (List.filter (λ e, e_player_id e =? 1)
                     (with_damage (λ e, bool_decide (e_zone_id e = Some 1)) s)))
    as Hn by (apply (bool_decide_unpack _); vm_compute; reflexivity).
  split; [exact Hr|]. split; [exact Hi|]. split; [exact Hn|].
  destruct (damage_rows_per_player _ s _ (query_zone s 1)) as (_ & _ & _ & H).
  destruct (H r Hr) as (_ & _ & _ & H').
  destruct (H' Hi Hn) as (Hh & Ha & Ht). rewrite Ht, Hh, Ha. reflexivity.
Defined.

Lemma same_alias_one_row_witness :
  let s := team_store (float := string) id in
  let row := {| e_event_id := 1; e_zone_id := Some 1; e_npc_id := 42;
                e_npc_name := "Wolf"; e_player_id := 1; e_health_dmg := 50;
                e_armor_dmg := 10; e_aggro_percent := "100.0"; e_timestamp := 5;
                e_character_name := None |} in
  row ∈ _events_list s
  ∧ e_zone_id row = Some 1
  ∧ has_damage row = true
  ∧ _get_display_name (e_player_id row) s = "Team"
  ∧ ∃ g, g ∈ group_damage_by_alias (get_damage_by_zone 1 s)
         ∧ g_display_name g = "Team"
         ∧ 1 ∈ g_player_ids g ∧ 2 ∈ g_player_ids g
         ∧ g_total_dmg g = 90.
Proof.
  cbn zeta. set (s := team_store (float := string) id).
  set (row := {| e_event_id := 1; e_zone_id := Some 1; e_npc_id := 42;
                 e_npc_name := "Wolf"; e_player_id := 1; e_health_dmg := 50;
                 e_armor_dmg := 10; e_aggro_percent := "100.0"; e_timestamp := 5;
                 e_character_name := None |}).
  set (row2 := {| e_event_id := 2; e_zone_id := Some 1; e_npc_id := 42;
                  e_npc_name := "Wolf"; e_player_id := 2; e_health_dmg := 30;
                  e_armor_dmg := 0; e_aggro_percent := "0.0"; e_timestamp := 6;
                  e_character_name := None |}).
  assert (_events_list s = [row; row2]) as Hev by (vm_compute; reflexivity).
  assert (row ∈ _events_list s) as H1 by (rewrite Hev; by left).
  assert (row2 ∈ _events_list s) as H1' by (rewrite Hev; right; by left).
  assert (e_zone_id row = Some 1) as H2 by reflexivity.
  assert (has_damage row = true) as H3 by reflexivity.
  assert (_get_display_name (e_player_id row) s = "Team") as H4
    by (vm_compute; reflexivity).
  do 4 (split; [assumption|]).
  destruct (same_alias_one_row 1 s "Team" _ H1 H2 H3 H4)
    as (g & Hg & Hn & _ & Hids & _ & Htot).
  exists g. split; [exact Hg|]. split; [exact Hn|].
  split; [|split].
  - apply Hids. exists row. split; [exact H1|]. split; [vm_compute|]; reflexivity.
  - apply Hids. exists row2. split; [exact H1'|]. split; [vm_compute|]; reflexivity.
  - rewrite Htot.
    + vm_compute. reflexivity.
    + apply (bool_decide_unpack _). vm_compute. reflexivity.
    + apply (bool_decide_unpack _). vm_compute. reflexivity.
Defined.

Lemma config_round_trip_witness :
  let config := [("timezone", "PST (UTC-8)"); ("filter", "zone=AreaCave")] in
  config_ok config
  ∧ Content "" ≠ Unopenable
  ∧ load_config (save_config Windows config (Content "")) = config.
Proof.
  cbn zeta.
  assert (config_ok [("timezone", "PST (UTC-8)"); ("filter", "zone=AreaCave")])
    as Hok.
  { split; [|by repeat constructor].
    apply (bool_decide_unpack _). vm_compute. reflexivity. }
  assert (Content "" ≠ Unopenable) as Hf by discriminate.
  split; [exact Hok|]. split; [exact Hf|].
  exact (proj2 (config_round_trip Windows _ _ Hok Hf) _ _ eq_refl).
Defined.

Lemma shown_time_is_log_time_witness :
  let p := new_parser (float := string) 3 in
  let t := combine 3 5400 in
  parse_timestamp "01:30:00" p = (set_clock 3 t p, Ret t)
  ∧ _format_time "UTC" (Some t) = "01:30:00".
Proof.
  cbn zeta.
  assert (parse_timestamp "01:30:00" (new_parser (float := string) 3)
          = (set_clock 3 (combine 3 5400) (new_parser 3), Ret (combine 3 5400))) as H
    by (vm_compute; reflexivity).
  split; [exact H|].
  destruct (shown_time_is_log_time "UTC" _ _ _ _ H) as (time_obj & _ & _ & H0 & Hutc).
  exact (H0 Hutc).
Defined.
